(* ===== verification/_CoqProject ===== *)
-Q . S2P
Prelude.v
SqlLex.v
Literal.v
Fmt.v
GoFloat.v
Json.v
Orders.v
Extract.v
Synth.v
Validator.v
HttpStatus.v
Queue.v
GoTime.v
Utility.v
Md5.v
PrettyJson.v
Handler.v
Service.v
Writer.v
Logging.v
LogRace.v
Main.v
