(* ===== verification/Prelude.v ===== *)
(** * A verification development of the order-ingestion service

    The service ([src/]) is a Go HTTP server that takes PPOB orders
    (prepaid bills and top-ups) and Non-PPOB orders (shop orders) as
    JSON.  It checks an API key, decodes and validates each order, and
    turns it into one SQL [INSERT] statement with [fmt.Sprintf].  It
    publishes that statement as a STOMP frame to a broker queue, and a
    consumer runs it against PostgreSQL.  The correctness of the whole
    pipeline rests on one question: does the database read the
    statement back as the row the order describes?  The development
    models the code that builds, validates, publishes and answers, and
    models the database's reading of the statement as the specification
    the statement is refined against.

    ** Files and what they model

    - [Prelude.v] (this file): the Go library functions the code calls,
      on [string] (Go strings as byte strings): [strings.ReplaceAll],
      [strings.Contains], [strings.ToLower] (ASCII), [strconv.Itoa] and
      its inverse, the zero padding [pad_zero], [int64] bounds; the
      result type [GoResult] of a Go [(T, error)]; the scope
      [go_scope]; the hint databases [go] and [gostr]; the tactics
      [zbool] and [zhyps], which decide comparisons on [Z] for [lia].
    - [SqlLex.v]: the consumer side.  A PostgreSQL literal lexer
      ([standard_conforming_strings] on, [E'...'] escapes, [NULL],
      booleans, integers) and a parser of the [INSERT INTO t (cols)
      VALUES(...);] statement the service emits.  This is PostgreSQL,
      not code of this repository.  It is the specification of what a
      statement means.
    - [Literal.v]: [utility/utility.go] [SafeString] and [SafeJsonString],
      [utility/validation.go] [NullIfEmpty], [NewNullString] and
      [NewNullInt].
    - [Fmt.v]: [fmt.Sprintf] ([doPrintf]) for the verbs the code uses,
      with Go's error texts for bad, missing and extra operands.
    - [GoFloat.v]: the latency of the log line, [requestTimeInMs :=
      float64(latency.Nanoseconds()) / 1000000.0] of [routers/router.go]
      and its [%f] text ([ms_text]): finite [float64] values as a sign
      and [man * 2^exp] ([F64]), conversion and division correctly
      rounded to 53 bits, ties to even ([float_of_ratio]), and [%f] as
      [strconv] prints it, the exact value rounded to six decimals
      ([fmt_f]).
    - [Json.v]: [encoding/json] [Marshal] (HTML-safe string escaping,
      sorted object keys, [nil] slices as [null], integers) on the
      tagged type [JsonValue] the code's [interface{}] fields hold, and a
      reader of JSON strings.
    - [Orders.v]: the structs of [internal/handler/model/ppob.go] and
      [nonppob.go], one Module and Record per struct, with their
      [json.Marshal] encodings.
    - [Extract.v]: the untyped lookups of [internal/usecase/ppob.go]
      ([extractAggregatorMetadata], product, category, account ref).
    - [Synth.v]: the two [fmt.Sprintf] statements of the use cases'
      [Create]: the format literals verbatim, the operands in source
      order, the column tables, and the rows the statements should
      insert.
    - [Validator.v]: go-playground/validator's [Struct] on the
      [validate:"required"] tags (library behaviour, from its
      documentation) and [ValidationErrorHandle].
    - [HttpStatus.v]: [utility/httpstatus.go] [ErrorHttpStatus], a
      relation over the visiting orders of its Go map.
    - [Queue.v]: the configuration structs of [utility.go] and
      [utility/queue.go] [SendMessageToQueue].  The go-stomp client is an
      environment ([StompOutcome]) and the calls it receives are an
      event trace.
    - [GoTime.v]: the [time] package as the code uses it and
      [utility/validation.go] [TimeParse].  A [Time] is a civil time in
      a named location.  Go's layout tokenizer [nextStdChunk] cuts a
      layout into chunks ([layout_chunks]); [Format] prints them
      ([appendInt], the month and weekday names, the weekday from
      Go's [daysSinceEpoch] day count, the 12-hour clock and the AM/PM
      mark) and [ParseInLocation] reads them back ([getnum], [atoi],
      [skip] with its runs of spaces, [parseNanoseconds], the
      case-insensitive [lookup] of names), moves a PM hour
      ([pm_hour]) and checks the day against the month
      ([parse_finish]).
      [LoadLocation] checks the zone name and asks the class [ZoneDB]
      (the host's zone database).  [TimeParse] returns its two error
      texts as the code does.
    - [Handler.v]: the use cases' [Create] ([usecase/*.go]), the handler
      structs, their constructors and their [Create()] ([handler/*.go]),
      [ReadJsonBodyRequest],
      [middleware/auth.go] [APIKeyMiddleware] and the routes of
      [routers/router.go] [InitRouter] ([serve]), with the logging
      middleware's re-buffering of the request body ([raw_body]).  It
      also holds the class interfaces [JsonDecoder] ([json.Valid] and
      [json.Unmarshal]),
      [OrderUsecase] with its law [OrderUsecaseLaws] (the Go
      [PPOBUsecase]/[NonPPOBUsecase] interfaces) and [HasMetadataRaw].
    - [Service.v]: [main.go]'s [routersInit.Run] serving requests
      concurrently.  [concurrent_run] interleaves ([shuffle]) the
      per-request traces of [serve], one broker connection per request.
      The file also composes the handler and the synthesis results end
      to end.
    - [Utility.v]: the rest of [utility/utility.go]: [SafeString] as
      its index loop over a [make]d buffer, [InArray], [strings.TrimSpace]
      and [strings.TrimSuffix], the colour constants and [PrintConsole],
      [RecoverError] (a body's [Outcome] is a return or a panic),
      [GetApplicationPath], and [LoadApplicationConfiguration] with the
      operating system as an environment ([OsEnv]) and [json.Unmarshal]
      as the class [ConfigDecoder] with its law [ConfigDecoderLaws]
      (malformed JSON leaves the target untouched).
    - [Md5.v]: [utility.go] [StringToMD5] over a model of Go 1.20's
      [crypto/md5] ([digest] with its buffered partial block and
      length, [Write], [checkSum] with its padding and panic,
      [blockGeneric] as the 64 statements of [md5block.go]) and of
      [encoding/hex.EncodeToString].  Next to it, RFC 1321's digest
      [md5_rfc] with the RFC's functions [F], [G], [H], [I].
    - [PrettyJson.v]: [utility.go] [PrettyStruct] over
      [json.MarshalIndent]: [json.Marshal] (Json.v) then [appendIndent],
      the byte loop over the scanner's opcodes ([indent_byte] on an
      [IndentState] of [needIndent], [depth] and the scanner's
      position), next to [pretty], the indented text by recursion on
      the value.  Neither [StringToMD5] nor [PrettyStruct] is called by
      the service.
    - [Writer.v]: the response writers.  [ResponseWriter] is a class
      (gin's [ResponseWriter] interface) with the law [ResponseWriterLaws]
      ([Write] reports the connection's error); gin's own writer and the
      capture writer of [utility/logfile.go] and [routers/router.go]
      around any writer are its instances, as the Go struct embeds the
      interface.
    - [Logging.v]: [FormatResponse]/[FormatResponseJson]'s renderer
      choice and what [c.JSON] writes ([render_ops]); the router's
      logging middleware ([logging_middleware]: capture writer, log line,
      file choice) and [utility/logfile.go] ([WriteToLogFile] over a
      stdpp [gmap] file system with the failures of [os.Create],
      [os.OpenFile] and [WriteString]; [formatLogEntry] and
      [BuildLogMessage]); [CORSMiddleware]; gin's handler chain
      ([GinContext], [run_chain]) with the handlers [InitRouter]
      registers on the engine, on the route group and for [NoRoute]
      ([engine_handlers], [route_handlers]), and gin's dispatch
      ([handleHTTPRequest]), which gives the answer and the header map
      the log line prints ([header_text]).  The two clock readings of the
      code are [Time] values: the line's start time and the date of the
      daily file ([log_file]) are printed by [GoTime.Format]; the
      latency is the nanosecond count of [time.Since], printed through
      [GoFloat.ms_text].
    - [LogRace.v]: [WriteToLogFile] as four atomic file-system
      operations ([call_step]: [os.Stat], [os.Create], [os.OpenFile],
      [WriteString]) and the calls of concurrent requests interleaved
      by a schedule ([run_schedule]).
    - [Main.v]: [main.go] [main]: banner, configuration loading,
      [logrus.Fatal] on a loader error, the console summary, [Run].

    The components interact as the code does.  [serve] runs the
    middleware, then [HandlerCreate], which calls the use case through
    the [OrderUsecase] class.  [handleHTTPRequest] runs the same
    answer through gin's chain of registered handlers and is proved
    to give [serve]'s answer.  The use cases call [Struct], then
    [ppob_sql]/[nonppob_sql], then [SendMessageToQueue].  The handler's
    theorems are proved against the class law [uc_publish].  The two
    instances discharge that law from the publisher's contract.  Around
    [serve], [logging_middleware] renders the answer through the capture
    writer and appends the log line; its theorems use the capture's
    class-level lemma and the well-formedness of [serve]'s answers.
    [main] loads the configuration that [serve] is then run with.

    ** What the theorems show

    - Refinement (Synth.v): under a quote-free hypothesis on the string
      fields the code leaves unescaped, the database reads each
      statement as an insert into the right table, with the column
      table of the code, each column carrying the abstract row's value.
      The aggregator
      columns of the PPOB row are the ones the extractor's
      specification ([Extract.v]) prescribes.
    - Encoders (Literal.v, Json.v): the literal encoders and the JSON
      string encoder round-trip through the database's and a JSON
      reader's lexers.  [NullIfEmpty] does not escape.  [json.Marshal] writes a map the same
      way whatever order the list holding it has (keys are sorted), which
      justifies modelling a Go map as a list.
    - Validation (Validator.v): an order passes exactly when its
      [required] fields are present, and the message is the last
      failure's.
    - Classification (HttpStatus.v): the statuses [ErrorHttpStatus]
      can return, over every visiting order of its map, are
      characterised.
    - Publishing (Queue.v): at most one frame, only on an open
      connection, every connection closed, errors returned unchanged.
    - Service (Handler.v): for every request and every map visiting
      order, at most one frame is sent and no connection is left open,
      and 200 is answered only after the frame holding the decoded
      order's command.  Unauthorised requests get 401, unusable bodies
      and invalid orders get 400, and [OPTIONS], trailing-slash
      redirects and unknown routes get 204, 307 and 404, all with
      nothing sent.  The spec's scenarios (missing
      customer name, broker down, success) are proved for all orders
      satisfying their conditions, with concrete witnesses.
    - Concurrency (Service.v): the broker invariant (no frame without
      an open connection, all connections closed, at most one frame per
      request, a frame for every 200) holds for every interleaving of
      concurrently served requests, by rule induction on
      [concurrent_run] and [shuffle].  End to end, an accepted Non-PPOB
      order's frame is read by the database as the order's row, with
      the raw request body in [metadata_source].
    - Utilities (Utility.v): [SafeString]'s loop terminates with the
      escaped string, within the [2*len] capacity it reserves;
      [InArray] returns the first matching index, within bounds, or
      [(false, -1)]; [GetApplicationPath] ends its result with the
      separator and is idempotent on it; a [config.json] that is not
      JSON loads as the zero configuration with a nil error.
    - Writers and logs (Writer.v, Logging.v): the capture writer is
      transparent and buffers exactly the chunks the connection took;
      every answer of [serve] is well formed (a type invariant on
      [Response]); without file-system failures each logged request
      appends one line, to the debug file exactly when the code is 200.
    - Time (GoTime.v): [TimeParse] reads back exactly what [Format]
      prints with the configured layout when that layout has every
      field to the second in a form parse reads back exactly
      (zero-padded numbers, month names, the 12-hour clock with its
      mark: the shipped ["2006-01-02 15:04:05"], or
      ["Mon, 02 Jan 2006 03:04:05 PM"]) and the zone loads.  The
      tokenizer terminates on
      every layout ([layout_chunks_total]).
    - Daily files (Logging.v): two log writes go to the same file
      exactly when they happen on the same calendar day.
    - Router and CORS (Logging.v): gin's chain of the handlers
      [InitRouter] registers answers every request as [serve] does;
      because [CORSMiddleware] is registered on the engine, ahead of
      the group's API-key check and of [NoRoute], every answer but the
      trailing-slash redirect carries its four headers, the 401 and 404
      answers included ([InitRouter_cors_headers]).
    - Overlapping log writes (LogRace.v): a call running alone is
      [WriteToLogFile] ([call_alone]); two calls on a day's first file
      can lose the first line, both returning nil, when the second's
      [os.Create] truncates the file the first has written
      ([WriteToLogFile_race]); once the file exists, every interleaving
      of any number of calls only appends ([concurrent_appends_existing],
      by induction on the schedule with the invariant [call_ok]).
    - MD5 (Md5.v): Go's rewritten round functions equal the RFC's on
      32-bit words ([round_fun_go_rfc]); [Write] hashes exactly the
      whole blocks of the buffered input ([Write_spec]); [Sum] never
      panics and hashes the RFC's padded message ([Sum_blocks]); so
      [StringToMD5] returns the 32 lowercase hexadecimal digits of the
      RFC 1321 digest, checked on the RFC's test suite.
    - Latency (GoFloat.v): below 2^32 ms (about 49.7 days) the log
      line's [%f] latency is the exact nanosecond count written as
      milliseconds with six decimals ([ms_text_exact]): [float64] keeps
      the count exactly below 2^53, the quotient is within 2^-21 ms of
      the exact one ([requestTimeInMs_err]), and [%f]'s rounding to six
      decimals recovers it; at 2^53 - 1 ns the last digit is off.
    - Indented JSON (PrettyJson.v): the byte loop of [appendIndent]
      over [json.Marshal]'s text writes exactly [pretty]
      ([marshal_value_runs], by induction through the containers, with
      the members' key sort relating the two texts), so [PrettyStruct]
      never fails and returns the value indented four spaces a level.
    - Entry point (Main.v): a malformed [config.json] starts the server
      on [":"] with no API key, so every order is answered 401.

    ** Fuel and bounds

    [replace_scan] gets [String.length s] steps: each step consumes at
    least one byte, and [replace_scan_fuel] shows that any larger fuel
    gives the same result.  [parse_insert] and [lex_values] get the length
    of the text as fuel: each value consumes at least one byte.  The
    refinement proofs show that fuel suffices ([length_concat_sep]).
    Go [int] is [Z].  Values come from [json.Unmarshal] into [int]
    (64-bit), and the only arithmetic is printing, so no wrap-around
    arises.  [SafeString_loop] gets [len(sql)+1] iterations, one per
    byte and one for the final test; [SafeString_loop_terminates] shows
    any fuel above [len(sql)] gives the same result.  The buffer bound
    is [2*len(sql)] as in the [make] call.  The layout loop of the
    [time] model gets [len(layout)+1] iterations: each chunk consumes
    at least one byte of the layout ([nextStdChunk_shorter]), so the
    fuel never runs out ([layout_loop_total]).  [leadingInt] is given
    at most ten bytes by [parseNanoseconds], so Go's overflow checks
    never fire and are not modelled.  The MD5 block loop runs
    [len(p)/64] times, once per whole block, as Go's loop over [p]
    in steps of [BlockSize].  The latency bound of [ms_text_exact],
    2^32 ms, leaves the quotient 21 bits after the binary point, enough
    for six decimals (2^21 > 10^6 * 2); the float model has no
    exponent range, as the latency stays far inside [float64]'s.

    ** Not modelled

    - [PrettyStruct] on Go values that are not what [json.Unmarshal]
      leaves in an [interface{}] (structs with tags, channels and
      functions, whose [json.Marshal] errors): the model takes a
      [JsonValue].  In [appendIndent], the scanner's syntax errors,
      which [json.Marshal]'s text never triggers.
    - In [crypto/md5]: the assembly block functions of some
      architectures ([blockGeneric] is the portable one) and the
      [MarshalBinary] state export.
    - In the [time] package: the day-of-year ([002], [__2]), zone and
      fraction elements of a layout are tokenized but give the result
      [PUnsupported] (the zone elements need the zone offsets of the
      host's database); the instant behind a civil time, and the
      shifts of [time.Date] in a daylight-saving gap; the
      [log.Println] of [TimeParse]'s cause (console output).  The
      configured layout uses none of these elements.
    - The text of [%v] of the request's header map in the log line: it
      is an input ([LogMeta]).  [float64] subnormals, infinities and
      NaNs, which a latency never produces.  In the interleaved model
      of [WriteToLogFile], the failures of [FsFaults] (the sequential
      model has them), and the descriptor [os.Create] leaves open.  The
      bodies of the renderers other than [c.JSON] (the handlers only
      pass ["json"]), and the console line a handler prints on a body
      read error.
    - gin's own behaviour beyond routing, method matching, the CORS
      short-circuit, trailing-slash redirects and the parts of its
      response writer the capture writers observe: [gin.Recovery] (no
      modelled handler panics), the [X-Forwarded-Prefix] header of
      redirects, and the headers [net/http] adds on the wire ([Date],
      [Content-Length]), which the logged header map does not hold.
    - [strings.TrimSpace] on non-ASCII text (Go also trims Unicode
      spaces; it is applied to literals and to one byte of a path).
    - Non-ASCII UTF-8 handling in [ToLower] and in JSON (bytes >= 0x80
      are copied unchanged).
    - JSON numbers in free-form metadata that are not integers of
      magnitude at most 2^53 (Go prints those in shortest or exponent
      form).
    - PostgreSQL's octal, hex and unicode escapes (the service never
      emits them), and its rejection of NUL bytes and of invalid UTF-8
      in a literal: the lexer of SqlLex.v reads them as any other
      byte, so the refinement theorems say how a statement is read,
      not that the server accepts every byte an order may carry.
    - go-playground/validator's tags other than [required], which the
      structs do not use.
*)

From Stdlib Require Import String Ascii List ZArith Lia Bool.
From Stdlib Require Import DecimalString DecimalZ DecimalPos.
Import ListNotations.

(** ** Scope, result type and monad notation *)

Declare Scope go_scope.
Delimit Scope go_scope with go.

(** A Go function returning [(T, error)]: either a value or an error
    whose [Error()] text is the message. *)
Inductive GoResult (A : Type) : Type :=
| Ok (a : A)
| Err (msg : string).
Arguments Ok {A} a.
Arguments Err {A} msg.

Definition bind_result {A B} (c : GoResult A) (k : A -> GoResult B) : GoResult B :=
  match c with
  | Ok a => k a
  | Err m => Err m
  end.

Notation "x <- c ;; k" := (bind_result c (fun x => k))
  (at level 100, c at next level, right associativity) : go_scope.

(** A one-byte string. *)
Notation "⟦ c ⟧" := (String c EmptyString) (format "⟦ c ⟧") : go_scope.

Open Scope string_scope.
Open Scope go_scope.

(** ** Byte strings and the [strings] package

    Go strings are byte sequences; [string] here is a list of 8-bit
    [ascii] characters, so every Go byte is one character. *)

(** A byte-wise loop [for i := 0; i < len(s); i++ { dest = append(dest, f(s[i])...) }]. *)
Fixpoint concat_map (f : ascii -> string) (s : string) : string :=
  match s with
  | EmptyString => EmptyString
  | String c r => f c ++ concat_map f r
  end.

(** [strings.Contains(s, sub)]: [sub] occurs at some offset of [s]
    ([Contains(s, "")] is true). *)
Fixpoint Contains (s sub : string) : bool :=
  prefix sub s || match s with
                  | EmptyString => false
                  | String _ r => Contains r sub
                  end.

(** [unicode.ToLower] on one byte, for the ASCII range. *)
Definition lower_byte (c : ascii) : ascii :=
  let n := nat_of_ascii c in
  if (65 <=? n)%nat && (n <=? 90)%nat then ascii_of_nat (n + 32)%nat else c.

(** [strings.ToLower]: the ASCII fast path of the Go library (bytes
    above 0x7f are left unchanged; see the header). *)
Definition ToLower (s : string) : string :=
  concat_map (fun c => ⟦lower_byte c⟧) s.

(** [strings.ReplaceAll(s, old, new)] for a non-empty [old]: a left to
    right scan that replaces each non-overlapping occurrence.  [fuel]
    bounds the scan; [String.length s] is always enough (see
    [replace_scan_fuel]). *)
Fixpoint replace_scan (fuel : nat) (s old new : string) : string :=
  match fuel with
  | O => s
  | S f =>
      match s with
      | EmptyString => EmptyString
      | String c r =>
          if prefix old s
          then new ++ replace_scan f (substring (String.length old) (String.length s - String.length old) s) old new
          else String c (replace_scan f r old new)
      end
  end.

(** For the empty pattern Go inserts [new] before every rune and at the
    end; bytes stand for runes here. *)
Definition ReplaceAll (s old new : string) : string :=
  match old with
  | EmptyString => concat_map (fun c => new ++ ⟦c⟧) s ++ new
  | _ => replace_scan (String.length s) s old new
  end.

(** [strconv.Itoa] and [fmt]'s [%d]/[%v] of a Go [int]: the decimal
    digits, with a leading [-] for negative numbers. *)
Definition Itoa (z : Z) : string := NilZero.string_of_int (Z.to_int z).

(** [n] copies of a byte, and a text padded on the left with zeros to
    a width: [fmt]'s [%02d] and the [time] package's [appendInt]. *)
Fixpoint fill (c : ascii) (n : nat) : string :=
  match n with O => "" | S k => String c (fill c k) end.

Definition pad_zero (w : nat) (s : string) : string := fill "0" (w - String.length s) ++ s.

(** The inverse, used to read numbers back out of a command. *)
Definition Atoi (s : string) : option Z :=
  option_map Z.of_int (NilZero.int_of_string s).

(** Go [int] is 64 bits wide on the platforms the service targets;
    [encoding/json] refuses to decode a number outside this range into
    an [int] field. *)
Definition int64_min : Z := (- 2 ^ 63)%Z.
Definition int64_max : Z := (2 ^ 63 - 1)%Z.
Definition in_int64 (z : Z) : Prop := (int64_min <= z <= int64_max)%Z.

(** [uint64] arithmetic wraps around modulo 2^64. *)
Definition w64 (z : Z) : Z := (z mod 2 ^ 64)%Z.

(** ** Shared lemmas *)

Create HintDb go discriminated.
Create Rewrite HintDb gostr.

(** [zbool] decides the boolean comparisons on [Z] in the goal whose
    outcome [lia] proves from the context. *)
Ltac zbool :=
  repeat match goal with
         | |- context [(?a <=? ?b)%Z] =>
             first [rewrite (proj2 (Z.leb_le a b)) by lia | rewrite (proj2 (Z.leb_gt a b)) by lia]
         | |- context [(?a <? ?b)%Z] =>
             first [rewrite (proj2 (Z.ltb_lt a b)) by lia | rewrite (proj2 (Z.ltb_ge a b)) by lia]
         | |- context [(?a =? ?b)%Z] =>
             first [rewrite (proj2 (Z.eqb_eq a b)) by lia | rewrite (proj2 (Z.eqb_neq a b)) by lia]
         end; cbn [andb orb negb].

(** [zhyps] turns the boolean comparisons on [Z] the context holds,
    and their disjunctions found false, into facts for [lia]. *)
Ltac zhyps :=
  repeat match goal with
         | E : (_ || _)%bool = false |- _ => apply orb_false_iff in E as [? ?]
         | E : (_ <=? _)%Z = true |- _ => apply Z.leb_le in E
         | E : (_ <=? _)%Z = false |- _ => apply Z.leb_gt in E
         | E : (_ <? _)%Z = true |- _ => apply Z.ltb_lt in E
         | E : (_ <? _)%Z = false |- _ => apply Z.ltb_ge in E
         end.

Lemma append_nil_r (s : string) : s ++ "" = s.
Proof. induction s as [|c s IH]; simpl; [reflexivity | now rewrite IH]. Qed.

Lemma append_assoc (a b c : string) : (a ++ b) ++ c = a ++ (b ++ c).
Proof. induction a as [|x a IH]; simpl; [reflexivity | now rewrite IH]. Qed.

Lemma length_append (a b : string) : String.length (a ++ b) = String.length a + String.length b.
Proof. induction a as [|x a IH]; simpl; [reflexivity | now rewrite IH]. Qed.

Lemma concat_map_append (f : ascii -> string) (a b : string) :
  concat_map f (a ++ b) = concat_map f a ++ concat_map f b.
Proof.
  induction a as [|x a IH]; simpl; [reflexivity|].
  now rewrite IH, append_assoc.
Qed.

#[export] Hint Rewrite append_nil_r append_assoc length_append concat_map_append : gostr.

(** Equal texts with a common prefix, or a common suffix, agree on the rest. *)
Lemma append_cancel_l (d a b : string) : d ++ a = d ++ b -> a = b.
Proof. induction d as [|c d IH]; cbn; [auto|]. intros [= H]. auto. Qed.

Lemma append_cancel_r (a b s : string) : a ++ s = b ++ s -> a = b.
Proof.
  intros H. assert (Hl : String.length a = String.length b)
    by (apply (f_equal String.length) in H; rewrite !length_append in H; lia).
  revert b H Hl. induction a as [|c a IH]; intros [|c' b] H Hl; cbn in *; try discriminate; auto.
  injection H as -> H. now rewrite (IH b H) by lia.
Qed.

(** [substring 0 (String.length s) s] is [s], and skipping a prefix of known
    String.length returns the rest. *)
Lemma substring_full (s : string) : substring 0 (String.length s) s = s.
Proof. induction s as [|c s IH]; simpl; [reflexivity | now rewrite IH]. Qed.

Lemma substring_after_prefix (p r : string) :
  substring (String.length p) (String.length (p ++ r) - String.length p) (p ++ r) = r.
Proof.
  induction p as [|c p IH]; simpl.
  - rewrite Nat.sub_0_r. apply substring_full.
  - exact IH.
Qed.

Lemma prefix_single (a c : ascii) (r : string) :
  prefix ⟦a⟧ (String c r) = Ascii.eqb a c.
Proof.
  simpl. destruct (ascii_dec a c), (Ascii.eqb_spec a c), r; simpl; congruence.
Qed.

(** The scan with a one-byte pattern is the byte-wise map that
    replaces that byte, whatever the fuel beyond [String.length s]. *)
Lemma replace_scan_single (fuel : nat) (a : ascii) (new s : string) :
  String.length s <= fuel ->
  replace_scan fuel s ⟦a⟧ new
  = concat_map (fun c => if Ascii.eqb a c then new else ⟦c⟧) s.
Proof.
  revert s. induction fuel as [|f IH]; intros s Hlen.
  - destruct s; simpl in *; [reflexivity | lia].
  - destruct s as [|c r]; [reflexivity|]. simpl in Hlen.
    cbn [replace_scan concat_map]. rewrite prefix_single.
    destruct (Ascii.eqb a c) eqn:E.
    + cbn [String.length]. replace (S (String.length r) - 1) with (String.length r) by lia.
      cbn [substring]. rewrite substring_full. now rewrite IH by lia.
    + simpl. now rewrite IH by lia.
Qed.

(** [strings.ReplaceAll] with a one-byte pattern, as a byte-wise map. *)
Lemma ReplaceAll_single (s : string) (a : ascii) (new : string) :
  ReplaceAll s ⟦a⟧ new = concat_map (fun c => if Ascii.eqb a c then new else ⟦c⟧) s.
Proof. apply replace_scan_single. lia. Qed.

(** Two byte-wise maps compose into one. *)
Lemma concat_map_concat_map (f g : ascii -> string) (s : string) :
  concat_map g (concat_map f s) = concat_map (fun c => concat_map g (f c)) s.
Proof.
  induction s as [|c s IH]; simpl; [reflexivity|].
  now rewrite concat_map_append, IH.
Qed.

Lemma concat_map_ext (f g : ascii -> string) (s : string) :
  (forall c, f c = g c) -> concat_map f s = concat_map g s.
Proof. intros H. induction s as [|c s IH]; simpl; [reflexivity|]. now rewrite H, IH. Qed.

(** [Itoa] is injective and read back by [Atoi]. *)
Lemma to_uint_not_nil (p : positive) : Pos.to_uint p <> Decimal.Nil.
Proof.
  intros H. pose proof (DecimalPos.Unsigned.of_to p) as E.
  rewrite H in E. discriminate.
Qed.

Lemma Atoi_Itoa (z : Z) : Atoi (Itoa z) = Some z.
Proof.
  unfold Atoi, Itoa. rewrite NilZero.isi.
  - simpl. now rewrite DecimalZ.of_to.
  - destruct z; simpl; try discriminate. intros [= H]. now apply (to_uint_not_nil p).
  - destruct z; simpl; try discriminate. intros [= H]. now apply (to_uint_not_nil p).
Qed.

Lemma Itoa_inj (z1 z2 : Z) : Itoa z1 = Itoa z2 -> z1 = z2.
Proof.
  intros H. apply (f_equal Atoi) in H. rewrite !Atoi_Itoa in H. congruence.
Qed.

Lemma substring_length_le (n m : nat) (s : string) : String.length (substring n m s) <= m.
Proof.
  revert m s. induction n as [|n IH]; intros m s.
  - revert s. induction m as [|m IHm]; intros [|c s]; simpl; try lia. specialize (IHm s). lia.
  - destruct s; simpl; [lia | apply IH].
Qed.

(** Fuel adequacy of [replace_scan]: any fuel at least the length of the
    text gives the same result, so [ReplaceAll]'s [String.length s] is
    enough and more fuel changes nothing. *)
Lemma replace_scan_fuel (f1 f2 : nat) (s old new : string) :
  old <> EmptyString -> String.length s <= f1 -> String.length s <= f2 ->
  replace_scan f1 s old new = replace_scan f2 s old new.
Proof.
  intros Hold. revert f2 s. induction f1 as [|f IH]; intros f2 s H1 H2.
  - destruct s; [destruct f2; reflexivity | simpl in H1; lia].
  - destruct f2 as [|g]; [destruct s; [reflexivity | simpl in H2; lia]|].
    destruct s as [|c r]; [reflexivity|]. cbn [replace_scan].
    destruct (prefix old (String c r)).
    + f_equal. pose proof (substring_length_le (String.length old)
        (String.length (String c r) - String.length old) (String c r)).
      destruct old as [|o os]; [contradiction|].
      apply IH; simpl in *; lia.
    + f_equal. apply IH; simpl in *; lia.
Qed.
