(* ===== verification/SqlLex.v ===== *)
(** * The consumer side: how the database reads the command's literals

    The service never runs SQL; the broker's consumer executes the
    command text on PostgreSQL.  This file models the part of
    PostgreSQL's lexer that the command relies on: the value tokens of a
    [VALUES(...)] list ([NULL], [true]/[false], signed decimal integers,
    standard strings ['...'] and escape strings [E'...']).  It is the
    specification the literal encoder ([Literal.v]) and the command
    synthesiser ([Synth.v]) are proved against. *)

From Stdlib Require Import String Ascii List ZArith Lia Bool.
From Stdlib Require Import DecimalString.
From S2P Require Import Prelude.
Import ListNotations.
Open Scope string_scope.
Open Scope go_scope.

(** A value as the database sees it after lexing one token. *)
Inductive SqlVal : Type :=
| VNull
| VBool (b : bool)
| VNum (z : Z)
| VText (s : string).

Definition quote : ascii := "'".
Definition backslash : ascii := "\".

(** Prepend a byte to the text part of a lexing result. *)
Definition cons_text (c : ascii) (o : option (string * string)) : option (string * string) :=
  match o with
  | Some (t, rest) => Some (String c t, rest)
  | None => None
  end.

(** Body of a standard string ['...'] with [standard_conforming_strings]
    on (the default since PostgreSQL 9.1): a doubled quote is one quote,
    a lone quote ends the literal, a backslash is an ordinary byte.
    Returns the text and the input after the closing quote; [None] for
    an unterminated literal. *)
Fixpoint lex_std (s : string) : option (string * string) :=
  match s with
  | EmptyString => None
  | String c r =>
      if Ascii.eqb c quote then
        match r with
        | String c2 r2 => if Ascii.eqb c2 quote then cons_text quote (lex_std r2) else Some ("", r)
        | EmptyString => Some ("", "")
        end
      else cons_text c (lex_std r)
  end.

(** The byte a backslash escape of an [E'...'] string stands for: the
    C-like escapes [\b \f \n \r \t], and any other byte taken literally
    (so [\\] is a backslash and [\'] a quote). *)
Definition unescape_byte (c : ascii) : ascii :=
  if Ascii.eqb c "b" then ascii_of_nat 8
  else if Ascii.eqb c "f" then ascii_of_nat 12
  else if Ascii.eqb c "n" then ascii_of_nat 10
  else if Ascii.eqb c "r" then ascii_of_nat 13
  else if Ascii.eqb c "t" then ascii_of_nat 9
  else c.

(** Body of an escape string [E'...']: backslash escapes and doubled
    quotes. *)
Fixpoint lex_e (s : string) : option (string * string) :=
  match s with
  | EmptyString => None
  | String c r =>
      if Ascii.eqb c quote then
        match r with
        | String c2 r2 => if Ascii.eqb c2 quote then cons_text quote (lex_e r2) else Some ("", r)
        | EmptyString => Some ("", "")
        end
      else if Ascii.eqb c backslash then
        match r with
        | String c2 r2 => cons_text (unescape_byte c2) (lex_e r2)
        | EmptyString => None
        end
      else cons_text c (lex_e r)
  end.

Definition is_digit (c : ascii) : bool :=
  let n := nat_of_ascii c in ((48 <=? n)%nat && (n <=? 57)%nat).

(** The longest prefix of digits and the rest. *)
Fixpoint span_digits (s : string) : string * string :=
  match s with
  | String c r =>
      if is_digit c then let '(d, rest) := span_digits r in (String c d, rest) else ("", s)
  | EmptyString => ("", "")
  end.

(** A signed decimal integer literal. *)
Definition lex_num (s : string) : option (Z * string) :=
  let '(sign, body) :=
    match s with
    | String c r => if Ascii.eqb c "-" then ("-", r) else ("", s)
    | EmptyString => ("", s)
    end in
  let '(digits, rest) := span_digits body in
  match digits with
  | EmptyString => None
  | _ => match Atoi (sign ++ digits) with
         | Some z => Some (z, rest)
         | None => None
         end
  end.

(** One value token of a [VALUES] list. *)
Definition lex_value (s : string) : option (SqlVal * string) :=
  match s with
  | String "N" (String "U" (String "L" (String "L" rest))) => Some (VNull, rest)
  | String "t" (String "r" (String "u" (String "e" rest))) => Some (VBool true, rest)
  | String "f" (String "a" (String "l" (String "s" (String "e" rest)))) => Some (VBool false, rest)
  | String "E" (String "'" body) =>
      match lex_e body with Some (t, rest) => Some (VText t, rest) | None => None end
  | String "'" body =>
      match lex_std body with Some (t, rest) => Some (VText t, rest) | None => None end
  | _ => match lex_num s with Some (z, rest) => Some (VNum z, rest) | None => None end
  end.

(** A comma-separated list of values closed by [");"]; [fuel] bounds
    the number of values. *)
Fixpoint lex_values (fuel : nat) (s : string) : option (list SqlVal) :=
  match fuel with
  | O => None
  | S f =>
      match lex_value s with
      | Some (v, String "," (String " " rest)) =>
          match lex_values f rest with Some vs => Some (v :: vs) | None => None end
      | Some (v, String ")" (String ";" EmptyString)) => Some (v :: nil)
      | _ => None
      end
  end.

(** ** Reading numbers back *)

Fixpoint all_digits (s : string) : bool :=
  match s with
  | EmptyString => true
  | String c r => is_digit c && all_digits r
  end.

(** What may follow a value token in a [VALUES] list. *)
Definition delimited (rest : string) : Prop :=
  match rest with
  | String c _ => c = ","%char \/ c = ")"%char
  | EmptyString => True
  end.

Lemma span_digits_app (d rest : string) :
  all_digits d = true -> delimited rest -> span_digits (d ++ rest) = (d, rest).
Proof.
  induction d as [|c d IH]; simpl; intros Hd Hr.
  - destruct rest as [|c r]; [reflexivity|]. simpl in Hr.
    destruct Hr as [-> | ->]; reflexivity.
  - apply andb_true_iff in Hd as [Hc Hd]. rewrite Hc, IH by assumption. reflexivity.
Qed.

Lemma all_digits_uint (u : Decimal.uint) : all_digits (NilEmpty.string_of_uint u) = true.
Proof. induction u; simpl; auto. Qed.

(** [Itoa z] is an optional minus sign and a non-empty run of digits. *)
Lemma Itoa_shape (z : Z) :
  exists d, d <> EmptyString /\ all_digits d = true /\
            Itoa z = (if Z.ltb z 0 then "-" else "") ++ d.
Proof.
  unfold Itoa. destruct z as [|p|p]; simpl.
  - exists "0". repeat split; discriminate || reflexivity.
  - exists (NilZero.string_of_uint (Pos.to_uint p)).
    pose proof (to_uint_not_nil p) as Hn.
    destruct (Pos.to_uint p); try contradiction; simpl;
      repeat split; try discriminate; apply all_digits_uint.
  - exists (NilZero.string_of_uint (Pos.to_uint p)).
    pose proof (to_uint_not_nil p) as Hn.
    destruct (Pos.to_uint p); try contradiction; simpl;
      repeat split; try discriminate; apply all_digits_uint.
Qed.

Lemma lex_num_Itoa (z : Z) (rest : string) :
  delimited rest -> lex_num (Itoa z ++ rest) = Some (z, rest).
Proof.
  intros Hr. pose proof (Atoi_Itoa z) as HA.
  destruct (Itoa_shape z) as (d & Hne & Hd & HI). rewrite HI in HA |- *.
  rewrite append_assoc.
  destruct (Z.ltb z 0); unfold lex_num; cbn [append] in HA |- *.
  - rewrite Ascii.eqb_refl, span_digits_app by assumption.
    destruct d; [contradiction|]. cbn [append]. now rewrite HA.
  - destruct d as [|c d']; [contradiction|]. cbn [append all_digits] in Hd |- *.
    destruct (Ascii.eqb_spec c "-") as [->|_]; [discriminate|].
    change (String c (d' ++ rest)) with (String c d' ++ rest).
    rewrite span_digits_app by first [exact Hr | cbn [all_digits]; exact Hd]. cbn [append]. now rewrite HA.
Qed.

(** A number token never starts like [NULL], a boolean or a string. *)
Lemma lex_value_Itoa (z : Z) (rest : string) :
  delimited rest -> lex_value (Itoa z ++ rest) = Some (VNum z, rest).
Proof.
  intros Hr. pose proof (lex_num_Itoa z rest Hr) as HN.
  destruct (Itoa_shape z) as (d & Hne & Hd & HI).
  unfold lex_value. rewrite HI in HN |- *. rewrite append_assoc in HN |- *.
  destruct (Z.ltb z 0); cbn [append] in HN |- *; [now rewrite HN|].
  destruct d as [|c d']; [contradiction|]. cbn [append all_digits] in HN, Hd |- *.
  apply andb_true_iff in Hd as [Hc _].
  destruct c as [[] [] [] [] [] [] [] []]; try discriminate Hc;
    cbn -[lex_num]; now rewrite HN.
Qed.

(** ** Reading a whole [INSERT] statement *)

(** [p] followed by the rest. *)
Fixpoint strip_prefix (p s : string) : option string :=
  match p, s with
  | EmptyString, _ => Some s
  | String a p', String b s' => if Ascii.eqb a b then strip_prefix p' s' else None
  | _, _ => None
  end.

Definition ident_byte (c : ascii) : bool :=
  let n := nat_of_ascii c in
  ((97 <=? n)%nat && (n <=? 122)%nat) || is_digit c || Ascii.eqb c "_".

(** The longest identifier prefix and the rest. *)
Fixpoint read_ident (s : string) : string * string :=
  match s with
  | String c r =>
      if ident_byte c then let '(i, rest) := read_ident r in (String c i, rest) else ("", s)
  | EmptyString => ("", "")
  end.

(** Column names separated by [", "] and closed by [")"]. *)
Fixpoint read_columns (fuel : nat) (s : string) : option (list string * string) :=
  match fuel with
  | O => None
  | S f =>
      match read_ident s with
      | (EmptyString, _) => None
      | (c, String "," (String " " r)) =>
          match read_columns f r with
          | Some (cs, rest) => Some (c :: cs, rest)
          | None => None
          end
      | (c, String ")" r) => Some (c :: nil, r)
      | _ => None
      end
  end.

(** [INSERT INTO <table> (<columns>) VALUES(<values>);] as the table
    name, the column names and the values. *)
Definition parse_insert (s : string) : option (string * list string * list SqlVal) :=
  match strip_prefix "INSERT INTO " s with
  | None => None
  | Some r1 =>
      let '(table, r2) := read_ident r1 in
      match strip_prefix " (" r2 with
      | None => None
      | Some r3 =>
          match read_columns (String.length r3) r3 with
          | None => None
          | Some (cols, r4) =>
              match strip_prefix " VALUES(" r4 with
              | None => None
              | Some r5 =>
                  match lex_values (String.length r5) r5 with
                  | None => None
                  | Some vals => Some (table, cols, vals)
                  end
              end
          end
      end
  end.

(** The value an inserted row gives a column. *)
Fixpoint column_value (cols : list string) (row : list SqlVal) (c : string) : option SqlVal :=
  match cols, row with
  | c' :: cols', v :: row' => if String.eqb c c' then Some v else column_value cols' row' c
  | _, _ => None
  end.

(** A token list the lexer reads as the given values, one by one. *)
Definition lexes_as (tok : string) (v : SqlVal) : Prop :=
  forall rest, delimited rest -> lex_value (tok ++ rest) = Some (v, rest).

Lemma length_concat_sep (toks : list string) :
  (List.length toks <= String.length (String.concat ", " toks ++ ");"))%nat.
Proof.
  induction toks as [|t [|u toks] IH]; simpl; rewrite ?length_append in *; simpl in *; lia.
Qed.

Lemma lex_values_concat (fuel : nat) (toks : list string) (vs : list SqlVal) :
  Forall2 lexes_as toks vs -> toks <> nil -> (List.length toks <= fuel)%nat ->
  lex_values fuel (String.concat ", " toks ++ ");") = Some vs.
Proof.
  intros H. revert fuel. induction H as [|t v toks vs Htv Hrest IH]; intros fuel Hne Hf;
    [contradiction|].
  destruct fuel as [|f]; [simpl in Hf; lia|]. cbn [lex_values].
  destruct toks as [|u toks].
  - inversion Hrest; subst. simpl. rewrite Htv by (simpl; auto). reflexivity.
  - change (String.concat ", " (t :: u :: toks)) with (t ++ ", " ++ String.concat ", " (u :: toks)).
    rewrite !append_assoc, Htv by (simpl; auto). cbn [append].
    rewrite IH by (discriminate || (simpl in Hf |- *; lia)). reflexivity.
Qed.
