(* ===== verification/Literal.v ===== *)
(** * The literal encoder: [src/utility/utility.go] and [src/utility/validation.go]

    [SafeString] doubles single quotes, [SafeJsonString] doubles
    backslashes then quotes and wraps the result as [E'...'], and
    [NullIfEmpty] turns a Go [int] or [string] into an SQL token (zero
    and empty become [NULL]; a string is put between quotes as it is,
    with no escaping of its own).  The theorems read the tokens back
    with the consumer's lexer of [SqlLex.v]. *)

From Stdlib Require Import String Ascii List ZArith Lia Bool.
From S2P Require Import Prelude SqlLex.
Import ListNotations.
Open Scope string_scope.
Open Scope go_scope.

(** ** The code *)

(** The dynamic values the service hands to [NullIfEmpty] and to
    [fmt.Sprintf]'s [%v]: a Go [int], [string] or [bool] in an
    [interface{}]. *)
Inductive Any : Type :=
| AnyInt (z : Z)
| AnyString (s : string)
| AnyBool (b : bool).

(** One iteration of [SafeString]'s loop: a quote is appended twice,
    any other byte once. *)
Definition safe_byte (c : ascii) : string :=
  if Ascii.eqb c quote then String quote ⟦quote⟧ else ⟦c⟧.

(** [func SafeString(sql string) string] (utility.go). *)
Definition SafeString (sql : string) : string := concat_map safe_byte sql.

(** [func SafeJsonString(jsonStr string) string] (utility.go): two
    [strings.ReplaceAll] passes, backslash first, then the [E'...']
    wrapper. *)
Definition SafeJsonString (jsonStr : string) : string :=
  let result := ReplaceAll jsonStr ⟦backslash⟧ (String backslash ⟦backslash⟧) in
  let result := ReplaceAll result ⟦quote⟧ (String quote ⟦quote⟧) in
  "E'" ++ result ++ "'".

(** [func NullIfEmpty(value interface{}) string] (validation.go): the
    [int] and [string] cases and the default. *)
Definition NullIfEmpty (value : Any) : string :=
  match value with
  | AnyInt v => if Z.eqb v 0 then "NULL" else Itoa v
  | AnyString v =>
      if String.eqb v "" || String.eqb v "[]" then "NULL" else "'" ++ v ++ "'"
  | AnyBool _ => "NULL"
  end.

(** [sql.NullString] and [sql.NullInt64] with [NewNullString] and
    [NewNullInt] (validation.go). *)
Record NullString := { NS_String : string; NS_Valid : bool }.
Record NullInt64 := { NI_Int64 : Z; NI_Valid : bool }.

Definition NewNullString (s : string) : NullString :=
  if Nat.eqb (String.length s) 0 then {| NS_String := ""; NS_Valid := false |}
  else {| NS_String := s; NS_Valid := true |}.

Definition NewNullInt (s : Z) : NullInt64 :=
  if Z.eqb s 0 then {| NI_Int64 := 0; NI_Valid := false |}
  else {| NI_Int64 := s; NI_Valid := true |}.

(** ** A single-pass reference for [SafeJsonString]'s escaping *)

(** The escaping of an [E'...'] body done byte by byte. *)
Definition esc_e_byte (c : ascii) : string :=
  if Ascii.eqb c backslash then String backslash ⟦backslash⟧
  else if Ascii.eqb c quote then String quote ⟦quote⟧
  else ⟦c⟧.

Definition escape_e (s : string) : string := concat_map esc_e_byte s.

(** ** Lemmas *)

Lemma quote_neq_backslash : Ascii.eqb quote backslash = false.
Proof. reflexivity. Qed.

Lemma lex_std_safe_byte (c : ascii) (r : string) :
  lex_std (safe_byte c ++ r) = cons_text c (lex_std r).
Proof.
  unfold safe_byte. destruct (Ascii.eqb_spec c quote) as [->|Hne]; simpl.
  - reflexivity.
  - apply Ascii.eqb_neq in Hne. now rewrite Hne.
Qed.

Lemma lex_e_esc_byte (c : ascii) (r : string) :
  lex_e (esc_e_byte c ++ r) = cons_text c (lex_e r).
Proof.
  unfold esc_e_byte.
  destruct (Ascii.eqb_spec c backslash) as [->|Hb]; [reflexivity|].
  destruct (Ascii.eqb_spec c quote) as [->|Hq]; [reflexivity|].
  simpl. apply Ascii.eqb_neq in Hb, Hq. now rewrite Hq, Hb.
Qed.

(** A closing quote not followed by another quote ends a literal. *)
Definition no_quote_head (rest : string) : Prop :=
  match rest with
  | String c _ => c <> quote
  | EmptyString => True
  end.

Lemma lex_std_close (rest : string) :
  no_quote_head rest -> lex_std (String "'" rest) = Some ("", rest).
Proof.
  destruct rest as [|c r]; [reflexivity|]. simpl. intros Hc.
  apply Ascii.eqb_neq in Hc. now rewrite Hc.
Qed.

Lemma lex_e_close (rest : string) :
  no_quote_head rest -> lex_e (String "'" rest) = Some ("", rest).
Proof.
  destruct rest as [|c r]; [reflexivity|]. simpl. intros Hc.
  apply Ascii.eqb_neq in Hc. now rewrite Hc.
Qed.

Lemma SafeJsonString_escape_e (s : string) : SafeJsonString s = "E'" ++ escape_e s ++ "'".
Proof.
  unfold SafeJsonString, escape_e. rewrite !ReplaceAll_single, concat_map_concat_map.
  f_equal. f_equal. apply concat_map_ext. intros c. unfold esc_e_byte.
  destruct (Ascii.eqb_spec backslash c), (Ascii.eqb_spec c backslash);
    try congruence; subst; [reflexivity|].
  cbn [concat_map]. rewrite append_nil_r.
  destruct (Ascii.eqb_spec quote c), (Ascii.eqb_spec c quote); congruence.
Qed.

Lemma delimited_no_quote_head (rest : string) : delimited rest -> no_quote_head rest.
Proof. destruct rest as [|c r]; simpl; [auto|]. intros [-> | ->]; discriminate. Qed.

#[export] Hint Resolve delimited_no_quote_head : go.

Lemma lex_std_SafeString (s rest : string) :
  no_quote_head rest -> lex_std (SafeString s ++ String "'" rest) = Some (s, rest).
Proof.
  intros Hr. induction s as [|c s IH]; [now apply lex_std_close|].
  unfold SafeString in *. cbn [concat_map].
  now rewrite append_assoc, lex_std_safe_byte, IH.
Qed.

Lemma lex_e_escape_e (s rest : string) :
  no_quote_head rest -> lex_e (escape_e s ++ String "'" rest) = Some (s, rest).
Proof.
  intros Hr. induction s as [|c s IH]; [now apply lex_e_close|].
  unfold escape_e in *. cbn [concat_map].
  now rewrite append_assoc, lex_e_esc_byte, IH.
Qed.

Lemma SafeString_inj (s t : string) : SafeString s = SafeString t -> s = t.
Proof.
  intros H. pose proof (lex_std_SafeString s "" I) as Hs.
  rewrite H, lex_std_SafeString in Hs by exact I. congruence.
Qed.

(** [SafeString] maps the two strings [NullIfEmpty] treats as empty,
    and only them, to themselves. *)
Lemma SafeString_eqb (s t : string) :
  SafeString t = t -> String.eqb (SafeString s) t = String.eqb s t.
Proof.
  intros Ht. destruct (String.eqb_spec (SafeString s) t) as [He|Hne'], (String.eqb_spec s t) as [->|Hne];
    try reflexivity; [|contradiction].
  exfalso. rewrite <- Ht in He. apply SafeString_inj in He. contradiction.
Qed.

(** What the database stores for a [NullIfEmpty] string column. *)
Definition text_or_null (s : string) : SqlVal :=
  if String.eqb s "" || String.eqb s "[]" then VNull else VText s.

Definition int_or_null (z : Z) : SqlVal := if Z.eqb z 0 then VNull else VNum z.

(** ** Theorems *)

(** The literals the encoders print, read back. *)
Lemma lex_SafeString_literal (s rest : string) :
  delimited rest ->
  lex_value ("'" ++ SafeString s ++ "'" ++ rest) = Some (VText s, rest).
Proof.
  intros Hr. cbn [append lex_value].
  rewrite lex_std_SafeString by auto with go. reflexivity.
Qed.

Lemma lex_SafeJsonString (j rest : string) :
  delimited rest -> lex_value (SafeJsonString j ++ rest) = Some (VText j, rest).
Proof.
  intros Hr. rewrite SafeJsonString_escape_e, !append_assoc. cbn [append lex_value].
  rewrite lex_e_escape_e by auto with go. reflexivity.
Qed.

Lemma lex_NullIfEmpty_SafeString (s rest : string) :
  delimited rest ->
  lex_value (NullIfEmpty (AnyString (SafeString s)) ++ rest) = Some (text_or_null s, rest).
Proof.
  intros Hr. unfold NullIfEmpty, text_or_null.
  rewrite !SafeString_eqb by reflexivity.
  destruct (String.eqb s "" || String.eqb s "[]"); [reflexivity|].
  rewrite !append_assoc. apply lex_SafeString_literal, Hr.
Qed.

(** C4: Quote escaping is reversible and
    injection-safe: a standard string literal made of [SafeString s]
    and a closing quote is read back by the database as exactly [s],
    and the lexer resumes right after the closing quote. *)
Theorem SafeString_lex_roundtrip (s rest : string) :
  delimited rest ->
  lex_value ("'" ++ SafeString s ++ "'" ++ rest) = Some (VText s, rest).
Proof. apply lex_SafeString_literal. Qed.

(** C5: JSON embedding is reversible:
    the database reads the [E'...'] literal produced by
    [SafeJsonString j] back as exactly the text [j], whatever
    backslashes and quotes [j] holds, and resumes after it. *)
Theorem SafeJsonString_lex_roundtrip (j rest : string) :
  delimited rest -> lex_value (SafeJsonString j ++ rest) = Some (VText j, rest).
Proof. apply lex_SafeJsonString. Qed.

(** C6: The encoding of an escaped
    string column: [NullIfEmpty(SafeString(s))] is read back as [NULL]
    when [s] is empty or the text [[]], and as exactly the text [s]
    otherwise. *)
Theorem NullIfEmpty_SafeString_lex (s rest : string) :
  delimited rest ->
  lex_value (NullIfEmpty (AnyString (SafeString s)) ++ rest) = Some (text_or_null s, rest).
Proof. apply lex_NullIfEmpty_SafeString. Qed.

(** An [int] passed through [NullIfEmpty]
    is read back as [NULL] when it is zero and as the same integer
    otherwise: zero and absent are not distinguished. *)
Theorem NullIfEmpty_int_lex (z : Z) (rest : string) :
  delimited rest -> lex_value (NullIfEmpty (AnyInt z) ++ rest) = Some (int_or_null z, rest).
Proof.
  intros Hr. unfold NullIfEmpty, int_or_null.
  destruct (Z.eqb z 0); [reflexivity|]. now apply lex_value_Itoa.
Qed.

(** [NullIfEmpty] does not
    escape: a value with a quote passed to it without [SafeString]
    ends the literal early, and the rest of the value is read as SQL
    (here [O'Hara] is stored as [O] and [Hara'] is left over as
    command text). *)
Theorem NullIfEmpty_unescaped_injection :
  lex_value (NullIfEmpty (AnyString "O'Hara") ++ ", NULL);")
  = Some (VText "O", "Hara', NULL);").
Proof. vm_compute. reflexivity. Qed.

(** ** Witnesses *)

Lemma SafeString_lex_roundtrip_witness :
  delimited ", NULL);" /\
  lex_value ("'" ++ SafeString "O'Hara" ++ "'" ++ ", NULL);") = Some (VText "O'Hara", ", NULL);").
Proof. split; [left; reflexivity | apply SafeString_lex_roundtrip; left; reflexivity]. Defined.

Lemma SafeJsonString_lex_roundtrip_witness :
  delimited ");" /\
  lex_value (SafeJsonString "{'a':'\'}" ++ ");") = Some (VText "{'a':'\'}", ");").
Proof. split; [right; reflexivity | apply SafeJsonString_lex_roundtrip; right; reflexivity]. Defined.

Lemma NullIfEmpty_SafeString_lex_witness :
  delimited ", 1);" /\
  lex_value (NullIfEmpty (AnyString (SafeString "[]")) ++ ", 1);") = Some (text_or_null "[]", ", 1);").
Proof. split; [left; reflexivity | apply NullIfEmpty_SafeString_lex; left; reflexivity]. Defined.

Lemma NullIfEmpty_int_lex_witness :
  delimited ", 1);" /\
  lex_value (NullIfEmpty (AnyInt (-42)) ++ ", 1);") = Some (int_or_null (-42), ", 1);").
Proof. split; [left; reflexivity | apply NullIfEmpty_int_lex; left; reflexivity]. Defined.
