(* ===== verification/Fmt.v ===== *)
(** * [fmt.Sprintf] as the command builder uses it

    Both [Create] use cases build the command with one [fmt.Sprintf]
    whose format holds only [%v] directives.  This file models Go's
    [doPrintf] loop for directives without flags, width or precision:
    [%v], [%d], [%s], [%t], [%%], a verb that does not fit its operand
    ([%!d(string=...)]), too few operands ([%!v(MISSING)]), too many
    ([%!(EXTRA int=1)]) and a trailing [%] ([%!(NOVERB)]).  The main
    lemma says that a format made of [%v] directives separated by
    literal text prints the operands in order. *)

From Stdlib Require Import String Ascii List ZArith Lia Bool.
From S2P Require Import Prelude SqlLex Literal.
Import ListNotations.
Open Scope string_scope.
Open Scope go_scope.

(** ** The code *)

Definition percent : ascii := "%".

(** [%v] of an [int], [string] or [bool] operand. *)
Definition fmt_v (a : Any) : string :=
  match a with
  | AnyInt z => Itoa z
  | AnyString s => s
  | AnyBool b => if b then "true" else "false"
  end.

(** The operand's Go type name, as printed in [%!] diagnostics. *)
Definition type_name (a : Any) : string :=
  match a with
  | AnyInt _ => "int"
  | AnyString _ => "string"
  | AnyBool _ => "bool"
  end.

Definition bad_verb (verb : ascii) (a : Any) : string :=
  "%!" ++ ⟦verb⟧ ++ "(" ++ type_name a ++ "=" ++ fmt_v a ++ ")".

(** One directive applied to its operand. *)
Definition fmt_verb (verb : ascii) (a : Any) : string :=
  if Ascii.eqb verb "v" then fmt_v a
  else match verb, a with
       | "d"%char, AnyInt z => Itoa z
       | "s"%char, AnyString s => s
       | "t"%char, AnyBool _ => fmt_v a
       | _, _ => bad_verb verb a
       end.

Definition prepend (p : string) (o : string * list Any) : string * list Any :=
  let '(out, rest) := o in (p ++ out, rest).

(** Go's [doPrintf]: the text printed and the operands left over. *)
Fixpoint doPrintf (format : string) (args : list Any) : string * list Any :=
  match format with
  | EmptyString => ("", args)
  | String c r =>
      if Ascii.eqb c percent then
        match r with
        | EmptyString => ("%!(NOVERB)", args)
        | String verb r' =>
            if Ascii.eqb verb percent then prepend "%" (doPrintf r' args)
            else match args with
                 | nil => prepend ("%!" ++ ⟦verb⟧ ++ "(MISSING)") (doPrintf r' nil)
                 | a :: rest => prepend (fmt_verb verb a) (doPrintf r' rest)
                 end
        end
      else prepend ⟦c⟧ (doPrintf r args)
  end.

(** [fmt.Sprintf(format, a...)], with the [%!(EXTRA ...)] suffix for
    operands no directive used. *)
Definition Sprintf (format : string) (args : list Any) : string :=
  let '(out, extra) := doPrintf format args in
  match extra with
  | nil => out
  | _ => out ++ "%!(EXTRA " ++
           String.concat ", " (map (fun a => type_name a ++ "=" ++ fmt_v a) extra) ++ ")"
  end.

(** ** Formats made of [%v] directives *)

Fixpoint no_percent (s : string) : bool :=
  match s with
  | EmptyString => true
  | String c r => negb (Ascii.eqb c percent) && no_percent r
  end.

(** [n] directives [%v] separated by [", "]. *)
Fixpoint placeholders (n : nat) : string :=
  match n with
  | O => ""
  | S O => "%v"
  | S m => "%v, " ++ placeholders m
  end.

Lemma doPrintf_text (p f : string) (args : list Any) :
  no_percent p = true -> doPrintf (p ++ f) args = prepend p (doPrintf f args).
Proof.
  induction p as [|c p IH]; simpl; intros H.
  - now destruct (doPrintf f args).
  - apply andb_true_iff in H as [Hc Hp]. apply negb_true_iff in Hc.
    rewrite Hc, IH by exact Hp. now destruct (doPrintf f args).
Qed.

Lemma doPrintf_plain (t : string) (args : list Any) :
  no_percent t = true -> doPrintf t args = (t, args).
Proof.
  intros Ht. rewrite <- (append_nil_r t) at 1. rewrite doPrintf_text by exact Ht.
  simpl. now rewrite append_nil_r.
Qed.

Lemma doPrintf_v (r : string) (a : Any) (rest : list Any) :
  doPrintf (String percent (String "v" r)) (a :: rest) = prepend (fmt_v a) (doPrintf r rest).
Proof. reflexivity. Qed.

Lemma doPrintf_placeholders (args : list Any) (t : string) :
  args <> nil -> no_percent t = true ->
  doPrintf (placeholders (List.length args) ++ t) args
  = (String.concat ", " (map fmt_v args) ++ t, nil).
Proof.
  intros Hne Ht. induction args as [|a args IH]; [contradiction|].
  destruct args as [|b args].
  - cbn [List.length]. change (placeholders 1 ++ t) with (String percent (String "v" t)).
    rewrite doPrintf_v, doPrintf_plain by exact Ht. simpl. reflexivity.
  - set (P := placeholders (List.length (b :: args))).
    change (placeholders (List.length (a :: b :: args)) ++ t)
      with (String percent (String "v" ((", " ++ P) ++ t))).
    change (String.concat ", " (map fmt_v (a :: b :: args)))
      with (fmt_v a ++ ", " ++ String.concat ", " (map fmt_v (b :: args))).
    rewrite doPrintf_v, append_assoc, doPrintf_text by reflexivity.
    unfold P. rewrite IH by discriminate. simpl.
    now rewrite !append_assoc.
Qed.

(** The command builder's shape: literal text, [n] directives, literal
    text, with exactly [n] operands. *)
Lemma Sprintf_placeholders (h t : string) (args : list Any) :
  args <> nil -> no_percent h = true -> no_percent t = true ->
  Sprintf (h ++ placeholders (List.length args) ++ t) args
  = h ++ String.concat ", " (map fmt_v args) ++ t.
Proof.
  intros Hne Hh Ht. unfold Sprintf.
  rewrite doPrintf_text, doPrintf_placeholders by assumption. reflexivity.
Qed.

Lemma Sprintf_placeholders_n (h t : string) (args : list Any) (n : nat) :
  List.length args = n -> args <> nil -> no_percent h = true -> no_percent t = true ->
  Sprintf (h ++ placeholders n ++ t) args = h ++ String.concat ", " (map fmt_v args) ++ t.
Proof. intros <-. apply Sprintf_placeholders. Qed.
