(* ===== verification/GoFloat.v ===== *)
(** * The request latency of the log line: [float64] division and [%f]

    The logging middleware of [src/routers/router.go] computes
    [requestTimeInMs := float64(latency.Nanoseconds()) / 1000000.0] and
    prints it with [%f].  A finite [float64] is [F64]: a sign, and a
    magnitude [man * 2^exp].  Conversion from an integer and division
    round the exact value to the nearest [float64], ties to an even
    mantissa ([float_of_ratio]: the value is scaled into [[2^52, 2^53)],
    rounded by [round_half_even], renormalised when rounding reaches
    [2^53]).  [%f] is [strconv]'s [bigFtoa]: the exact binary value
    rounded to six decimals, ties to even ([fmt_f]).  Magnitudes are
    those of a latency, far from the [float64] range's ends, so
    subnormals, overflow, NaNs and infinities are not modelled.

    The theorem: below 2^32 ms (about 49.7 days) the log shows the
    latency's nanosecond count exactly, as milliseconds with six
    decimals; the float's 52-bit mantissa has the room. *)

From Stdlib Require Import String ZArith Lia Bool.
From S2P Require Import Prelude.
Open Scope string_scope.
Open Scope Z_scope.

(** A finite [float64]: [(-1)^neg * man * 2^exp]. *)
Record F64 := mkF64 { f_neg : bool; f_man : Z; f_exp : Z }.

(** [num / den] rounded to the nearest integer, ties to even ([num >= 0],
    [den > 0]). *)
Definition round_half_even (num den : Z) : Z :=
  let q := num / den in
  let r := num mod den in
  if 2 * r <? den then q
  else if den <? 2 * r then q + 1
  else if Z.even q then q else q + 1.

(** [num/den * 2^k] as a numerator and a denominator. *)
Definition shift_ratio (num den k : Z) : Z * Z :=
  if 0 <=? k then (num * 2 ^ k, den) else (num, den * 2 ^ (- k)).

(** [floor(log2(num/den))] for [num, den > 0]: the difference of the
    logarithms, one less when [num/den] is below [2^k]. *)
Definition flog2 (num den : Z) : Z :=
  let k := Z.log2 num - Z.log2 den in
  let '(a, b) := shift_ratio den 1 k in
  if num * b <? a then k - 1 else k.

(** The [float64] nearest to [num/den] with sign [neg]. *)
Definition float_of_ratio (neg : bool) (num den : Z) : F64 :=
  if num =? 0 then mkF64 neg 0 0
  else
    let s := 52 - flog2 num den in
    let '(a, b) := shift_ratio num den s in
    let m := round_half_even a b in
    if m =? 2 ^ 53 then mkF64 neg (2 ^ 52) (1 - s) else mkF64 neg m (- s).

(** The value of a [float64] as a ratio. *)
Definition F64_ratio (f : F64) : Z * Z := shift_ratio (f_man f) 1 (f_exp f).

(** [float64(n)] of an [int64]. *)
Definition float_of_z (n : Z) : F64 := float_of_ratio (n <? 0) (Z.abs n) 1.

(** [x / y] for [y <> 0]. *)
Definition float_div (x y : F64) : F64 :=
  let '(nx, dx) := F64_ratio x in
  let '(ny, dy) := F64_ratio y in
  float_of_ratio (xorb (f_neg x) (f_neg y)) (nx * dy) (dx * ny).

(** [%.{prec}f] ([%f] is [%.6f]): the sign, the integer part and [prec]
    decimals of the value rounded to [prec] decimals, ties to even. *)
Definition fmt_f (prec : nat) (f : F64) : string :=
  let '(n, d) := F64_ratio f in
  let p := 10 ^ Z.of_nat prec in
  let K := round_half_even (n * p) d in
  (if f_neg f then "-" else "") ++ Itoa (K / p) ++
  (if Nat.eqb prec 0 then "" else "." ++ pad_zero prec (Itoa (K mod p))).

(** [requestTimeInMs := float64(latency.Nanoseconds()) / 1000000.0]. *)
Definition requestTimeInMs (latencyNs : Z) : F64 := float_div (float_of_z latencyNs) (float_of_z 1000000).

(** The text [%f] prints for it in the log line. *)
Definition ms_text (latencyNs : Z) : string := fmt_f 6 (requestTimeInMs latencyNs).

(** ** Rounding to the nearest integer *)

(** [rhe_cases] splits [round_half_even a b] on its three branches, with
    the quotient and remainder of [a] by [b] as facts for [lia]/[nia]. *)
Ltac rhe_cases a b :=
  unfold round_half_even;
  pose proof (Z.div_mod a b ltac:(lia));
  pose proof (Z.mod_pos_bound a b ltac:(lia));
  set (q := a / b) in *; set (r := a mod b) in *; clearbody q r;
  destruct (2 * r <? b) eqn:E1; [|destruct (b <? 2 * r) eqn:E2;
  [|destruct (Z.even q)]]; zhyps.

(** The rounded quotient is within half a unit of [a/b]. *)
Lemma round_half_even_err (a b : Z) :
  0 < b -> Z.abs (2 * a - 2 * round_half_even a b * b) <= b.
Proof. intros Hb. rhe_cases a b; lia. Qed.

(** An integer closer than half a unit to [a/b] is the rounded quotient. *)
Lemma round_half_even_near (a b k : Z) :
  0 < b -> Z.abs (2 * a - 2 * k * b) < b -> round_half_even a b = k.
Proof.
  intros Hb Hk. rhe_cases a b;
    (assert (k <= q - 1 \/ k = q \/ k = q + 1 \/ q + 2 <= k) as [Hq|[Hq|[Hq|Hq]]] by lia);
    try lia; nia.
Qed.

(** Exact quotients are not rounded. *)
Lemma round_half_even_exact (k b : Z) : 0 < b -> round_half_even (k * b) b = k.
Proof. intros Hb. apply round_half_even_near; nia. Qed.

(** ** Binary exponents and conversions *)

(** For an integer the exponent is [Z.log2]. *)
Lemma flog2_int (n : Z) : 0 < n -> flog2 n 1 = Z.log2 n.
Proof.
  intros Hn. unfold flog2, shift_ratio. rewrite Z.log2_1, Z.sub_0_r.
  pose proof (Z.log2_spec n Hn). pose proof (Z.log2_nonneg n).
  zbool. zbool. reflexivity.
Qed.

(** Below [2^e] the exponent is below [e]. *)
Lemma flog2_lt (num den e : Z) :
  0 < num -> 0 < den -> 0 <= e -> num < 2 ^ e * den -> flog2 num den < e.
Proof.
  intros Hn Hd He Hlt.
  assert (Z.log2 num <= e + Z.log2 den).
  { rewrite <- Z.log2_mul_pow2 by lia. apply Z.log2_le_mono. lia. }
  unfold flog2, shift_ratio.
  destruct (Z.eq_dec (Z.log2 num - Z.log2 den) e) as [<-|Hk].
  - zbool. lia.
  - destruct (0 <=? _); cbn beta iota; destruct (_ <? _); lia.
Qed.

(** [float64(n)] is exact below [2^53]. *)
Lemma float_of_z_exact (n : Z) :
  0 < n < 2 ^ 53 ->
  f_neg (float_of_z n) = false /\ exists c, 0 < c /\ F64_ratio (float_of_z n) = (n * c, c).
Proof.
  intros Hn. unfold float_of_z, float_of_ratio.
  rewrite Z.abs_eq, flog2_int by lia. zbool.
  pose proof (Z.log2_spec n ltac:(lia)).
  assert (Z.log2 n < 53) by (apply Z.log2_lt_pow2; lia).
  pose proof (Z.log2_nonneg n).
  set (s := 52 - Z.log2 n).
  assert (Hs : 2 ^ (Z.log2 n + 1) * 2 ^ s = 2 ^ 53) by (rewrite <- Z.pow_add_r; f_equal; lia).
  rewrite Z.pow_add_r, Z.pow_1_r in Hs by lia.
  unfold shift_ratio; zbool.
  replace (round_half_even (n * 2 ^ s) 1) with (n * 2 ^ s)
    by (symmetry; rewrite <- (Z.mul_1_r (n * 2 ^ s)) at 1; apply round_half_even_exact; lia).
  rewrite Z.pow_succ_r in H by lia.
  assert (0 < 2 ^ s) by (apply Z.pow_pos_nonneg; lia).
  assert (n * 2 ^ s < 2 ^ 53) by nia. zbool.
  split; [reflexivity|]. unfold F64_ratio, shift_ratio; cbn [f_man f_exp].
  destruct (Z.eq_dec s 0) as [->|Hs0].
  - exists 1. cbn. split; [lia | f_equal; lia].
  - exists (2 ^ s). zbool. rewrite Z.opp_involutive. split; [apply Z.pow_pos_nonneg|f_equal]; lia.
Qed.

(** A float with a negative exponent is the ratio [man / 2^k]. *)
Lemma F64_ratio_neg_exp (neg : bool) (m k : Z) :
  0 < k -> F64_ratio (mkF64 neg m (- k)) = (m, 2 ^ k).
Proof. intros Hk. unfold F64_ratio, shift_ratio. cbn [f_man f_exp]. zbool. rewrite Z.opp_involutive. f_equal; lia. Qed.

(** A quotient below [2^e] is rounded to 53 significant bits: the
    result is within [2^(e-53)] of it, as a ratio [a/b]. *)
Lemma float_of_ratio_err (neg : bool) (num den e : Z) :
  0 < num -> 0 < den -> 0 <= e <= 51 -> num < 2 ^ e * den ->
  f_neg (float_of_ratio neg num den) = neg /\
  exists a b, F64_ratio (float_of_ratio neg num den) = (a, b) /\ 0 < b /\
    Z.abs (2 * num * b - 2 * a * den) * 2 ^ (53 - e) <= den * b.
Proof.
  intros Hn Hd He Hlt. pose proof (flog2_lt num den e Hn Hd ltac:(lia) Hlt).
  unfold float_of_ratio. zbool.
  set (s := 52 - flog2 num den). assert (Hs : 53 - e <= s) by lia. clearbody s.
  assert (HQ : 2 ^ (53 - e) <= 2 ^ s) by (apply Z.pow_le_mono_r; lia).
  assert (0 < 2 ^ (53 - e)) by (apply Z.pow_pos_nonneg; lia).
  assert (Hsh : shift_ratio num den s = (num * 2 ^ s, den)) by (unfold shift_ratio; zbool; reflexivity).
  rewrite Hsh. cbn beta iota.
  pose proof (round_half_even_err (num * 2 ^ s) den Hd) as Herr.
  set (m := round_half_even (num * 2 ^ s) den) in *.
  destruct (m =? 2 ^ 53) eqn:Em; zhyps; split; try reflexivity.
  - apply Z.eqb_eq in Em. rewrite Em in Herr.
    replace (1 - s) with (- (s - 1)) by lia. rewrite F64_ratio_neg_exp by lia.
    assert (Hp : 2 ^ s = 2 * 2 ^ (s - 1)) by (rewrite <- Z.pow_succ_r by lia; f_equal; lia).
    assert (H53 : 2 ^ 53 = 2 * 2 ^ 52) by reflexivity.
    assert (0 < 2 ^ (s - 1)) by (apply Z.pow_pos_nonneg; lia).
    exists (2 ^ 52), (2 ^ (s - 1)). split; [reflexivity | split; [lia|]].
    rewrite Hp, H53 in *.
    set (X := Z.abs (2 * num * 2 ^ (s - 1) - 2 * 2 ^ 52 * den)).
    assert (2 * X <= den) by (subst X; lia). nia.
  - rewrite F64_ratio_neg_exp by lia.
    assert (0 < 2 ^ s) by (apply Z.pow_pos_nonneg; lia).
    exists m, (2 ^ s). split; [reflexivity | split; [lia|]].
    set (X := Z.abs (2 * num * 2 ^ s - 2 * m * den)).
    assert (X <= den) by (subst X; lia). nia.
Qed.

(** [%f] of a non-negative float closer than half a unit of the last
    decimal to [n / 10^prec] prints [n] with [prec] decimals. *)
Lemma fmt_f_near (prec : nat) (f : F64) (a b n : Z) :
  prec <> O -> f_neg f = false -> F64_ratio f = (a, b) -> 0 < b ->
  Z.abs (2 * (a * 10 ^ Z.of_nat prec) - 2 * n * b) < b ->
  fmt_f prec f = Itoa (n / 10 ^ Z.of_nat prec) ++ "." ++ pad_zero prec (Itoa (n mod 10 ^ Z.of_nat prec)).
Proof.
  intros Hp Hneg Hr Hb Hk. unfold fmt_f. rewrite Hr, Hneg.
  rewrite (round_half_even_near _ _ n Hb Hk).
  apply Nat.eqb_neq in Hp. now rewrite Hp.
Qed.

Lemma float_of_z_million :
  f_neg (float_of_z 1000000) = false /\ F64_ratio (float_of_z 1000000) = (1000000 * 2 ^ 33, 2 ^ 33).
Proof. vm_compute. split; reflexivity. Qed.

(** [requestTimeInMs] is within [2^-21] ms of the exact quotient,
    below [2^32] ms. *)
Lemma requestTimeInMs_err (n : Z) :
  0 < n < 2 ^ 32 * 1000000 ->
  f_neg (requestTimeInMs n) = false /\
  exists a b, F64_ratio (requestTimeInMs n) = (a, b) /\ 0 < b /\
    Z.abs (2 * n * b - 2 * a * 1000000) * 2 ^ 21 <= 1000000 * b.
Proof.
  intros Hn. unfold requestTimeInMs, float_div.
  destruct (float_of_z_exact n ltac:(lia)) as [Hneg [c [Hc Hr]]].
  destruct float_of_z_million as [Hneg' Hr'].
  rewrite Hr, Hr', Hneg, Hneg'. cbn [xorb].
  assert (0 < 2 ^ 33) by reflexivity.
  destruct (float_of_ratio_err false (n * c * 2 ^ 33) (c * (1000000 * 2 ^ 33)) 32)
    as [Hf [a [b [Hab [Hb Herr]]]]]; try nia.
  split; [exact Hf|]. exists a, b. split; [exact Hab | split; [exact Hb|]].
  replace (2 * (n * c * 2 ^ 33) * b - 2 * a * (c * (1000000 * 2 ^ 33)))
    with ((c * 2 ^ 33) * (2 * n * b - 2 * a * 1000000)) in Herr by ring.
  rewrite Z.abs_mul, (Z.abs_eq (c * 2 ^ 33)) in Herr by lia.
  replace (53 - 32) with 21 in Herr by reflexivity. nia.
Qed.

(** C27: For every latency below 2^32 ms (about 49.7 days), the [%f] text
    of [float64(latency.Nanoseconds()) / 1000000.0] in the log line is the
    exact nanosecond count written as milliseconds with six decimals: the
    two roundings of the float conversion and division and the decimal
    rounding of [%f] lose nothing. *)
Theorem ms_text_exact (n : Z) :
  0 <= n < 2 ^ 32 * 1000000 ->
  ms_text n = Itoa (n / 1000000) ++ "." ++ pad_zero 6 (Itoa (n mod 1000000)).
Proof.
  intros Hn. destruct (Z.eq_dec n 0) as [->|Hn0]; [reflexivity|].
  destruct (requestTimeInMs_err n ltac:(lia)) as [Hneg [a [b [Hab [Hb Herr]]]]].
  apply (fmt_f_near 6 _ a b n); auto.
  assert (0 < 2 ^ 21) by reflexivity. change (10 ^ Z.of_nat 6) with 1000000.
  nia.
Qed.

Lemma ms_text_exact_witness :
  (0 <= 1250000 < 2 ^ 32 * 1000000) /\ ms_text 1250000 = "1.250000".
Proof. split; [lia|]. rewrite (ms_text_exact 1250000) by lia. reflexivity. Defined.

(** Past [2^53] ns (about 104 days) the quotient is no longer exact:
    [2^53 - 1] ns is printed as [9007199254.740992] ms. *)
Example ms_text_past_2p53 : ms_text (2 ^ 53 - 1) = "9007199254.740992".
Proof. vm_compute. reflexivity. Qed.
