(* ===== verification/Json.v ===== *)
(** * [encoding/json] as the use cases call it

    [json.Marshal] turns the order's sub-documents (detail and history
    rows, the free-form [interface{}] metadata) into the text that
    [SafeJsonString] embeds.  [JsonValue] is what [json.Unmarshal]
    leaves in an [interface{}]: [nil], [bool], [float64], [string],
    [[]interface{}] and [map[string]interface{}].  The encoder writes
    strings with Go's escaping (HTML-safe, [\u00XX] for other control
    bytes, and [\b] [\f] as Go 1.22 and later write them), map keys in
    sorted order, and numbers as decimal integers.  A number decoded
    into [interface{}] is a [float64]; Go prints an integral [float64]
    as its exact decimal digits when its magnitude is at most 2^53, the
    range [JNumber] stands for (see the header).  A JSON string reader is
    the specification the string encoder is proved against. *)

From Stdlib Require Import String Ascii List ZArith Lia Bool Sorted Permutation RelationClasses.
From S2P Require Import Prelude SqlLex.
Import ListNotations.
Open Scope string_scope.
Open Scope go_scope.

(** ** Values of an [interface{}] after [json.Unmarshal] *)

#[warnings="-register-all"]
Inductive JsonValue : Type :=
| JNull
| JBool (b : bool)
| JNumber (n : Z)
| JString (s : string)
| JArray (items : list JsonValue)
| JObject (fields : list (string * JsonValue)).

(** ** Go's string encoder ([encodeState.string] with [escapeHTML]) *)

Definition dquote : ascii := "034".

Definition hex_digit (n : nat) : ascii :=
  if (n <? 10)%nat then ascii_of_nat (48 + n) else ascii_of_nat (87 + n).

(** The bytes copied as they are: printable ASCII other than the quote,
    the backslash and [< > &], and DEL. *)
Definition html_safe (c : ascii) : bool :=
  let n := nat_of_ascii c in
  (32 <=? n)%nat && (n <? 128)%nat &&
  negb (Ascii.eqb c dquote || Ascii.eqb c backslash ||
        Ascii.eqb c "<" || Ascii.eqb c ">" || Ascii.eqb c "&").

(** One byte of a string value.  Bytes above [0x7f] are copied: the
    model takes string values to be valid UTF-8 without U+2028/U+2029. *)
Definition json_escape_byte (c : ascii) : string :=
  let n := nat_of_ascii c in
  if html_safe c || (128 <=? n)%nat then ⟦c⟧
  else if Ascii.eqb c dquote then String backslash ⟦dquote⟧
  else if Ascii.eqb c backslash then String backslash ⟦backslash⟧
  else if (n =? 8)%nat then "\b"
  else if (n =? 12)%nat then "\f"
  else if (n =? 10)%nat then "\n"
  else if (n =? 13)%nat then "\r"
  else if (n =? 9)%nat then "\t"
  else "\u00" ++ String (hex_digit (n / 16)) ⟦hex_digit (n mod 16)⟧.

Definition marshal_string (s : string) : string :=
  String dquote (concat_map json_escape_byte s ++ ⟦dquote⟧).

Definition marshal_bool (b : bool) : string := if b then "true" else "false".

(** A JSON array or object body from already encoded elements. *)
Definition json_list (items : list string) : string :=
  "[" ++ String.concat "," items ++ "]".

Definition json_member (k : string) (v : string) : string := marshal_string k ++ ":" ++ v.

Definition json_object (members : list (string * string)) : string :=
  "{" ++ String.concat "," (map (fun '(k, v) => json_member k v) members) ++ "}".

(** Map keys are written in increasing byte order. *)
Fixpoint insert_by_key (m : string * string) (l : list (string * string)) : list (string * string) :=
  match l with
  | nil => m :: nil
  | m' :: l' => if String.leb (fst m) (fst m') then m :: l else m' :: insert_by_key m l'
  end.

Fixpoint sort_by_key (l : list (string * string)) : list (string * string) :=
  match l with
  | nil => nil
  | m :: l' => insert_by_key m (sort_by_key l')
  end.

(** [json.Marshal] of an [interface{}] value. *)
Fixpoint marshal_value (v : JsonValue) : string :=
  match v with
  | JNull => "null"
  | JBool b => marshal_bool b
  | JNumber n => Itoa n
  | JString s => marshal_string s
  | JArray items => json_list (map marshal_value items)
  | JObject fields =>
      json_object (sort_by_key (map (fun '(k, x) => (k, marshal_value x)) fields))
  end.

(** A Go slice: [nil] is written [null], an empty slice [[]]. *)
Definition marshal_slice {A} (enc : A -> string) (s : option (list A)) : string :=
  match s with
  | None => "null"
  | Some l => json_list (map enc l)
  end.

(** A Go [*string]. *)
Definition marshal_ptr_string (p : option string) : string :=
  match p with
  | None => "null"
  | Some s => marshal_string s
  end.

(** ** The reader: a JSON string literal *)

Definition hex_value (c : ascii) : option nat :=
  let n := nat_of_ascii c in
  if (48 <=? n)%nat && (n <=? 57)%nat then Some (n - 48)%nat
  else if (97 <=? n)%nat && (n <=? 102)%nat then Some (n - 87)%nat
  else if (65 <=? n)%nat && (n <=? 70)%nat then Some (n - 55)%nat
  else None.

(** A [\uXXXX] escape below [0x80] as its byte; other code points are
    outside what the encoder writes. *)
Definition unicode_byte (a b c d : ascii) : option ascii :=
  match hex_value a, hex_value b, hex_value c, hex_value d with
  | Some x1, Some x2, Some x3, Some x4 =>
      let v := (((x1 * 16 + x2) * 16 + x3) * 16 + x4)%nat in
      if (v <? 128)%nat then Some (ascii_of_nat v) else None
  | _, _, _, _ => None
  end.

Definition simple_escape (c : ascii) : option ascii :=
  if Ascii.eqb c dquote then Some dquote
  else if Ascii.eqb c backslash then Some backslash
  else if Ascii.eqb c "/" then Some "/"%char
  else if Ascii.eqb c "b" then Some (ascii_of_nat 8)
  else if Ascii.eqb c "f" then Some (ascii_of_nat 12)
  else if Ascii.eqb c "n" then Some (ascii_of_nat 10)
  else if Ascii.eqb c "r" then Some (ascii_of_nat 13)
  else if Ascii.eqb c "t" then Some (ascii_of_nat 9)
  else None.

(** The body of a JSON string after its opening quote: the text and the
    input after the closing quote. *)
Fixpoint json_unquote (s : string) : option (string * string) :=
  match s with
  | EmptyString => None
  | String c r =>
      if Ascii.eqb c dquote then Some ("", r)
      else if Ascii.eqb c backslash then
        match r with
        | String "u" (String a (String b (String c' (String d r')))) =>
            match unicode_byte a b c' d with
            | Some x => cons_text x (json_unquote r')
            | None => None
            end
        | String e r' =>
            match simple_escape e with
            | Some x => cons_text x (json_unquote r')
            | None => None
            end
        | EmptyString => None
        end
      else if (nat_of_ascii c <? 32)%nat then None
      else cons_text c (json_unquote r)
  end.

(** ** Lemmas *)

(** Each escaped byte is read back as itself (checked on all 256 bytes). *)
Lemma json_unquote_escape_byte (c : ascii) (r : string) :
  json_unquote (json_escape_byte c ++ r) = cons_text c (json_unquote r).
Proof.
  destruct c as [[] [] [] [] [] [] [] []]; reflexivity.
Qed.

(** ** Map keys in byte order *)

(** [String.leb] is a total preorder. *)
Lemma string_compare_trans (s1 s2 s3 : string) :
  String.compare s1 s2 <> Gt -> String.compare s2 s3 <> Gt -> String.compare s1 s3 <> Gt.
Proof.
  revert s2 s3. induction s1 as [|a r1 IH]; intros [|b r2] [|c r3]; cbn; try congruence.
  unfold Ascii.compare. intros H1 H2.
  destruct (N.compare_spec (N_of_ascii a) (N_of_ascii b)) as [Hab|Hab|Hab];
  destruct (N.compare_spec (N_of_ascii b) (N_of_ascii c)) as [Hbc|Hbc|Hbc];
  destruct (N.compare_spec (N_of_ascii a) (N_of_ascii c)) as [Hac|Hac|Hac];
    try congruence; try lia. eauto.
Qed.

Definition key_le (a b : string * string) : Prop := String.leb (fst a) (fst b) = true.

Lemma key_le_trans : Transitive key_le.
Proof.
  intros a b c. unfold key_le, String.leb.
  destruct (String.compare (fst a) (fst b)) eqn:E1; try discriminate;
  destruct (String.compare (fst b) (fst c)) eqn:E2; try discriminate; intros _ _;
  destruct (String.compare (fst a) (fst c)) eqn:E3; try reflexivity;
  exfalso; apply (string_compare_trans (fst a) (fst b) (fst c)); congruence.
Qed.

Lemma key_le_flip (a b : string * string) : String.leb (fst a) (fst b) = false -> key_le b a.
Proof. unfold key_le. destruct (String.leb_total (fst a) (fst b)); congruence. Qed.

Lemma insert_by_key_perm (m : string * string) (l : list (string * string)) :
  Permutation (insert_by_key m l) (m :: l).
Proof.
  induction l as [|m' l IH]; cbn; [reflexivity|].
  destruct (String.leb (fst m) (fst m')); [reflexivity|].
  rewrite IH. apply perm_swap.
Qed.

Lemma sort_by_key_perm (l : list (string * string)) : Permutation (sort_by_key l) l.
Proof.
  induction l as [|m l IH]; cbn; [reflexivity|].
  rewrite insert_by_key_perm. now apply perm_skip.
Qed.

Lemma insert_by_key_hd (a m : string * string) (l : list (string * string)) :
  key_le a m -> HdRel key_le a l -> HdRel key_le a (insert_by_key m l).
Proof.
  intros Ham Hl. destruct l as [|m' l]; cbn; [constructor; exact Ham|].
  destruct (String.leb (fst m) (fst m')); constructor; [exact Ham|]. now inversion Hl.
Qed.

Lemma insert_by_key_sorted (m : string * string) (l : list (string * string)) :
  Sorted key_le l -> Sorted key_le (insert_by_key m l).
Proof.
  induction 1 as [|m' l Hs IH Hhd]; cbn; [repeat constructor|].
  destruct (String.leb (fst m) (fst m')) eqn:E.
  - constructor; [constructor; assumption | constructor; exact E].
  - constructor; [exact IH | apply insert_by_key_hd; [apply key_le_flip, E | exact Hhd]].
Qed.

Lemma sort_by_key_sorted (l : list (string * string)) : Sorted key_le (sort_by_key l).
Proof. induction l; cbn; [constructor | now apply insert_by_key_sorted]. Qed.

(** Two key-sorted permutations of a list with distinct keys are equal. *)
Lemma sorted_perm_eq (l1 l2 : list (string * string)) :
  StronglySorted key_le l1 -> StronglySorted key_le l2 -> NoDup (map fst l1) ->
  Permutation l1 l2 -> l1 = l2.
Proof.
  revert l2. induction l1 as [|a r1 IH]; intros l2 S1 S2 Nd P.
  - symmetry. now apply Permutation_nil.
  - destruct l2 as [|b r2]; [now apply Permutation_sym, Permutation_nil_cons in P|].
    apply StronglySorted_inv in S1 as [S1 F1]. apply StronglySorted_inv in S2 as [S2 F2].
    inversion Nd as [|? ? Hna Nd']; subst.
    assert (a = b) as <-.
    { destruct (Permutation_in a P (or_introl eq_refl)) as [Hba|Ha]; [now symmetry|].
      destruct (Permutation_in b (Permutation_sym P) (or_introl eq_refl)) as [Hab|Hb];
        [exact Hab|].
      pose proof (proj1 (Forall_forall _ _) F1 b Hb) as Hab.
      pose proof (proj1 (Forall_forall _ _) F2 a Ha) as Hba.
      pose proof (String.leb_antisym _ _ Hab Hba) as Hk.
      exfalso. apply Hna. rewrite Hk. now apply in_map. }
    f_equal. apply IH; auto. now apply Permutation_cons_inv in P.
Qed.

Lemma map_fst_encode {A} (enc : A -> string) (fields : list (string * A)) :
  map fst (map (fun '(k, x) => (k, enc x)) fields) = map fst fields.
Proof. induction fields as [|[k x] r IH]; cbn; congruence. Qed.

(** A JSON string token: an opening quote and its body. *)
Definition json_string_token (s : string) : option (string * string) :=
  match s with
  | String c r => if Ascii.eqb c dquote then json_unquote r else None
  | EmptyString => None
  end.

(** ** Theorems *)

(** The string encoder is read back by
    a JSON reader as exactly the original bytes, whatever quotes,
    backslashes, control bytes or [< > &] it holds, and the reader
    resumes right after the closing quote. *)
Theorem marshal_string_roundtrip (s rest : string) :
  json_string_token (marshal_string s ++ rest) = Some (s, rest).
Proof.
  unfold marshal_string. cbn [append json_string_token]. rewrite Ascii.eqb_refl.
  induction s as [|c s IH]; [reflexivity|].
  cbn [concat_map]. rewrite !append_assoc, json_unquote_escape_byte.
  rewrite append_assoc in IH. now rewrite IH.
Qed.

(** A decoded JSON object is a Go [map]: its members have distinct
    keys and no order.  [json.Marshal] writes them in sorted key order,
    so two member lists that are permutations of each other, with
    distinct keys, are written as the same text: the list the model
    uses for a map does not leak its order into the output. *)
Theorem marshal_value_map_order (f1 f2 : list (string * JsonValue)) :
  NoDup (map fst f1) -> Permutation f1 f2 ->
  marshal_value (JObject f1) = marshal_value (JObject f2).
Proof.
  intros Nd P. cbn [marshal_value]. f_equal.
  set (enc := fun '(k, x) => (k, marshal_value x) : string * string).
  apply sorted_perm_eq.
  - apply Sorted_StronglySorted; [exact key_le_trans | apply sort_by_key_sorted].
  - apply Sorted_StronglySorted; [exact key_le_trans | apply sort_by_key_sorted].
  - eapply Permutation_NoDup; [symmetry; apply Permutation_map, sort_by_key_perm|].
    unfold enc. now rewrite map_fst_encode.
  - rewrite !sort_by_key_perm. now apply Permutation_map.
Qed.

Lemma marshal_value_map_order_witness :
  NoDup (map fst [("b", JNumber 1); ("a", JNull)]) /\
  Permutation [("b", JNumber 1); ("a", JNull)] [("a", JNull); ("b", JNumber 1)] /\
  marshal_value (JObject [("b", JNumber 1); ("a", JNull)])
  = marshal_value (JObject [("a", JNull); ("b", JNumber 1)]).
Proof.
  assert (Nd : NoDup (map fst [("b", JNumber 1); ("a", JNull)]))
    by (repeat constructor; cbn; intuition discriminate).
  assert (P : Permutation [("b", JNumber 1); ("a", JNull)] [("a", JNull); ("b", JNumber 1)])
    by apply perm_swap.
  split; [exact Nd|]. split; [exact P|]. exact (marshal_value_map_order _ _ Nd P).
Defined.
