(* ===== verification/Orders.v ===== *)
(** * The order data model: [src/internal/handler/model/ppob.go] and [nonppob.go]

    One Module per Go struct, holding a Record [t] whose fields keep the
    struct's field names ([Type] becomes [Type_]).  A Go [int] is a [Z]
    (within [int64], as [json.Unmarshal] guarantees), an [interface{}]
    a [JsonValue] ([JNull] for [nil]), a [*string] an [option string],
    and a slice an [option (list _)] ([None] for a [nil] slice, which
    [json.Marshal] writes [null]).  Each row type has its [json.Marshal]
    encoding, fields in declaration order under their [json:] tags. *)

From Stdlib Require Import String Ascii List ZArith Lia Bool.
From S2P Require Import Prelude SqlLex Json.
Import ListNotations.
Open Scope string_scope.
Open Scope go_scope.

(** ** PPOB *)

Module PPOBCustomer.
Record t := mk { Id : string; Name : string; Type_ : string; Phone : string }.
End PPOBCustomer.

Module PPOBProduct.
Record t := mk { Id : string; Name : string; Category : string }.
End PPOBProduct.

Module PPOBCategory.
Record t := mk { Id : string; Name : string }.
End PPOBCategory.

Module PPOBPayment.
Record t := mk { ReferenceId : string; Channel : string; PaymentCode : string;
                 PaymentGateway : string; Metadata : JsonValue }.
End PPOBPayment.

Module PPOBCommissionFee.
Record t := mk { Jatis : Z; Aggregator : Z; Biller : Z }.
End PPOBCommissionFee.

Module PPOBInquiry.
Record t := mk { Id : string; AccountRef : string; Expiry : string; Response : JsonValue;
                 CreatedAt : string; UpdatedAt : option string; DeletedAt : option string }.

Definition marshal (i : t) : string :=
    json_object
      [("id", marshal_string (Id i)); ("account_ref", marshal_string (AccountRef i));
       ("expiry", marshal_string (Expiry i)); ("response", marshal_value (Response i));
       ("created_at", marshal_string (CreatedAt i));
       ("updated_at", marshal_ptr_string (UpdatedAt i));
       ("deleted_at", marshal_ptr_string (DeletedAt i))].
End PPOBInquiry.

Module PPOBOrderDetail.
Record t := mk { Id : string; ItemId : string; ItemParentId : string; Inquiry : PPOBInquiry.t;
                 ItemName : string; Nominal : Z; TransactionStatus : string; Price : Z;
                 Tax : Z; Fee : Z; Reference : string; Metadata : JsonValue;
                 CreatedAt : string; UpdatedAt : string; UpdatedBy : string;
                 ProductCode : string }.

Definition marshal (d : t) : string :=
    json_object
      [("id", marshal_string (Id d)); ("item_id", marshal_string (ItemId d));
       ("item_parent_id", marshal_string (ItemParentId d));
       ("inquiry", PPOBInquiry.marshal (Inquiry d));
       ("item_name", marshal_string (ItemName d)); ("nominal", Itoa (Nominal d));
       ("transaction_status", marshal_string (TransactionStatus d));
       ("price", Itoa (Price d)); ("tax", Itoa (Tax d)); ("fee", Itoa (Fee d));
       ("reference", marshal_string (Reference d)); ("metadata", marshal_value (Metadata d));
       ("created_at", marshal_string (CreatedAt d)); ("updated_at", marshal_string (UpdatedAt d));
       ("updated_by", marshal_string (UpdatedBy d));
       ("product_code", marshal_string (ProductCode d))].
End PPOBOrderDetail.

Module PPOBOrderHistory.
Record t := mk { Id : string; Status : string; Metadata : JsonValue;
                 CreatedAt : string; CreatedBy : string }.

Definition marshal (h : t) : string :=
    json_object
      [("id", marshal_string (Id h)); ("status", marshal_string (Status h));
       ("metadata", marshal_value (Metadata h)); ("created_at", marshal_string (CreatedAt h));
       ("created_by", marshal_string (CreatedBy h))].
End PPOBOrderHistory.

Module PPOBOrder.
Record t := mk {
    Id : string; ReferenceId : string; Customer : PPOBCustomer.t; Product : PPOBProduct.t;
    Category : PPOBCategory.t; Payment : PPOBPayment.t; CommissionFee : PPOBCommissionFee.t;
    Amount : Z; ServiceFee : Z; PaymentFee : Z; TotalTax : Z; TotalFee : Z; Total : Z;
    PaymentStatus : string; OrderStatus : string; ExpiredAt : string; CreatedAt : string;
    UpdatedAt : string; Source : string; Details : option (list PPOBOrderDetail.t);
    History : option (list PPOBOrderHistory.t); Metadata : JsonValue; MetadataRaw : string }.

  (** [objData.MetadataRaw = jsonBody] in the handler. *)
Definition with_MetadataRaw (o : t) (raw : string) : t :=
    mk (Id o) (ReferenceId o) (Customer o) (Product o) (Category o) (Payment o)
       (CommissionFee o) (Amount o) (ServiceFee o) (PaymentFee o) (TotalTax o) (TotalFee o)
       (Total o) (PaymentStatus o) (OrderStatus o) (ExpiredAt o) (CreatedAt o) (UpdatedAt o)
       (Source o) (Details o) (History o) (Metadata o) raw.
End PPOBOrder.

(** [AggregatorMetadata] and [Aggregator]: declared next to the order
    types; the use case reads the aggregator through untyped lookups
    instead ([Extract.v]). *)
Module Aggregator.
Record t := mk { Id : string; Name : string; Contact : string }.
End Aggregator.

Module AggregatorMetadata.
Record t := mk { Aggregator : option Aggregator.t }.
End AggregatorMetadata.

(** ** Non-PPOB *)

Module Tenant.
Record t := mk { Id : string; Name : string }.
End Tenant.

Module Store.
Record t := mk { Id : string; Name : string }.
End Store.

Module NonPPOBCustomer.
Record t := mk { Id : string; Name : string; Phone : string; Address : string }.
End NonPPOBCustomer.

Module Delivery.
Record t := mk { Method : string; ReferenceId : string; DeliveryUrl : option string;
                 Metadata : JsonValue }.
End Delivery.

Module NonPPOBPayment.
Record t := mk { ReferenceId : string; Channel : string; PaymentCode : string;
                 PaymentGateway : string; Metadata : JsonValue }.
End NonPPOBPayment.

Module CommissionFee.
Record t := mk { Jatis : Z; Aggregator : Z; Biller : Z }.
End CommissionFee.

Module NonPPOBOrderDetail.
Record t := mk { Id : Z; Count : Z; Deducted : bool; Note : string; ItemId : string;
                 ItemName : string; BasePrice : Z; Price : Z; Discount : Z;
                 CreatedAt : string; UpdatedAt : string }.

Definition marshal (d : t) : string :=
    json_object
      [("id", Itoa (Id d)); ("count", Itoa (Count d)); ("deducted", marshal_bool (Deducted d));
       ("note", marshal_string (Note d)); ("item_id", marshal_string (ItemId d));
       ("item_name", marshal_string (ItemName d)); ("base_price", Itoa (BasePrice d));
       ("price", Itoa (Price d)); ("discount", Itoa (Discount d));
       ("created_at", marshal_string (CreatedAt d)); ("updated_at", marshal_string (UpdatedAt d))].
End NonPPOBOrderDetail.

Module NonPPOBOrderHistory.
Record t := mk { Id : Z; OrderId : Z; OrderStatus : string; Description : string;
                 Metadata : JsonValue; CreatedAt : string }.

Definition marshal (h : t) : string :=
    json_object
      [("id", Itoa (Id h)); ("order_id", Itoa (OrderId h));
       ("order_status", marshal_string (OrderStatus h));
       ("description", marshal_string (Description h));
       ("metadata", marshal_value (Metadata h)); ("created_at", marshal_string (CreatedAt h))].
End NonPPOBOrderHistory.

Module NonPPOBOrder.
Record t := mk {
    Id : string; ReferenceId : string; Tenant : Tenant.t; Store : Store.t;
    Customer : NonPPOBCustomer.t; Delivery : Delivery.t; Payment : NonPPOBPayment.t;
    ItemQty : Z; Amount : Z; VoucherCode : string; VoucherAmount : Z; ServiceFee : Z;
    PaymentFee : Z; DeliveryFee : Z; Discount : Z; InsuranceFee : Z; TotalBeforeTax : Z;
    TotalTax : Z; Total : Z; IsPaid : bool; PaymentStatus : string; OrderStatus : string;
    ExpiredAt : string; CreatedAt : string; UpdatedAt : string; ReferralCode : string;
    CommissionFee : CommissionFee.t; Details : option (list NonPPOBOrderDetail.t);
    History : option (list NonPPOBOrderHistory.t); Metadata : JsonValue; MetadataRaw : string }.

Definition with_MetadataRaw (o : t) (raw : string) : t :=
    mk (Id o) (ReferenceId o) (Tenant o) (Store o) (Customer o) (Delivery o) (Payment o)
       (ItemQty o) (Amount o) (VoucherCode o) (VoucherAmount o) (ServiceFee o) (PaymentFee o)
       (DeliveryFee o) (Discount o) (InsuranceFee o) (TotalBeforeTax o) (TotalTax o) (Total o)
       (IsPaid o) (PaymentStatus o) (OrderStatus o) (ExpiredAt o) (CreatedAt o) (UpdatedAt o)
       (ReferralCode o) (CommissionFee o) (Details o) (History o) (Metadata o) raw.
End NonPPOBOrder.
