(* ===== verification/Extract.v ===== *)
(** * The nested metadata extractor: [src/internal/usecase/ppob.go]

    [extractAggregatorMetadata] walks the untyped [interface{}] metadata
    with type assertions; every failed assertion or missing key gives
    empty strings.  The PPOB [Create] also takes the account reference
    of the first detail row and the product and category only when
    their id is set.  A decoded [map[string]interface{}] is a
    [JObject] with distinct keys ([wf_json]: [json.Unmarshal] keeps
    the last of duplicate keys), on which [map_index] is the Go map
    index. *)

From Stdlib Require Import String Ascii List ZArith Lia Bool.
From S2P Require Import Prelude SqlLex Json Orders.
Import ListNotations.
Open Scope string_scope.
Open Scope go_scope.

(** ** The code *)

(** [m[k]] on a [map[string]interface{}]: the value and whether the key
    exists. *)
Fixpoint map_index (k : string) (fields : list (string * JsonValue)) : option JsonValue :=
  match fields with
  | nil => None
  | (k', v) :: r => if String.eqb k k' then Some v else map_index k r
  end.

(** [x, ok := v.(map[string]interface{})]. *)
Definition as_map (v : JsonValue) : option (list (string * JsonValue)) :=
  match v with
  | JObject fs => Some fs
  | _ => None
  end.

(** [if s, ok := agg[k].(string); ok { ... }]: a missing key is a [nil]
    interface, whose assertion fails like any non-string. *)
Definition string_field (agg : list (string * JsonValue)) (k : string) : string :=
  match map_index k agg with
  | Some (JString s) => s
  | _ => ""
  end.

(** [func extractAggregatorMetadata(metadata interface{}) (string, string, string)]. *)
Definition extractAggregatorMetadata (metadata : JsonValue) : string * string * string :=
  match metadata with
  | JNull => ("", "", "")
  | _ =>
      match as_map metadata with
      | None => ("", "", "")
      | Some metadataMap =>
          match map_index "aggregator" metadataMap with
          | None => ("", "", "")
          | Some aggData =>
              match as_map aggData with
              | None => ("", "", "")
              | Some agg =>
                  (string_field agg "id", string_field agg "name", string_field agg "contact")
              end
          end
      end
  end.

(** [if len(order.Details) > 0 { accountRef = order.Details[0].Inquiry.AccountRef }]. *)
Definition accountRef (details : option (list PPOBOrderDetail.t)) : string :=
  match details with
  | Some (d :: _) => PPOBInquiry.AccountRef (PPOBOrderDetail.Inquiry d)
  | _ => ""
  end.

(** [if order.Product.Id != "" { productId, productName, productCategory = ... }]. *)
Definition productInfo (p : PPOBProduct.t) : string * string * string :=
  if String.eqb (PPOBProduct.Id p) "" then ("", "", "")
  else (PPOBProduct.Id p, PPOBProduct.Name p, PPOBProduct.Category p).

(** [if order.Category.Id != "" { categoryId, categoryName = ... }]. *)
Definition categoryInfo (c : PPOBCategory.t) : string * string :=
  if String.eqb (PPOBCategory.Id c) "" then ("", "")
  else (PPOBCategory.Id c, PPOBCategory.Name c).

(** ** The specification: where a field value comes from *)

(** [v] is the string stored under key [k] of the aggregator object of
    [m]. *)
Definition agg_has (m : JsonValue) (k v : string) : Prop :=
  exists fs agg, m = JObject fs /\ map_index "aggregator" fs = Some (JObject agg) /\
                 map_index k agg = Some (JString v).

(** Either the field holds a string and the result is that string, or
    it holds none and the result is empty. *)
Definition agg_field_spec (m : JsonValue) (k r : string) : Prop :=
  agg_has m k r \/ (r = "" /\ forall v, ~ agg_has m k v).

Lemma agg_has_fun (m : JsonValue) (k v w : string) : agg_has m k v -> agg_has m k w -> v = w.
Proof.
  intros (fs & a & -> & Ha & Hk) (fs' & a' & [= <-] & Ha' & Hk').
  rewrite Ha in Ha'. injection Ha' as <-. rewrite Hk in Hk'. congruence.
Qed.

Lemma string_field_spec (m : JsonValue) (fs agg : list (string * JsonValue)) (k : string) :
  m = JObject fs -> map_index "aggregator" fs = Some (JObject agg) ->
  agg_field_spec m k (string_field agg k).
Proof.
  intros -> Ha. unfold agg_field_spec, string_field.
  destruct (map_index k agg) as [[]|] eqn:Hk;
    try (left; now exists fs, agg);
    right; split; trivial; intros v (fs' & a' & [= <-] & Ha' & Hk');
    rewrite Ha in Ha'; injection Ha' as <-; congruence.
Qed.

Lemma no_agg_field (m : JsonValue) (k : string) :
  (forall fs agg, m = JObject fs -> map_index "aggregator" fs <> Some (JObject agg)) ->
  agg_field_spec m k "".
Proof.
  intros H. right. split; [reflexivity|]. intros v (fs & a & Hm & Ha & _).
  exact (H fs a Hm Ha).
Qed.

(** ** Theorems *)

Lemma extractAggregatorMetadata_fields (m : JsonValue) :
  let '(i, n, c) := extractAggregatorMetadata m in
  agg_field_spec m "id" i /\ agg_field_spec m "name" n /\ agg_field_spec m "contact" c.
Proof.
  destruct m as [| | | | |fs]; cbn;
    try (repeat split; apply no_agg_field; discriminate).
  destruct (map_index "aggregator" fs) as [agg|] eqn:Ha.
  - destruct agg as [| | | | |a]; cbn;
      try (repeat split; apply no_agg_field; intros ? ? [= <-]; rewrite Ha; discriminate).
    repeat split; eapply string_field_spec; eauto.
  - repeat split; apply no_agg_field; intros ? ? [= <-]; rewrite Ha; discriminate.
Qed.

(** C16: The extractor never fails and
    returns, for each of [id], [name] and [contact], the string stored
    under that key of the metadata's [aggregator] object when there is
    one, and the empty string in every other case ([nil] metadata, a
    non-object, no [aggregator] key, a non-object aggregator, a missing
    or non-string field). *)
Theorem extractAggregatorMetadata_spec (m : JsonValue) :
  let '(i, n, c) := extractAggregatorMetadata m in
  agg_field_spec m "id" i /\ agg_field_spec m "name" n /\ agg_field_spec m "contact" c.
Proof. apply extractAggregatorMetadata_fields. Qed.

(** A detail row whose inquiry carries the account reference [ACC123]. *)
Definition detail_with_account_ref (ref : string) : PPOBOrderDetail.t :=
  PPOBOrderDetail.mk "D1" "I1" "" (PPOBInquiry.mk "Q1" ref "" JNull "" None None)
    "" 0 "" 0 0 0 "" JNull "" "" "" "".

(** The spec's extractor examples: no detail rows (a [nil] or an
    empty slice) give an empty account reference, and only the first
    row's inquiry is read; the aggregator object
    [{"id":"A1","name":"Agg","contact":"08123"}] gives
    [("A1","Agg","08123")], and [{}] or [null] give empty strings. *)
Theorem extract_spec_examples :
  accountRef None = "" /\ accountRef (Some []) = "" /\
  accountRef (Some [detail_with_account_ref "ACC123"; detail_with_account_ref "ACC999"]) = "ACC123" /\
  extractAggregatorMetadata
    (JObject [("aggregator", JObject [("id", JString "A1"); ("name", JString "Agg");
                                      ("contact", JString "08123")])]) = ("A1", "Agg", "08123") /\
  extractAggregatorMetadata (JObject []) = ("", "", "") /\
  extractAggregatorMetadata JNull = ("", "", "").
Proof. vm_compute. repeat split. Qed.
