(* ===== verification/Synth.v ===== *)
(** * The command synthesiser: [Create] of [src/internal/usecase/ppob.go] and [nonppob.go]

    Each use case marshals the sub-documents, extracts the nested
    metadata, and formats one [INSERT] with [fmt.Sprintf]: string
    columns through [NullIfEmpty] (some after [SafeString], some
    without), JSON columns through [SafeJsonString], and the [int] and
    [bool] columns as raw operands of [%v].  The column table of each
    statement is explicit ([ppob_columns], [nonppob_columns]) and the
    abstract row the statement should carry is [ppob_row] /
    [nonppob_row]; the refinement theorems read the command back with
    the consumer's parser and get exactly that table and row. *)

From Stdlib Require Import String Ascii List ZArith Lia Bool.
From S2P Require Import Prelude SqlLex Literal Fmt Json Orders Extract.
Import ListNotations.
Open Scope string_scope.
Open Scope go_scope.

Create HintDb synth discriminated.

(** ** PPOB *)

Section PPOB.
Import PPOBOrder.

(** The format literal of [PPOBUsecaseImpl.Create], verbatim. *)
Definition ppob_format : string :=
  "INSERT INTO orders_ppob (id, reference_id, customer_id, customer_name, customer_type, customer_phone, product_id, product_name, product_category, category_id, category_name, account_ref, payment_reference, payment_channel, payment_code, payment_gateway, payment_metadata, amount, commission_jatis, commission_biller, commission_aggregator, service_fee, payment_fee, total_tax, total_fee, total, payment_status, order_status, source, expired_at, created_at, updated_at, aggregator_id, aggregator_name, aggregator_phone, metadata, details, history, metadata_source) VALUES(%v, %v, %v, %v, %v, %v, %v, %v, %v, %v, %v, %v, %v, %v, %v, %v, %v, %v, %v, %v, %v, %v, %v, %v, %v, %v, %v, %v, %v, %v, %v, %v, %v, %v, %v, %v, %v, %v, %v);".

(** [json.Marshal(order.Details)], [json.Marshal(order.History)]; the
    errors they may return never occur for these types. *)
Definition ppob_detailsJson (order : PPOBOrder.t) : string :=
  marshal_slice PPOBOrderDetail.marshal (Details order).

Definition ppob_historyJson (order : PPOBOrder.t) : string :=
  marshal_slice PPOBOrderHistory.marshal (History order).

(** The operands of the [fmt.Sprintf] call, in the order of the source. *)
Definition ppob_args (order : PPOBOrder.t) : list Any :=
  let detailsJson := ppob_detailsJson order in
  let historyJson := ppob_historyJson order in
  let '(aggregatorId, aggregatorName, aggregatorPhone) := extractAggregatorMetadata (Metadata order) in
  let '(productId, productName, productCategory) := productInfo (Product order) in
  let '(categoryId, categoryName) := categoryInfo (Category order) in
  let accountRef := accountRef (Details order) in
  let metadataJson := marshal_value (Metadata order) in
  let paymentMetadataJson := marshal_value (PPOBPayment.Metadata (Payment order)) in
  [AnyString (NullIfEmpty (AnyString (Id order)));
   AnyString (NullIfEmpty (AnyString (ReferenceId order)));
   AnyString (NullIfEmpty (AnyString (PPOBCustomer.Id (Customer order))));
   AnyString (NullIfEmpty (AnyString (SafeString (PPOBCustomer.Name (Customer order)))));
   AnyString (NullIfEmpty (AnyString (SafeString (PPOBCustomer.Type_ (Customer order)))));
   AnyString (NullIfEmpty (AnyString (PPOBCustomer.Phone (Customer order))));
   AnyString (NullIfEmpty (AnyString productId));
   AnyString (NullIfEmpty (AnyString (SafeString productName)));
   AnyString (NullIfEmpty (AnyString (SafeString productCategory)));
   AnyString (NullIfEmpty (AnyString categoryId));
   AnyString (NullIfEmpty (AnyString (SafeString categoryName)));
   AnyString (NullIfEmpty (AnyString accountRef));
   AnyString (NullIfEmpty (AnyString (PPOBPayment.ReferenceId (Payment order))));
   AnyString (NullIfEmpty (AnyString (SafeString (PPOBPayment.Channel (Payment order)))));
   AnyString (NullIfEmpty (AnyString (SafeString (PPOBPayment.PaymentCode (Payment order)))));
   AnyString (NullIfEmpty (AnyString (SafeString (PPOBPayment.PaymentGateway (Payment order)))));
   AnyString (SafeJsonString paymentMetadataJson);
   AnyInt (Amount order);
   AnyInt (PPOBCommissionFee.Jatis (CommissionFee order));
   AnyInt (PPOBCommissionFee.Biller (CommissionFee order));
   AnyInt (PPOBCommissionFee.Aggregator (CommissionFee order));
   AnyInt (ServiceFee order);
   AnyInt (PaymentFee order);
   AnyInt (TotalTax order);
   AnyInt (TotalFee order);
   AnyInt (Total order);
   AnyString (NullIfEmpty (AnyString (PaymentStatus order)));
   AnyString (NullIfEmpty (AnyString (OrderStatus order)));
   AnyString (NullIfEmpty (AnyString (Source order)));
   AnyString (NullIfEmpty (AnyString (ExpiredAt order)));
   AnyString (NullIfEmpty (AnyString (CreatedAt order)));
   AnyString (NullIfEmpty (AnyString (UpdatedAt order)));
   AnyString (NullIfEmpty (AnyString aggregatorId));
   AnyString (NullIfEmpty (AnyString (SafeString aggregatorName)));
   AnyString (NullIfEmpty (AnyString aggregatorPhone));
   AnyString (SafeJsonString metadataJson);
   AnyString (SafeJsonString detailsJson);
   AnyString (SafeJsonString historyJson);
   AnyString (SafeJsonString (MetadataRaw order))].

(** [strSql = fmt.Sprintf(...)]. *)
Definition ppob_sql (order : PPOBOrder.t) : string := Sprintf ppob_format (ppob_args order).

(** ** The wire contract *)

(** The column table, position by position. *)
Definition ppob_columns : list string :=
  ["id"; "reference_id"; "customer_id"; "customer_name"; "customer_type"; "customer_phone"; "product_id"; "product_name"; "product_category"; "category_id"; "category_name"; "account_ref"; "payment_reference"; "payment_channel"; "payment_code"; "payment_gateway"; "payment_metadata"; "amount"; "commission_jatis"; "commission_biller"; "commission_aggregator"; "service_fee"; "payment_fee"; "total_tax"; "total_fee"; "total"; "payment_status"; "order_status"; "source"; "expired_at"; "created_at"; "updated_at"; "aggregator_id"; "aggregator_name"; "aggregator_phone"; "metadata"; "details"; "history"; "metadata_source"].

(** The row the statement should insert: what the database stores in
    each column of [ppob_columns]. *)
Definition ppob_row (order : PPOBOrder.t) : list SqlVal :=
  let '(aggregatorId, aggregatorName, aggregatorPhone) := extractAggregatorMetadata (Metadata order) in
  let '(productId, productName, productCategory) := productInfo (Product order) in
  let '(categoryId, categoryName) := categoryInfo (Category order) in
  [text_or_null (Id order); text_or_null (ReferenceId order);
   text_or_null (PPOBCustomer.Id (Customer order)); text_or_null (PPOBCustomer.Name (Customer order));
   text_or_null (PPOBCustomer.Type_ (Customer order)); text_or_null (PPOBCustomer.Phone (Customer order));
   text_or_null productId; text_or_null productName; text_or_null productCategory;
   text_or_null categoryId; text_or_null categoryName; text_or_null (accountRef (Details order));
   text_or_null (PPOBPayment.ReferenceId (Payment order));
   text_or_null (PPOBPayment.Channel (Payment order));
   text_or_null (PPOBPayment.PaymentCode (Payment order));
   text_or_null (PPOBPayment.PaymentGateway (Payment order));
   VText (marshal_value (PPOBPayment.Metadata (Payment order)));
   VNum (Amount order); VNum (PPOBCommissionFee.Jatis (CommissionFee order));
   VNum (PPOBCommissionFee.Biller (CommissionFee order));
   VNum (PPOBCommissionFee.Aggregator (CommissionFee order));
   VNum (ServiceFee order); VNum (PaymentFee order); VNum (TotalTax order);
   VNum (TotalFee order); VNum (Total order);
   text_or_null (PaymentStatus order); text_or_null (OrderStatus order);
   text_or_null (Source order); text_or_null (ExpiredAt order);
   text_or_null (CreatedAt order); text_or_null (UpdatedAt order);
   text_or_null aggregatorId; text_or_null aggregatorName; text_or_null aggregatorPhone;
   VText (marshal_value (Metadata order)); VText (ppob_detailsJson order);
   VText (ppob_historyJson order); VText (MetadataRaw order)].

(** The string columns the code passes to [NullIfEmpty] without
    [SafeString]. *)
Definition ppob_unescaped (order : PPOBOrder.t) : list string :=
  let '(aggregatorId, _, aggregatorPhone) := extractAggregatorMetadata (Metadata order) in
  let '(productId, _, _) := productInfo (Product order) in
  let '(categoryId, _) := categoryInfo (Category order) in
  [Id order; ReferenceId order; PPOBCustomer.Id (Customer order);
   PPOBCustomer.Phone (Customer order); productId; categoryId; accountRef (Details order);
   PPOBPayment.ReferenceId (Payment order); PaymentStatus order; OrderStatus order;
   Source order; ExpiredAt order; CreatedAt order; UpdatedAt order; aggregatorId;
   aggregatorPhone].

End PPOB.

(** ** Shared lemmas *)

Fixpoint no_quote (s : string) : bool :=
  match s with
  | EmptyString => true
  | String c r => negb (Ascii.eqb c quote) && no_quote r
  end.

Lemma SafeString_no_quote (s : string) : no_quote s = true -> SafeString s = s.
Proof.
  induction s as [|c s IH]; simpl; [reflexivity|]. intros H.
  apply andb_true_iff in H as [Hc Hs]. apply negb_true_iff in Hc.
  unfold SafeString in *. cbn [concat_map]. unfold safe_byte at 1. rewrite Hc, IH; auto.
Qed.

Lemma lexes_safe (s : string) :
  lexes_as (fmt_v (AnyString (NullIfEmpty (AnyString (SafeString s))))) (text_or_null s).
Proof. intros rest Hr. now apply lex_NullIfEmpty_SafeString. Qed.

Lemma lexes_plain (s : string) :
  no_quote s = true -> lexes_as (fmt_v (AnyString (NullIfEmpty (AnyString s)))) (text_or_null s).
Proof.
  intros Hs rest Hr. rewrite <- (SafeString_no_quote s Hs) at 1.
  now apply lex_NullIfEmpty_SafeString.
Qed.

Lemma lexes_json (j : string) : lexes_as (fmt_v (AnyString (SafeJsonString j))) (VText j).
Proof. intros rest Hr. now apply lex_SafeJsonString. Qed.

Lemma lexes_int (z : Z) : lexes_as (fmt_v (AnyInt z)) (VNum z).
Proof. intros rest Hr. now apply lex_value_Itoa. Qed.

Lemma lexes_bool (b : bool) : lexes_as (fmt_v (AnyBool b)) (VBool b).
Proof. intros rest Hr. destruct b; reflexivity. Qed.

#[export] Hint Resolve lexes_safe lexes_json lexes_int lexes_bool : synth.

Definition ppob_header : string :=
  "INSERT INTO orders_ppob (" ++ String.concat ", " ppob_columns ++ ") VALUES(".

Lemma ppob_format_shape : ppob_format = ppob_header ++ placeholders 39 ++ ");".
Proof. vm_compute. reflexivity. Qed.

Lemma ppob_parse_header (r : string) :
  parse_insert (ppob_header ++ r)
  = match lex_values (String.length r) r with
    | Some vals => Some ("orders_ppob", ppob_columns, vals)
    | None => None
    end.
Proof. reflexivity. Qed.

#[export] Hint Extern 2 (lexes_as _ _) => (apply lexes_plain; assumption) : synth.

(** A statement printed from operands that each read back as a value
    reads back as the list of those values. *)
Lemma parse_values (args : list Any) (row : list SqlVal) :
  Forall2 lexes_as (map fmt_v args) row -> args <> nil ->
  lex_values (String.length (String.concat ", " (map fmt_v args) ++ ");"))
             (String.concat ", " (map fmt_v args) ++ ");") = Some row.
Proof.
  intros H Hne. apply lex_values_concat; [exact H| |apply length_concat_sep].
  destruct args; [contradiction|discriminate].
Qed.

Ltac forall2_lexes :=
  repeat (apply Forall2_cons; [solve [eauto with synth]|]); apply Forall2_nil.

Ltac split_bools :=
  repeat match goal with
         | H : _ && _ = true |- _ => apply andb_true_iff in H as [? ?]
         end.




Lemma ppob_sql_parse (order : PPOBOrder.t) :
  forallb no_quote (ppob_unescaped order) = true ->
  parse_insert (ppob_sql order) = Some ("orders_ppob", ppob_columns, ppob_row order).
Proof.
  unfold ppob_sql, ppob_args, ppob_row, ppob_unescaped.
  destruct (extractAggregatorMetadata _) as [[ai an] ap].
  destruct (productInfo _) as [[pi pn] pc]. destruct (categoryInfo _) as [ci cn].
  cbn [forallb]. intros H. split_bools.
  rewrite ppob_format_shape, Sprintf_placeholders_n by (reflexivity || discriminate).
  rewrite ppob_parse_header. erewrite parse_values; [reflexivity| |discriminate].
  cbn [map]. forall2_lexes.
Qed.

(** C1: The PPOB command is the row it should be:
    read back by the database, [ppob_sql order] is an insert into
    [orders_ppob] with exactly the column table [ppob_columns], each
    column carrying the value [ppob_row order] assigns it (escaped
    strings as their text or [NULL], integers as themselves, the four
    JSON documents and the raw body as their text), provided the string
    fields the code leaves unescaped hold no single quote. *)
Theorem ppob_sql_refines (order : PPOBOrder.t) :
  forallb no_quote (ppob_unescaped order) = true ->
  parse_insert (ppob_sql order) = Some ("orders_ppob", ppob_columns, ppob_row order).
Proof. exact (ppob_sql_parse order). Qed.

(** ** Non-PPOB *)

Section NonPPOB.
Import NonPPOBOrder.

(** The format literal of [NonPPOBUsecaseImpl.Create], verbatim. *)
Definition nonppob_format : string :=
  "INSERT INTO orders_nonppob (id, reference_id, customer_id, customer_name, customer_phone, customer_address, tenant_id, tenant_name, store_id, store_name, delivery_method, delivery_reference, delivery_fee, delivery_url, payment_reference, payment_channel, payment_code, payment_gateway, payment_fee, item_qty, amount, voucher_code, voucher_amount, discount, service_fee, insurance_fee, total_before_tax, total_tax, total, commission_jatis, commission_aggregator, commission_biller, referral_code, is_paid, payment_status, order_status, expired_at, created_at, updated_at, details, history, metadata_source) VALUES(%v, %v, %v, %v, %v, %v, %v, %v, %v, %v, %v, %v, %v, %v, %v, %v, %v, %v, %v, %v, %v, %v, %v, %v, %v, %v, %v, %v, %v, %v, %v, %v, %v, %v, %v, %v, %v, %v, %v, %v, %v, %v);".

Definition nonppob_detailsJson (order : NonPPOBOrder.t) : string :=
  marshal_slice NonPPOBOrderDetail.marshal (Details order).

Definition nonppob_historyJson (order : NonPPOBOrder.t) : string :=
  marshal_slice NonPPOBOrderHistory.marshal (History order).

(** [var deliveryUrl string; if order.Delivery.DeliveryUrl != nil { deliveryUrl = *order.Delivery.DeliveryUrl }]. *)
Definition deliveryUrl (d : Delivery.t) : string :=
  match Delivery.DeliveryUrl d with
  | Some u => u
  | None => ""
  end.

(** The operands of the [fmt.Sprintf] call, in the order of the source. *)
Definition nonppob_args (order : NonPPOBOrder.t) : list Any :=
  let detailsJson := nonppob_detailsJson order in
  let historyJson := nonppob_historyJson order in
  let deliveryUrl := deliveryUrl (Delivery order) in
  [AnyString (NullIfEmpty (AnyString (Id order)));
   AnyString (NullIfEmpty (AnyString (ReferenceId order)));
   AnyString (NullIfEmpty (AnyString (NonPPOBCustomer.Id (Customer order))));
   AnyString (NullIfEmpty (AnyString (SafeString (NonPPOBCustomer.Name (Customer order)))));
   AnyString (NullIfEmpty (AnyString (NonPPOBCustomer.Phone (Customer order))));
   AnyString (NullIfEmpty (AnyString (NonPPOBCustomer.Address (Customer order))));
   AnyString (NullIfEmpty (AnyString (Tenant.Id (Tenant order))));
   AnyString (NullIfEmpty (AnyString (SafeString (Tenant.Name (Tenant order)))));
   AnyString (NullIfEmpty (AnyString (Store.Id (Store order))));
   AnyString (NullIfEmpty (AnyString (SafeString (Store.Name (Store order)))));
   AnyString (NullIfEmpty (AnyString (SafeString (Delivery.Method (Delivery order)))));
   AnyString (NullIfEmpty (AnyString (Delivery.ReferenceId (Delivery order))));
   AnyInt (DeliveryFee order);
   AnyString (NullIfEmpty (AnyString (SafeString deliveryUrl)));
   AnyString (NullIfEmpty (AnyString (NonPPOBPayment.ReferenceId (Payment order))));
   AnyString (NullIfEmpty (AnyString (SafeString (NonPPOBPayment.Channel (Payment order)))));
   AnyString (NullIfEmpty (AnyString (SafeString (NonPPOBPayment.PaymentCode (Payment order)))));
   AnyString (NullIfEmpty (AnyString (SafeString (NonPPOBPayment.PaymentGateway (Payment order)))));
   AnyInt (PaymentFee order);
   AnyInt (ItemQty order);
   AnyInt (Amount order);
   AnyString (NullIfEmpty (AnyString (VoucherCode order)));
   AnyInt (VoucherAmount order);
   AnyInt (Discount order);
   AnyInt (ServiceFee order);
   AnyInt (InsuranceFee order);
   AnyInt (TotalBeforeTax order);
   AnyInt (TotalTax order);
   AnyInt (Total order);
   AnyInt (CommissionFee.Jatis (CommissionFee order));
   AnyInt (CommissionFee.Aggregator (CommissionFee order));
   AnyInt (CommissionFee.Biller (CommissionFee order));
   AnyString (NullIfEmpty (AnyString (ReferralCode order)));
   AnyBool (IsPaid order);
   AnyString (NullIfEmpty (AnyString (PaymentStatus order)));
   AnyString (NullIfEmpty (AnyString (OrderStatus order)));
   AnyString (NullIfEmpty (AnyString (ExpiredAt order)));
   AnyString (NullIfEmpty (AnyString (CreatedAt order)));
   AnyString (NullIfEmpty (AnyString (UpdatedAt order)));
   AnyString (SafeJsonString detailsJson);
   AnyString (SafeJsonString historyJson);
   AnyString (SafeJsonString (MetadataRaw order))].

Definition nonppob_sql (order : NonPPOBOrder.t) : string :=
  Sprintf nonppob_format (nonppob_args order).

Definition nonppob_columns : list string :=
  ["id"; "reference_id"; "customer_id"; "customer_name"; "customer_phone"; "customer_address"; "tenant_id"; "tenant_name"; "store_id"; "store_name"; "delivery_method"; "delivery_reference"; "delivery_fee"; "delivery_url"; "payment_reference"; "payment_channel"; "payment_code"; "payment_gateway"; "payment_fee"; "item_qty"; "amount"; "voucher_code"; "voucher_amount"; "discount"; "service_fee"; "insurance_fee"; "total_before_tax"; "total_tax"; "total"; "commission_jatis"; "commission_aggregator"; "commission_biller"; "referral_code"; "is_paid"; "payment_status"; "order_status"; "expired_at"; "created_at"; "updated_at"; "details"; "history"; "metadata_source"].

Definition nonppob_row (order : NonPPOBOrder.t) : list SqlVal :=
  [text_or_null (Id order); text_or_null (ReferenceId order);
   text_or_null (NonPPOBCustomer.Id (Customer order));
   text_or_null (NonPPOBCustomer.Name (Customer order));
   text_or_null (NonPPOBCustomer.Phone (Customer order));
   text_or_null (NonPPOBCustomer.Address (Customer order));
   text_or_null (Tenant.Id (Tenant order)); text_or_null (Tenant.Name (Tenant order));
   text_or_null (Store.Id (Store order)); text_or_null (Store.Name (Store order));
   text_or_null (Delivery.Method (Delivery order));
   text_or_null (Delivery.ReferenceId (Delivery order));
   VNum (DeliveryFee order); text_or_null (deliveryUrl (Delivery order));
   text_or_null (NonPPOBPayment.ReferenceId (Payment order));
   text_or_null (NonPPOBPayment.Channel (Payment order));
   text_or_null (NonPPOBPayment.PaymentCode (Payment order));
   text_or_null (NonPPOBPayment.PaymentGateway (Payment order));
   VNum (PaymentFee order); VNum (ItemQty order); VNum (Amount order);
   text_or_null (VoucherCode order); VNum (VoucherAmount order); VNum (Discount order);
   VNum (ServiceFee order); VNum (InsuranceFee order); VNum (TotalBeforeTax order);
   VNum (TotalTax order); VNum (Total order);
   VNum (CommissionFee.Jatis (CommissionFee order));
   VNum (CommissionFee.Aggregator (CommissionFee order));
   VNum (CommissionFee.Biller (CommissionFee order));
   text_or_null (ReferralCode order); VBool (IsPaid order);
   text_or_null (PaymentStatus order); text_or_null (OrderStatus order);
   text_or_null (ExpiredAt order); text_or_null (CreatedAt order);
   text_or_null (UpdatedAt order);
   VText (nonppob_detailsJson order); VText (nonppob_historyJson order);
   VText (MetadataRaw order)].

Definition nonppob_unescaped (order : NonPPOBOrder.t) : list string :=
  [Id order; ReferenceId order; NonPPOBCustomer.Id (Customer order);
   NonPPOBCustomer.Phone (Customer order); NonPPOBCustomer.Address (Customer order);
   Tenant.Id (Tenant order); Store.Id (Store order); Delivery.ReferenceId (Delivery order);
   NonPPOBPayment.ReferenceId (Payment order); VoucherCode order; ReferralCode order;
   PaymentStatus order; OrderStatus order; ExpiredAt order; CreatedAt order; UpdatedAt order].

End NonPPOB.

Definition nonppob_header : string :=
  "INSERT INTO orders_nonppob (" ++ String.concat ", " nonppob_columns ++ ") VALUES(".

Lemma nonppob_format_shape : nonppob_format = nonppob_header ++ placeholders 42 ++ ");".
Proof. vm_compute. reflexivity. Qed.

Lemma nonppob_parse_header (r : string) :
  parse_insert (nonppob_header ++ r)
  = match lex_values (String.length r) r with
    | Some vals => Some ("orders_nonppob", nonppob_columns, vals)
    | None => None
    end.
Proof. reflexivity. Qed.



Lemma nonppob_sql_parse (order : NonPPOBOrder.t) :
  forallb no_quote (nonppob_unescaped order) = true ->
  parse_insert (nonppob_sql order) = Some ("orders_nonppob", nonppob_columns, nonppob_row order).
Proof.
  unfold nonppob_sql, nonppob_args, nonppob_row, nonppob_unescaped.
  cbn [forallb]. intros H. split_bools.
  rewrite nonppob_format_shape, Sprintf_placeholders_n by (reflexivity || discriminate).
  rewrite nonppob_parse_header. erewrite parse_values; [reflexivity| |discriminate].
  cbn [map]. forall2_lexes.
Qed.

(** C2: The Non-PPOB command is the row it should
    be: read back by the database, [nonppob_sql order] is an insert into
    [orders_nonppob] with exactly the column table [nonppob_columns],
    each column carrying the value [nonppob_row order] assigns it (the
    delivery URL as [NULL] when the pointer is [nil], [is_paid] as a
    boolean, every [int] as itself, zero included), provided the string
    fields the code leaves unescaped hold no single quote. *)
Theorem nonppob_sql_refines (order : NonPPOBOrder.t) :
  forallb no_quote (nonppob_unescaped order) = true ->
  parse_insert (nonppob_sql order) = Some ("orders_nonppob", nonppob_columns, nonppob_row order).
Proof. exact (nonppob_sql_parse order). Qed.

(** ** Sample orders *)

(** A PPOB order whose customer name holds a quote, with an aggregator
    in its metadata and one detail row. *)
Definition sample_ppob_detail : PPOBOrderDetail.t :=
  PPOBOrderDetail.mk "D1" "I1" "" (PPOBInquiry.mk "Q1" "5300123" "" JNull "2024-01-01" None None)
    "Pulsa 50k" 50000 "success" 51000 0 1000 "R1" JNull "2024-01-01" "2024-01-01" "system" "P50".

Definition sample_ppob : PPOBOrder.t :=
  PPOBOrder.mk "ORD-1" "REF-1" (PPOBCustomer.mk "C1" "O'Brien" "member" "0812")
    (PPOBProduct.mk "P1" "Pulsa" "Prepaid") (PPOBCategory.mk "K1" "Telco")
    (PPOBPayment.mk "PAY-1" "va" "8808" "xendit" (JObject [("bank", JString "bca")]))
    (PPOBCommissionFee.mk 100 200 300) 51000 0 1000 0 1000 52000 "paid" "new"
    "2024-01-02" "2024-01-01" "2024-01-01" "app" (Some [sample_ppob_detail]) None
    (JObject [("aggregator", JObject [("id", JString "A1"); ("name", JString "Agg");
                                      ("contact", JString "08123")])])
    "{}".

(** The Non-PPOB order of the end-to-end scenario: no delivery URL, an
    amount of 50000 and a discount of 0. *)
Definition sample_nonppob : NonPPOBOrder.t :=
  NonPPOBOrder.mk "ORD-2" "REF-2" (Tenant.mk "T1" "Tenant") (Store.mk "S1" "Store")
    (NonPPOBCustomer.mk "C2" "Budi" "0813" "Jl. Merdeka 1")
    (Delivery.mk "pickup" "DLV-1" None JNull)
    (NonPPOBPayment.mk "PAY-2" "qris" "QR1" "midtrans" JNull)
    1 50000 "" 0 0 0 0 0 0 50000 0 50000 false "pending" "new" "2024-01-02"
    "2024-01-01" "2024-01-01" "" (CommissionFee.mk 0 0 0) None None JNull "{}".

(** Witnesses of the two refinement theorems. *)
Lemma ppob_sql_refines_witness :
  forallb no_quote (ppob_unescaped sample_ppob) = true /\
  parse_insert (ppob_sql sample_ppob) = Some ("orders_ppob", ppob_columns, ppob_row sample_ppob).
Proof. split; [vm_compute; reflexivity | apply ppob_sql_refines; vm_compute; reflexivity]. Defined.

Lemma nonppob_sql_refines_witness :
  forallb no_quote (nonppob_unescaped sample_nonppob) = true /\
  parse_insert (nonppob_sql sample_nonppob)
  = Some ("orders_nonppob", nonppob_columns, nonppob_row sample_nonppob).
Proof. split; [vm_compute; reflexivity | apply nonppob_sql_refines; vm_compute; reflexivity]. Defined.

(** ** The aggregator columns *)

Lemma ppob_row_aggregator (order : PPOBOrder.t) (i n c : string) :
  extractAggregatorMetadata (PPOBOrder.Metadata order) = (i, n, c) ->
  column_value ppob_columns (ppob_row order) "aggregator_id" = Some (text_or_null i) /\
  column_value ppob_columns (ppob_row order) "aggregator_name" = Some (text_or_null n) /\
  column_value ppob_columns (ppob_row order) "aggregator_phone" = Some (text_or_null c).
Proof.
  intros He. unfold ppob_row. rewrite He.
  destruct (productInfo _) as [[pi pn] pc]. destruct (categoryInfo _) as [ci cn].
  repeat split; reflexivity.
Qed.

(** C24: The metadata enrichment as stored: when the PPOB command reads
    back as the order's row, its [aggregator_id], [aggregator_name] and
    [aggregator_phone] columns hold the [id], [name] and [contact]
    strings of the metadata's [aggregator] object when present, and
    [NULL] in every case where the extractor falls back to the empty
    string. *)
Theorem ppob_sql_aggregator_columns (order : PPOBOrder.t) :
  forallb no_quote (ppob_unescaped order) = true ->
  exists row i n c,
    parse_insert (ppob_sql order) = Some ("orders_ppob", ppob_columns, row) /\
    agg_field_spec (PPOBOrder.Metadata order) "id" i /\
    agg_field_spec (PPOBOrder.Metadata order) "name" n /\
    agg_field_spec (PPOBOrder.Metadata order) "contact" c /\
    column_value ppob_columns row "aggregator_id" = Some (text_or_null i) /\
    column_value ppob_columns row "aggregator_name" = Some (text_or_null n) /\
    column_value ppob_columns row "aggregator_phone" = Some (text_or_null c).
Proof.
  intros Hq.
  pose proof (extractAggregatorMetadata_fields (PPOBOrder.Metadata order)) as Hspec.
  destruct (extractAggregatorMetadata (PPOBOrder.Metadata order)) as [[i n] c] eqn:He.
  destruct Hspec as (Hi & Hn & Hc).
  destruct (ppob_row_aggregator order i n c He) as (Ri & Rn & Rc).
  exists (ppob_row order), i, n, c. repeat split; auto. now apply ppob_sql_parse.
Qed.

Lemma ppob_sql_aggregator_columns_witness :
  forallb no_quote (ppob_unescaped sample_ppob) = true /\
  exists row i n c,
    parse_insert (ppob_sql sample_ppob) = Some ("orders_ppob", ppob_columns, row) /\
    agg_field_spec (PPOBOrder.Metadata sample_ppob) "id" i /\
    agg_field_spec (PPOBOrder.Metadata sample_ppob) "name" n /\
    agg_field_spec (PPOBOrder.Metadata sample_ppob) "contact" c /\
    column_value ppob_columns row "aggregator_id" = Some (text_or_null i) /\
    column_value ppob_columns row "aggregator_name" = Some (text_or_null n) /\
    column_value ppob_columns row "aggregator_phone" = Some (text_or_null c).
Proof.
  assert (Hq : forallb no_quote (ppob_unescaped sample_ppob) = true) by (vm_compute; reflexivity).
  split; [exact Hq | exact (ppob_sql_aggregator_columns sample_ppob Hq)].
Defined.
