(* ===== verification/Validator.v ===== *)
(** * The schema validator: [validate:] tags and [src/utility/validation.go]

    [validator.Struct(order)] (go-playground/validator v10, created with
    [validator.New()]) walks the struct's fields in declaration order,
    descending into nested struct fields, and reports one [FieldError]
    per failed rule.  The order structs only use [required]: a string
    must be non-empty and an [int] non-zero.  The [required] tag on a
    nested struct field is not itself checked (the library only does
    that with [WithRequiredStructEnabled]), and slices without [dive]
    are not entered, so detail and history rows are never validated.
    [ValidationErrorHandle] turns the error list into one lower-cased
    message, overwriting it at each error: the last error wins. *)

From Stdlib Require Import String Ascii List ZArith Lia Bool.
From S2P Require Import Prelude SqlLex Literal Fmt Json Orders.
Import ListNotations.
Open Scope string_scope.
Open Scope go_scope.

(** ** The library's error values *)

(** [validator.FieldError]: the failed tag, the struct field's name
    ([Field()], the Go field name: no tag-name function is registered)
    and the tag's parameter. *)
Record FieldError := mkFieldError { Tag : string; Field : string; Param : string }.

(** The [error] that [validator.Struct] returns. *)
Inductive ValidatorError :=
| ValidationErrors (errs : list FieldError)
| InvalidValidationError (msg : string).

(** [required] on a [string] and on an [int] field. *)
Definition required_string (field value : string) : list FieldError :=
  if String.eqb value "" then [mkFieldError "required" field ""] else [].

Definition required_int (field : string) (value : Z) : list FieldError :=
  if Z.eqb value 0 then [mkFieldError "required" field ""] else [].

(** [validator.Struct]: [nil] when no rule fails. *)
Definition Struct (errs : list FieldError) : option ValidatorError :=
  match errs with
  | [] => None
  | _ => Some (ValidationErrors errs)
  end.

(** ** The rules of the order structs, in traversal order *)

Definition validate_PPOBCustomer (c : PPOBCustomer.t) : list FieldError :=
  required_string "Id" (PPOBCustomer.Id c) ++ required_string "Name" (PPOBCustomer.Name c)
  ++ required_string "Type" (PPOBCustomer.Type_ c).

Definition validate_PPOBPayment (p : PPOBPayment.t) : list FieldError :=
  required_string "ReferenceId" (PPOBPayment.ReferenceId p)
  ++ required_string "Channel" (PPOBPayment.Channel p)
  ++ required_string "PaymentCode" (PPOBPayment.PaymentCode p)
  ++ required_string "PaymentGateway" (PPOBPayment.PaymentGateway p).

(** [PPOBOrder]: [Product], [Category] and [CommissionFee] are entered
    but carry no rule; [Details], [History] and [Metadata] carry no tag. *)
Definition validate_PPOBOrder (o : PPOBOrder.t) : list FieldError :=
  required_string "Id" (PPOBOrder.Id o) ++ required_string "ReferenceId" (PPOBOrder.ReferenceId o)
  ++ validate_PPOBCustomer (PPOBOrder.Customer o) ++ validate_PPOBPayment (PPOBOrder.Payment o)
  ++ required_int "Amount" (PPOBOrder.Amount o).

Definition validate_Tenant (t : Tenant.t) : list FieldError :=
  required_string "Id" (Tenant.Id t) ++ required_string "Name" (Tenant.Name t).

Definition validate_Store (s : Store.t) : list FieldError :=
  required_string "Id" (Store.Id s) ++ required_string "Name" (Store.Name s).

Definition validate_NonPPOBCustomer (c : NonPPOBCustomer.t) : list FieldError :=
  required_string "Id" (NonPPOBCustomer.Id c) ++ required_string "Name" (NonPPOBCustomer.Name c).

Definition validate_Delivery (d : Delivery.t) : list FieldError :=
  required_string "Method" (Delivery.Method d).

Definition validate_NonPPOBPayment (p : NonPPOBPayment.t) : list FieldError :=
  required_string "ReferenceId" (NonPPOBPayment.ReferenceId p)
  ++ required_string "Channel" (NonPPOBPayment.Channel p)
  ++ required_string "PaymentCode" (NonPPOBPayment.PaymentCode p)
  ++ required_string "PaymentGateway" (NonPPOBPayment.PaymentGateway p).

Definition validate_NonPPOBOrder (o : NonPPOBOrder.t) : list FieldError :=
  required_string "Id" (NonPPOBOrder.Id o)
  ++ required_string "ReferenceId" (NonPPOBOrder.ReferenceId o)
  ++ validate_Tenant (NonPPOBOrder.Tenant o) ++ validate_Store (NonPPOBOrder.Store o)
  ++ validate_NonPPOBCustomer (NonPPOBOrder.Customer o)
  ++ validate_Delivery (NonPPOBOrder.Delivery o)
  ++ validate_NonPPOBPayment (NonPPOBOrder.Payment o)
  ++ required_int "ItemQty" (NonPPOBOrder.ItemQty o)
  ++ required_int "Amount" (NonPPOBOrder.Amount o).

(** ** [func ValidationErrorHandle(err error) string] *)

(** The [switch v.Tag()] of the loop body: the new message, or [None]
    for a tag the switch has no case for. *)
Definition tag_message (v : FieldError) : option string :=
  let t := Tag v in
  if String.eqb t "required" then Some (Sprintf "%s required" [AnyString (Field v)])
  else if String.eqb t "min" then
    Some (Sprintf "%s input value must be greater than %s character" [AnyString (Field v); AnyString (Param v)])
  else if String.eqb t "max" then
    Some (Sprintf "%s input value must be lower than %s character" [AnyString (Field v); AnyString (Param v)])
  else if String.eqb t "lte" then
    Some (Sprintf "%s input value must be below %s" [AnyString (Field v); AnyString (Param v)])
  else if String.eqb t "gte" then
    Some (Sprintf "%s input value must be above %s" [AnyString (Field v); AnyString (Param v)])
  else if String.eqb t "numeric" then Some (Sprintf "%s input value must be numeric" [AnyString (Field v)])
  else if String.eqb t "url" then Some (Sprintf "%s input value must be am url" [AnyString (Field v)])
  else if String.eqb t "email" then Some (Sprintf "%s input value must be an email" [AnyString (Field v)])
  else if String.eqb t "password" then Some (Sprintf "%s input value must be filled" [AnyString (Field v)])
  else None.

(** [for _, v := range castedObject { switch ... { message = ... } }]. *)
Definition handle_step (message : string) (v : FieldError) : string :=
  match tag_message v with
  | Some m => m
  | None => message
  end.

Definition ValidationErrorHandle (err : ValidatorError) : string :=
  let message :=
    match err with
    | ValidationErrors castedObject => fold_left handle_step castedObject ""
    | InvalidValidationError _ => ""
    end in
  ToLower message.

(** ** The specification: which orders pass *)

(** Every [required] field of a PPOB order holds a value. *)
Definition ppob_required_present (o : PPOBOrder.t) : Prop :=
  PPOBOrder.Id o <> "" /\ PPOBOrder.ReferenceId o <> "" /\
  PPOBCustomer.Id (PPOBOrder.Customer o) <> "" /\ PPOBCustomer.Name (PPOBOrder.Customer o) <> "" /\
  PPOBCustomer.Type_ (PPOBOrder.Customer o) <> "" /\
  PPOBPayment.ReferenceId (PPOBOrder.Payment o) <> "" /\
  PPOBPayment.Channel (PPOBOrder.Payment o) <> "" /\
  PPOBPayment.PaymentCode (PPOBOrder.Payment o) <> "" /\
  PPOBPayment.PaymentGateway (PPOBOrder.Payment o) <> "" /\
  PPOBOrder.Amount o <> 0%Z.

Definition nonppob_required_present (o : NonPPOBOrder.t) : Prop :=
  NonPPOBOrder.Id o <> "" /\ NonPPOBOrder.ReferenceId o <> "" /\
  Tenant.Id (NonPPOBOrder.Tenant o) <> "" /\ Tenant.Name (NonPPOBOrder.Tenant o) <> "" /\
  Store.Id (NonPPOBOrder.Store o) <> "" /\ Store.Name (NonPPOBOrder.Store o) <> "" /\
  NonPPOBCustomer.Id (NonPPOBOrder.Customer o) <> "" /\
  NonPPOBCustomer.Name (NonPPOBOrder.Customer o) <> "" /\
  Delivery.Method (NonPPOBOrder.Delivery o) <> "" /\
  NonPPOBPayment.ReferenceId (NonPPOBOrder.Payment o) <> "" /\
  NonPPOBPayment.Channel (NonPPOBOrder.Payment o) <> "" /\
  NonPPOBPayment.PaymentCode (NonPPOBOrder.Payment o) <> "" /\
  NonPPOBPayment.PaymentGateway (NonPPOBOrder.Payment o) <> "" /\
  NonPPOBOrder.ItemQty o <> 0%Z /\ NonPPOBOrder.Amount o <> 0%Z.

(** ** Lemmas *)

Lemma required_string_nil (f v : string) : required_string f v = [] <-> v <> "".
Proof.
  unfold required_string. destruct (String.eqb_spec v ""); split; congruence.
Qed.

Lemma required_int_nil (f : string) (v : Z) : required_int f v = [] <-> v <> 0%Z.
Proof.
  unfold required_int. destruct (Z.eqb_spec v 0); split; congruence.
Qed.

Lemma app_nil_iff {A} (l1 l2 : list A) : (l1 ++ l2)%list = [] <-> l1 = [] /\ l2 = [].
Proof. split; [apply app_eq_nil | now intros [-> ->]]. Qed.

#[export] Hint Rewrite @app_nil_iff required_string_nil required_int_nil : gostr.

Lemma Struct_None (l : list FieldError) : Struct l = None <-> l = [].
Proof. destruct l; simpl; split; congruence. Qed.

(** Every message the loop writes, after [ToLower]. *)
Lemma ValidationErrorHandle_app (l : list FieldError) (e : FieldError) (m : string) :
  tag_message e = Some m ->
  ValidationErrorHandle (ValidationErrors (l ++ [e])) = ToLower m.
Proof.
  intros H. unfold ValidationErrorHandle. rewrite fold_left_app. simpl.
  unfold handle_step at 1. now rewrite H.
Qed.

Lemma validate_PPOBOrder_iff (o : PPOBOrder.t) :
  Struct (validate_PPOBOrder o) = None <-> ppob_required_present o.
Proof.
  rewrite Struct_None. unfold validate_PPOBOrder, validate_PPOBCustomer, validate_PPOBPayment,
    ppob_required_present.
  autorewrite with gostr. tauto.
Qed.

Lemma validate_NonPPOBOrder_iff (o : NonPPOBOrder.t) :
  Struct (validate_NonPPOBOrder o) = None <-> nonppob_required_present o.
Proof.
  rewrite Struct_None. unfold validate_NonPPOBOrder, validate_Tenant, validate_Store,
    validate_NonPPOBCustomer, validate_Delivery, validate_NonPPOBPayment,
    nonppob_required_present.
  autorewrite with gostr. tauto.
Qed.

(** ** Theorems *)

(** C17: However many fields fail, the
    diagnostic is the lower-cased message of the last failing field in
    traversal order whose tag the switch knows: earlier messages are
    overwritten, not collected. *)
Theorem ValidationErrorHandle_last_wins (l : list FieldError) (e : FieldError) (m : string) :
  tag_message e = Some m ->
  ValidationErrorHandle (ValidationErrors (l ++ [e])) = ToLower m.
Proof. apply ValidationErrorHandle_app. Qed.

(** C8: A PPOB order passes validation exactly
    when every field tagged [required] outside the detail and history
    rows holds a value (a non-empty string, a non-zero amount). *)
Theorem validate_PPOBOrder_ok (o : PPOBOrder.t) :
  Struct (validate_PPOBOrder o) = None <-> ppob_required_present o.
Proof. apply validate_PPOBOrder_iff. Qed.

(** A Non-PPOB order passes validation
    exactly when every field tagged [required] outside the detail and
    history rows holds a value; a zero item quantity or amount is a
    missing value. *)
Theorem validate_NonPPOBOrder_ok (o : NonPPOBOrder.t) :
  Struct (validate_NonPPOBOrder o) = None <-> nonppob_required_present o.
Proof. apply validate_NonPPOBOrder_iff. Qed.

(** ** Witnesses *)

Lemma ValidationErrorHandle_last_wins_witness :
  tag_message (mkFieldError "required" "Name" "") = Some "Name required" /\
  ValidationErrorHandle (ValidationErrors [mkFieldError "required" "Id" ""; mkFieldError "required" "Name" ""])
  = ToLower "Name required".
Proof.
  split; [reflexivity|].
  apply (ValidationErrorHandle_last_wins [mkFieldError "required" "Id" ""]). reflexivity.
Defined.
