(* ===== verification/HttpStatus.v ===== *)
(** * Error classification: [src/utility/httpstatus.go]

    [ErrorHttpStatus] lower-cases the error text and returns the status
    of the first key of [errorStatusMap] the text contains, or 400.
    The table is a Go map and [for key, status := range] visits it in
    an unspecified order that changes from run to run, so the function
    is a relation here: [ErrorHttpStatus err r] holds when some visiting
    order of the table yields [r].  The main theorem characterises the
    possible results. *)

From Stdlib Require Import String Ascii List ZArith Lia Bool Permutation.
From S2P Require Import Prelude.
Import ListNotations.
Open Scope string_scope.
Open Scope go_scope.

(** An HTTP status code and its status text. *)
Definition HttpStatus := (Z * string)%type.

Definition defaultStatus : HttpStatus := (400%Z, "Bad Request").

(** [errorStatusMap], in the order of the source. *)
Definition errorStatusMap : list (string * HttpStatus) :=
  [("duplicate", (400%Z, "Bad Request")); ("parsing time", (400%Z, "Bad Request"));
   ("required", (400%Z, "Bad Request")); ("invalid", (400%Z, "Bad Request"));
   ("not found", (404%Z, "Not Found")); ("unauthorized", (401%Z, "Unauthorized"));
   ("forbidden", (403%Z, "Forbidden"));
   ("connection refused", (500%Z, "Internal Server Error"))].

(** The loop over one visiting order of the table. *)
Fixpoint first_match (entries : list (string * HttpStatus)) (err : string) : HttpStatus :=
  match entries with
  | [] => defaultStatus
  | (key, status) :: rest => if Contains err key then status else first_match rest err
  end.

(** [func ErrorHttpStatus(err string) (int, string)]: the results over
    all visiting orders. *)
Definition ErrorHttpStatus (err : string) (r : HttpStatus) : Prop :=
  exists order, Permutation errorStatusMap order /\ first_match order (ToLower err) = r.

(** [ErrorHttpStatus] with the table visited in source order. *)
Definition ErrorHttpStatus_source_order (err : string) : HttpStatus :=
  first_match errorStatusMap (ToLower err).

(** ** The specification *)

(** A status the text selects: the status of a key it contains, or the
    default when it contains none. *)
Definition status_of (err : string) (r : HttpStatus) : Prop :=
  (exists key, In (key, r) errorStatusMap /\ Contains err key = true) \/
  ((forall key s, In (key, s) errorStatusMap -> Contains err key = false) /\ r = defaultStatus).

(** ** Lemmas *)

Lemma first_match_sound (entries : list (string * HttpStatus)) (err : string) :
  (exists key, In (key, first_match entries err) entries /\ Contains err key = true) \/
  ((forall key s, In (key, s) entries -> Contains err key = false) /\
   first_match entries err = defaultStatus).
Proof.
  induction entries as [|[key s] rest IH]; simpl.
  - right. split; [contradiction | reflexivity].
  - destruct (Contains err key) eqn:E.
    + left. exists key. auto.
    + destruct IH as [(k & Hin & Hk) | [Hall Hd]].
      * left. exists k. auto.
      * right. split; [|exact Hd]. intros k s' [[= <- <-] | Hin]; eauto.
Qed.

Lemma first_match_head (key : string) (s : HttpStatus) (rest : list (string * HttpStatus)) (err : string) :
  Contains err key = true -> first_match ((key, s) :: rest) err = s.
Proof. simpl. now intros ->. Qed.

Lemma ErrorHttpStatus_sound (err : string) (r : HttpStatus) :
  ErrorHttpStatus err r -> status_of (ToLower err) r.
Proof.
  intros (order & Hp & <-). unfold status_of.
  destruct (first_match_sound order (ToLower err)) as [(k & Hin & Hk) | [Hall Hd]].
  - left. exists k. split; [|exact Hk]. eapply Permutation_in; [symmetry; exact Hp | exact Hin].
  - right. split; [|exact Hd]. intros k s Hin.
    eapply Hall, Permutation_in; [exact Hp | exact Hin].
Qed.

Lemma ErrorHttpStatus_complete (err : string) (r : HttpStatus) :
  status_of (ToLower err) r -> ErrorHttpStatus err r.
Proof.
  intros [(k & Hin & Hk) | [Hall ->]].
  - apply in_split in Hin as (l1 & l2 & Hl).
    exists ((k, r) :: l1 ++ l2). split.
    + rewrite Hl. symmetry. apply Permutation_middle.
    + now apply first_match_head.
  - exists errorStatusMap. split; [reflexivity|].
    destruct (first_match_sound errorStatusMap (ToLower err)) as [(k & Hin & Hk) | [_ Hd]];
      [|exact Hd].
    now rewrite (Hall k _ Hin) in Hk.
Qed.

(** When every key the text contains has the same status, that status
    is the only answer. *)
Lemma ErrorHttpStatus_unique (err : string) (r : HttpStatus) :
  (forall key s, In (key, s) errorStatusMap -> Contains (ToLower err) key = true -> s = r) ->
  (exists key, In (key, r) errorStatusMap /\ Contains (ToLower err) key = true) ->
  forall r', ErrorHttpStatus err r' <-> r' = r.
Proof.
  intros Hall Hex r'. split.
  - intros H. destruct (ErrorHttpStatus_sound err r' H) as [(k & Hin & Hk) | [Hnone _]].
    + exact (Hall k r' Hin Hk).
    + destruct Hex as (k & Hin & Hk). now rewrite (Hnone k r Hin) in Hk.
  - intros ->. apply ErrorHttpStatus_complete. now left.
Qed.

(** When every key the text contains has the default status, the
    answer is 400 Bad Request, whether some key matches or none does. *)
Lemma ErrorHttpStatus_default (err : string) :
  (forall key s, In (key, s) errorStatusMap -> Contains (ToLower err) key = true -> s = defaultStatus) ->
  forall r, ErrorHttpStatus err r <-> r = defaultStatus.
Proof.
  intros Hall r. split.
  - intros H. destruct (ErrorHttpStatus_sound err r H) as [(k & Hin & Hk) | [_ Hd]];
      [exact (Hall k r Hin Hk) | exact Hd].
  - intros ->. apply ErrorHttpStatus_complete.
    destruct (first_match_sound errorStatusMap (ToLower err)) as [(k & Hin & Hk) | [Hnone _]].
    + left. exists k. now rewrite <- (Hall k _ Hin Hk).
    + right. split; [exact Hnone | reflexivity].
Qed.

(** ** Theorems *)

(** C11: The statuses [ErrorHttpStatus] can
    return for an error text are exactly: the status of any key of the
    table the lower-cased text contains, and 400 Bad Request when it
    contains none. *)
Theorem ErrorHttpStatus_spec (err : string) (r : HttpStatus) :
  ErrorHttpStatus err r <-> status_of (ToLower err) r.
Proof. split; [apply ErrorHttpStatus_sound | apply ErrorHttpStatus_complete]. Qed.

(** A broker dial failure
    ([dial tcp ...: connect: connection refused]) is answered 500
    Internal Server Error whatever the visiting order, and by nothing
    else. *)
Theorem ErrorHttpStatus_connection_refused (r : HttpStatus) :
  ErrorHttpStatus "dial tcp 127.0.0.1:61613: connect: connection refused" r
  <-> r = (500%Z, "Internal Server Error").
Proof.
  apply ErrorHttpStatus_unique.
  - intros key s Hin Hk. simpl in Hin.
    repeat destruct Hin as [[= <- <-] | Hin]; try contradiction; vm_compute in Hk;
      congruence.
  - exists "connection refused". split; [simpl; tauto | vm_compute; reflexivity].
Qed.

