(* ===== verification/Queue.v ===== *)
(** * The command publisher: [src/utility/queue.go] and the configuration of [utility.go]

    [SendMessageToQueue] dials the STOMP broker with the configured
    login, sends one [text/plain] frame holding the command to the
    configured destination, and disconnects (deferred, so also after a
    failed send).  The go-stomp client is the environment: a
    [StompOutcome] gives the results the broker produces for this call
    (dial and send errors), and the function returns its result with
    the trace of client calls it made, in order.  Console output
    ([PrintConsole]) is not modelled. *)

From Stdlib Require Import String Ascii List ZArith Lia Bool.
From S2P Require Import Prelude.
Import ListNotations.
Open Scope string_scope.
Open Scope go_scope.

(** ** The configuration ([utility.go]) *)

Record TsHttp := mkTsHttp { HttpPort : string; MaxAllowedSimultaneousConnections : Z }.
Record TsLog := mkTsLog { LogFilePath : string; ErrorFileName : string; DebugFileName : string }.
Record TsQueue := mkTsQueue { Host : string; Port : Z; QueueName : string;
                              Username : string; Password : string }.
Record TsJwt := mkTsJwt { Timeout : Z; MaxRefresh : Z }.
Record TsTimezone := mkTsTimezone { Location : string; Format : string }.
Record Account := mkAccount { AccUsername : string; AccPassword : string }.

Record Configuration := mkConfiguration {
  Http : TsHttp; Queue : TsQueue; Log : TsLog; Accounts : list Account; Jwt : TsJwt;
  AppPath : string; Timezone : TsTimezone; APIKeys : list string }.

(** ** The STOMP client as seen by the service *)

(** A call of the go-stomp client; a dial records whether it connected. *)
Inductive StompEvent :=
| EvDial (network addr login passcode : string) (connected : bool)
| EvSend (destination contentType body : string)
| EvDisconnect.

(** What the broker does with this call: [Some err] for a failing
    [stomp.Dial] or [conn.Send]. *)
Record StompOutcome := mkStompOutcome { dial_error : option string; send_error : option string }.

(** ** [func SendMessageToQueue(configuration Configuration, strMessage string) error] *)

Definition strServer (configuration : Configuration) : string :=
  Host (Queue configuration) ++ ":" ++ Itoa (Port (Queue configuration)).

Definition SendMessageToQueue (env : StompOutcome) (configuration : Configuration)
    (strMessage : string) : GoResult unit * list StompEvent :=
  let q := Queue configuration in
  let dial := EvDial "tcp" (strServer configuration) (Username q) (Password q) in
  match dial_error env with
  | Some err => (Err err, [dial false])
  | None =>
      let dial := dial true in
      let send := EvSend (QueueName q) "text/plain" strMessage in
      match send_error env with
      | Some err => (Err err, [dial; send; EvDisconnect])
      | None => (Ok tt, [dial; send; EvDisconnect])
      end
  end.

(** ** Counting frames in a trace *)

Definition is_send (e : StompEvent) : bool :=
  match e with EvSend _ _ _ => true | _ => false end.

Definition sends (trace : list StompEvent) : list StompEvent := filter is_send trace.

(** The connections a trace leaves open: dials minus disconnects. *)
Fixpoint open_after (trace : list StompEvent) : Z :=
  match trace with
  | [] => 0%Z
  | EvDial _ _ _ _ true :: r => (1 + open_after r)%Z
  | EvDisconnect :: r => (open_after r - 1)%Z
  | _ :: r => open_after r
  end.

(** A trace where every send happens on an open connection. *)
Fixpoint well_bracketed (opened : Z) (trace : list StompEvent) : bool :=
  match trace with
  | [] => true
  | EvDial _ _ _ _ connected :: r => well_bracketed (if connected then opened + 1 else opened) r
  | EvSend _ _ _ :: r => Z.ltb 0 opened && well_bracketed opened r
  | EvDisconnect :: r => Z.ltb 0 opened && well_bracketed (opened - 1) r
  end.

(** ** The publish contract *)

(** What a call of the publisher may leave in the trace: at most one
    frame, exactly the given command on success, and every connection it
    opens closed again. *)
Definition publish_contract (configuration : Configuration) (strMessage : string)
    (r : GoResult unit) (trace : list StompEvent) : Prop :=
  well_bracketed 0 trace = true /\ open_after trace = 0%Z /\
  (List.length (sends trace) <= 1)%nat /\
  (r = Ok tt -> sends trace = [EvSend (QueueName (Queue configuration)) "text/plain" strMessage]).

Lemma SendMessageToQueue_publish (env : StompOutcome) (configuration : Configuration)
    (strMessage : string) :
  let '(r, trace) := SendMessageToQueue env configuration strMessage in
  publish_contract configuration strMessage r trace /\
  (dial_error env <> None -> sends trace = []).
Proof.
  destruct env as [[d|] [s|]]; unfold publish_contract; cbn;
    repeat split; try reflexivity; try lia; intros H; (discriminate H || now elim H).
Qed.


(** C10: One call of the publisher sends
    at most one frame, and only on an open connection; when it returns
    [nil] it has sent exactly one [text/plain] frame holding the whole
    command to the configured destination; it never leaves a connection
    open (the deferred [Disconnect] also runs after a failed send); a
    failed dial sends nothing. *)
Theorem SendMessageToQueue_contract (env : StompOutcome) (configuration : Configuration)
    (strMessage : string) :
  let '(r, trace) := SendMessageToQueue env configuration strMessage in
  publish_contract configuration strMessage r trace /\
  (dial_error env <> None -> sends trace = []).
Proof. apply SendMessageToQueue_publish. Qed.

(** A broker failure is returned to
    the caller unchanged and not retried: a failed dial returns its
    error after the dial alone, a failed send returns its error after
    exactly one send attempt and the disconnect. *)
Theorem SendMessageToQueue_errors (env : StompOutcome) (configuration : Configuration)
    (strMessage err : string) :
  (dial_error env = Some err ->
   fst (SendMessageToQueue env configuration strMessage) = Err err /\
   List.length (snd (SendMessageToQueue env configuration strMessage)) = 1%nat) /\
  (dial_error env = None -> send_error env = Some err ->
   SendMessageToQueue env configuration strMessage
   = (Err err, [EvDial "tcp" (strServer configuration) (Username (Queue configuration))
                  (Password (Queue configuration)) true;
                EvSend (QueueName (Queue configuration)) "text/plain" strMessage; EvDisconnect])).
Proof.
  unfold SendMessageToQueue. split.
  - intros ->. split; reflexivity.
  - intros -> ->. reflexivity.
Qed.

(** ** Witnesses *)

Definition queue_witness_configuration : Configuration :=
  mkConfiguration (mkTsHttp "8080" 100) (mkTsQueue "127.0.0.1" 61613 "/queue/orders" "admin" "admin")
    (mkTsLog "log" "error.log" "debug.log") [] (mkTsJwt 60 60) "/app"
    (mkTsTimezone "Asia/Jakarta" "2006-01-02 15:04:05") ["key-1"].

Lemma SendMessageToQueue_errors_witness :
  SendMessageToQueue (mkStompOutcome None (Some "write: broken pipe")) queue_witness_configuration "SELECT 1;"
  = (Err "write: broken pipe",
     [EvDial "tcp" "127.0.0.1:61613" "admin" "admin" true;
      EvSend "/queue/orders" "text/plain" "SELECT 1;"; EvDisconnect]).
Proof.
  apply (proj2 (SendMessageToQueue_errors (mkStompOutcome None (Some "write: broken pipe"))
                  queue_witness_configuration "SELECT 1;" "write: broken pipe")); reflexivity.
Defined.
