(* ===== verification/GoTime.v ===== *)
(** * The [time] package as the code uses it: [Time.Format], [time.ParseInLocation], [time.LoadLocation], and [TimeParse] of [src/utility/validation.go]

    A layout is cut into chunks by Go's [nextStdChunk]: a literal prefix
    and a standard element ([2006], [01], [02], [15], [04], [05] and
    their variants), until no element is left.  [Format] prints each
    element of a civil time; [ParseInLocation] reads them back with
    [getnum], [atoi] and [skip] (which treats runs of spaces as equal),
    checks each field's range and finally the day against the month.
    The numeric elements, the month and weekday names (matched without
    regard to case when parsed; the weekday printed is computed from
    Go's [daysSinceEpoch] day count), the 12-hour clock and the AM/PM
    marks are modelled; a layout holding a zone, a day-of-year or a
    fractional-second element is tokenized exactly but its element is
    [stdOther]/[stdFracSecond], and formatting or parsing reaches
    [PUnsupported] there.  A [Time] is its
    civil fields in a named location (the instant, and the shifts of
    [time.Date] in a daylight-saving gap, are not modelled).  The
    behaviour is that of Go 1.20's [time/format.go]. *)

From Stdlib Require Import String Ascii List ZArith Lia Bool.
From S2P Require Import Prelude HttpStatus Queue.
Import ListNotations.
Open Scope string_scope.
Open Scope go_scope.

(** ** Civil time *)

Record Time := mkTime {
  year : Z; month : Z; day : Z; hour : Z; minute : Z; second : Z; nsec : Z; loc : string }.

(** [time.Time{}]: January 1 of year 1, UTC. *)
Definition zero_time : Time := mkTime 1 1 1 0 0 0 0 "UTC".

(** [isLeap] and [daysIn], with Go's truncated [%]. *)
Definition isLeap (y : Z) : bool :=
  Z.eqb (Z.rem y 4) 0 && (negb (Z.eqb (Z.rem y 100) 0) || Z.eqb (Z.rem y 400) 0).

Definition daysIn (m y : Z) : Z :=
  if Z.eqb m 2 then (if isLeap y then 29 else 28)
  else if Z.eqb m 4 || Z.eqb m 6 || Z.eqb m 9 || Z.eqb m 11 then 30 else 31.

(** The fields of a time [time.Date] keeps as they are. *)
Definition valid_time (t : Time) : Prop :=
  (1 <= month t <= 12 /\ 1 <= day t <= daysIn (month t) (year t) /\ 0 <= hour t < 24 /\
   0 <= minute t < 60 /\ 0 <= second t < 60 /\ 0 <= nsec t < 1000000000)%Z.

(** ** Bytes *)

Definition is_digit (c : ascii) : bool :=
  let n := nat_of_ascii c in (48 <=? n)%nat && (n <=? 57)%nat.

Definition digit_val (c : ascii) : Z := (Z.of_nat (nat_of_ascii c) - 48)%Z.

(** [utod]: the byte of a digit. *)
Definition utod (d : Z) : ascii := ascii_of_nat (48 + Z.to_nat d).

Definition head_is (p : ascii -> bool) (s : string) : bool :=
  match s with String c _ => p c | EmptyString => false end.

Definition is_lower (c : ascii) : bool :=
  let n := nat_of_ascii c in (97 <=? n)%nat && (n <=? 122)%nat.

Fixpoint drop (n : nat) (s : string) : string :=
  match n, s with
  | O, _ => s
  | S k, String _ r => drop k r
  | S _, EmptyString => EmptyString
  end.

Fixpoint drop_while (p : ascii -> bool) (s : string) : string :=
  match s with
  | String c r => if p c then drop_while p r else s
  | EmptyString => EmptyString
  end.

(** ** [nextStdChunk] *)

(** The standard elements; [stdOther] stands for the day of the year
    ([002]/[__2]) and the zone elements, which the model recognizes but
    does not interpret. *)
Inductive StdChunk :=
| stdLongYear | stdYear | stdZeroMonth | stdNumMonth | stdZeroDay | stdDay | stdUnderDay
| stdHour | stdZeroMinute | stdMinute | stdZeroSecond | stdSecond
| stdMonth | stdLongMonth | stdWeekDay | stdLongWeekDay | stdHour12 | stdZeroHour12 | stdPM | stdpm
| stdFracSecond | stdOther.

(** The element starting at the head of [s], if any: the bytes of the
    layout it leaves in the prefix ([_] of [_2006]), the element, and the
    rest of the layout. *)
Definition std_at (s : string) : option (string * StdChunk * string) :=
  match s with
  | String c r =>
      if Ascii.eqb c "J" then
        if prefix "an" r then
          if prefix "anuary" r then Some ("", stdLongMonth, drop 6 r)
          else if head_is is_lower (drop 2 r) then None else Some ("", stdMonth, drop 2 r)
        else None
      else if Ascii.eqb c "M" then
        if prefix "on" r then
          if prefix "onday" r then Some ("", stdLongWeekDay, drop 5 r)
          else if head_is is_lower (drop 2 r) then None else Some ("", stdWeekDay, drop 2 r)
        else if prefix "ST" r then Some ("", stdOther, drop 2 r) else None
      else if Ascii.eqb c "0" then
        match r with
        | String d r' =>
            if Ascii.eqb d "1" then Some ("", stdZeroMonth, r')
            else if Ascii.eqb d "2" then Some ("", stdZeroDay, r')
            else if Ascii.eqb d "3" then Some ("", stdZeroHour12, r')
            else if Ascii.eqb d "4" then Some ("", stdZeroMinute, r')
            else if Ascii.eqb d "5" then Some ("", stdZeroSecond, r')
            else if Ascii.eqb d "6" then Some ("", stdYear, r')
            else if Ascii.eqb d "0" && prefix "2" r' then Some ("", stdOther, drop 1 r')
            else None
        | EmptyString => None
        end
      else if Ascii.eqb c "1" then
        if prefix "5" r then Some ("", stdHour, drop 1 r) else Some ("", stdNumMonth, r)
      else if Ascii.eqb c "2" then
        if prefix "006" r then Some ("", stdLongYear, drop 3 r) else Some ("", stdDay, r)
      else if Ascii.eqb c "_" then
        if prefix "2" r then
          if prefix "2006" r then Some ("_", stdLongYear, drop 4 r) else Some ("", stdUnderDay, drop 1 r)
        else if prefix "_2" r then Some ("", stdOther, drop 2 r) else None
      else if Ascii.eqb c "3" then Some ("", stdHour12, r)
      else if Ascii.eqb c "4" then Some ("", stdMinute, r)
      else if Ascii.eqb c "5" then Some ("", stdSecond, r)
      else if Ascii.eqb c "P" then (if prefix "M" r then Some ("", stdPM, drop 1 r) else None)
      else if Ascii.eqb c "p" then (if prefix "m" r then Some ("", stdpm, drop 1 r) else None)
      else if Ascii.eqb c "-" || Ascii.eqb c "Z" then (if prefix "07" r then Some ("", stdOther, r) else None)
      else if Ascii.eqb c "." || Ascii.eqb c "," then
        match r with
        | String d _ =>
            if Ascii.eqb d "0" || Ascii.eqb d "9" then
              let rest := drop_while (Ascii.eqb d) r in
              if head_is is_digit rest then None else Some ("", stdFracSecond, rest)
            else None
        | EmptyString => None
        end
      else None
  | EmptyString => None
  end.

(** [func nextStdChunk(layout string) (prefix string, std int, suffix string)]. *)
Fixpoint nextStdChunk (layout : string) : string * option (StdChunk * string) :=
  match std_at layout with
  | Some (pre, std, suffix) => (pre, Some (std, suffix))
  | None =>
      match layout with
      | EmptyString => ("", None)
      | String c r => let '(p, x) := nextStdChunk r in (String c p, x)
      end
  end.

(** A layout as the loops of [Format] and [parse] walk it: the prefix and
    element of each iteration, and the prefix of the last one, which
    finds no element.  The walk stops at an element the model does not
    interpret, where formatting and parsing stop too. *)
Definition Layout := (list (string * StdChunk) * string)%type.

Fixpoint layout_loop (fuel : nat) (layout : string) : option Layout :=
  match fuel with
  | O => None
  | S f =>
      match nextStdChunk layout with
      | (p, None) => Some ([], p)
      | (p, Some (stdOther, _)) => Some ([(p, stdOther)], "")
      | (p, Some (stdFracSecond, _)) => Some ([(p, stdFracSecond)], "")
      | (p, Some (std, suffix)) =>
          match layout_loop f suffix with
          | Some (cs, fin) => Some ((p, std) :: cs, fin)
          | None => None
          end
      end
  end.

Definition layout_chunks (layout : string) : option Layout :=
  layout_loop (S (String.length layout)) layout.

(** ** [Format] *)

(** [func appendInt(b []byte, x int, width int) []byte]: the sign, then
    the digits padded with zeros to [width]; widths 2 and 4 have their
    own fast path in the code. *)
Definition appendInt (x : Z) (width : nat) : string :=
  let u := Z.abs x in
  let sign := if (x <? 0)%Z then "-" else "" in
  if (width =? 2)%nat && (u <? 100)%Z then
    sign ++ String (utod (u / 10)) ⟦utod (u mod 10)⟧
  else if (width =? 4)%nat && (u <? 10000)%Z then
    sign ++ String (utod (u / 1000)) (String (utod (u / 100 mod 10))
             (String (utod (u / 10 mod 10)) ⟦utod (u mod 10)⟧))
  else sign ++ pad_zero width (Itoa u).

(** ** Names and the day of the week *)

Definition longMonthNames : list string :=
  ["January"; "February"; "March"; "April"; "May"; "June"; "July";
   "August"; "September"; "October"; "November"; "December"].
Definition shortMonthNames : list string :=
  ["Jan"; "Feb"; "Mar"; "Apr"; "May"; "Jun"; "Jul"; "Aug"; "Sep"; "Oct"; "Nov"; "Dec"].
Definition longDayNames : list string :=
  ["Sunday"; "Monday"; "Tuesday"; "Wednesday"; "Thursday"; "Friday"; "Saturday"].
Definition shortDayNames : list string := ["Sun"; "Mon"; "Tue"; "Wed"; "Thu"; "Fri"; "Sat"].

(** [func (m Month) String() string]. *)
Definition Month_String (m : Z) : string :=
  if (1 <=? m)%Z && (m <=? 12)%Z then nth (Z.to_nat (m - 1)) longMonthNames ""
  else "%!Month(" ++ Itoa m ++ ")".

(** [func (d Weekday) String() string]. *)
Definition Weekday_String (d : Z) : string :=
  if (0 <=? d)%Z && (d <=? 6)%Z then nth (Z.to_nat d) longDayNames ""
  else "%!Weekday(" ++ Itoa d ++ ")".

(** [absoluteZeroYear] and the day counts of the calendar's cycles. *)
Definition absoluteZeroYear : Z := (-292277022399)%Z.
Definition daysPer400Years : Z := (365 * 400 + 97)%Z.
Definition daysPer100Years : Z := (365 * 100 + 24)%Z.
Definition daysPer4Years : Z := (365 * 4 + 1)%Z.

(** [func daysSinceEpoch(year int) uint64]: the days from the absolute
    epoch to January 1 of [year], cycle by cycle, in [uint64]. *)
Definition daysSinceEpoch (y0 : Z) : Z :=
  let y := w64 (y0 - absoluteZeroYear) in
  let n := (y / 400)%Z in let y := (y - 400 * n)%Z in let d := (daysPer400Years * n)%Z in
  let n := (y / 100)%Z in let y := (y - 100 * n)%Z in let d := (d + daysPer100Years * n)%Z in
  let n := (y / 4)%Z in let y := (y - 4 * n)%Z in let d := (d + daysPer4Years * n)%Z in
  w64 (d + 365 * y).

(** [daysBefore[m]]: the days of a non-leap year before month [m+1]. *)
Definition daysBefore : list Z := [0; 31; 59; 90; 120; 151; 181; 212; 243; 273; 304; 334; 365]%Z.

(** The absolute seconds [Date] computes for the civil fields of [t]
    (month and day already in range, so [Date]'s normalisation is the
    identity). *)
Definition abs_seconds (t : Time) : Z :=
  let d := (daysSinceEpoch (year t) + nth (Z.to_nat (month t - 1)) daysBefore 0 +
            (if isLeap (year t) && (3 <=? month t)%Z then 1 else 0) + (day t - 1))%Z in
  w64 (d * 86400 + hour t * 3600 + minute t * 60 + second t).

(** [func absWeekday(abs uint64) Weekday]: January 1 of the absolute
    epoch is a Monday. *)
Definition absWeekday (abs : Z) : Z := ((abs + 86400) mod 604800 / 86400)%Z.

(** [hour % 12], with [0] printed as [12]. *)
Definition hour12 (h : Z) : Z := let hr := Z.rem h 12 in if (hr =? 0)%Z then 12%Z else hr.

(** One element of [Time.AppendFormat]'s [switch]. *)
Definition format_std (std : StdChunk) (t : Time) : option string :=
  match std with
  | stdLongYear => Some (appendInt (year t) 4)
  | stdYear => Some (appendInt (Z.rem (Z.abs (year t)) 100) 2)
  | stdZeroMonth => Some (appendInt (month t) 2)
  | stdNumMonth => Some (appendInt (month t) 0)
  | stdZeroDay => Some (appendInt (day t) 2)
  | stdDay => Some (appendInt (day t) 0)
  | stdUnderDay => Some ((if (day t <? 10)%Z then " " else "") ++ appendInt (day t) 0)
  | stdHour => Some (appendInt (hour t) 2)
  | stdZeroMinute => Some (appendInt (minute t) 2)
  | stdMinute => Some (appendInt (minute t) 0)
  | stdZeroSecond => Some (appendInt (second t) 2)
  | stdSecond => Some (appendInt (second t) 0)
  | stdMonth => Some (substring 0 3 (Month_String (month t)))
  | stdLongMonth => Some (Month_String (month t))
  | stdWeekDay => Some (substring 0 3 (Weekday_String (absWeekday (abs_seconds t))))
  | stdLongWeekDay => Some (Weekday_String (absWeekday (abs_seconds t)))
  | stdHour12 => Some (appendInt (hour12 (hour t)) 0)
  | stdZeroHour12 => Some (appendInt (hour12 (hour t)) 2)
  | stdPM => Some (if (12 <=? hour t)%Z then "PM" else "AM")
  | stdpm => Some (if (12 <=? hour t)%Z then "pm" else "am")
  | stdFracSecond | stdOther => None
  end.

Fixpoint format_chunks (cs : list (string * StdChunk)) (fin : string) (t : Time) : option string :=
  match cs with
  | [] => Some fin
  | (p, std) :: rest =>
      match format_std std t, format_chunks rest fin t with
      | Some x, Some y => Some (p ++ x ++ y)
      | _, _ => None
      end
  end.

(** [func (t Time) Format(layout string) string]; [None] where the
    layout holds an element the model does not interpret. *)
Definition Format (layout : string) (t : Time) : option string :=
  match layout_chunks layout with
  | Some (cs, fin) => format_chunks cs fin t
  | None => None
  end.

(** ** [parse] *)

(** [func getnum(s string, fixed bool) (int, string, error)]. *)
Definition getnum (s : string) (fixed : bool) : option (Z * string) :=
  match s with
  | String a r =>
      if is_digit a then
        match r with
        | String b r' =>
            if is_digit b then Some (10 * digit_val a + digit_val b, r')%Z
            else if fixed then None else Some (digit_val a, r)
        | EmptyString => if fixed then None else Some (digit_val a, r)
        end
      else None
  | EmptyString => None
  end.

(** [leadingInt] on the short texts it is given here (at most ten
    bytes, so its overflow checks never fire), and [atoi] with its
    optional sign. *)
Fixpoint leading_int (acc : Z) (s : string) : Z * string :=
  match s with
  | String c r => if is_digit c then leading_int (10 * acc + digit_val c)%Z r else (acc, s)
  | EmptyString => (acc, s)
  end.

Definition atoi (s : string) : option Z :=
  let '(neg, s) := match s with
                   | String c r => if Ascii.eqb c "-" then (true, r)
                                   else if Ascii.eqb c "+" then (false, r) else (false, s)
                   | EmptyString => (false, s)
                   end in
  match leading_int 0 s with
  | (x, EmptyString) => Some (if neg then - x else x)%Z
  | _ => None
  end.

Fixpoint cutspace (s : string) : string :=
  match s with
  | String c r => if Ascii.eqb c " " then cutspace r else s
  | EmptyString => s
  end.

(** [func skip(value, prefix string) (string, error)]: the prefix must
    head the value, a run of spaces standing for any run of spaces (or
    for none at the end of the value).  [after_space] is set once a run
    has been cut from the value. *)
Fixpoint skip (after_space : bool) (prefix value : string) : option string :=
  match prefix with
  | EmptyString => Some value
  | String c r =>
      if Ascii.eqb c " " then
        if after_space then skip true r value
        else if head_is (fun v => negb (Ascii.eqb v " ")) value then None
        else skip true r (cutspace value)
      else
        match value with
        | String v vr => if Ascii.eqb v c then skip false r vr else None
        | EmptyString => None
        end
  end.

Definition commaOrPeriod (c : ascii) : bool := Ascii.eqb c "." || Ascii.eqb c ",".

(** The state of [parse]'s loop: [month] and [day] start at [-1];
    [pmSet] and [amSet] record a [PM] or [AM] read. *)
Record PState := mkPState {
  p_year : Z; p_month : Z; p_day : Z; p_hour : Z; p_min : Z; p_sec : Z; p_nsec : Z;
  p_pm : bool; p_am : bool }.

Definition pinit : PState := mkPState 0 (-1) (-1) 0 0 0 0 false false.

(** [func match(s1, s2 string) bool]: equal up to the case of letters
    ([c |= 'a' - 'A'] on both bytes). *)
Fixpoint match_fold (s1 s2 : string) : bool :=
  match s1, s2 with
  | String c1 r1, String c2 r2 =>
      (Ascii.eqb c1 c2 ||
       (let l1 := Nat.lor (nat_of_ascii c1) 32 in
        let l2 := Nat.lor (nat_of_ascii c2) 32 in
        (l1 =? l2)%nat && (97 <=? l1)%nat && (l1 <=? 122)%nat)) && match_fold r1 r2
  | _, _ => true
  end.

(** [func lookup(tab []string, val string) (int, string, error)]: the
    index of the first name heading [val], and the rest. *)
Fixpoint lookup_from (i : Z) (tab : list string) (val : string) : option (Z * string) :=
  match tab with
  | [] => None
  | v :: rest =>
      if (String.length v <=? String.length val)%nat && match_fold (substring 0 (String.length v) val) v
      then Some (i, drop (String.length v) val)
      else lookup_from (i + 1)%Z rest val
  end.

Definition lookup (tab : list string) (val : string) : option (Z * string) := lookup_from 0 tab val.

(** How one element ends: read, a parse error, or outside the model. *)
Inductive Step := SOk (st : PState) (value : string) | SErr | SUnsupported.

(** [parseNanoseconds(value, n)]: [value] starts with [.] or [,]
    followed by [n-1] digits, of which the first nine count. *)
Definition parseNanoseconds (value : string) (n : nat) : option Z :=
  let nbytes := Nat.min n 10 in
  match atoi (substring 1 (nbytes - 1) value) with
  | Some ns => Some (ns * 10 ^ Z.of_nat (10 - nbytes))%Z
  | None => None
  end.

Fixpoint count_digits (s : string) : nat :=
  match s with String c r => if is_digit c then S (count_digits r) else O | EmptyString => O end.

(** One element of [parse]'s [switch], [next] being the element the
    next [nextStdChunk] of the layout finds. *)
Definition parse_std (std : StdChunk) (next : option StdChunk) (value : string) (st : PState) : Step :=
  match std with
  | stdYear =>
      if (String.length value <? 2)%nat then SErr
      else match atoi (substring 0 2 value) with
           | Some y => SOk (mkPState (if (y >=? 69)%Z then y + 1900 else y + 2000)%Z (p_month st) (p_day st)
                              (p_hour st) (p_min st) (p_sec st) (p_nsec st) (p_pm st) (p_am st)) (drop 2 value)
           | None => SErr
           end
  | stdLongYear =>
      if (String.length value <? 4)%nat || negb (head_is is_digit value) then SErr
      else match atoi (substring 0 4 value) with
           | Some y => SOk (mkPState y (p_month st) (p_day st) (p_hour st) (p_min st) (p_sec st) (p_nsec st) (p_pm st) (p_am st))
                         (drop 4 value)
           | None => SErr
           end
  | stdZeroMonth | stdNumMonth =>
      match getnum value (match std with stdZeroMonth => true | _ => false end) with
      | Some (m, v) =>
          if (m <=? 0)%Z || (12 <? m)%Z then SErr
          else SOk (mkPState (p_year st) m (p_day st) (p_hour st) (p_min st) (p_sec st) (p_nsec st) (p_pm st) (p_am st)) v
      | None => SErr
      end
  | stdZeroDay | stdDay | stdUnderDay =>
      let value := match std, value with
                   | stdUnderDay, String c r => if Ascii.eqb c " " then r else value
                   | _, _ => value
                   end in
      match getnum value (match std with stdZeroDay => true | _ => false end) with
      | Some (d, v) => SOk (mkPState (p_year st) (p_month st) d (p_hour st) (p_min st) (p_sec st) (p_nsec st) (p_pm st) (p_am st)) v
      | None => SErr
      end
  | stdHour =>
      match getnum value false with
      | Some (h, v) =>
          if (24 <=? h)%Z then SErr
          else SOk (mkPState (p_year st) (p_month st) (p_day st) h (p_min st) (p_sec st) (p_nsec st) (p_pm st) (p_am st)) v
      | None => SErr
      end
  | stdZeroMinute | stdMinute =>
      match getnum value (match std with stdZeroMinute => true | _ => false end) with
      | Some (m, v) =>
          if (60 <=? m)%Z then SErr
          else SOk (mkPState (p_year st) (p_month st) (p_day st) (p_hour st) m (p_sec st) (p_nsec st) (p_pm st) (p_am st)) v
      | None => SErr
      end
  | stdZeroSecond | stdSecond =>
      match getnum value (match std with stdZeroSecond => true | _ => false end) with
      | Some (sec, v) =>
          if (60 <=? sec)%Z then SErr
          else
            let st := mkPState (p_year st) (p_month st) (p_day st) (p_hour st) (p_min st) sec (p_nsec st) (p_pm st) (p_am st) in
            match v with
            | String c (String d _) =>
                if commaOrPeriod c && is_digit d then
                  match next with
                  | Some stdFracSecond => SOk st v
                  | _ =>
                      let n := (2 + count_digits (drop 2 v))%nat in
                      match parseNanoseconds v n with
                      | Some ns => SOk (mkPState (p_year st) (p_month st) (p_day st) (p_hour st) (p_min st)
                                          (p_sec st) ns (p_pm st) (p_am st)) (drop n v)
                      | None => SErr
                      end
                  end
                else SOk st v
            | _ => SOk st v
            end
      | None => SErr
      end
  | stdMonth | stdLongMonth =>
      match lookup (match std with stdMonth => shortMonthNames | _ => longMonthNames end) value with
      | Some (m, v) =>
          SOk (mkPState (p_year st) (m + 1)%Z (p_day st) (p_hour st) (p_min st) (p_sec st) (p_nsec st)
                 (p_pm st) (p_am st)) v
      | None => SErr
      end
  | stdWeekDay | stdLongWeekDay =>
      match lookup (match std with stdWeekDay => shortDayNames | _ => longDayNames end) value with
      | Some (_, v) => SOk st v
      | None => SErr
      end
  | stdHour12 | stdZeroHour12 =>
      match getnum value (match std with stdZeroHour12 => true | _ => false end) with
      | Some (h, v) =>
          if (h <? 0)%Z || (12 <? h)%Z then SErr
          else SOk (mkPState (p_year st) (p_month st) (p_day st) h (p_min st) (p_sec st) (p_nsec st)
                      (p_pm st) (p_am st)) v
      | None => SErr
      end
  | stdPM | stdpm =>
      if (String.length value <? 2)%nat then SErr
      else
        let p := substring 0 2 value in
        let v := drop 2 value in
        let '(pm, am) := match std with stdPM => ("PM", "AM") | _ => ("pm", "am") end in
        if String.eqb p pm then
          SOk (mkPState (p_year st) (p_month st) (p_day st) (p_hour st) (p_min st) (p_sec st) (p_nsec st)
                 true (p_am st)) v
        else if String.eqb p am then
          SOk (mkPState (p_year st) (p_month st) (p_day st) (p_hour st) (p_min st) (p_sec st) (p_nsec st)
                 (p_pm st) true) v
        else SErr
  | stdFracSecond | stdOther => SUnsupported
  end.

(** What [parse] returns: a time, a parse error, or a layout the model
    does not interpret. *)
Inductive Parsed := PTime (t : Time) | PError | PUnsupported.

(** The loop of [parse]: skip the prefix, read the element. *)
Fixpoint parse_chunks (cs : list (string * StdChunk)) (fin : string) (value : string) (st : PState)
    : Step :=
  match cs with
  | [] =>
      match skip false fin value with
      | Some EmptyString => SOk st ""
      | _ => SErr
      end
  | (p, std) :: rest =>
      match skip false p value with
      | Some v =>
          match parse_std std (option_map snd (hd_error rest)) v st with
          | SOk st' v' => parse_chunks rest fin v' st'
          | e => e
          end
      | None => SErr
      end
  end.

(** [if pmSet && hour < 12 { hour += 12 } else if amSet && hour == 12
    { hour = 0 }]. *)
Definition pm_hour (pm am : bool) (h : Z) : Z :=
  if pm && (h <? 12)%Z then (h + 12)%Z else if am && (h =? 12)%Z then 0%Z else h.

(** The end of [parse]: the hour of a [PM] or [AM] time, the defaults
    of month and day, the day checked against the month, and
    [Date(...)] in the location. *)
Definition parse_finish (st : PState) (l : string) : Parsed :=
  let h := pm_hour (p_pm st) (p_am st) (p_hour st) in
  let m := if (p_month st <? 0)%Z then 1%Z else p_month st in
  let d := if (p_day st <? 0)%Z then 1%Z else p_day st in
  if (d <? 1)%Z || (daysIn m (p_year st) <? d)%Z then PError
  else PTime (mkTime (p_year st) m d h (p_min st) (p_sec st) (p_nsec st) l).

(** [func ParseInLocation(layout, value string, loc *Location) (Time, error)]. *)
Definition ParseInLocation (layout value : string) (l : string) : Parsed :=
  match layout_chunks layout with
  | Some (cs, fin) =>
      match parse_chunks cs fin value pinit with
      | SOk st _ => parse_finish st l
      | SErr => PError
      | SUnsupported => PUnsupported
      end
  | None => PUnsupported
  end.

(** ** [time.LoadLocation] *)

(** The zone database of the host ([$ZONEINFO], the system's zoneinfo
    directories, the embedded tzdata): which names it knows. *)
Class ZoneDB := { zone_known : string -> bool }.

(** [func containsDotDot(s string) bool]. *)
Fixpoint containsDotDot (s : string) : bool :=
  match s with
  | String a ((String b _) as r) => (Ascii.eqb a "." && Ascii.eqb b ".") || containsDotDot r
  | _ => false
  end.

Section LoadLocation.
Context `{ZoneDB}.

(** [func LoadLocation(name string)], which returns a [*Location] and an error: a location is
    its name ([UTC] and [Local] are Go's two built-in ones). *)
Definition LoadLocation (name : string) : GoResult string :=
  if String.eqb name "" || String.eqb name "UTC" then Ok "UTC"
  else if String.eqb name "Local" then Ok "Local"
  else if containsDotDot name || head_is (Ascii.eqb "/") name || head_is (Ascii.eqb "\") name
  then Err "time: invalid location name"
  else if zone_known name then Ok name
  else Err ("unknown time zone " ++ name).

(** [func TimeParse(strCreatedAt string, config Configuration)
    (time.Time, error)] of [validation.go]: load the configured zone,
    parse the text with the configured layout in it.  [Err] carries the
    message the function returns ([log.Println] of the cause is not
    modelled); [None] is a layout the model does not interpret. *)
Definition TimeParse (strCreatedAt : string) (config : Configuration) : option (GoResult Time) :=
  match LoadLocation (Location (Timezone config)) with
  | Err _ => Some (Err "load timezone error")
  | Ok l =>
      match ParseInLocation (Queue.Format (Timezone config)) strCreatedAt l with
      | PTime t => Some (Ok t)
      | PError => Some (Err "parsing time : invalid time format")
      | PUnsupported => None
      end
  end.

End LoadLocation.

(** ** Layouts that [parse] reads back *)

Scheme Equality for StdChunk.

(** The elements [parse] reads back exactly as [Format] prints them:
    the zero-padded numbers, the month and weekday names, the
    zero-padded hour of the 12-hour clock and the AM/PM mark. *)
Definition good_std (c : StdChunk) : bool :=
  match c with
  | stdLongYear | stdZeroMonth | stdZeroDay | stdHour | stdZeroMinute | stdZeroSecond
  | stdMonth | stdLongMonth | stdWeekDay | stdLongWeekDay | stdZeroHour12 | stdPM | stdpm => true
  | _ => false
  end.

(** The literal after a chunk: the prefix of the next one, or the end
    of the layout. *)
Definition next_prefix (rest : list (string * StdChunk)) (fin : string) : string :=
  match rest with (p, _) :: _ => p | [] => fin end.

(** The chunks of such a layout: good elements, the seconds not
    followed by a literal starting with [.] or [,] (which would be read
    as their fraction). *)
Fixpoint good_chunks (cs : list (string * StdChunk)) (fin : string) : bool :=
  match cs with
  | [] => true
  | (_, c) :: rest =>
      good_std c && (negb (StdChunk_beq c stdZeroSecond) || negb (head_is commaOrPeriod (next_prefix rest fin))) &&
      good_chunks rest fin
  end.

Definition covers (cs : list (string * StdChunk)) (c : StdChunk) : bool :=
  existsb (fun pc => StdChunk_beq c (snd pc)) cs.

Definition covers_any (cs : list (string * StdChunk)) (l : list StdChunk) : bool :=
  existsb (covers cs) l.

(** The layouts with every field of a civil time to the second, each
    read back exactly: the year, the month (number or name), the day,
    the hour (of the 24-hour clock, or of the 12-hour clock with an
    AM/PM mark), the minute and the second, as the configured
    ["2006-01-02 15:04:05"] or ["Mon, 02 Jan 2006 03:04:05 PM"]. *)
Definition roundtrip_layout (layout : string) : bool :=
  match layout_chunks layout with
  | Some (cs, fin) =>
      good_chunks cs fin && covers cs stdLongYear && covers_any cs [stdZeroMonth; stdMonth; stdLongMonth] &&
      covers cs stdZeroDay && covers_any cs [stdHour; stdZeroHour12] &&
      (negb (covers cs stdZeroHour12) || covers_any cs [stdPM; stdpm]) &&
      covers cs stdZeroMinute && covers cs stdZeroSecond
  | None => false
  end.

(** The state [parse] reaches reading a good element of [t]. *)
Definition set_std (c : StdChunk) (t : Time) (st : PState) : PState :=
  let '(mkPState y mo d h mi sec ns pm am) := st in
  match c with
  | stdLongYear => mkPState (year t) mo d h mi sec ns pm am
  | stdZeroMonth | stdMonth | stdLongMonth => mkPState y (month t) d h mi sec ns pm am
  | stdZeroDay => mkPState y mo (day t) h mi sec ns pm am
  | stdHour => mkPState y mo d (hour t) mi sec ns pm am
  | stdZeroHour12 => mkPState y mo d (hour12 (hour t)) mi sec ns pm am
  | stdZeroMinute => mkPState y mo d h (minute t) sec ns pm am
  | stdZeroSecond => mkPState y mo d h mi (second t) ns pm am
  | stdPM | stdpm =>
      if (12 <=? hour t)%Z then mkPState y mo d h mi sec ns true am else mkPState y mo d h mi sec ns pm true
  | _ => st
  end.

Fixpoint set_chunks (cs : list (string * StdChunk)) (t : Time) (st : PState) : PState :=
  match cs with
  | [] => st
  | (_, c) :: rest => set_chunks rest t (set_std c t st)
  end.

(** A time [appendInt] prints in the fixed widths. *)
Definition in_range (t : Time) : Prop := valid_time t /\ (0 <= year t < 10000)%Z.

(** The ranges [parse]'s loop keeps: a month not yet read is [-1]. *)
Definition pstate_ok (st : PState) : Prop :=
  ((p_month st = -1 \/ 1 <= p_month st <= 12) /\ 0 <= p_hour st < 24 /\ 0 <= p_min st < 60 /\
  0 <= p_sec st < 60 /\ 0 <= p_nsec st < 1000000000)%Z.

(** ** The layout walk terminates *)

Lemma drop_length (n : nat) (s : string) : String.length (drop n s) <= String.length s.
Proof. revert s; induction n as [|n IH]; intros [|c s]; simpl; try specialize (IH s); lia. Qed.

Lemma drop_while_length (p : ascii -> bool) (s : string) :
  String.length (drop_while p s) <= String.length s.
Proof. induction s as [|c s IH]; simpl; [lia|]. destruct (p c); simpl; lia. Qed.

(** Whatever element heads the layout, the rest is shorter. *)
Lemma std_at_shorter (s pre suf : string) (std : StdChunk) :
  std_at s = Some (pre, std, suf) -> String.length suf < String.length s.
Proof.
  destruct s as [|c r]; [discriminate|]. cbn [std_at String.length]. intros H.
  repeat match type of H with
         | context [drop ?n ?x] => pose proof (drop_length n x); remember (drop n x)
         | context [drop_while ?p ?x] => pose proof (drop_while_length p x); remember (drop_while p x)
         end.
  repeat match type of H with
         | context [if ?b then _ else _] => destruct b
         | context [match ?r with String _ _ => _ | EmptyString => _ end] => destruct r
         end; try discriminate; injection H as _ _ <-; cbn [String.length] in *; try lia;
    repeat match goal with
           | |- context [drop_while ?p ?x] =>
               pose proof (drop_while_length p x); generalize dependent (drop_while p x)
           | |- context [if ?b then _ else _] => destruct b
           | |- context [match ?r with EmptyString => _ | String _ _ => _ end] => destruct r
           end; intros; cbn [String.length] in *; lia.
Qed.

Lemma nextStdChunk_shorter (layout p suf : string) (std : StdChunk) :
  nextStdChunk layout = (p, Some (std, suf)) -> String.length suf < String.length layout.
Proof.
  revert p. induction layout as [|c r IH]; intros p; cbn [nextStdChunk].
  - discriminate.
  - destruct (std_at (String c r)) as [[[pre std'] suf']|] eqn:E.
    + intros [= _ -> ->]. exact (std_at_shorter _ _ _ _ E).
    + destruct (nextStdChunk r) as [p' x] eqn:E'. intros [= _ ->].
      cbn [String.length]. specialize (IH p' eq_refl). lia.
Qed.

Lemma layout_loop_total (fuel : nat) (layout : string) :
  String.length layout < fuel -> exists l, layout_loop fuel layout = Some l.
Proof.
  revert layout. induction fuel as [|f IH]; intros layout Hlen; [lia|]. cbn [layout_loop].
  destruct (nextStdChunk layout) as [p [[std suf]|]] eqn:E; [|eauto].
  apply nextStdChunk_shorter in E.
  destruct (IH suf) as [[cs fin] ->]; [lia|]. destruct std; eauto.
Qed.

(** [layout_chunks]' fuel is enough: every layout is cut into chunks. *)
Lemma layout_chunks_total (layout : string) : exists l, layout_chunks layout = Some l.
Proof. apply layout_loop_total. lia. Qed.

(** ** Digits *)

Lemma utod_digit (d : Z) : (0 <= d < 10)%Z ->
  is_digit (utod d) = true /\ digit_val (utod d) = d /\ Ascii.eqb (utod d) " " = false /\
  commaOrPeriod (utod d) = false /\ Ascii.eqb (utod d) "-" = false /\ Ascii.eqb (utod d) "+" = false.
Proof.
  intros Hd. assert (d = 0 \/ d = 1 \/ d = 2 \/ d = 3 \/ d = 4 \/ d = 5 \/ d = 6 \/ d = 7 \/ d = 8 \/ d = 9)%Z
    as Hc by lia.
  repeat destruct Hc as [-> | Hc]; [..|subst]; vm_compute; repeat split.
Qed.

Lemma is_digit_range (c : ascii) : is_digit c = true -> (0 <= digit_val c <= 9)%Z.
Proof.
  unfold is_digit, digit_val. intros H. apply andb_prop in H as [H1 H2].
  apply Nat.leb_le in H1, H2. lia.
Qed.

Lemma div_mod_digit (x n : Z) : (0 <= x < 10 * n)%Z -> (0 < n)%Z -> (0 <= x / n < 10)%Z.
Proof. intros. split; [apply Z.div_pos | apply Z.div_lt_upper_bound]; lia. Qed.

Lemma mod10_digit (x : Z) : (0 <= x mod 10 < 10)%Z.
Proof. apply Z.mod_pos_bound. lia. Qed.

Lemma appendInt_2 (x : Z) : (0 <= x < 100)%Z ->
  appendInt x 2 = String (utod (x / 10)) ⟦utod (x mod 10)⟧.
Proof.
  intros Hx. unfold appendInt. rewrite Z.abs_eq by lia.
  replace (x <? 0)%Z with false by lia. replace (x <? 100)%Z with true by lia. reflexivity.
Qed.

Lemma appendInt_4 (x : Z) : (0 <= x < 10000)%Z ->
  appendInt x 4 = String (utod (x / 1000)) (String (utod (x / 100 mod 10))
                    (String (utod (x / 10 mod 10)) ⟦utod (x mod 10)⟧)).
Proof.
  intros Hx. unfold appendInt. rewrite Z.abs_eq by lia.
  replace (x <? 0)%Z with false by lia. replace (x <? 10000)%Z with true by lia. reflexivity.
Qed.

(** [getnum] reads back the two digits [appendInt x 2] prints. *)
Lemma getnum_appendInt_2 (x : Z) (fixed : bool) (r : string) : (0 <= x < 100)%Z ->
  getnum (appendInt x 2 ++ r) fixed = Some (x, r).
Proof.
  intros Hx. rewrite appendInt_2 by exact Hx.
  destruct (utod_digit (x / 10)) as (D1 & V1 & _); [apply div_mod_digit; lia|].
  destruct (utod_digit (x mod 10)) as (D2 & V2 & _); [apply mod10_digit|].
  cbn [append]. unfold getnum. rewrite D1, D2, V1, V2. do 2 f_equal. pose proof (Z.div_mod x 10). lia.
Qed.

(** [atoi] reads back the four digits [appendInt y 4] prints. *)
Lemma appendInt_4_read (y : Z) (r : string) : (0 <= y < 10000)%Z ->
  let v := appendInt y 4 ++ r in
  (4 <= String.length v)%nat /\ head_is is_digit v = true /\
  atoi (substring 0 4 v) = Some y /\ drop 4 v = r.
Proof.
  intros Hy v. subst v. rewrite appendInt_4 by exact Hy.
  destruct (utod_digit (y / 1000)) as (D1 & V1 & _ & _ & M1 & P1); [apply div_mod_digit; lia|].
  destruct (utod_digit (y / 100 mod 10)) as (D2 & V2 & _); [apply mod10_digit|].
  destruct (utod_digit (y / 10 mod 10)) as (D3 & V3 & _); [apply mod10_digit|].
  destruct (utod_digit (y mod 10)) as (D4 & V4 & _); [apply mod10_digit|].
  cbn [append substring String.length drop head_is]. repeat split; [lia | exact D1 | ].
  unfold atoi. rewrite M1, P1. cbn beta iota zeta.
  replace (substring 0 0 r) with "" by (destruct r; reflexivity).
  cbn [leading_int]. rewrite D1, V1. cbn [leading_int]. rewrite D2, V2.
  cbn [leading_int]. rewrite D3, V3. cbn [leading_int]. rewrite D4, V4. cbn [leading_int].
  cbn beta iota. do 2 f_equal.
  assert (E2 : (y / 1000 = y / 100 / 10)%Z) by (rewrite Z.div_div; reflexivity || lia).
  assert (E1 : (y / 100 = y / 10 / 10)%Z) by (rewrite Z.div_div; reflexivity || lia).
  rewrite E2, E1.
  pose proof (Z.div_mod y 10). pose proof (Z.div_mod (y / 10) 10). pose proof (Z.div_mod (y / 10 / 10) 10).
  lia.
Qed.

(** ** [skip] and runs of spaces *)

Definition is_space (c : ascii) : bool := Ascii.eqb c " ".

Lemma drop_while_head (p : ascii -> bool) (s : string) : head_is p (drop_while p s) = false.
Proof. induction s as [|c s IH]; simpl; [reflexivity|]. destruct (p c) eqn:E; simpl; auto. Qed.

Lemma skip_true_spaces (r x : string) : skip true r x = skip true (drop_while is_space r) x.
Proof. induction r as [|c r IH]; [reflexivity|]. cbn [skip drop_while]. unfold is_space. destruct (Ascii.eqb c " ") eqn:E; [exact IH | cbn [skip]; now rewrite E]. Qed.

Lemma cutspace_app (r v : string) : head_is is_space v = false ->
  cutspace (r ++ v) = drop_while is_space r ++ v.
Proof.
  intros Hv. unfold is_space in *. induction r as [|c r IH]; cbn [append cutspace drop_while].
  - destruct v as [|c v]; [reflexivity|]. cbn [head_is] in Hv. cbn [cutspace]. now rewrite Hv.
  - destruct (Ascii.eqb c " "); [exact IH | reflexivity].
Qed.

(** [skip] consumes its prefix from the head of the value when the rest
    of the value does not start with a space. *)
Lemma skip_app (p v : string) : head_is is_space v = false -> skip false p (p ++ v) = Some v.
Proof.
  intros Hv. remember (String.length p) as n eqn:Hn. assert (Hle : String.length p <= n) by lia.
  clear Hn. revert p Hle. induction n as [|n IH]; intros [|c r] Hle; cbn in Hle; try reflexivity; [lia|].
  cbn [append skip]. destruct (Ascii.eqb c " ") eqn:Ec.
  - apply Ascii.eqb_eq in Ec. subst c. cbn [head_is]. rewrite Ascii.eqb_refl. cbn [negb].
    cbn [cutspace]. rewrite Ascii.eqb_refl, cutspace_app, skip_true_spaces by exact Hv.
    pose proof (drop_while_head is_space r) as Hh. pose proof (drop_while_length is_space r) as Hl.
    destruct (drop_while is_space r) as [|c' r'']; [reflexivity|].
    cbn in Hh, Hl |- *. unfold is_space in Hh. rewrite Hh, Ascii.eqb_refl. apply IH. lia.
  - rewrite Ascii.eqb_refl. apply IH. lia.
Qed.

(** ** Names, [lookup] and the 12-hour clock *)

Lemma match_fold_refl (s : string) : match_fold s s = true.
Proof. induction s as [|c s IH]; cbn [match_fold]; [reflexivity|]. now rewrite Ascii.eqb_refl, IH. Qed.

Lemma substring_0_app (v r : string) : substring 0 (String.length v) (v ++ r) = v.
Proof. induction v as [|c v IH]; cbn; [now destruct r | now rewrite IH]. Qed.

Lemma drop_app (v r : string) : drop (String.length v) (v ++ r) = r.
Proof. induction v as [|c v IH]; cbn; [reflexivity | exact IH]. Qed.

Lemma lookup_from_hit (i : Z) (v : string) (rest : list string) (r : string) :
  lookup_from i (v :: rest) (v ++ r) = Some (i, r).
Proof.
  cbn [lookup_from]. rewrite length_append, substring_0_app, match_fold_refl, drop_app.
  replace (String.length v <=? String.length v + String.length r)%nat with true
    by (symmetry; apply Nat.leb_le; lia). reflexivity.
Qed.

Lemma lookup_from_miss (i : Z) (v : string) (rest : list string) (val : string) :
  match_fold (substring 0 (String.length v) val) v = false ->
  lookup_from i (v :: rest) val = lookup_from (i + 1)%Z rest val.
Proof. intros H. cbn [lookup_from]. now rewrite H, andb_false_r. Qed.

(** [lookup] finds a name of its table, followed by anything, at its
    index: no earlier name agrees with it up to case. *)
Ltac lookup_name :=
  unfold lookup; try unfold longMonthNames at 1; try unfold shortMonthNames at 1;
  try unfold longDayNames at 1; try unfold shortDayNames at 1;
  repeat (rewrite lookup_from_miss by reflexivity);
  etransitivity; [apply lookup_from_hit | reflexivity].

(** What a printed element starts with: neither a space nor the [.] or
    [,] of a fraction. *)
Definition good_head (s : string) : bool :=
  match s with String c _ => negb (is_space c) && negb (commaOrPeriod c) | EmptyString => false end.

Lemma month_names (m : Z) (r : string) : (1 <= m <= 12)%Z ->
  lookup longMonthNames (Month_String m ++ r) = Some (m - 1, r)%Z /\
  lookup shortMonthNames (substring 0 3 (Month_String m) ++ r) = Some (m - 1, r)%Z /\
  good_head (Month_String m) = true /\ good_head (substring 0 3 (Month_String m)) = true.
Proof.
  intros Hm. assert (m = 1 \/ m = 2 \/ m = 3 \/ m = 4 \/ m = 5 \/ m = 6 \/ m = 7 \/ m = 8 \/ m = 9 \/
                     m = 10 \/ m = 11 \/ m = 12)%Z as Hc by lia.
  repeat destruct Hc as [-> | Hc]; [..|subst];
    (split; [lookup_name | split; [lookup_name | split; reflexivity]]).
Qed.

Lemma absWeekday_range (a : Z) : (0 <= absWeekday a <= 6)%Z.
Proof.
  unfold absWeekday. pose proof (Z.mod_pos_bound (a + 86400) 604800 ltac:(lia)).
  split; [apply Z.div_pos; lia|]. apply Z.lt_succ_r, Z.div_lt_upper_bound; lia.
Qed.

Lemma weekday_names (d : Z) (r : string) : (0 <= d <= 6)%Z ->
  (exists i, lookup longDayNames (Weekday_String d ++ r) = Some (i, r)) /\
  (exists i, lookup shortDayNames (substring 0 3 (Weekday_String d) ++ r) = Some (i, r)) /\
  good_head (Weekday_String d) = true /\ good_head (substring 0 3 (Weekday_String d)) = true.
Proof.
  intros Hd. assert (d = 0 \/ d = 1 \/ d = 2 \/ d = 3 \/ d = 4 \/ d = 5 \/ d = 6)%Z as Hc by lia.
  repeat destruct Hc as [-> | Hc]; [..|subst];
    (split; [eexists; lookup_name | split; [eexists; lookup_name | split; reflexivity]]).
Qed.

(** The 12-hour clock and the mark give back the hour of the day. *)
Lemma hour12_pm (h : Z) : (0 <= h < 24)%Z ->
  (1 <= hour12 h <= 12)%Z /\ pm_hour (12 <=? h)%Z (h <? 12)%Z (hour12 h) = h /\
  pm_hour (12 <=? h)%Z (h <? 12)%Z h = h.
Proof.
  intros Hh. pose proof (Z.rem_bound_pos h 12 ltac:(lia) ltac:(lia)). pose proof (Z.quot_rem' h 12).
  unfold hour12, pm_hour.
  repeat match goal with |- context [if ?b then _ else _] => destruct b eqn:? end;
    cbn [andb] in *; zhyps; lia.
Qed.

(** ** Format, then parse *)

Lemma daysIn_range (m y : Z) : (28 <= daysIn m y <= 31)%Z.
Proof. unfold daysIn. repeat match goal with |- context [if ?b then _ else _] => destruct b end; lia. Qed.

Lemma utod_head (d : Z) (w : string) : (0 <= d < 10)%Z -> good_head (String (utod d) w) = true.
Proof.
  intros Hd. destruct (utod_digit d Hd) as (_ & _ & S & C & _). cbn [good_head]. unfold is_space.
  now rewrite S, C.
Qed.

(** A good element of a time in range prints a text [parse] can start
    reading. *)
Lemma format_std_good (c : StdChunk) (t : Time) : good_std c = true -> in_range t ->
  exists x, format_std c t = Some x /\ good_head x = true.
Proof.
  intros Hc [Hv Hy]. unfold valid_time in Hv. pose proof (daysIn_range (month t) (year t)).
  destruct (hour12_pm (hour t) ltac:(lia)) as (H12 & _).
  pose proof (absWeekday_range (abs_seconds t)) as Hw.
  destruct c; try discriminate; cbn [format_std]; eexists; split; try reflexivity.
  all: try (rewrite appendInt_4 by lia; apply utod_head, div_mod_digit; lia).
  all: try (rewrite appendInt_2 by lia; apply utod_head, div_mod_digit; lia).
  all: try apply (month_names (month t) "" ltac:(lia)).
  all: try apply (weekday_names (absWeekday (abs_seconds t)) "" Hw).
  all: now destruct (12 <=? hour t)%Z.
Qed.

Lemma parse_std_good (c : StdChunk) (next : option StdChunk) (t : Time) (x r : string) (st : PState) :
  good_std c = true -> in_range t -> format_std c t = Some x ->
  (StdChunk_beq c stdZeroSecond = true -> head_is commaOrPeriod r = false) ->
  parse_std c next (x ++ r) st = SOk (set_std c t st) r.
Proof.
  intros Hc [Hv Hy] Hx Hr. unfold valid_time in Hv. pose proof (daysIn_range (month t) (year t)).
  destruct (hour12_pm (hour t) ltac:(lia)) as (H12 & _).
  pose proof (absWeekday_range (abs_seconds t)) as Hw.
  destruct st as [y mo d h mi sec ns pm am].
  destruct c; try discriminate; cbn [format_std] in Hx; injection Hx as <-; cbn [parse_std set_std];
    try (rewrite getnum_appendInt_2 by lia; zbool; try reflexivity).
  - destruct (appendInt_4_read (year t) r) as (L & D & A & Dr); [lia|].
    rewrite D, A, Dr. replace (_ <? 4)%nat with false by (symmetry; apply Nat.ltb_ge; lia). reflexivity.
  - specialize (Hr eq_refl). destruct r as [|c [|e r']]; try reflexivity. cbn [head_is] in Hr. now rewrite Hr.
  - destruct (month_names (month t) r ltac:(lia)) as (_ & -> & _). cbn [p_month].
    now replace (month t - 1 + 1)%Z with (month t) by lia.
  - destruct (month_names (month t) r ltac:(lia)) as (-> & _). cbn [p_month].
    now replace (month t - 1 + 1)%Z with (month t) by lia.
  - now destruct (weekday_names (absWeekday (abs_seconds t)) r Hw) as (_ & [i ->] & _).
  - now destruct (weekday_names (absWeekday (abs_seconds t)) r Hw) as ([i ->] & _).
  - destruct (12 <=? hour t)%Z; destruct r; reflexivity.
  - destruct (12 <=? hour t)%Z; destruct r; reflexivity.
Qed.

Lemma format_chunks_head (cs : list (string * StdChunk)) (fin : string) (t : Time) (x : string) :
  good_chunks cs fin = true -> in_range t -> head_is commaOrPeriod (next_prefix cs fin) = false ->
  format_chunks cs fin t = Some x -> head_is commaOrPeriod x = false.
Proof.
  intros Hg Ht Hp. destruct cs as [|[p c] rest]; cbn [format_chunks next_prefix] in *.
  - now intros [= <-].
  - apply andb_prop in Hg as [Hg _]. apply andb_prop in Hg as [Hc _].
    destruct (format_std_good c t Hc Ht) as ([|a w] & -> & Ha); [discriminate|].
    destruct (format_chunks rest fin t); [|discriminate]. intros [= <-].
    cbn [good_head] in Ha. apply andb_prop in Ha as [_ Ha]. apply negb_true_iff in Ha.
    destruct p as [|b p]; cbn in Hp |- *; [exact Ha | exact Hp].
Qed.

Lemma format_chunks_good (cs : list (string * StdChunk)) (fin : string) (t : Time) :
  good_chunks cs fin = true -> in_range t -> exists x, format_chunks cs fin t = Some x.
Proof.
  intros Hg Ht. induction cs as [|[p c] rest IH]; cbn [format_chunks]; [eauto|].
  cbn [good_chunks] in Hg. apply andb_prop in Hg as [Hc Hg]. apply andb_prop in Hc as [Hc _].
  destruct (format_std_good c t Hc Ht) as (x & -> & _). destruct (IH Hg) as [y ->]. eauto.
Qed.

(** [parse] reads back, chunk by chunk, the text [format] prints. *)
Lemma parse_format_chunks (cs : list (string * StdChunk)) (fin : string) (t : Time) :
  good_chunks cs fin = true -> in_range t ->
  forall x st, format_chunks cs fin t = Some x -> parse_chunks cs fin x st = SOk (set_chunks cs t st) "".
Proof.
  intros Hg Ht. induction cs as [|[p c] rest IH]; intros x st Hx; cbn [format_chunks] in Hx.
  - injection Hx as <-. cbn [parse_chunks set_chunks].
    pose proof (skip_app fin "" eq_refl) as S. rewrite append_nil_r in S. now rewrite S.
  - cbn [good_chunks] in Hg. apply andb_prop in Hg as [Hc Hg]. apply andb_prop in Hc as [Hc Hs].
    destruct (format_std_good c t Hc Ht) as (y & Ey & Hh). rewrite Ey in Hx.
    destruct (format_chunks rest fin t) as [z|] eqn:Ez; [|discriminate]. injection Hx as <-.
    cbn [parse_chunks set_chunks]. rewrite skip_app.
    2: { destruct y as [|a w]; [discriminate|]. cbn [good_head] in Hh. apply andb_prop in Hh as [Hh _].
         cbn [append head_is]. now apply negb_true_iff. }
    cbn beta iota. rewrite (parse_std_good c _ t _ _ _ Hc Ht Ey).
    + now apply IH.
    + intros Es. rewrite Es in Hs. apply negb_true_iff in Hs. exact (format_chunks_head rest fin t z Hg Ht Hs Ez).
Qed.

(** After the chunks, each field covered holds [t]'s value, and the
    mark records whether [t] is after noon. *)
Lemma set_chunks_fields (cs : list (string * StdChunk)) (t : Time) (st : PState) :
  let st' := set_chunks cs t st in
  p_year st' = (if covers cs stdLongYear then year t else p_year st) /\
  p_month st' = (if covers_any cs [stdZeroMonth; stdMonth; stdLongMonth] then month t else p_month st) /\
  p_day st' = (if covers cs stdZeroDay then day t else p_day st) /\
  p_min st' = (if covers cs stdZeroMinute then minute t else p_min st) /\
  p_sec st' = (if covers cs stdZeroSecond then second t else p_sec st) /\
  p_nsec st' = p_nsec st /\
  p_pm st' = (p_pm st || covers_any cs [stdPM; stdpm] && (12 <=? hour t)%Z) /\
  p_am st' = (p_am st || covers_any cs [stdPM; stdpm] && (hour t <? 12)%Z).
Proof.
  replace (hour t <? 12)%Z with (negb (12 <=? hour t))%Z
    by (destruct (Z.ltb_spec (hour t) 12), (Z.leb_spec 12 (hour t)); reflexivity || lia).
  revert st. induction cs as [|[p c] rest IH]; intros st; cbn [set_chunks].
  - cbn. rewrite !orb_false_r. repeat split.
  - destruct (IH (set_std c t st)) as (-> & -> & -> & -> & -> & -> & -> & ->).
    unfold covers_any, covers. cbn [existsb snd]. destruct st, c; cbn [set_std StdChunk_beq orb];
      repeat match goal with |- context [existsb ?f ?l] => destruct (existsb f l) end;
      try destruct (12 <=? hour t)%Z; cbn; repeat split; now rewrite ?orb_true_r, ?orb_false_r.
Qed.

(** The hour the chunks leave: the initial one when no hour element is
    read, else the hour of [t] on one of the two clocks. *)
Lemma set_chunks_hour (cs : list (string * StdChunk)) (t : Time) (st : PState) :
  (covers_any cs [stdHour; stdZeroHour12] = false /\ p_hour (set_chunks cs t st) = p_hour st) \/
  p_hour (set_chunks cs t st) = hour t \/
  (p_hour (set_chunks cs t st) = hour12 (hour t) /\ covers cs stdZeroHour12 = true).
Proof.
  revert st. induction cs as [|[p c] rest IH]; intros st; [left; split; reflexivity|]. cbn [set_chunks].
  unfold covers_any, covers in *. cbn [existsb snd] in *.
  destruct (IH (set_std c t st)) as [[Hc ->]|[->|[-> Hz]]].
  - destruct st, c; cbn [set_std StdChunk_beq orb] in *; try destruct (12 <=? hour t)%Z; cbn [p_hour];
      first [ right; left; reflexivity | right; right; split; reflexivity
            | left; split; [exact Hc | reflexivity] ].
  - now right; left.
  - right; right. split; [reflexivity|]. rewrite Hz. apply orb_true_r.
Qed.

(** [ParseInLocation] reads back the fields [Format] prints, for a
    layout of good elements. *)
Lemma Format_ParseInLocation_chunks (layout : string) (cs : list (string * StdChunk)) (fin : string)
    (t : Time) (l : string) :
  layout_chunks layout = Some (cs, fin) -> good_chunks cs fin = true -> in_range t ->
  exists s, Format layout t = Some s /\ ParseInLocation layout s l = parse_finish (set_chunks cs t pinit) l.
Proof.
  intros Hl Hg Ht. unfold Format, ParseInLocation. rewrite Hl.
  destruct (format_chunks_good cs fin t Hg Ht) as [x Hx]. exists x. split; [exact Hx|].
  now rewrite (parse_format_chunks cs fin t Hg Ht x pinit Hx).
Qed.

(** [ParseInLocation] reads back what [Format] prints, for a layout of
    [roundtrip_layout] and a time it prints in fixed widths. *)
Lemma Format_ParseInLocation (layout : string) (t : Time) :
  roundtrip_layout layout = true -> in_range t -> nsec t = 0%Z ->
  exists s, Format layout t = Some s /\ ParseInLocation layout s (loc t) = PTime t.
Proof.
  intros Hl Ht Hn. unfold roundtrip_layout in Hl.
  destruct (layout_chunks layout) as [[cs fin]|] eqn:E; [|discriminate].
  rewrite !andb_true_iff in Hl. destruct Hl as [[[[[[[Hg Hy] Hm] Hd] Hh] Hpm] Hmi] Hs].
  destruct (Format_ParseInLocation_chunks layout cs fin t (loc t) E Hg Ht) as (x & Hx & Hp).
  exists x. split; [exact Hx|]. rewrite Hp.
  destruct Ht as [Hv _]. unfold valid_time in Hv. pose proof (hour12_pm (hour t) ltac:(lia)) as (_ & P1 & P2).
  destruct (set_chunks_fields cs t pinit) as (Ey & Em & Ed & Emi & Es & En & Ep & Ea).
  rewrite Hy in Ey. rewrite Hm in Em. rewrite Hd in Ed. rewrite Hmi in Emi. rewrite Hs in Es.
  unfold parse_finish. rewrite Ey, Em, Ed, Emi, Es, En, Ep, Ea. cbn [pinit p_pm p_am p_nsec orb].
  assert (Eh : pm_hour (covers_any cs [stdPM; stdpm] && (12 <=? hour t))%Z
                       (covers_any cs [stdPM; stdpm] && (hour t <? 12))%Z
                       (p_hour (set_chunks cs t pinit)) = hour t).
  { destruct (set_chunks_hour cs t pinit) as [[Hc _]|[-> | [-> Hz]]]; [congruence| |].
    - destruct (covers_any cs [stdPM; stdpm]); [exact P2 | reflexivity].
    - rewrite Hz in Hpm. cbn [negb orb] in Hpm. now rewrite Hpm. }
  rewrite Eh. zbool. destruct t; cbn in *. now subst.
Qed.

(** The date of [WriteToLogFile]'s layout. *)
Lemma Format_date (t : Time) :
  Format "2006-01-02" t = Some (appendInt (year t) 4 ++ "-" ++ appendInt (month t) 2 ++ "-" ++ appendInt (day t) 2).
Proof.
  change (Format "2006-01-02" t) with
    (Some ("" ++ appendInt (year t) 4 ++ "-" ++ appendInt (month t) 2 ++ "-" ++ appendInt (day t) 2 ++ "")).
  now rewrite append_nil_r.
Qed.

(** Two valid times print the same date exactly when they fall on the
    same day. *)
Lemma Format_date_inj (t1 t2 : Time) : in_range t1 -> in_range t2 ->
  Format "2006-01-02" t1 = Format "2006-01-02" t2 -> (year t1, month t1, day t1) = (year t2, month t2, day t2).
Proof.
  intros [V1 Y1] [V2 Y2] E. rewrite !Format_date in E.
  apply (f_equal (fun o => match o with Some v => v | None => "" end)) in E. cbn beta iota in E.
  unfold valid_time in V1, V2.
  pose proof (daysIn_range (month t1) (year t1)). pose proof (daysIn_range (month t2) (year t2)).
  destruct (appendInt_4_read (year t1) ("-" ++ appendInt (month t1) 2 ++ "-" ++ appendInt (day t1) 2))
    as (_ & _ & A1 & R1); [lia|].
  destruct (appendInt_4_read (year t2) ("-" ++ appendInt (month t2) 2 ++ "-" ++ appendInt (day t2) 2))
    as (_ & _ & A2 & R2); [lia|].
  assert (Ey : year t1 = year t2) by (apply (f_equal (fun v => atoi (substring 0 4 v))) in E; congruence).
  apply (f_equal (drop 4)) in E. rewrite R1, R2 in E. apply append_cancel_l in E.
  apply (f_equal (fun v => getnum v true)) in E. rewrite !getnum_appendInt_2 in E by lia.
  injection E as Em E. rewrite <- (append_nil_r (appendInt (day t1) 2)),
    <- (append_nil_r (appendInt (day t2) 2)) in E.
  apply (f_equal (fun v => getnum v true)) in E. rewrite !getnum_appendInt_2 in E by lia.
  injection E as Ed. now rewrite Ey, Em, Ed.
Qed.

(** ** Parsed times are valid *)

Lemma getnum_range (s : string) (fixed : bool) (n : Z) (r : string) :
  getnum s fixed = Some (n, r) -> (0 <= n <= 99)%Z.
Proof.
  destruct s as [|a s]; unfold getnum; [discriminate|].
  destruct (is_digit a) eqn:Da; [|discriminate]. pose proof (is_digit_range a Da).
  destruct s as [|b s]; [destruct fixed; intros [= <- _]; lia|].
  destruct (is_digit b) eqn:Db; [pose proof (is_digit_range b Db)|].
  { intros H1. assert (n = 10 * digit_val a + digit_val b)%Z by congruence. lia. }
  destruct fixed; intros [= <- _]; lia.
Qed.

Lemma leading_int_bound (s : string) (acc x : Z) : (0 <= acc)%Z -> leading_int acc s = (x, "") ->
  (acc * 10 ^ Z.of_nat (String.length s) <= x < (acc + 1) * 10 ^ Z.of_nat (String.length s))%Z.
Proof.
  revert acc. induction s as [|c s IH]; intros acc Hacc; cbn [leading_int String.length].
  - intros [= ->]. cbn [Z.of_nat]. rewrite Z.pow_0_r. lia.
  - destruct (is_digit c) eqn:D; [|discriminate]. intros H. pose proof (is_digit_range c D).
    specialize (IH (10 * acc + digit_val c)%Z ltac:(lia) H). rewrite Nat2Z.inj_succ, Z.pow_succ_r by lia.
    assert (0 < 10 ^ Z.of_nat (String.length s))%Z by (apply Z.pow_pos_nonneg; lia). nia.
Qed.

Lemma digit_not_sign (d : ascii) : is_digit d = true -> Ascii.eqb d "-" = false /\ Ascii.eqb d "+" = false.
Proof.
  intros D. split; destruct (Ascii.eqb_spec d "-"), (Ascii.eqb_spec d "+"); subst; try discriminate; reflexivity.
Qed.

(** The nanoseconds [parseNanoseconds] reads are below a second. *)
Lemma parseNanoseconds_range (c d : ascii) (w : string) (n : nat) (ns : Z) :
  is_digit d = true -> (2 <= n)%nat -> parseNanoseconds (String c (String d w)) n = Some ns ->
  (0 <= ns < 1000000000)%Z.
Proof.
  intros D Hn. unfold parseNanoseconds. set (nb := Nat.min n 10).
  assert (Hnb : (2 <= nb <= 10)%nat) by lia.
  replace (nb - 1)%nat with (S (nb - 2)) by lia. cbn [substring].
  pose proof (substring_length_le 0 (nb - 2) w) as Hlen.
  unfold atoi. destruct (digit_not_sign d D) as [-> ->]. cbn beta iota zeta.
  destruct (leading_int 0 (String d (substring 0 (nb - 2) w))) as [x [|? ?]] eqn:E; [|discriminate].
  intros [= <-]. apply leading_int_bound in E; [|lia]. cbn [String.length] in E.
  assert (Hp : (10 ^ Z.of_nat (S (String.length (substring 0 (nb - 2) w))) <= 10 ^ Z.of_nat (nb - 1))%Z)
    by (apply Z.pow_le_mono_r; lia).
  assert (Hq : (10 ^ Z.of_nat (nb - 1) * 10 ^ Z.of_nat (10 - nb) = 1000000000)%Z)
    by (rewrite <- Z.pow_add_r by lia; replace (Z.of_nat (nb - 1) + Z.of_nat (10 - nb))%Z with 9%Z by lia;
        reflexivity).
  assert (0 < 10 ^ Z.of_nat (10 - nb))%Z by (apply Z.pow_pos_nonneg; lia).
  split; [apply Z.mul_nonneg_nonneg; lia|]. rewrite <- Hq. apply Z.mul_lt_mono_pos_r; lia.
Qed.

(** [lookup] returns the index of a name of its table. *)
Lemma lookup_from_range (tab : list string) (v : string) (i0 i : Z) (r : string) :
  lookup_from i0 tab v = Some (i, r) -> (i0 <= i < i0 + Z.of_nat (length tab))%Z.
Proof.
  revert i0. induction tab as [|w tab IH]; intros i0; cbn [lookup_from length]; [discriminate|].
  destruct (_ && _)%bool; [intros [= <- _]; lia|]. intros H. apply IH in H. lia.
Qed.

Lemma lookup_range (tab : list string) (v : string) (i : Z) (r : string) :
  lookup tab v = Some (i, r) -> (0 <= i < Z.of_nat (length tab))%Z.
Proof. intros H. apply lookup_from_range in H. lia. Qed.

(** One element keeps the ranges of [pstate_ok]. *)
Lemma parse_std_ok (c : StdChunk) (next : option StdChunk) (v v' : string) (st st' : PState) :
  pstate_ok st -> parse_std c next v st = SOk st' v' -> pstate_ok st'.
Proof.
  intros Hok H. unfold pstate_ok in *.
  destruct c; cbn [parse_std] in H;
    repeat match type of H with
           | context [match getnum ?a ?b with _ => _ end] =>
               let E := fresh "E" in destruct (getnum a b) as [[? ?]|] eqn:E; [apply getnum_range in E|]
           | context [match parseNanoseconds ?a ?b with _ => _ end] =>
               let E := fresh "N" in destruct (parseNanoseconds a b) eqn:E
           | context [match lookup ?a ?b with _ => _ end] =>
               let E := fresh "L" in
               destruct (lookup a b) as [[? ?]|] eqn:E; [apply lookup_range in E; simpl length in E|]
           | context [match atoi ?a with _ => _ end] => destruct (atoi a)
           | context [if ?b then _ else _] => let E := fresh "B" in destruct b eqn:E
           | context [match ?x with String _ _ => _ | EmptyString => _ end] => destruct x
           | context [match ?n with Some _ => _ | None => _ end] => destruct n as [[]|]
           end; try discriminate; injection H as <- _; zhyps;
    try match goal with
        | B : (_ && is_digit ?d)%bool = true, N : parseNanoseconds _ _ = Some _ |- _ =>
            apply andb_prop in B as [_ B];
            pose proof (fun H2 => parseNanoseconds_range _ _ _ _ _ B H2 N) as R; specialize (R ltac:(lia))
        end;
    cbn [p_year p_month p_day p_hour p_min p_sec p_nsec]; lia.
Qed.

Lemma parse_chunks_ok (cs : list (string * StdChunk)) (fin : string) :
  forall v st st' v', pstate_ok st -> parse_chunks cs fin v st = SOk st' v' -> pstate_ok st'.
Proof.
  induction cs as [|[p c] rest IH]; intros v st st' v' Hok; cbn [parse_chunks].
  - destruct (skip false fin v) as [[|? ?]|]; intros H; try discriminate. now injection H as <- _.
  - destruct (skip false p v) as [w|]; [|discriminate].
    destruct (parse_std c _ w st) as [st1 w1| |] eqn:E; try discriminate.
    apply IH. exact (parse_std_ok _ _ _ _ _ _ Hok E).
Qed.

(** A [PM] or [AM] mark keeps the hour of the day in range. *)
Lemma pm_hour_range (pm am : bool) (h : Z) : (0 <= h < 24)%Z -> (0 <= pm_hour pm am h < 24)%Z.
Proof.
  intros Hh. unfold pm_hour. destruct pm, am; cbn [andb];
    destruct (Z.ltb_spec h 12); try destruct (Z.eqb_spec h 12); lia.
Qed.

(** Every time [ParseInLocation] returns is a valid civil time: month,
    day of the month, hour, minute, second and nanosecond in range. *)
Lemma ParseInLocation_valid (layout value l : string) (t : Time) :
  ParseInLocation layout value l = PTime t -> valid_time t /\ loc t = l.
Proof.
  unfold ParseInLocation. destruct (layout_chunks layout) as [[cs fin]|]; [|discriminate].
  destruct (parse_chunks cs fin value pinit) as [st v| |] eqn:E; try discriminate.
  apply parse_chunks_ok in E; [|unfold pstate_ok; cbn; lia].
  unfold parse_finish. cbv zeta. destruct (_ || _)%bool eqn:Hd; [discriminate|].
  intros [= <-]. split; [|reflexivity]. unfold pstate_ok, valid_time in *.
  cbn [month day hour minute second nsec year].
  pose proof (pm_hour_range (p_pm st) (p_am st) (p_hour st) ltac:(lia)).
  destruct (p_month st <? 0)%Z eqn:Hm, (p_day st <? 0)%Z eqn:Hdd; zhyps; lia.
Qed.

(** ** [TimeParse] *)

Section TimeParseSpec.
Context `{ZoneDB}.

(** C13: [TimeParse] reads back what [Format] prints with the
    configured layout, when the configured zone loads as the time's
    location, the layout has every field to the second in a form parse
    reads back exactly (zero-padded numbers, month names, the 12-hour
    clock with its AM/PM mark, as the shipped ["2006-01-02 15:04:05"]
    or ["Mon, 02 Jan 2006 03:04:05 PM"]), and the time is a valid civil
    time of a four-digit year with no fraction of a second. *)
Theorem TimeParse_roundtrip (config : Configuration) (t : Time) :
  LoadLocation (Location (Timezone config)) = Ok (loc t) ->
  roundtrip_layout (Queue.Format (Timezone config)) = true ->
  valid_time t -> (0 <= year t < 10000)%Z -> nsec t = 0%Z ->
  exists s, Format (Queue.Format (Timezone config)) t = Some s /\ TimeParse s config = Some (Ok t).
Proof.
  intros Hl Hr Hv Hy Hn.
  destruct (Format_ParseInLocation _ t Hr (conj Hv Hy) Hn) as (s & Hf & Hp).
  exists s. split; [exact Hf|]. unfold TimeParse. now rewrite Hl, Hp.
Qed.

End TimeParseSpec.

(** ** Witnesses *)

(** A host whose zone database knows [Asia/Jakarta], the shipped zone. *)
#[local] Instance jakarta_zones : ZoneDB := {| zone_known := fun name => String.eqb name "Asia/Jakarta" |}.

(** The last second of a leap day, in the configured zone. *)
Definition witness_time : Time := mkTime 2024 2 29 23 59 58 0 "Asia/Jakarta".

Lemma TimeParse_roundtrip_witness :
  exists s, Format (Queue.Format (Timezone queue_witness_configuration)) witness_time = Some s /\
            TimeParse s queue_witness_configuration = Some (Ok witness_time).
Proof.
  apply TimeParse_roundtrip; try (vm_compute; reflexivity).
  - unfold valid_time. cbv -[Z.le Z.lt]. lia.
  - cbv -[Z.le Z.lt]. lia.
Defined.

(** Names and the 12-hour clock: the layout reads back what it prints;
    names are matched whatever their case, the AM/PM mark is not. *)
Example Format_ParseInLocation_12h :
  roundtrip_layout "Mon, 02 Jan 2006 03:04:05 PM" = true /\
  Format "Mon, 02 Jan 2006 03:04:05 PM" witness_time = Some "Thu, 29 Feb 2024 11:59:58 PM" /\
  ParseInLocation "Mon, 02 Jan 2006 03:04:05 PM" "thu, 29 FEB 2024 11:59:58 PM" "Asia/Jakarta"
    = PTime witness_time /\
  ParseInLocation "Mon, 02 Jan 2006 03:04:05 PM" "Thu, 29 Feb 2024 11:59:58 pm" "Asia/Jakarta" = PError.
Proof. vm_compute. repeat split. Qed.
