(* ===== verification/Utility.v ===== *)
(** * The helpers of [src/utility/utility.go] outside the literal encoders

    [SafeString]'s index loop as the code writes it (Literal.v models
    the function by its per-byte effect, which this file proves equal);
    [InArray]'s [range] loop; [strings.TrimSpace], [strings.TrimSuffix],
    [PrintConsole] and [RecoverError]; [GetApplicationPath] and
    [LoadApplicationConfiguration] over an environment that gives the
    results of the file-system calls, with [json.Unmarshal] as a class
    whose law says that malformed JSON leaves the target untouched. *)

From Stdlib Require Import String Ascii List ZArith Lia Bool.
From S2P Require Import Prelude SqlLex Literal Queue.
Import ListNotations.
Open Scope string_scope.
Open Scope go_scope.

(** ** [SafeString] as a loop over indices *)

(** [for i := 0; i < len(sql); i++ { c := sql[i]; ... dest = append(dest, ...) }]
    with [fuel] bounding the iterations: [None] when it runs out. *)
Fixpoint safe_string_loop (fuel : nat) (sql : string) (i : nat) (dest : string) : option string :=
  match fuel with
  | O => None
  | S f =>
      if (i <? String.length sql)%nat then
        match String.get i sql with
        | Some c =>
            let dest := if Ascii.eqb c quote then dest ++ String quote ⟦quote⟧ else dest ++ ⟦c⟧ in
            safe_string_loop f sql (S i) dest
        | None => None
        end
      else Some dest
  end.

(** [dest := make([]byte, 0, 2*len(sql))]: the capacity the code
    reserves, and the loop from index 0 with [len(sql) + 1] steps. *)
Definition safe_string_capacity (sql : string) : nat := 2 * String.length sql.

Definition SafeString_loop (sql : string) : option string :=
  safe_string_loop (S (String.length sql)) sql 0 "".

(** The quotes of a string. *)
Fixpoint count_quotes (s : string) : nat :=
  match s with
  | EmptyString => 0
  | String c r => (if Ascii.eqb c quote then 1 else 0) + count_quotes r
  end.

(** ** [func InArray(val string, array []string) (exists bool, index int)] *)

(** The [range] loop from index [i]: the first index holding [val], or
    the initial [(false, -1)]. *)
Fixpoint in_array_from (val : string) (array : list string) (i : Z) : bool * Z :=
  match array with
  | [] => (false, (-1)%Z)
  | v :: rest => if String.eqb val v then (true, i) else in_array_from val rest (i + 1)
  end.

Definition InArray (val : string) (array : list string) : bool * Z := in_array_from val array 0.

(** ** Lemmas *)

Lemma substring_step (s : string) (i : nat) :
  (i < String.length s)%nat ->
  exists c, String.get i s = Some c /\
    substring i (String.length s - i) s = String c (substring (S i) (String.length s - S i) s).
Proof.
  revert i. induction s as [|c r IH]; intros i Hi; cbn in Hi; [lia|].
  destruct i as [|i].
  - exists c. split; [reflexivity|]. cbn. rewrite Nat.sub_0_r. reflexivity.
  - destruct (IH i ltac:(lia)) as (c' & Hg & Hs). exists c'. split; [exact Hg|]. exact Hs.
Qed.

Lemma substring_end (s : string) : substring (String.length s) 0 s = "".
Proof. induction s; cbn; auto. Qed.

Lemma safe_byte_app (dest : string) (c : ascii) :
  (if Ascii.eqb c quote then dest ++ String quote ⟦quote⟧ else dest ++ ⟦c⟧) = dest ++ safe_byte c.
Proof. unfold safe_byte. rewrite Ascii.eqb_sym. now destruct (Ascii.eqb quote c). Qed.

(** The loop from index [i] appends the escaping of the rest of the
    string, whenever the fuel exceeds the iterations left. *)
Lemma safe_string_loop_spec (fuel : nat) (sql : string) (i : nat) (dest : string) :
  (i <= String.length sql)%nat -> (String.length sql - i < fuel)%nat ->
  safe_string_loop fuel sql i dest
  = Some (dest ++ SafeString (substring i (String.length sql - i) sql)).
Proof.
  revert i dest. induction fuel as [|f IH]; intros i dest Hi Hf; [lia|].
  cbn [safe_string_loop]. destruct (Nat.ltb_spec i (String.length sql)) as [Hlt|Hge].
  - destruct (substring_step sql i Hlt) as (c & Hg & Hs). rewrite Hg, Hs, safe_byte_app.
    rewrite IH by lia. unfold SafeString. cbn [concat_map]. now rewrite append_assoc.
  - replace i with (String.length sql) by lia. rewrite Nat.sub_diag, substring_end.
    cbn. now rewrite append_nil_r.
Qed.

Lemma length_safe_byte (c : ascii) :
  String.length (safe_byte c) = S (if Ascii.eqb c quote then 1 else 0).
Proof. unfold safe_byte. now destruct (Ascii.eqb c quote). Qed.

Lemma length_SafeString (s : string) :
  String.length (SafeString s) = String.length s + count_quotes s.
Proof.
  induction s as [|c r IH]; [reflexivity|].
  unfold SafeString in *. cbn [concat_map count_quotes String.length].
  rewrite length_append, length_safe_byte, IH. destruct (Ascii.eqb c quote); cbn; lia.
Qed.

Lemma count_quotes_le (s : string) : (count_quotes s <= String.length s)%nat.
Proof. induction s as [|c r IH]; cbn; [lia|]. destruct (Ascii.eqb c quote); lia. Qed.

(** What the [range] loop from index [k] returns. *)
Lemma in_array_from_spec (val : string) (array : list string) (k : Z) :
  match in_array_from val array k with
  | (true, i) =>
      (k <= i < k + Z.of_nat (List.length array))%Z /\
      nth_error array (Z.to_nat (i - k)) = Some val /\
      (forall j, (j < Z.to_nat (i - k))%nat -> nth_error array j <> Some val)
  | (false, i) => i = (-1)%Z /\ ~ In val array
  end.
Proof.
  revert k. induction array as [|v rest IH]; intros k; cbn [in_array_from]; [cbn; tauto|].
  destruct (String.eqb_spec val v) as [<-|Hne].
  - cbn [List.length]. rewrite Z.sub_diag. repeat split; [lia | lia | intros j Hj; lia].
  - specialize (IH (k + 1)%Z). destruct (in_array_from val rest (k + 1)) as [[] i].
    + destruct IH as (Hb & Hn & Hfirst). cbn [List.length]. split; [lia|].
      replace (Z.to_nat (i - k)) with (S (Z.to_nat (i - (k + 1)))) by lia.
      split; [exact Hn|]. intros [|j] Hj; cbn; [congruence|]. apply Hfirst. lia.
    + destruct IH as [-> Hn]. split; [reflexivity|]. intros [->|Hin]; auto.
Qed.

(** ** [strings.TrimSpace], [strings.TrimSuffix] *)

(** The bytes of Go's [asciiSpace] table: tab, newline, vertical tab,
    form feed, carriage return and space. *)
Definition is_ascii_space (c : ascii) : bool :=
  match nat_of_ascii c with
  | 9 | 10 | 11 | 12 | 13 | 32 => true
  | _ => false
  end%nat.

Fixpoint trim_left (s : string) : string :=
  match s with
  | EmptyString => EmptyString
  | String c r => if is_ascii_space c then trim_left r else s
  end.

Fixpoint trim_right (s : string) : string :=
  match s with
  | EmptyString => EmptyString
  | String c r =>
      let r' := trim_right r in
      if is_ascii_space c && String.eqb r' "" then EmptyString else String c r'
  end.

(** [strings.TrimSpace] on ASCII text (the strings it is applied to are
    literals and one-byte slices; see the header). *)
Definition TrimSpace (s : string) : string := trim_right (trim_left s).

(** [strings.HasSuffix]. *)
Definition HasSuffix (s suffix : string) : bool :=
  (String.length suffix <=? String.length s)%nat &&
  String.eqb (substring (String.length s - String.length suffix) (String.length suffix) s) suffix.

(** [strings.TrimSuffix]. *)
Definition TrimSuffix (s suffix : string) : string :=
  if HasSuffix s suffix then substring 0 (String.length s - String.length suffix) s else s.

(** ** [PrintConsole] and [RecoverError] *)

Definition ESC : ascii := ascii_of_nat 27.
Definition Reset : string := String ESC "[0m".
Definition Red : string := String ESC "[31m".
Definition Green : string := String ESC "[32m".
Definition Yellow : string := String ESC "[33m".
(** The other colours of the package; [PrintConsole] does not use them. *)
Definition Blue : string := String ESC "[34m".
Definition Purple : string := String ESC "[35m".
Definition Cyan : string := String ESC "[36m".
Definition Gray : string := String ESC "[37m".
Definition White : string := String ESC "[97m".

(** [func PrintConsole(strPrint string, strStatus string)]: the line
    [fmt.Println] writes to standard output; [supports] is
    [supportscolor.Stdout().SupportsColor]. *)
Definition PrintConsole (supports : bool) (strPrint strStatus : string) : string :=
  let status := ToLower (TrimSpace strStatus) in
  let line :=
    if supports then
      if String.eqb status "info" then Green ++ "[INFO]> " ++ strPrint ++ Reset
      else if String.eqb status "error" then Red ++ "[ERROR]> " ++ strPrint ++ Reset
      else if String.eqb status "warning" then Yellow ++ "[WARNING]> " ++ strPrint ++ Reset
      else if String.eqb status "logo" then Red ++ strPrint ++ Reset
      else Reset ++ strPrint ++ Reset
    else
      if String.eqb status "info" then "[INFO]> " ++ strPrint
      else if String.eqb status "error" then "[ERROR]> " ++ strPrint
      else if String.eqb status "warning" then "[WARNING]> " ++ strPrint
      else strPrint in
  line ++ ⟦ascii_of_nat 10⟧.

(** How a function body with [defer RecoverError()] ends: it returns,
    or it panics with a value whose [%v] text is [msg]. *)
Inductive Outcome (A : Type) : Type :=
| Returned (a : A)
| Panicked (msg : string).
Arguments Returned {A} a.
Arguments Panicked {A} msg.

(** [func RecoverError()]: a panic is recovered and reported on the
    console; the function then returns its result values as they stand,
    [zero] for unnamed results. *)
Definition RecoverError {A} (supports : bool) (zero : A) (o : Outcome A) : A * list string :=
  match o with
  | Returned a => (a, [])
  | Panicked r => (zero, [PrintConsole supports ("[ERROR][RECOVER]=> " ++ r) "error"])
  end.

(** ** [GetApplicationPath] *)

(** [strPathSeparator := fmt.Sprintf("%c", os.PathSeparator)] on Unix. *)
Definition strPathSeparator : string := "/".

(** The body, given what [filepath.Abs(filepath.Dir(os.Args[0]))]
    returned.  [dir[len(dir)-1:]] panics on an empty [dir]. *)
Definition GetApplicationPath_body (abs : GoResult string) : Outcome (GoResult string) :=
  match abs with
  | Err err => Returned (Err err)
  | Ok dir =>
      match String.length dir with
      | O => Panicked "runtime error: slice bounds out of range [-1:]"
      | S n =>
          let currentPath := substring n 1 dir in
          if String.eqb (TrimSpace currentPath) strPathSeparator then Returned (Ok dir)
          else Returned (Ok (dir ++ strPathSeparator))
      end
  end.

(** [func GetApplicationPath() (string, error)] with its deferred
    [RecoverError()]: the recovered panic returns [("", nil)]. *)
Definition GetApplicationPath (supports : bool) (abs : GoResult string) : GoResult string * list string :=
  RecoverError supports (Ok "") (GetApplicationPath_body abs).

(** ** [LoadApplicationConfiguration] *)

(** What [json.Unmarshal(byteValue, &config)] does to the configuration;
    its error is discarded by the code. *)
Class ConfigDecoder := {
  config_valid : string -> bool;
  config_decode : string -> Configuration -> Configuration
}.

(** [encoding/json] checks the whole input ([checkValid]) before it
    writes anything: malformed JSON leaves the target untouched. *)
Class ConfigDecoderLaws `{ConfigDecoder} := {
  config_decode_invalid : forall s c, config_valid s = false -> config_decode s c = c
}.

(** The operating system as [LoadApplicationConfiguration] sees it:
    [os.Getwd()]'s results, and [os.Open] followed by
    [ioutil.ReadAll] (whose error is discarded: the bytes read). *)
Record OsEnv := mkOsEnv {
  Getwd : string * option string;
  ReadConfigFile : string -> GoResult string
}.

(** The zero [Configuration] the named result starts as. *)
Definition zero_configuration : Configuration :=
  mkConfiguration (mkTsHttp "" 0) (mkTsQueue "" 0 "" "" "") (mkTsLog "" "" "") []
    (mkTsJwt 0 0) "" (mkTsTimezone "" "") [].

Definition set_AppPath (c : Configuration) (p : string) : Configuration :=
  mkConfiguration (Http c) (Queue c) (Log c) (Accounts c) (Jwt c) p (Timezone c) (APIKeys c).

(** [func LoadApplicationConfiguration(removeSuffixPath string) (config
    Configuration, err error)]; [Join] is [filepath.Join].  Both named
    results are returned as they stand at each [return]. *)
Definition LoadApplicationConfiguration `{ConfigDecoder} (Join : string -> string -> string)
    (os : OsEnv) (removeSuffixPath : string) : Configuration * option string :=
  let '(wd, werr) := Getwd os in
  let config := set_AppPath zero_configuration wd in
  match werr with
  | Some err => (config, Some err)
  | None =>
      let config := if String.eqb removeSuffixPath "" then config
                    else set_AppPath config (TrimSuffix (AppPath config) removeSuffixPath) in
      let configPath := Join (AppPath config) "config.json" in
      match ReadConfigFile os configPath with
      | Err err => (config, Some err)
      | Ok byteValue => (config_decode byteValue config, None)
      end
  end.

(** ** Theorems *)

(** [SafeString] adds one byte per quote, so its result never outgrows
    the [2*len(sql)] bytes the code reserves with [make]. *)
Lemma SafeString_within_capacity (sql : string) :
  String.length (SafeString sql) = (String.length sql + count_quotes sql)%nat /\
  (String.length (SafeString sql) <= safe_string_capacity sql)%nat.
Proof.
  rewrite length_SafeString. split; [reflexivity|].
  unfold safe_string_capacity. pose proof (count_quotes_le sql). lia.
Qed.

(** C25: [SafeString]'s index loop terminates: given more iterations
    than the string has bytes it returns the escaping [SafeString] of
    Literal.v (the definition the literal theorems are proved on), one
    byte longer per quote and never longer than the [2*len(sql)] bytes
    the code reserves with [make], so the appends never reallocate. *)
Theorem SafeString_loop_terminates (sql : string) (fuel : nat) :
  (String.length sql < fuel)%nat ->
  exists dest, safe_string_loop fuel sql 0 "" = Some dest /\ dest = SafeString sql /\
    String.length dest = (String.length sql + count_quotes sql)%nat /\
    (String.length dest <= safe_string_capacity sql)%nat.
Proof.
  intros Hf. exists (SafeString sql). rewrite safe_string_loop_spec by lia.
  rewrite Nat.sub_0_r, substring_full. split; [reflexivity|]. split; [reflexivity|].
  apply SafeString_within_capacity.
Qed.

(** [InArray] reports the first index holding the value, an index
    within the slice's bounds, and [(false, -1)] exactly when the value
    is absent. *)
Theorem InArray_spec (val : string) (array : list string) :
  match InArray val array with
  | (true, i) =>
      (0 <= i < Z.of_nat (List.length array))%Z /\
      nth_error array (Z.to_nat i) = Some val /\
      (forall j, (j < Z.to_nat i)%nat -> nth_error array j <> Some val)
  | (false, i) => i = (-1)%Z /\ ~ In val array
  end.
Proof.
  pose proof (in_array_from_spec val array 0) as H. unfold InArray.
  destruct (in_array_from val array 0) as [[] i]; [|exact H].
  rewrite Z.sub_0_r in H. exact H.
Qed.

Lemma SafeString_loop_terminates_witness :
  (String.length "O'Hara" < 7)%nat /\
  exists dest, safe_string_loop 7 "O'Hara" 0 "" = Some dest /\ dest = SafeString "O'Hara" /\
    String.length dest = (String.length "O'Hara" + count_quotes "O'Hara")%nat /\
    (String.length dest <= safe_string_capacity "O'Hara")%nat.
Proof. split; [cbn; lia | apply SafeString_loop_terminates; cbn; lia]. Defined.

(** ** Lemmas on the path helpers *)

Lemma substring_app_right (a b : string) (n k : nat) :
  substring (String.length a + n) k (a ++ b) = substring n k b.
Proof. induction a as [|c a IH]; [reflexivity|exact IH]. Qed.

Lemma substring_app_len (a b : string) (k : nat) :
  substring (String.length a) k (a ++ b) = substring 0 k b.
Proof. rewrite <- (Nat.add_0_r (String.length a)) at 1. apply substring_app_right. Qed.

Lemma length_snoc (a : string) (c : ascii) : String.length (a ++ ⟦c⟧) = S (String.length a).
Proof. rewrite length_append. cbn [String.length]. lia. Qed.

Lemma string_snoc (s : string) (n : nat) :
  String.length s = S n -> exists a c, s = a ++ ⟦c⟧ /\ String.length a = n.
Proof.
  revert n. induction s as [|c s IH]; intros n Hl; [discriminate|].
  destruct s as [|c' s].
  - exists "", c. cbn in *. split; [reflexivity|lia].
  - destruct n as [|n]; [cbn in Hl; lia|].
    destruct (IH n) as (a & d & -> & Ha); [cbn in *; lia|].
    exists (String c a), d. cbn. split; [reflexivity|lia].
Qed.

Lemma TrimSpace_separator (c : ascii) :
  String.eqb (TrimSpace ⟦c⟧) strPathSeparator = Ascii.eqb c "/"%char.
Proof.
  unfold TrimSpace. cbn [trim_left].
  destruct (is_ascii_space c) eqn:Hs; cbn [trim_right].
  - destruct (Ascii.eqb_spec c "/"%char) as [->|]; [discriminate|reflexivity].
  - rewrite Hs. cbn. destruct (Ascii.eqb_spec c "/"%char) as [->|Hne]; [reflexivity|].
    destruct (String.eqb_spec ⟦c⟧ "/") as [Heq|]; [congruence|reflexivity].
Qed.

(** The body looks only at the last byte of [dir]. *)
Lemma GetApplicationPath_body_snoc (a : string) (c : ascii) :
  GetApplicationPath_body (Ok (a ++ ⟦c⟧)) =
  Returned (Ok (if Ascii.eqb c "/"%char then a ++ ⟦c⟧ else (a ++ ⟦c⟧) ++ strPathSeparator)).
Proof.
  unfold GetApplicationPath_body. rewrite length_snoc. cbv beta iota zeta.
  rewrite substring_app_len. cbn [substring]. rewrite TrimSpace_separator. now destruct (Ascii.eqb c "/"%char).
Qed.

Lemma HasSuffix_snoc (a : string) (c : ascii) : HasSuffix (a ++ ⟦c⟧) ⟦c⟧ = true.
Proof.
  unfold HasSuffix. rewrite length_snoc. cbn [String.length].
  replace (S (String.length a) - 1)%nat with (String.length a) by lia.
  rewrite substring_app_len. cbn [substring]. rewrite String.eqb_refl, andb_true_r.
  apply Nat.leb_le. lia.
Qed.

Lemma substring_prefix (a b : string) : substring 0 (String.length a) (a ++ b) = a.
Proof. induction a as [|c a IH]; cbn; [now destruct b|now rewrite IH]. Qed.

Lemma TrimSuffix_app (a b : string) : TrimSuffix (a ++ b) b = a.
Proof.
  unfold TrimSuffix, HasSuffix. rewrite length_append.
  replace (String.length a + String.length b - String.length b)%nat with (String.length a) by lia.
  rewrite substring_app_len, substring_full, String.eqb_refl, andb_true_r.
  replace ((String.length b <=? String.length a + String.length b)%nat) with true
    by (symmetry; apply Nat.leb_le; lia).
  apply substring_prefix.
Qed.

(** ** Theorems on the path helpers *)

(** For every non-empty directory [filepath.Abs] returns,
    [GetApplicationPath] returns without a panic a path that is [dir]
    or [dir] followed by the separator, ends with the separator, and is
    left unchanged when given back to it. *)
Theorem GetApplicationPath_trailing_separator (supports : bool) (dir : string) :
  dir <> "" ->
  exists p, GetApplicationPath supports (Ok dir) = (Ok p, []) /\
            (p = dir \/ p = dir ++ strPathSeparator) /\
            HasSuffix p strPathSeparator = true /\
            GetApplicationPath supports (Ok p) = (Ok p, []).
Proof.
  intros Hne. destruct (String.length dir) as [|n] eqn:Hl.
  { destruct dir; [contradiction|discriminate]. }
  destruct (string_snoc dir n Hl) as (a & c & -> & _).
  unfold GetApplicationPath. rewrite GetApplicationPath_body_snoc.
  destruct (Ascii.eqb_spec c "/"%char) as [->|Hc].
  - exists (a ++ "/"). cbn [RecoverError]. repeat split; [now left|apply HasSuffix_snoc|].
    unfold GetApplicationPath; now rewrite GetApplicationPath_body_snoc.
  - exists ((a ++ ⟦c⟧) ++ strPathSeparator). cbn [RecoverError].
    repeat split; [now right|apply HasSuffix_snoc|].
    unfold GetApplicationPath, strPathSeparator; now rewrite GetApplicationPath_body_snoc.
Qed.

(** [LoadApplicationConfiguration] strips the suffix from the
    working directory, reads [config.json] in what is left, and reports
    no error for a file that is not JSON: the configuration is then the
    zero one with only [AppPath] set (no API key, no port, no queue). *)
Theorem LoadApplicationConfiguration_malformed `{ConfigDecoderLaws} (Join : string -> string -> string)
    (os : OsEnv) (root suffix bytes : string) :
  suffix <> "" -> Getwd os = (root ++ suffix, None) ->
  ReadConfigFile os (Join root "config.json") = Ok bytes -> config_valid bytes = false ->
  LoadApplicationConfiguration Join os suffix = (set_AppPath zero_configuration root, None).
Proof.
  intros Hs Hwd Hread Hinv. unfold LoadApplicationConfiguration. rewrite Hwd.
  destruct (String.eqb_spec suffix "") as [|_]; [contradiction|].
  cbn [AppPath set_AppPath zero_configuration]. rewrite TrimSuffix_app, Hread, config_decode_invalid by exact Hinv.
  reflexivity.
Qed.

(** ** Witnesses *)

Lemma GetApplicationPath_trailing_separator_witness :
  "/opt/app/bin" <> "" /\
  exists p, GetApplicationPath true (Ok "/opt/app/bin") = (Ok p, []) /\
            (p = "/opt/app/bin" \/ p = "/opt/app/bin" ++ strPathSeparator) /\
            HasSuffix p strPathSeparator = true /\
            GetApplicationPath true (Ok p) = (Ok p, []).
Proof. split; [discriminate | apply GetApplicationPath_trailing_separator; discriminate]. Defined.

(** A decoder that accepts only text starting with a brace. *)
#[local] Instance sample_config_decoder : ConfigDecoder := {|
  config_valid := fun s => prefix "{" s;
  config_decode := fun s c => if prefix "{" s then set_AppPath c (AppPath c ++ "/decoded") else c
|}.

#[local] Instance sample_config_decoder_laws : ConfigDecoderLaws.
Proof. constructor. intros s c Hs. cbn in *. now rewrite Hs. Qed.

Definition sample_join (a b : string) : string := a ++ "/" ++ b.

Definition sample_os : OsEnv :=
  mkOsEnv ("/srv/app/bin", None)
    (fun p => if String.eqb p "/srv/app/config.json" then Ok "http: {port: 8080}" else Err "no such file").

Lemma LoadApplicationConfiguration_malformed_witness :
  "/bin" <> "" /\ Getwd sample_os = ("/srv/app" ++ "/bin", None) /\
  ReadConfigFile sample_os (sample_join "/srv/app" "config.json") = Ok "http: {port: 8080}" /\
  config_valid "http: {port: 8080}" = false /\
  LoadApplicationConfiguration sample_join sample_os "/bin" = (set_AppPath zero_configuration "/srv/app", None).
Proof.
  split; [discriminate|]. split; [reflexivity|]. split; [reflexivity|]. split; [reflexivity|].
  apply (LoadApplicationConfiguration_malformed sample_join sample_os "/srv/app" "/bin" "http: {port: 8080}");
    [discriminate|reflexivity|reflexivity|reflexivity].
Defined.
