(* ===== verification/Md5.v ===== *)
(** * [StringToMD5] of [src/utility/utility.go]: [crypto/md5.Sum] and [encoding/hex.EncodeToString]

    [StringToMD5(text)] hashes the bytes of [text] with [md5.Sum] and
    prints the 16 digest bytes as 32 lowercase hexadecimal digits, under
    [defer RecoverError()].  The hash is modelled as Go 1.20's
    [crypto/md5] computes it: a [digest] holds the four state words, the
    bytes of an incomplete block and the message length (a [uint64]);
    [Write] completes the buffered block, hashes the whole blocks of its
    input with [blockGeneric] and keeps the rest; [checkSum] writes the
    padding and panics if a partial block is left.  [blockGeneric] is
    the 64 statements of [md5block.go] in the rotating form of RFC 1321
    (each statement updates the word three places behind), with Go's
    rewritten boolean functions.  Words are [Z] with the [uint32] and
    [uint64] wrap-around written out ([w32], [w64]).

    The reference is RFC 1321 itself: the padded message cut into
    blocks, each hashed with the boolean functions [F], [G], [H], [I]
    of the RFC.  The theorems show that Go's digest computes the RFC's
    function on every input, never panics, and that [StringToMD5]
    returns its 32-digit lowercase hexadecimal form. *)

From Stdlib Require Import String Ascii List ZArith Lia Bool.
From S2P Require Import Prelude Utility.
Import ListNotations.
Open Scope Z_scope.
Open Scope list_scope.

(** ** Machine words *)

(** [uint32] arithmetic wraps around ([w64], its [uint64] twin, is in
    the prelude). *)
Definition w32 (z : Z) : Z := z mod 2 ^ 32.

(** [^x] on a [uint32]. *)
Definition not32 (x : Z) : Z := Z.lxor x (2 ^ 32 - 1).

(** [bits.RotateLeft32(x, k)] for [0 <= k < 32]: [x<<k | x>>(32-k)]. *)
Definition RotateLeft32 (x k : Z) : Z := Z.lor (w32 (Z.shiftl x k)) (Z.shiftr x (32 - k)).

(** [binary.LittleEndian.Uint32], [PutUint32] and [PutUint64] on bytes
    (each a [Z] in [0, 256)). *)
Definition Uint32 (b : list Z) : Z :=
  Z.lor (nth 0 b 0) (Z.lor (Z.shiftl (nth 1 b 0) 8) (Z.lor (Z.shiftl (nth 2 b 0) 16) (Z.shiftl (nth 3 b 0) 24))).

Definition PutUint32 (v : Z) : list Z :=
  [Z.land v 255; Z.land (Z.shiftr v 8) 255; Z.land (Z.shiftr v 16) 255; Z.land (Z.shiftr v 24) 255].

Definition PutUint64 (v : Z) : list Z :=
  map (fun k => Z.land (Z.shiftr v (8 * k)) 255) [0; 1; 2; 3; 4; 5; 6; 7].

(** ** The block function *)

(** The additive constants of the 64 statements. *)
Definition K : list Z :=
  [0xd76aa478; 0xe8c7b756; 0x242070db; 0xc1bdceee; 0xf57c0faf; 0x4787c62a; 0xa8304613; 0xfd469501;
   0x698098d8; 0x8b44f7af; 0xffff5bb1; 0x895cd7be; 0x6b901122; 0xfd987193; 0xa679438e; 0x49b40821;
   0xf61e2562; 0xc040b340; 0x265e5a51; 0xe9b6c7aa; 0xd62f105d; 0x02441453; 0xd8a1e681; 0xe7d3fbc8;
   0x21e1cde6; 0xc33707d6; 0xf4d50d87; 0x455a14ed; 0xa9e3e905; 0xfcefa3f8; 0x676f02d9; 0x8d2a4c8a;
   0xfffa3942; 0x8771f681; 0x6d9d6122; 0xfde5380c; 0xa4beea44; 0x4bdecfa9; 0xf6bb4b60; 0xbebfbc70;
   0x289b7ec6; 0xeaa127fa; 0xd4ef3085; 0x04881d05; 0xd9d4d039; 0xe6db99e5; 0x1fa27cf8; 0xc4ac5665;
   0xf4292244; 0x432aff97; 0xab9423a7; 0xfc93a039; 0x655b59c3; 0x8f0ccc92; 0xffeff47d; 0x85845dd1;
   0x6fa87e4f; 0xfe2ce6e0; 0xa3014314; 0x4e0811a1; 0xf7537e82; 0xbd3af235; 0x2ad7d2bb; 0xeb86d391].

(** The rotation of statement [i]: four per round. *)
Definition shift (i : nat) : Z :=
  nth (i mod 4) (nth (i / 16) [[7; 12; 17; 22]; [5; 9; 14; 20]; [4; 11; 16; 23]; [6; 10; 15; 21]] []) 0.

(** The message word statement [i] reads. *)
Definition msg_index (i : nat) : nat :=
  if (i <? 16)%nat then i
  else if (i <? 32)%nat then (5 * i + 1) mod 16
  else if (i <? 48)%nat then (3 * i + 5) mod 16
  else (7 * i) mod 16.

(** The boolean function of statement [i] as [md5block.go] writes it:
    [((c^d)&b)^d], [((b^c)&d)^c], [b^c^d], [c^(b|^d)]. *)
Definition round_fun_go (i : nat) (b c d : Z) : Z :=
  if (i <? 16)%nat then Z.lxor (Z.land (Z.lxor c d) b) d
  else if (i <? 32)%nat then Z.lxor (Z.land (Z.lxor b c) d) c
  else if (i <? 48)%nat then Z.lxor (Z.lxor b c) d
  else Z.lxor c (Z.lor b (not32 d)).

(** [dig.s]: the four state words. *)
Record State := mkState { s0 : Z; s1 : Z; s2 : Z; s3 : Z }.

(** One statement, [a = b + bits.RotateLeft32(f(b,c,d)+a+x[g]+K[i], s)],
    the words then renamed so that the next statement updates [d]. *)
Definition md5_step (f : nat -> Z -> Z -> Z -> Z) (x : list Z) (st : State) (i : nat) : State :=
  let '(mkState a b c d) := st in
  mkState d (w32 (b + RotateLeft32 (w32 (f i b c d + a + nth (msg_index i) x 0 + nth i K 0)) (shift i))) b c.

(** The sixteen words [x0 ... x15] of a 64-byte block. *)
Definition load_block (q : list Z) : list Z := map (fun j => Uint32 (skipn (4 * j) q)) (seq 0 16).

(** One block: save the state, run the 64 statements, add the saved state. *)
Definition block_compress (f : nat -> Z -> Z -> Z -> Z) (st : State) (q : list Z) : State :=
  let st' := fold_left (md5_step f (load_block q)) (seq 0 64) st in
  mkState (w32 (s0 st' + s0 st)) (w32 (s1 st' + s1 st)) (w32 (s2 st' + s2 st)) (w32 (s3 st' + s3 st)).

(** The loop [for i := 0; i <= len(p)-BlockSize; i += BlockSize], [n] blocks. *)
Fixpoint block_loop (f : nat -> Z -> Z -> Z -> Z) (n : nat) (st : State) (p : list Z) : State :=
  match n with
  | O => st
  | S k => block_loop f k (block_compress f st (firstn 64 p)) (skipn 64 p)
  end.

(** [func blockGeneric(dig *digest, p []byte)]. *)
Definition blockGeneric (st : State) (p : list Z) : State :=
  block_loop round_fun_go (length p / 64) st p.

(** ** The digest *)

(** [type digest struct { s [4]uint32; x [BlockSize]byte; nx int; len uint64 }]:
    [x] holds the [nx] buffered bytes [d.x[:d.nx]]. *)
Record digest := mkDigest { s : State; x : list Z; len : Z }.

Definition init0 : Z := 0x67452301.
Definition init1 : Z := 0xefcdab89.
Definition init2 : Z := 0x98badcfe.
Definition init3 : Z := 0x10325476.

(** [func (d *digest) Reset()]. *)
Definition Reset : digest := mkDigest (mkState init0 init1 init2 init3) [] 0.

(** [func (d *digest) Write(p []byte) (nn int, err error)], in its
    three steps.  First, with bytes buffered, [copy] fills the buffer
    from [p] and a full buffer is hashed. *)
Definition write_fill (st : State) (buf p : list Z) : State * list Z * list Z :=
  match buf with
  | [] => (st, buf, p)
  | _ :: _ =>
      let n := Nat.min (64 - length buf) (length p) in
      let buf := (buf ++ firstn n p) in
      if (length buf =? 64)%nat then (blockGeneric st buf, [], skipn n p) else (st, buf, skipn n p)
  end.

(** Then the whole blocks of what is left, [len(p) &^ (BlockSize-1)]
    bytes, are hashed in place. *)
Definition write_bulk (st : State) (p : list Z) : State * list Z :=
  if (64 <=? length p)%nat then
    let n := Z.to_nat (Z.ldiff (Z.of_nat (length p)) 63) in (blockGeneric st (firstn n p), skipn n p)
  else (st, p).

(** Last, a non-empty rest is copied to the buffer; [len] grows by
    [len(p)] as a [uint64]. *)
Definition Write (d : digest) (p : list Z) : digest :=
  let '(st, buf, rest) := write_fill (s d) (x d) p in
  let '(st, rest) := write_bulk st rest in
  mkDigest st (match rest with [] => buf | _ :: _ => rest end) (w64 (len d + Z.of_nat (length p))).

(** The four state words, little-endian: the 16 bytes of the digest. *)
Definition state_bytes (st : State) : list Z :=
  PutUint32 (s0 st) ++ PutUint32 (s1 st) ++ PutUint32 (s2 st) ++ PutUint32 (s3 st).

(** [func (d *digest) checkSum() [Size]byte]: the end marker, [pad]
    zeros and the bit length, written; a partial block left is a
    panic; the state words little-endian. *)
Definition checkSum (d : digest) : Outcome (list Z) :=
  let pad := w64 (55 - len d) mod 64 in
  let tmp := ([128] ++ repeat 0 (Z.to_nat pad) ++ PutUint64 (w64 (Z.shiftl (len d) 3))) in
  let d := Write d tmp in
  match x d with
  | _ :: _ => Panicked "d.nx != 0"
  | [] => Returned (state_bytes (s d))
  end.

(** [func Sum(data []byte) [Size]byte]. *)
Definition Sum (data : list Z) : Outcome (list Z) := checkSum (Write Reset data).

(** ** [encoding/hex] and [StringToMD5] *)

Definition hextable : string := "0123456789abcdef".

Definition hex_digit (n : Z) : ascii :=
  match String.get (Z.to_nat n) hextable with Some c => c | None => "0"%char end.

(** [func EncodeToString(src []byte) string]: [hextable[v>>4]],
    [hextable[v&0x0f]] per byte. *)
Fixpoint EncodeToString (src : list Z) : string :=
  match src with
  | [] => EmptyString
  | v :: rest => String (hex_digit (Z.shiftr v 4)) (String (hex_digit (Z.land v 15)) (EncodeToString rest))
  end.

(** [[]byte(text)]. *)
Definition bytes_of (text : string) : list Z := map (fun c => Z.of_nat (nat_of_ascii c)) (list_ascii_of_string text).

(** [func StringToMD5(text string) string]: [md5.Sum], then the
    hexadecimal text, under [defer RecoverError()] (a panic returns
    [""] and prints the recovered value). *)
Definition StringToMD5 (supports : bool) (text : string) : string * list string :=
  RecoverError supports ""
    (match Sum (bytes_of text) with
     | Returned hash => Returned (EncodeToString hash)
     | Panicked m => Panicked m
     end).

(** ** RFC 1321 *)

(** The four auxiliary functions of RFC 1321, section 3.4. *)
Definition F (x y z : Z) : Z := Z.lor (Z.land x y) (Z.land (not32 x) z).
Definition G (x y z : Z) : Z := Z.lor (Z.land x z) (Z.land y (not32 z)).
Definition H (x y z : Z) : Z := Z.lxor x (Z.lxor y z).
Definition I (x y z : Z) : Z := Z.lxor y (Z.lor x (not32 z)).

Definition round_fun_rfc (i : nat) (b c d : Z) : Z :=
  if (i <? 16)%nat then F b c d
  else if (i <? 32)%nat then G b c d
  else if (i <? 48)%nat then H b c d
  else I b c d.

(** Section 3.1: the number of zero bytes after the marker, so that the
    length becomes 56 modulo 64. *)
Definition rfc_pad_len (n : Z) : Z := if n mod 64 <? 56 then 55 - n mod 64 else 119 - n mod 64.

(** Sections 3.1 and 3.2: marker, zeros, the bit length modulo 2^64. *)
Definition rfc_padded (m : list Z) : list Z :=
  (m ++ [128] ++ repeat 0 (Z.to_nat (rfc_pad_len (Z.of_nat (length m)))) ++
   PutUint64 (w64 (8 * Z.of_nat (length m)))).

(** Sections 3.3 to 3.5: every block of the padded message through
    [F], [G], [H], [I], the digest low-order byte first. *)
Definition md5_rfc (m : list Z) : list Z :=
  let p := rfc_padded m in
  let st := block_loop round_fun_rfc (length p / 64) (mkState init0 init1 init2 init3) p in
  state_bytes st.

(** The state words a [uint32] can hold. *)
Definition in32 (z : Z) : Prop := 0 <= z < 2 ^ 32.

Definition state_ok (st : State) : Prop := in32 (s0 st) /\ in32 (s1 st) /\ in32 (s2 st) /\ in32 (s3 st).

(** ** Words stay in range *)

Lemma w32_in32 (z : Z) : in32 (w32 z).
Proof. apply Z.mod_pos_bound. lia. Qed.

Lemma testbit_in32_high (z n : Z) : in32 z -> 32 <= n -> Z.testbit z n = false.
Proof.
  intros Hz Hn. rewrite <- (Z.mod_small z (2 ^ 32)) by exact Hz.
  apply Z.mod_pow2_bits_high. lia.
Qed.

Lemma testbit_not32 (z n : Z) : 0 <= n -> Z.testbit (not32 z) n = xorb (Z.testbit z n) (n <? 32).
Proof.
  intros Hn. unfold not32. rewrite Z.lxor_spec. replace (2 ^ 32 - 1) with (Z.ones 32) by reflexivity.
  now rewrite Z.testbit_ones_nonneg by lia.
Qed.

(** Go's boolean functions are RFC 1321's on [uint32] words:
    [((c^d)&b)^d] is [F], [((b^c)&d)^c] is [G]. *)
Lemma round_fun_go_rfc (i : nat) (b c d : Z) :
  in32 b -> in32 c -> in32 d -> round_fun_go i b c d = round_fun_rfc i b c d.
Proof.
  intros Hb Hc Hd. unfold round_fun_go, round_fun_rfc, F, G, H, I.
  destruct (i <? 16)%nat; [|destruct (i <? 32)%nat; [|destruct (i <? 48)%nat; [apply Z.lxor_assoc | reflexivity]]];
    apply Z.bits_inj'; intros n Hn;
    repeat first [rewrite Z.lxor_spec | rewrite Z.land_spec | rewrite Z.lor_spec | rewrite testbit_not32 by lia];
    (destruct (Z.ltb_spec n 32);
     [| rewrite ?(testbit_in32_high b n), ?(testbit_in32_high c n), ?(testbit_in32_high d n)
          by (assumption || lia)]);
    destruct (Z.testbit b n), (Z.testbit c n), (Z.testbit d n); reflexivity.
Qed.

Lemma md5_step_ok (f : nat -> Z -> Z -> Z -> Z) (xs : list Z) (st : State) (i : nat) :
  state_ok st -> state_ok (md5_step f xs st i).
Proof.
  destruct st as [a b c d]. intros (Ha & Hb & Hc & Hd). unfold state_ok. cbn [md5_step s0 s1 s2 s3].
  auto using w32_in32.
Qed.

Lemma block_compress_ok (f : nat -> Z -> Z -> Z -> Z) (st : State) (q : list Z) : state_ok (block_compress f st q).
Proof. repeat split; apply w32_in32. Qed.

(** Two boolean functions that agree on [uint32] words give the same
    statements, blocks and loops. *)
Section Ext.
Variables f g : nat -> Z -> Z -> Z -> Z.
Hypothesis Hfg : forall i b c d, in32 b -> in32 c -> in32 d -> f i b c d = g i b c d.

Lemma md5_step_ext (xs : list Z) (st : State) (i : nat) : state_ok st -> md5_step f xs st i = md5_step g xs st i.
Proof. destruct st as [a b c d]. intros (Ha & Hb & Hc & Hd). cbn. now rewrite Hfg. Qed.

Lemma rounds_ext (xs : list Z) (idx : list nat) (st : State) :
  state_ok st -> fold_left (md5_step f xs) idx st = fold_left (md5_step g xs) idx st.
Proof.
  revert st. induction idx as [|i idx IH]; intros st Hst; [reflexivity|]. cbn [fold_left].
  rewrite md5_step_ext by exact Hst. apply IH, md5_step_ok, Hst.
Qed.

Lemma block_loop_ext (n : nat) (st : State) (p : list Z) :
  state_ok st -> block_loop f n st p = block_loop g n st p.
Proof.
  revert st p. induction n as [|n IH]; intros st p Hst; [reflexivity|]. cbn [block_loop].
  unfold block_compress at 1 2. rewrite rounds_ext by exact Hst. fold (block_compress g st (firstn 64 p)).
  apply IH, block_compress_ok.
Qed.
End Ext.

(** ** Hashing in blocks *)

Lemma block_loop_add (f : nat -> Z -> Z -> Z -> Z) (n1 n2 : nat) (st : State) (p : list Z) :
  block_loop f (n1 + n2) st p = block_loop f n2 (block_loop f n1 st p) (skipn (64 * n1) p).
Proof.
  revert st p. induction n1 as [|n1 IH]; intros st p; [reflexivity|]. cbn [Nat.add block_loop].
  rewrite IH, skipn_skipn. do 2 f_equal. lia.
Qed.

(** A loop of [n] blocks reads only the first [64 * n] bytes. *)
Lemma block_loop_firstn (f : nat -> Z -> Z -> Z -> Z) (n : nat) (st : State) (p : list Z) (m : nat) :
  (64 * n <= m)%nat -> block_loop f n st (firstn m p) = block_loop f n st p.
Proof.
  revert st p m. induction n as [|n IH]; intros st p m Hm; [reflexivity|]. cbn [block_loop].
  rewrite firstn_firstn, Nat.min_l by lia. rewrite skipn_firstn_comm. apply IH. lia.
Qed.

Lemma block_loop_app_l (f : nat -> Z -> Z -> Z -> Z) (n : nat) (st : State) (p q : list Z) :
  (64 * n <= length p)%nat -> block_loop f n st (p ++ q) = block_loop f n st p.
Proof.
  intros Hn. rewrite <- (block_loop_firstn f n st (p ++ q) (length p)) by exact Hn.
  now rewrite firstn_app, Nat.sub_diag, firstn_O, app_nil_r, firstn_all.
Qed.

(** [len(p) &^ (BlockSize-1)] is the length rounded down to whole blocks. *)
Lemma ldiff_63 (m : nat) : Z.to_nat (Z.ldiff (Z.of_nat m) 63) = (64 * (m / 64))%nat.
Proof.
  replace 63 with (Z.ones 6) by reflexivity. rewrite Z.ldiff_ones_r by lia.
  rewrite Z.shiftl_mul_pow2, Z.shiftr_div_pow2 by lia. change (2 ^ 6) with (Z.of_nat 64).
  rewrite <- Nat2Z.inj_div, <- Nat2Z.inj_mul, Nat2Z.id. lia.
Qed.

Lemma length_firstn_blocks (p : list Z) : length (firstn (64 * (length p / 64)) p) = (64 * (length p / 64))%nat.
Proof. apply firstn_length_le, Nat.Div0.mul_div_le. Qed.

Lemma write_bulk_spec (st : State) (p : list Z) :
  write_bulk st p = (block_loop round_fun_go (length p / 64) st p, skipn (64 * (length p / 64)) p).
Proof.
  unfold write_bulk. destruct (Nat.leb_spec 64 (length p)) as [Hp|Hp].
  - cbv zeta. rewrite ldiff_63. unfold blockGeneric. rewrite length_firstn_blocks.
    rewrite Nat.mul_comm, Nat.div_mul, Nat.mul_comm by lia. now rewrite block_loop_firstn by lia.
  - rewrite Nat.div_small by exact Hp. reflexivity.
Qed.

Lemma skipn_app_len (B R : list Z) (n : nat) : length B = n -> skipn n (B ++ R) = R.
Proof. intros <-. rewrite skipn_app, skipn_all, Nat.sub_diag. reflexivity. Qed.

(** [Write] hashes the whole blocks of the buffered bytes followed by
    [p], and buffers the rest. *)
Lemma Write_spec (d : digest) (p : list Z) : (length (x d) < 64)%nat ->
  Write d p = mkDigest (block_loop round_fun_go (length (x d ++ p) / 64) (s d) (x d ++ p))
                       (skipn (64 * (length (x d ++ p) / 64)) (x d ++ p)) (w64 (len d + Z.of_nat (length p))).
Proof.
  destruct d as [st buf l]. cbn [s x len]. intros Hx. unfold Write. cbn [s x len].
  destruct buf as [|a xs].
  - cbn [write_fill app]. rewrite write_bulk_spec.
    destruct (skipn (64 * (length p / 64)) p); reflexivity.
  - unfold write_fill. cbv beta iota. set (X := a :: xs) in *.
    set (n0 := Nat.min (64 - length X) (length p)).
    destruct (Nat.eqb_spec (length (X ++ firstn n0 p)) 64) as [Hf|Hf].
    + rewrite write_bulk_spec. unfold blockGeneric. rewrite Hf.
      replace (X ++ p) with ((X ++ firstn n0 p) ++ skipn n0 p) by (now rewrite <- app_assoc, firstn_skipn).
      set (B := X ++ firstn n0 p) in *. set (R := skipn n0 p).
      rewrite length_app, Hf. replace (64 + length R)%nat with (1 * 64 + length R)%nat by lia.
      rewrite Nat.div_add_l by lia. change (64 / 64)%nat with 1%nat.
      rewrite block_loop_add, block_loop_app_l, Nat.mul_1_r by lia. rewrite (skipn_app_len B R 64 Hf).
      replace (64 * (1 + length R / 64))%nat with (64 * (length R / 64) + 64)%nat by lia.
      rewrite <- skipn_skipn, (skipn_app_len B R 64 Hf).
      destruct (skipn (64 * (length R / 64)) R); reflexivity.
    + assert (Hn : n0 = length p) by (rewrite length_app, length_firstn in Hf; lia).
      rewrite Hn, skipn_all, firstn_all, write_bulk_spec.
      rewrite (Nat.div_small (length (X ++ p))) by (rewrite length_app in *; rewrite length_firstn in Hf; unfold n0 in *; lia). reflexivity.
Qed.

(** Hashing [data] in whole blocks and resuming with the rest followed
    by [tmp] is hashing [data ++ tmp] in whole blocks. *)
Lemma block_loop_resume (f : nat -> Z -> Z -> Z -> Z) (st : State) (data tmp : list Z) :
  let n1 := (length data / 64)%nat in
  let q := skipn (64 * n1) data ++ tmp in
  block_loop f (length q / 64) (block_loop f n1 st data) q = block_loop f (length (data ++ tmp) / 64) st (data ++ tmp).
Proof.
  intros n1 q. assert (Hle : (64 * n1 <= length data)%nat) by apply Nat.Div0.mul_div_le.
  assert (Hq : length (data ++ tmp) = (n1 * 64 + length q)%nat)
    by (unfold q; rewrite !length_app, length_skipn; lia).
  rewrite Hq, Nat.div_add_l, block_loop_add, block_loop_app_l by lia.
  unfold q. now rewrite skipn_app, (proj2 (Nat.sub_0_le _ _) Hle), skipn_O.
Qed.

(** ** The padding *)

Lemma w64_mod64 (a : Z) : w64 a mod 64 = a mod 64.
Proof.
  unfold w64. rewrite (Z.div_mod a (2 ^ 64)) at 2 by lia.
  replace (2 ^ 64 * (a / 2 ^ 64) + a mod 2 ^ 64) with (a mod 2 ^ 64 + 2 ^ 58 * (a / 2 ^ 64) * 64)
    by (change (2 ^ 64) with (2 ^ 58 * 64); ring).
  now rewrite Z.mod_add by lia.
Qed.

(** Go's [(55 - len) % 64] on [uint64] is RFC 1321's number of zero bytes. *)
Lemma pad_rfc (n : Z) : 0 <= n -> w64 (55 - w64 n) mod 64 = rfc_pad_len n.
Proof.
  intros Hn. rewrite w64_mod64, Zminus_mod, w64_mod64, <- Zminus_mod. unfold rfc_pad_len.
  destruct (Z.ltb_spec (n mod 64) 56); Z.div_mod_to_equations; lia.
Qed.

(** Go's [len<<3] on [uint64] is the bit length modulo 2^64. *)
Lemma bitlen_rfc (n : Z) : w64 (Z.shiftl (w64 n) 3) = w64 (8 * n).
Proof. unfold w64 at 1. rewrite Z.shiftl_mul_pow2 by lia. unfold w64. rewrite Z.mul_comm, Z.mul_mod_idemp_r by lia. f_equal. Qed.

Lemma rfc_pad_len_range (n : Z) : 0 <= n -> 0 <= rfc_pad_len n < 64 /\ (n mod 64 + 9 + rfc_pad_len n = 64 \/ n mod 64 + 9 + rfc_pad_len n = 128).
Proof. intros Hn. unfold rfc_pad_len. destruct (Z.ltb_spec (n mod 64) 56); Z.div_mod_to_equations; lia. Qed.

Lemma length_PutUint64 (v : Z) : length (PutUint64 v) = 8%nat.
Proof. reflexivity. Qed.

(** ** [Sum] *)

(** [md5.Sum] never panics: the padding completes the last block, and
    the digest is the state after hashing the padded message in
    blocks. *)
Lemma Sum_blocks (data : list Z) :
  Sum data = Returned (state_bytes (block_loop round_fun_go (length (rfc_padded data) / 64)
                                      (mkState init0 init1 init2 init3) (rfc_padded data))).
Proof.
  unfold Sum, checkSum. rewrite (Write_spec Reset data) by (cbn; lia). cbn [x s len Reset app].
  rewrite Z.add_0_l, pad_rfc, bitlen_rfc by lia.
  set (N := Z.of_nat (length data)).
  set (tmp := 128 :: repeat 0 (Z.to_nat (rfc_pad_len N)) ++ PutUint64 (w64 (8 * N))).
  set (n1 := (length data / 64)%nat).
  assert (Hr : length (skipn (64 * n1) data) = (length data mod 64)%nat)
    by (rewrite length_skipn; unfold n1; pose proof (Nat.div_mod_eq (length data) 64); lia).
  pose proof (rfc_pad_len_range N ltac:(lia)) as [Hp Ht].
  assert (Hq : length (skipn (64 * n1) data ++ tmp) = (64 * (length (skipn (64 * n1) data ++ tmp) / 64))%nat).
  { rewrite length_app, Hr. unfold tmp. cbn [length]. rewrite length_app, repeat_length, length_PutUint64.
    assert (Hm : Z.of_nat (length data mod 64) = N mod 64) by (unfold N; rewrite Nat2Z.inj_mod; reflexivity).
    match goal with |- ?t = _ => assert (E : t = 64%nat \/ t = 128%nat) by lia end.
    destruct E as [E|E]; rewrite E; reflexivity. }
  rewrite Write_spec by (cbn [x]; rewrite Hr; apply Nat.mod_upper_bound; lia). cbn [x s].
  rewrite <- Hq, skipn_all. f_equal. f_equal. apply block_loop_resume.
Qed.

(** ** The hexadecimal text *)

Lemma init_ok : state_ok (mkState init0 init1 init2 init3).
Proof. unfold state_ok, in32, init0, init1, init2, init3. cbn [s0 s1 s2 s3]. lia. Qed.

Lemma byte_range (v : Z) : 0 <= Z.land v 255 < 256.
Proof. replace 255 with (Z.ones 8) by reflexivity. rewrite Z.land_ones by lia. apply Z.mod_pos_bound. lia. Qed.

Lemma state_bytes_range (st : State) : Forall (fun v => 0 <= v < 256) (state_bytes st).
Proof. repeat constructor; apply byte_range. Qed.

Lemma state_bytes_length (st : State) : length (state_bytes st) = 16%nat.
Proof. reflexivity. Qed.

Lemma EncodeToString_length (l : list Z) : String.length (EncodeToString l) = (2 * length l)%nat.
Proof. induction l as [|v l IH]; cbn [EncodeToString String.length length]; lia. Qed.

Lemma hex_digit_in (n : Z) : 0 <= n < 16 -> In (hex_digit n) (list_ascii_of_string hextable).
Proof.
  intros Hn. unfold hex_digit. assert (Hk : (Z.to_nat n < 16)%nat) by lia.
  remember (Z.to_nat n) as k eqn:Ek. clear Ek Hn.
  do 16 (destruct k as [|k]; [cbn; tauto|]). lia.
Qed.

(** [EncodeToString] of bytes writes only digits of [hextable]. *)
Lemma EncodeToString_hex (l : list Z) : Forall (fun v => 0 <= v < 256) l ->
  forall c, In c (list_ascii_of_string (EncodeToString l)) -> In c (list_ascii_of_string hextable).
Proof.
  induction 1 as [|v l Hv _ IH]; cbn [EncodeToString list_ascii_of_string In]; [tauto|].
  intros c [<-|[<-|Hc]]; [| |exact (IH c Hc)]; apply hex_digit_in.
  - rewrite Z.shiftr_div_pow2 by lia. change (2 ^ 4) with 16. split; [apply Z.div_pos | apply Z.div_lt_upper_bound]; lia.
  - replace 15 with (Z.ones 4) by reflexivity. rewrite Z.land_ones by lia. apply Z.mod_pos_bound. lia.
Qed.

(** ** StringToMD5 computes the RFC 1321 digest *)

(** C26: [StringToMD5] never panics and returns no message: its text is the
    lowercase hexadecimal encoding of the RFC 1321 MD5 digest of the bytes
    of its argument, 32 characters long, each one a digit of [hextable]. *)
Theorem StringToMD5_rfc1321 (supports : bool) (text : string) :
  StringToMD5 supports text = (EncodeToString (md5_rfc (bytes_of text)), []) /\
  String.length (fst (StringToMD5 supports text)) = 32%nat /\
  (forall c, In c (list_ascii_of_string (fst (StringToMD5 supports text))) ->
             In c (list_ascii_of_string hextable)).
Proof.
  assert (E : StringToMD5 supports text = (EncodeToString (md5_rfc (bytes_of text)), [])).
  { unfold StringToMD5. rewrite Sum_blocks. unfold md5_rfc.
    rewrite (block_loop_ext round_fun_go round_fun_rfc round_fun_go_rfc) by apply init_ok.
    reflexivity. }
  rewrite E. cbn [fst]. split; [reflexivity | split].
  - unfold md5_rfc. rewrite EncodeToString_length, state_bytes_length. reflexivity.
  - apply EncodeToString_hex, state_bytes_range.
Qed.

(** The test suite of RFC 1321, appendix A.5, run through [StringToMD5]. *)
Example StringToMD5_test_suite :
  map (fun t => fst (StringToMD5 true t))
    [""; "a"; "abc"; "message digest"; "abcdefghijklmnopqrstuvwxyz"]%string =
  ["d41d8cd98f00b204e9800998ecf8427e"; "0cc175b9c0f1b6a831c399e269772661";
   "900150983cd24fb0d6963f7d28e17f72"; "f96b697d7cb7938d525a2f31aaf161d0";
   "c3fcd3d76192e4007dfb496cca67e13b"]%string.
Proof. vm_compute. reflexivity. Qed.
