(* ===== verification/PrettyJson.v ===== *)
(** * [PrettyStruct] of [src/utility/utility.go]: [json.MarshalIndent]

    [PrettyStruct(data)] returns [json.MarshalIndent(data, "", "    ")]
    as a string, under [defer RecoverError()].  [MarshalIndent] is
    [json.Marshal] (the encoder of Json.v, [marshal_value]) followed by
    [encoding/json]'s [appendIndent], a loop over the compact bytes
    driven by the JSON scanner: it delays the line break after [{] and
    [[] so that empty containers stay [{}] and [[]], breaks the line
    after every [,] and before every closing bracket, and writes [": "]
    for the key separator.  Its state is the [IndentState] record
    ([needIndent], [depth], and the scanner's position); [indent_byte]
    is one iteration of the loop.

    The scanner is reduced to what the loop's output depends on: the
    opcode it returns for a byte, computed from whether the byte is
    outside a string, inside one, or right after a backslash inside
    one.  On the compact, well-formed text [json.Marshal] writes, these
    opcodes agree with Go's scanner for every byte but the first byte of
    a number or keyword ([scanBeginLiteral] in Go, [scanContinue] here),
    which both branches of the loop copy the same way.  The scanner's
    syntax errors cannot arise on that text and are not modelled.

    The reference is [pretty], the indented text written by structural
    recursion on the value: each element of a non-empty container on a
    line of its own, one indent deeper.  The theorems show the byte loop
    computes it ([Indent_marshal_value]), so [PrettyStruct] never fails
    and returns [pretty] with four-space indents. *)

From Stdlib Require Import String Ascii List ZArith Lia Bool Permutation.
From S2P Require Import Prelude SqlLex Json Utility.
Import ListNotations.
Open Scope string_scope.
Open Scope go_scope.
Open Scope Z_scope.

(** ** The scanner's opcodes as [appendIndent] reads them *)

Inductive ScanCode : Type :=
| scanContinue | scanBeginLiteral | scanBeginObject | scanObjectKey
| scanValueSep | scanEndObject | scanBeginArray | scanEndArray | scanSkipSpace.

Scheme Equality for ScanCode.

(** Where the scanner stands: outside strings ([stateEndValue] and the
    value states), in a string ([stateInString]) or after its backslash
    ([stateInStringEsc] and the [\u] states). *)
Inductive Lex : Type := Outside | InString | InStringEsc.

(** [isSpace]: the bytes the scanner skips between tokens. *)
Definition isSpace (c : ascii) : bool :=
  Ascii.eqb c " " || Ascii.eqb c "009" || Ascii.eqb c "010" || Ascii.eqb c "013".

Definition scan_step (l : Lex) (c : ascii) : ScanCode * Lex :=
  match l with
  | Outside =>
      if isSpace c then (scanSkipSpace, Outside)
      else if Ascii.eqb c "{" then (scanBeginObject, Outside)
      else if Ascii.eqb c "}" then (scanEndObject, Outside)
      else if Ascii.eqb c "[" then (scanBeginArray, Outside)
      else if Ascii.eqb c "]" then (scanEndArray, Outside)
      else if Ascii.eqb c ":" then (scanObjectKey, Outside)
      else if Ascii.eqb c "," then (scanValueSep, Outside)
      else if Ascii.eqb c dquote then (scanBeginLiteral, InString)
      else (scanContinue, Outside)
  | InString =>
      if Ascii.eqb c dquote then (scanContinue, Outside)
      else if Ascii.eqb c backslash then (scanContinue, InStringEsc)
      else (scanContinue, InString)
  | InStringEsc => (scanContinue, InString)
  end.

(** ** [appendIndent] *)

Record IndentState : Type := mkIndent {
  lex : Lex;
  needIndent : bool;
  depth : Z
}.

Section Indent.

Variables prefix indent : string.

Fixpoint indents (n : nat) : string :=
  match n with
  | O => ""
  | S n' => indent ++ indents n'
  end.

(** [appendNewline]: a line break, the prefix and [depth] indents. *)
Definition appendNewline (d : Z) : string := String "010" (prefix ++ indents (Z.to_nat d)).

(** One iteration of [for _, c := range src]. *)
Definition indent_byte (st : IndentState) (c : ascii) : string * IndentState :=
  let '(v, l) := scan_step (lex st) c in
  if ScanCode_beq v scanSkipSpace then ("", mkIndent l (needIndent st) (depth st))
  else
    let '(pre, ni, d) :=
      if needIndent st && negb (ScanCode_beq v scanEndObject) && negb (ScanCode_beq v scanEndArray)
      then (appendNewline (depth st + 1), false, depth st + 1)
      else ("", needIndent st, depth st) in
    if ScanCode_beq v scanContinue then (pre ++ ⟦c⟧, mkIndent l ni d)
    else if Ascii.eqb c "{" || Ascii.eqb c "[" then (pre ++ ⟦c⟧, mkIndent l true d)
    else if Ascii.eqb c "," then (pre ++ ⟦c⟧ ++ appendNewline d, mkIndent l ni d)
    else if Ascii.eqb c ":" then (pre ++ ": ", mkIndent l ni d)
    else if Ascii.eqb c "}" || Ascii.eqb c "]" then
      if ni then (pre ++ ⟦c⟧, mkIndent l false d)
      else (pre ++ appendNewline (d - 1) ++ ⟦c⟧, mkIndent l ni (d - 1))
    else (pre ++ ⟦c⟧, mkIndent l ni d).

Fixpoint indent_loop (st : IndentState) (src : string) : string * IndentState :=
  match src with
  | EmptyString => ("", st)
  | String c rest =>
      let '(o1, st1) := indent_byte st c in
      let '(o2, st2) := indent_loop st1 rest in
      (o1 ++ o2, st2)
  end.

(** [appendIndent(dst, src, prefix, indent)] from [needIndent := false]
    and [depth := 0]. *)
Definition appendIndent (src : string) : string :=
  fst (indent_loop (mkIndent Outside false 0) src).

(** ** The reference: indented text by recursion on the value *)

Fixpoint pretty (d : Z) (v : JsonValue) : string :=
  match v with
  | JArray [] => "[]"
  | JArray items =>
      "[" ++ appendNewline (d + 1) ++
      String.concat ("," ++ appendNewline (d + 1)) (map (pretty (d + 1)) items) ++
      appendNewline d ++ "]"
  | JObject [] => "{}"
  | JObject fields =>
      "{" ++ appendNewline (d + 1) ++
      String.concat ("," ++ appendNewline (d + 1))
        (map (fun '(k, s) => marshal_string k ++ ": " ++ s)
           (sort_by_key (map (fun '(k, x) => (k, pretty (d + 1) x)) fields))) ++
      appendNewline d ++ "}"
  | _ => marshal_value v
  end.

End Indent.

(** [func MarshalIndent(v any, prefix, indent string) ([]byte, error)]:
    [Marshal], then [appendIndent]; neither fails on a [JsonValue]. *)
Definition MarshalIndent (v : JsonValue) (prefix indent : string) : GoResult string :=
  Ok (appendIndent prefix indent (marshal_value v)).

(** [func PrettyStruct(data interface{}) (string, error)]. *)
Definition PrettyStruct (supports : bool) (data : JsonValue) : GoResult string * list string :=
  RecoverError supports (Ok "")
    (Returned (match MarshalIndent data "" "    " with
               | Err e => Err e
               | Ok val => Ok val
               end)).

(** ** Bytes outside strings that are neither punctuation nor space *)

Definition plain (c : ascii) : bool := ScanCode_beq (fst (scan_step Outside c)) scanContinue.

Fixpoint all_plain (s : string) : bool :=
  match s with
  | EmptyString => true
  | String c r => plain c && all_plain r
  end.

Lemma plain_step (c : ascii) : plain c = true -> scan_step Outside c = (scanContinue, Outside).
Proof.
  unfold plain, scan_step.
  repeat match goal with |- context [if ?b then _ else _] => destruct b end; cbn; congruence.
Qed.

Lemma digit_plain (c : ascii) : is_digit c = true -> plain c = true.
Proof. destruct c as [[] [] [] [] [] [] [] []]; vm_compute; congruence. Qed.

Lemma all_digits_plain (s : string) : all_digits s = true -> all_plain s = true.
Proof.
  induction s as [|c s IH]; cbn [all_digits all_plain]; [reflexivity|].
  intros [Hc Hs]%andb_true_iff. now rewrite digit_plain, IH.
Qed.

Lemma Itoa_plain (z : Z) : Itoa z <> EmptyString /\ all_plain (Itoa z) = true.
Proof.
  destruct (Itoa_shape z) as (d & Hne & Hd & ->). apply all_digits_plain in Hd.
  destruct (z <? 0); cbn [append all_plain]; [split; [discriminate | exact Hd]|].
  split; assumption.
Qed.

Section Runs.

Variables prefix indent : string.

Local Abbreviation loop := (indent_loop prefix indent).
Local Abbreviation nl := (appendNewline prefix indent).

Lemma loop_app (st st1 st2 : IndentState) (a b o1 o2 : string) :
  loop st a = (o1, st1) -> loop st1 b = (o2, st2) -> loop st (a ++ b) = (o1 ++ o2, st2).
Proof.
  revert st o1. induction a as [|c a IH]; cbn [append indent_loop]; intros st o1 Ha Hb.
  - injection Ha as <- <-. exact Hb.
  - destruct (indent_byte prefix indent st c) as [p s1].
    destruct (loop s1 a) as [q s2] eqn:E. injection Ha as <- ->.
    rewrite (IH s1 q E Hb). now rewrite append_assoc.
Qed.

Lemma loop_app_eq (st st1 st2 : IndentState) (a b o o1 o2 : string) :
  loop st a = (o1, st1) -> loop st1 b = (o2, st2) -> o = o1 ++ o2 -> loop st (a ++ b) = (o, st2).
Proof. intros Ha Hb ->. exact (loop_app _ _ _ _ _ _ _ Ha Hb). Qed.

(** The escaped bytes of a string value are copied and keep the scanner
    inside the string. *)
Lemma escape_byte_run (c : ascii) (d : Z) :
  loop (mkIndent InString false d) (json_escape_byte c) = (json_escape_byte c, mkIndent InString false d).
Proof. destruct c as [[] [] [] [] [] [] [] []]; vm_compute; reflexivity. Qed.

Lemma string_body_run (s : string) (d : Z) :
  loop (mkIndent InString false d) (concat_map json_escape_byte s) =
  (concat_map json_escape_byte s, mkIndent InString false d).
Proof.
  induction s as [|c s IH]; [reflexivity|]. cbn [concat_map].
  exact (loop_app _ _ _ _ _ _ _ (escape_byte_run c d) IH).
Qed.

(** The line break [indent_byte] writes before a value when an
    opening bracket is pending, and the depth the value is at. *)
Definition lead (b : bool) (e : Z) : string := if b then nl (e + 1) else "".
Definition dep (b : bool) (e : Z) : Z := if b then e + 1 else e.

(** [runs_at f r p]: from outside strings, with the pending break and
    depth that put the next value at depth [f], the loop writes the
    pending break and then [p] for the bytes [r], and ends outside
    strings at depth [f] with no break pending. *)
Definition runs_at (f : Z) (r p : string) : Prop :=
  forall b e, dep b e = f -> loop (mkIndent Outside b e) r = (lead b e ++ p, mkIndent Outside false f).

(** [cont f r p]: the same, with no break pending. *)
Definition cont (f : Z) (r p : string) : Prop :=
  loop (mkIndent Outside false f) r = (p, mkIndent Outside false f).

Lemma runs_cont (f : Z) (r p : string) : runs_at f r p -> cont f r p.
Proof. intros H. exact (H false f eq_refl). Qed.

Lemma runs_app (f : Z) (a b p1 p2 : string) :
  runs_at f a p1 -> cont f b p2 -> runs_at f (a ++ b) (p1 ++ p2).
Proof.
  intros Ha Hb bb e He. rewrite <- append_assoc. exact (loop_app _ _ _ _ _ _ _ (Ha bb e He) Hb).
Qed.

Lemma cont_app (f : Z) (a b p1 p2 : string) : cont f a p1 -> cont f b p2 -> cont f (a ++ b) (p1 ++ p2).
Proof. exact (loop_app _ _ _ _ _ _ _). Qed.

Lemma cont_comma (f : Z) : cont f "," ("," ++ nl f).
Proof. unfold cont. cbn. now rewrite append_nil_r. Qed.

Lemma cont_colon (f : Z) : cont f ":" ": ".
Proof. reflexivity. Qed.

Lemma cont_plain (f : Z) (s : string) : all_plain s = true -> cont f s s.
Proof.
  unfold cont. induction s as [|c s IH]; cbn [all_plain indent_loop]; [reflexivity|].
  intros [Hc Hs]%andb_true_iff. unfold indent_byte at 1; cbn [lex]. rewrite (plain_step c Hc). cbn.
  now rewrite (IH Hs).
Qed.

Lemma runs_plain (f : Z) (s : string) : all_plain s = true -> s <> EmptyString -> runs_at f s s.
Proof.
  destruct s as [|c s]; [congruence|]. cbn [all_plain]. intros [Hc Hs]%andb_true_iff _ b e <-.
  change (String c s) with (⟦c⟧ ++ s).
  destruct b; (eapply loop_app_eq; [|exact (cont_plain _ s Hs)|]);
    try (cbn [indent_loop]; unfold indent_byte at 1; cbn [lex]; rewrite (plain_step c Hc); reflexivity);
    cbn; now rewrite ?append_nil_r, ?append_assoc.
Qed.

Lemma runs_string (f : Z) (s : string) : runs_at f (marshal_string s) (marshal_string s).
Proof.
  intros b e <-. unfold marshal_string.
  change (String dquote (concat_map json_escape_byte s ++ ⟦dquote⟧))
    with (⟦dquote⟧ ++ concat_map json_escape_byte s ++ ⟦dquote⟧).
  destruct b; (eapply loop_app_eq; [reflexivity|eapply loop_app_eq; [apply string_body_run|reflexivity|reflexivity]|]);
    cbn; now rewrite ?append_nil_r, ?append_assoc.
Qed.

Lemma runs_empty (f : Z) (o c : ascii) :
  (o, c) = ("["%char, "]"%char) \/ (o, c) = ("{"%char, "}"%char) ->
  runs_at f (String o ⟦c⟧) (String o ⟦c⟧).
Proof.
  intros [[= -> ->]|[= -> ->]] b e <-; destruct b; cbn; now rewrite ?append_nil_r, ?append_assoc.
Qed.

(** The elements of a non-empty container, each on a new line. *)
Lemma runs_concat (g : Z) (rs ps : list string) :
  Forall2 (runs_at g) rs ps -> rs <> [] ->
  runs_at g (String.concat "," rs) (String.concat ("," ++ nl g) ps).
Proof.
  induction 1 as [|r p rs ps Hrp Hrest IH]; [congruence|]. intros _.
  destruct Hrest as [|r' p' rs' ps' Hrp' Hrest']; [exact Hrp|].
  change (String.concat "," (r :: r' :: rs')) with (r ++ "," ++ String.concat "," (r' :: rs')).
  change (String.concat ("," ++ nl g) (p :: p' :: ps'))
    with (p ++ ("," ++ nl g) ++ String.concat ("," ++ nl g) (p' :: ps')).
  apply runs_app; [exact Hrp|]. apply cont_app; [apply cont_comma|].
  apply runs_cont, IH. discriminate.
Qed.

Lemma runs_container (f : Z) (o c : ascii) (rs ps : list string) :
  (o, c) = ("["%char, "]"%char) \/ (o, c) = ("{"%char, "}"%char) ->
  Forall2 (runs_at (f + 1)) rs ps -> rs <> [] ->
  runs_at f (⟦o⟧ ++ String.concat "," rs ++ ⟦c⟧)
            (⟦o⟧ ++ nl (f + 1) ++ String.concat ("," ++ nl (f + 1)) ps ++ nl f ++ ⟦c⟧).
Proof.
  intros Hoc Hall Hne b e <-. pose proof (runs_concat _ _ _ Hall Hne true (dep b e) eq_refl) as Hi.
  set (g := dep b e) in *. cbn [lead] in Hi.
  assert (Hc : loop (mkIndent Outside false (g + 1)) ⟦c⟧ = (nl g ++ ⟦c⟧, mkIndent Outside false g)).
  { replace g with (g + 1 - 1) at 2 3 by lia.
    destruct Hoc as [[= -> ->]|[= -> ->]]; cbn; now rewrite append_nil_r. }
  subst g. destruct Hoc as [[= -> ->]|[= -> ->]]; destruct b;
    (eapply loop_app_eq; [reflexivity|eapply loop_app_eq; [exact Hi|exact Hc|reflexivity]|]);
    cbn; now rewrite ?append_nil_r, ?append_assoc.
Qed.

End Runs.

(** ** Sorting members and recursion through containers *)

Section SortKeys.

Variable R : string * string -> string * string -> Prop.
Hypothesis R_key : forall a b, R a b -> fst a = fst b.

(** [sort_by_key] compares keys only: related lists with the same keys
    are sorted into related lists. *)
Lemma insert_by_key_Forall2 (m1 m2 : string * string) (l1 l2 : list (string * string)) :
  R m1 m2 -> Forall2 R l1 l2 -> Forall2 R (insert_by_key m1 l1) (insert_by_key m2 l2).
Proof.
  intros Hm. induction 1 as [|a b l1 l2 Hab Hl IH]; cbn [insert_by_key]; [now repeat constructor|].
  rewrite (R_key _ _ Hm), (R_key _ _ Hab).
  destruct (String.leb (fst m2) (fst b)); now repeat constructor.
Qed.

Lemma sort_by_key_Forall2 (l1 l2 : list (string * string)) :
  Forall2 R l1 l2 -> Forall2 R (sort_by_key l1) (sort_by_key l2).
Proof. induction 1; cbn [sort_by_key]; [constructor | now apply insert_by_key_Forall2]. Qed.

End SortKeys.

Lemma Forall2_map_map {A B C D} (R : A -> B -> Prop) (S : C -> D -> Prop) (f : A -> C) (g : B -> D)
  (l1 : list A) (l2 : list B) :
  (forall a b, R a b -> S (f a) (g b)) -> Forall2 R l1 l2 -> Forall2 S (map f l1) (map g l2).
Proof. intros H. induction 1; constructor; auto. Qed.

Lemma Forall_Forall2_map {A C D} (P : A -> Prop) (S : C -> D -> Prop) (f : A -> C) (g : A -> D) (l : list A) :
  (forall a, P a -> S (f a) (g a)) -> Forall P l -> Forall2 S (map f l) (map g l).
Proof. intros H. induction 1; constructor; auto. Qed.

Section JsonInd.

Variable P : JsonValue -> Prop.
Hypothesis Hnull : P JNull.
Hypothesis Hbool : forall b, P (JBool b).
Hypothesis Hnum : forall n, P (JNumber n).
Hypothesis Hstr : forall s, P (JString s).
Hypothesis Harr : forall items, Forall P items -> P (JArray items).
Hypothesis Hobj : forall fields, Forall (fun kv => P (snd kv)) fields -> P (JObject fields).

(** Induction on values through the elements of their containers. *)
Fixpoint json_ind (v : JsonValue) : P v :=
  match v with
  | JNull => Hnull
  | JBool b => Hbool b
  | JNumber n => Hnum n
  | JString s => Hstr s
  | JArray items =>
      Harr items ((fix go (l : list JsonValue) : Forall P l :=
                     match l with
                     | [] => Forall_nil _
                     | x :: l' => Forall_cons x (json_ind x) (go l')
                     end) items)
  | JObject fields =>
      Hobj fields ((fix go (l : list (string * JsonValue)) : Forall (fun kv => P (snd kv)) l :=
                      match l with
                      | [] => Forall_nil _
                      | kv :: l' => Forall_cons kv (json_ind (snd kv)) (go l')
                      end) fields)
  end.

End JsonInd.

(** ** The byte loop computes the reference *)

Section Pretty.

Variables prefix indent : string.

Local Abbreviation runs := (runs_at prefix indent).

Lemma member_runs (g : Z) (a b : string * string) :
  fst a = fst b /\ runs g (snd a) (snd b) ->
  runs g ((fun '(k, v) => json_member k v) a) ((fun '(k, s) => marshal_string k ++ ": " ++ s) b).
Proof.
  destruct a as [k m], b as [k' p]. cbn [fst snd]. intros [<- H]. unfold json_member.
  apply runs_app; [apply runs_string|]. apply cont_app; [apply cont_colon|]. now apply runs_cont.
Qed.

(** Every value, marshalled, is indented to [pretty] at its depth. *)
Lemma marshal_value_runs (v : JsonValue) : forall f, runs f (marshal_value v) (pretty prefix indent f v).
Proof.
  induction v as [| b | n | s | items IH | fields IH] using json_ind; intros f.
  - apply runs_plain; [reflexivity | discriminate].
  - destruct b; (apply runs_plain; [reflexivity | discriminate]).
  - apply runs_plain; apply Itoa_plain.
  - apply runs_string.
  - destruct items as [|x xs]; [apply runs_empty; now left|].
    cbn [marshal_value]. unfold json_list. change "[" with ⟦"["%char⟧. change "]" with ⟦"]"%char⟧.
    apply runs_container; [now left | | discriminate].
    apply (Forall_Forall2_map (fun x => forall f, runs f (marshal_value x) (pretty prefix indent f x)));
      [intros a Ha; apply Ha | exact IH].
  - destruct fields as [|[k x] fs]; [apply runs_empty; now right|].
    set (fields := (k, x) :: fs) in *.
    change (marshal_value (JObject fields)) with
      (json_object (sort_by_key (map (fun '(k, x) => (k, marshal_value x)) fields))).
    change (pretty prefix indent f (JObject fields)) with
      ("{" ++ appendNewline prefix indent (f + 1) ++
       String.concat ("," ++ appendNewline prefix indent (f + 1))
         (map (fun '(k, s) => marshal_string k ++ ": " ++ s)
            (sort_by_key (map (fun '(k, x) => (k, pretty prefix indent (f + 1) x)) fields))) ++
       appendNewline prefix indent f ++ "}").
    unfold json_object. change "{" with ⟦"{"%char⟧. change "}" with ⟦"}"%char⟧.
    apply runs_container; [now right| |].
    + eapply Forall2_map_map; [apply member_runs|].
      apply sort_by_key_Forall2; [now intros ? ? []|].
      eapply Forall_Forall2_map; [|exact IH]. intros [k' x'] Hx. cbn [fst snd]. split; [reflexivity | apply Hx].
    + intros Hnil%map_eq_nil.
      pose proof (Permutation_length (sort_by_key_perm (map (fun '(k, x) => (k, marshal_value x)) fields))) as HL.
      now rewrite Hnil in HL.
Qed.

End Pretty.

(** [appendIndent] of [json.Marshal]'s text is [pretty] at depth 0. *)
Lemma appendIndent_marshal_value (prefix indent : string) (v : JsonValue) :
  appendIndent prefix indent (marshal_value v) = pretty prefix indent 0 v.
Proof.
  unfold appendIndent. now rewrite (marshal_value_runs prefix indent v 0 false 0 eq_refl).
Qed.

(** ** [PrettyStruct] *)

(** C9: [PrettyStruct] never fails, panics or prints: it returns the
    value's JSON indented by four spaces per level with no prefix, as
    [pretty] writes it by recursion on the value (each element of a
    non-empty array or object on its own line, one level deeper, members
    in key order after [": "], empty containers as [[]] and [{}]). *)
Theorem PrettyStruct_pretty (supports : bool) (data : JsonValue) :
  PrettyStruct supports data = (Ok (pretty "" "    " 0 data), []).
Proof. unfold PrettyStruct, MarshalIndent. now rewrite appendIndent_marshal_value. Qed.

(** An object with a nested array and an empty object, printed. *)
Example PrettyStruct_sample :
  let q := ⟦dquote⟧ in
  let lf := ⟦"010"%char⟧ in
  PrettyStruct true (JObject [("b", JArray [JNumber 1; JNumber (-20)]); ("a", JObject [])]) =
  (Ok ("{" ++ lf ++ "    " ++ q ++ "a" ++ q ++ ": {}," ++
       lf ++ "    " ++ q ++ "b" ++ q ++ ": [" ++
       lf ++ "        1," ++ lf ++ "        -20" ++
       lf ++ "    ]" ++ lf ++ "}"), []).
Proof. vm_compute. reflexivity. Qed.
