(* ===== verification/Handler.v ===== *)
(** * Request handling: the use cases, the handlers, the API-key middleware and the router

    [src/internal/usecase/*.go] ([Create]: validate, synthesise, publish),
    [src/internal/handler/*.go] ([Create()]: read the body, decode it,
    keep the raw body, call the use case, answer),
    [src/internal/handler/middleware/auth.go] ([APIKeyMiddleware]),
    [src/utility/utility.go] ([ReadJsonBodyRequest], [CORSMiddleware])
    and [src/routers/router.go] ([InitRouter]'s routes).

    The handler talks to its use case through the Go interfaces
    [PPOBUsecase] / [NonPPOBUsecase]: here the class [OrderUsecase],
    whose law [uc_publish] is what the handler's theorems rely on and
    what the two implementations discharge from the publisher's
    contract.  [encoding/json]'s [Valid] and [Unmarshal] into the order
    struct are the class [JsonDecoder]; the map visiting order of
    [ErrorHttpStatus] is the section variable [visit], a permutation of
    the table. *)

From Stdlib Require Import String Ascii List ZArith Lia Bool Permutation.
From S2P Require Import Prelude SqlLex Literal Fmt Json Orders Extract Synth Validator HttpStatus Queue.
Import ListNotations.
Open Scope string_scope.
Open Scope go_scope.

(** ** Interfaces *)

(** [json.Valid] and [json.Unmarshal] into the order struct. *)
Class JsonDecoder (T : Type) := {
  Valid : string -> bool;
  Unmarshal : string -> GoResult T
}.

(** The use case a handler calls ([Create(order *T) error]), with the
    broker's behaviour for this call, and its contract: the trace it
    leaves satisfies the publisher's contract for the command it builds
    from the order. *)
Class OrderUsecase (T : Type) := {
  Create : StompOutcome -> T -> GoResult unit * list StompEvent;
  command : T -> string;
  queue_of : Configuration
}.

Class OrderUsecaseLaws (T : Type) `{OrderUsecase T} := {
  uc_publish : forall env o,
    publish_contract queue_of (command o) (fst (Create env o)) (snd (Create env o))
}.

(** [objData.MetadataRaw = jsonBody]. *)
Class HasMetadataRaw (T : Type) := { set_MetadataRaw : T -> string -> T }.

#[export] Instance PPOB_raw : HasMetadataRaw PPOBOrder.t := {| set_MetadataRaw := PPOBOrder.with_MetadataRaw |}.
#[export] Instance NonPPOB_raw : HasMetadataRaw NonPPOBOrder.t :=
  {| set_MetadataRaw := NonPPOBOrder.with_MetadataRaw |}.

(** ** The use cases *)

(** [func (u *PPOBUsecaseImpl) Create(order *PPOBOrder) error]. *)
Definition PPOBCreate (configuration : Configuration) (env : StompOutcome) (order : PPOBOrder.t)
    : GoResult unit * list StompEvent :=
  match Struct (validate_PPOBOrder order) with
  | Some err => (Err (ValidationErrorHandle err), [])
  | None => SendMessageToQueue env configuration (ppob_sql order)
  end.

(** [func (u *NonPPOBUsecaseImpl) Create(order *NonPPOBOrder) error]. *)
Definition NonPPOBCreate (configuration : Configuration) (env : StompOutcome)
    (order : NonPPOBOrder.t) : GoResult unit * list StompEvent :=
  match Struct (validate_NonPPOBOrder order) with
  | Some err => (Err (ValidationErrorHandle err), [])
  | None => SendMessageToQueue env configuration (nonppob_sql order)
  end.

(** [type PPOBUsecase interface] and [type NonPPOBUsecase interface]:
    [OrderUsecase] at each order type. *)
Definition PPOBUsecase : Type := OrderUsecase PPOBOrder.t.
Definition NonPPOBUsecase : Type := OrderUsecase NonPPOBOrder.t.

(** [NewPPOBUsecase(configuration)], [NewNonPPOBUsecase(configuration)]. *)
Definition NewPPOBUsecase (configuration : Configuration) : PPOBUsecase :=
  {| Create := PPOBCreate configuration; command := ppob_sql; queue_of := configuration |}.

Definition NewNonPPOBUsecase (configuration : Configuration) : NonPPOBUsecase :=
  {| Create := NonPPOBCreate configuration; command := nonppob_sql; queue_of := configuration |}.

(** ** HTTP *)

(** The request body as [ioutil.ReadAll] sees it. *)
Inductive Body :=
| NoBody
| BodyReadError (partial msg : string)
| BodyBytes (bytes : string).

Record Request := mkRequest { Method : string; Path : string; ApiKeyHeader : string; ReqBody : Body }.

(** A response: a JSON object [{code, status, message}], an empty
    response with a status code, or a redirect. *)
Inductive Response :=
| JsonResponse (code : Z) (status message : string)
| NoContent (code : Z)
| Redirect (code : Z) (location : string).

Definition success_response : Response := JsonResponse 200 "success" "Success".

(** [func ReadJsonBodyRequest(c *gin.Context) (string, error)]. *)
Definition ReadJsonBodyRequest (valid : string -> bool) (b : Body) : GoResult string :=
  match b with
  | NoBody => Err "cannot read or undefined request body"
  | BodyReadError _ err => Err err
  | BodyBytes jsonData => if valid jsonData then Ok jsonData else Err "invalid json format"
  end.

(** The logging middleware that [InitRouter] installs first reads the
    whole body with [c.GetRawData()], discards the read error, and puts
    the bytes it got back with [io.NopCloser(bytes.NewBuffer(...))].
    The handler therefore reads exactly those bytes, without error: an
    absent body as the empty one, a failed read as the bytes read before
    the failure. *)
Definition raw_body (b : Body) : string :=
  match b with
  | NoBody => ""
  | BodyReadError partial _ => partial
  | BodyBytes bytes => bytes
  end.

Section Handler.
Context (visit : list (string * HttpStatus)).

(** [intHttpStatus, status := utility.ErrorHttpStatus(err.Error())] and
    the error response, with the map visited in order [visit]. *)
Definition error_response (err : string) : Response :=
  let '(code, status) := first_match visit (ToLower err) in JsonResponse code status err.

(** [func (h *PPOBHandlerImpl) Create() gin.HandlerFunc] and its
    Non-PPOB twin, for any use case. *)
Definition HandlerCreate {T} `{JsonDecoder T} `{HasMetadataRaw T} `{OrderUsecase T}
    (env : StompOutcome) (body : Body) : Response * list StompEvent :=
  match ReadJsonBodyRequest Valid body with
  | Err err => (error_response err, [])
  | Ok jsonBody =>
      match Unmarshal jsonBody with
      | Err _ => (JsonResponse 400 "error" "Invalid request body format", [])
      | Ok objData =>
          let objData := set_MetadataRaw objData jsonBody in
          let '(err, trace) := Create env objData in
          match err with
          | Err e => (error_response e, trace)
          | Ok _ => (success_response, trace)
          end
      end
  end.

(** [func APIKeyMiddleware(validAPIKeys []string) gin.HandlerFunc]: on a
    missing or unknown key, [c.JSON(401, ...)] then [c.Abort()]
    ([abort] of the answer); otherwise [c.Next()] ([next]).  The result
    type is the caller's: the answer and trace in [serve], gin's context
    in the handler chain of [InitRouter] (Logging.v). *)
Definition APIKeyMiddleware {A} (validAPIKeys : list string) (apiKey : string)
    (abort : Response -> A) (next : unit -> A) : A :=
  if String.eqb apiKey "" then abort (JsonResponse 401 "error" "API key is required")
  else if existsb (String.eqb apiKey) validAPIKeys then next tt
  else abort (JsonResponse 401 "error" "Invalid API key").

Context `{JsonDecoder PPOBOrder.t} `{JsonDecoder NonPPOBOrder.t}.

(** [type PPOBHandlerImpl struct { ppobUc usecase.PPOBUsecase }] and its
    constructor [NewPPOBHandler]; the Non-PPOB twin. *)
Record PPOBHandlerImpl := mkPPOBHandlerImpl { ppobUc : OrderUsecase PPOBOrder.t }.
Record NonPPOBHandlerImpl := mkNonPPOBHandlerImpl { nonPPOBUc : OrderUsecase NonPPOBOrder.t }.

Definition NewPPOBHandler (uc : OrderUsecase PPOBOrder.t) : PPOBHandlerImpl := mkPPOBHandlerImpl uc.
Definition NewNonPPOBHandler (uc : OrderUsecase NonPPOBOrder.t) : NonPPOBHandlerImpl := mkNonPPOBHandlerImpl uc.

(** [func (h *PPOBHandlerImpl) Create() gin.HandlerFunc] and
    [func (h *NonPPOBHandlerImpl) Create() gin.HandlerFunc]: the same
    body, [HandlerCreate], on the handler's use case. *)
Definition PPOBHandler_Create (h : PPOBHandlerImpl) (env : StompOutcome) (body : Body)
    : Response * list StompEvent :=
  @HandlerCreate PPOBOrder.t _ _ (ppobUc h) env body.
Definition NonPPOBHandler_Create (h : NonPPOBHandlerImpl) (env : StompOutcome) (body : Body)
    : Response * list StompEvent :=
  @HandlerCreate NonPPOBOrder.t _ _ (nonPPOBUc h) env body.

(** [InitRouter]: [CORSMiddleware] answers every [OPTIONS] request with
    204 before routing (no [OPTIONS] route exists, so gin runs the
    global middleware and [NoRoute]); the two [POST] routes of the
    [/api/v1/orders] group run behind the API-key middleware; a [POST]
    to a route path with a trailing slash is redirected by gin's
    [RedirectTrailingSlash] (on by default: 307 for a non-[GET]
    method, without running any middleware); anything else reaches the
    [NoRoute] handler. *)
Definition serve (configuration : Configuration) (env : StompOutcome) (req : Request)
    : Response * list StompEvent :=
  if String.eqb (Method req) "OPTIONS" then (NoContent 204, [])
  else if String.eqb (Method req) "POST" && String.eqb (Path req) "/api/v1/orders/non-ppob" then
    APIKeyMiddleware (APIKeys configuration) (ApiKeyHeader req) (fun r => (r, []))
      (fun _ => NonPPOBHandler_Create (NewNonPPOBHandler (NewNonPPOBUsecase configuration)) env
                  (BodyBytes (raw_body (ReqBody req))))
  else if String.eqb (Method req) "POST" && String.eqb (Path req) "/api/v1/orders/ppob" then
    APIKeyMiddleware (APIKeys configuration) (ApiKeyHeader req) (fun r => (r, []))
      (fun _ => PPOBHandler_Create (NewPPOBHandler (NewPPOBUsecase configuration)) env
                  (BodyBytes (raw_body (ReqBody req))))
  else if String.eqb (Method req) "POST" && String.eqb (Path req) "/api/v1/orders/non-ppob/" then
    (Redirect 307 "/api/v1/orders/non-ppob", [])
  else if String.eqb (Method req) "POST" && String.eqb (Path req) "/api/v1/orders/ppob/" then
    (Redirect 307 "/api/v1/orders/ppob", [])
  else (JsonResponse 404 "error" "Endpoint not found!", []).

End Handler.

(** [serve] with the handlers' [Create] read as [HandlerCreate] on their use case. *)
Ltac unfold_serve :=
  unfold serve, PPOBHandler_Create, NonPPOBHandler_Create, NewPPOBHandler, NewNonPPOBHandler;
  cbn [ppobUc nonPPOBUc].

(** ** The use cases satisfy the interface's law *)

Lemma publish_contract_rejected (configuration : Configuration) (cmd err : string) :
  publish_contract configuration cmd (Err err) [].
Proof. repeat split; cbn; try lia; discriminate. Qed.

Lemma publish_contract_send (env : StompOutcome) (configuration : Configuration) (cmd : string) :
  publish_contract configuration cmd (fst (SendMessageToQueue env configuration cmd))
    (snd (SendMessageToQueue env configuration cmd)).
Proof.
  pose proof (SendMessageToQueue_publish env configuration cmd) as H.
  destruct (SendMessageToQueue env configuration cmd). exact (proj1 H).
Qed.

#[export] Instance PPOBUsecase_laws (configuration : Configuration) :
  @OrderUsecaseLaws _ (NewPPOBUsecase configuration).
Proof.
  constructor. intros env o. cbn. unfold PPOBCreate.
  destruct (Struct (validate_PPOBOrder o)); [apply publish_contract_rejected|apply publish_contract_send].
Qed.

#[export] Instance NonPPOBUsecase_laws (configuration : Configuration) :
  @OrderUsecaseLaws _ (NewNonPPOBUsecase configuration).
Proof.
  constructor. intros env o. cbn. unfold NonPPOBCreate.
  destruct (Struct (validate_NonPPOBOrder o)); [apply publish_contract_rejected|apply publish_contract_send].
Qed.

(** ** What a handler call leaves behind *)

(** The property of one request: at most one frame, every connection
    closed, and a 200 answer only after the frame holding the command
    built from the decoded body (with the raw body kept) was sent. *)
Definition handled_ok {T} `{JsonDecoder T} `{HasMetadataRaw T} `{OrderUsecase T}
    (body : Body) (resp : Response) (trace : list StompEvent) : Prop :=
  well_bracketed 0 trace = true /\ open_after trace = 0%Z /\
  (List.length (sends trace) <= 1)%nat /\
  (resp = success_response ->
   exists jsonBody o, body = BodyBytes jsonBody /\ Unmarshal jsonBody = Ok o /\
     sends trace = [EvSend (QueueName (Queue queue_of)) "text/plain"
                      (command (set_MetadataRaw o jsonBody))]).

Section HandlerProofs.
Context (visit : list (string * HttpStatus)) (Hvisit : Permutation errorStatusMap visit).

Lemma first_match_not_success (err : string) :
  error_response visit err <> success_response.
Proof.
  unfold error_response.
  destruct (first_match_sound visit (ToLower err)) as [(k & Hin & _) | [_ Hd]].
  - destruct (first_match visit (ToLower err)) as [code st] eqn:E.
    apply (Permutation_in _ (Permutation_sym Hvisit)) in Hin. simpl in Hin.
    repeat destruct Hin as [[= _ <- <-] | Hin]; try contradiction; discriminate.
  - rewrite Hd. discriminate.
Qed.

Lemma HandlerCreate_ok {T} `{JsonDecoder T} `{HasMetadataRaw T} `{OrderUsecaseLaws T}
    (env : StompOutcome) (body : Body) :
  let '(resp, trace) := HandlerCreate visit env body in handled_ok body resp trace.
Proof.
  unfold HandlerCreate, handled_ok.
  destruct (ReadJsonBodyRequest Valid body) as [jsonBody|err] eqn:Hread.
  2: { repeat split; cbn; try lia. intros Hc. now apply first_match_not_success in Hc. }
  destruct (Unmarshal jsonBody) as [o|err] eqn:Hdec.
  2: { repeat split; cbn; try lia. discriminate. }
  pose proof (uc_publish env (set_MetadataRaw o jsonBody)) as (Hw & Ho & Hl & Hs).
  destruct (Create env (set_MetadataRaw o jsonBody)) as [[[]|e] trace]; cbn in *.
  - repeat split; auto. intros _. exists jsonBody, o. repeat split; auto.
    destruct body; cbn in Hread; try discriminate.
    destruct (Valid bytes); congruence.
  - repeat split; auto. intros Hc. now apply first_match_not_success in Hc.
Qed.

End HandlerProofs.

(** ** Validation failures are classified 400 *)

Definition ppob_field_names : list string :=
  ["Id"; "ReferenceId"; "Name"; "Type"; "Channel"; "PaymentCode"; "PaymentGateway"; "Amount"].

Definition nonppob_field_names : list string :=
  ["Id"; "ReferenceId"; "Name"; "Method"; "Channel"; "PaymentCode"; "PaymentGateway";
   "ItemQty"; "Amount"].

Definition required_errors (names : list string) (errs : list FieldError) : Prop :=
  Forall (fun e => Tag e = "required" /\ In (Field e) names) errs.

Lemma required_errors_app (names : list string) (l1 l2 : list FieldError) :
  required_errors names l1 -> required_errors names l2 -> required_errors names (l1 ++ l2).
Proof. intros H1 H2. apply Forall_app. now split. Qed.

Lemma required_errors_string (names : list string) (f v : string) :
  In f names -> required_errors names (required_string f v).
Proof. unfold required_string. destruct (String.eqb v ""); repeat constructor; auto. Qed.

Lemma required_errors_int (names : list string) (f : string) (v : Z) :
  In f names -> required_errors names (required_int f v).
Proof. unfold required_int. destruct (Z.eqb v 0); repeat constructor; auto. Qed.

#[export] Hint Resolve required_errors_app required_errors_string required_errors_int : go.

Lemma validate_PPOBOrder_required (o : PPOBOrder.t) :
  required_errors ppob_field_names (validate_PPOBOrder o).
Proof.
  unfold validate_PPOBOrder, validate_PPOBCustomer, validate_PPOBPayment.
  repeat apply required_errors_app; first [apply required_errors_string | apply required_errors_int];
    cbn; tauto.
Qed.

Lemma validate_NonPPOBOrder_required (o : NonPPOBOrder.t) :
  required_errors nonppob_field_names (validate_NonPPOBOrder o).
Proof.
  unfold validate_NonPPOBOrder, validate_Tenant, validate_Store, validate_NonPPOBCustomer,
    validate_Delivery, validate_NonPPOBPayment.
  repeat apply required_errors_app; first [apply required_errors_string | apply required_errors_int];
    cbn; tauto.
Qed.

(** The diagnostic of a list of [required] errors: the last field's name
    followed by [required], lower-cased. *)
Lemma ValidationErrorHandle_required (names : list string) (errs : list FieldError) :
  required_errors names errs -> errs <> [] ->
  exists f, In f names /\ ValidationErrorHandle (ValidationErrors errs) = ToLower (f ++ " required").
Proof.
  intros Hall Hne. destruct (exists_last Hne) as (l & e & ->).
  apply Forall_app in Hall as [_ He]. inversion He as [|? ? [Ht Hf] _]; subst.
  exists (Field e). split; [exact Hf|]. apply ValidationErrorHandle_app.
  unfold tag_message. rewrite Ht. reflexivity.
Qed.

Lemma required_message_400 (visit : list (string * HttpStatus)) (f : string) :
  Permutation errorStatusMap visit -> In f (ppob_field_names ++ nonppob_field_names) ->
  first_match visit (ToLower (ToLower (f ++ " required"))) = (400%Z, "Bad Request").
Proof.
  intros Hp Hf.
  assert (Hrel : ErrorHttpStatus (ToLower (f ++ " required"))
                   (first_match visit (ToLower (ToLower (f ++ " required")))))
    by (exists visit; auto).
  revert Hrel. apply ErrorHttpStatus_unique.
  - intros key s Hin Hk. cbn in Hf, Hin.
    repeat destruct Hf as [<- | Hf]; try contradiction;
      repeat destruct Hin as [[= <- <-] | Hin]; try contradiction;
      vm_compute in Hk; congruence.
  - exists "required". split; [cbn; tauto|].
    cbn in Hf. repeat destruct Hf as [<- | Hf]; try contradiction; vm_compute; reflexivity.
Qed.

Lemma existsb_eqb_In (k : string) (keys : list string) :
  existsb (String.eqb k) keys = true <-> In k keys.
Proof.
  rewrite existsb_exists. split.
  - intros (x & Hin & Hx). apply String.eqb_eq in Hx. now subst.
  - intros Hin. exists k. split; [exact Hin | apply String.eqb_refl].
Qed.

(** The middleware either passes the request on, or answers 401 itself
    without calling the handler. *)
Lemma APIKeyMiddleware_cases {A} (keys : list string) (k : string) (abort : Response -> A) (next : unit -> A) :
  (k <> "" /\ In k keys /\ APIKeyMiddleware keys k abort next = next tt) \/
  ((k = "" \/ ~ In k keys) /\ exists msg, APIKeyMiddleware keys k abort next = abort (JsonResponse 401 "error" msg)).
Proof.
  unfold APIKeyMiddleware. destruct (String.eqb_spec k "") as [->|Hne].
  - right. split; [now left | eauto].
  - destruct (existsb (String.eqb k) keys) eqn:E.
    + left. repeat split; auto. now apply existsb_eqb_In.
    + right. split; [right; intros Hin; apply existsb_eqb_In in Hin; congruence | eauto].
Qed.

(** The command each use case publishes. *)
Lemma command_PPOB (configuration : Configuration) (o : PPOBOrder.t) (jb : string) :
  @command _ (NewPPOBUsecase configuration) (@set_MetadataRaw _ PPOB_raw o jb)
  = ppob_sql (PPOBOrder.with_MetadataRaw o jb).
Proof. reflexivity. Qed.

Lemma command_NonPPOB (configuration : Configuration) (o : NonPPOBOrder.t) (jb : string) :
  @command _ (NewNonPPOBUsecase configuration) (@set_MetadataRaw _ NonPPOB_raw o jb)
  = nonppob_sql (NonPPOBOrder.with_MetadataRaw o jb).
Proof. reflexivity. Qed.

Lemma Create_PPOB (configuration : Configuration) (env : StompOutcome) (o : PPOBOrder.t) (jb : string) :
  @Create _ (NewPPOBUsecase configuration) env (@set_MetadataRaw _ PPOB_raw o jb)
  = PPOBCreate configuration env (PPOBOrder.with_MetadataRaw o jb).
Proof. reflexivity. Qed.

Lemma Create_NonPPOB (configuration : Configuration) (env : StompOutcome) (o : NonPPOBOrder.t) (jb : string) :
  @Create _ (NewNonPPOBUsecase configuration) env (@set_MetadataRaw _ NonPPOB_raw o jb)
  = NonPPOBCreate configuration env (NonPPOBOrder.with_MetadataRaw o jb).
Proof. reflexivity. Qed.

Section Router.
Context (visit : list (string * HttpStatus)) (Hvisit : Permutation errorStatusMap visit).
Context `{DP : JsonDecoder PPOBOrder.t} `{DN : JsonDecoder NonPPOBOrder.t}.

(** What one request may leave behind, for the whole service. *)
Definition served_ok (configuration : Configuration) (req : Request) (resp : Response)
    (trace : list StompEvent) : Prop :=
  well_bracketed 0 trace = true /\ open_after trace = 0%Z /\ (List.length (sends trace) <= 1)%nat /\
  (resp = success_response ->
   Method req = "POST" /\ In (ApiKeyHeader req) (APIKeys configuration) /\
   exists jsonBody, raw_body (ReqBody req) = jsonBody /\
   ((Path req = "/api/v1/orders/ppob" /\ exists o, @Unmarshal _ DP jsonBody = Ok o /\
       sends trace = [EvSend (QueueName (Queue configuration)) "text/plain"
                        (ppob_sql (PPOBOrder.with_MetadataRaw o jsonBody))]) \/
    (Path req = "/api/v1/orders/non-ppob" /\ exists o, @Unmarshal _ DN jsonBody = Ok o /\
       sends trace = [EvSend (QueueName (Queue configuration)) "text/plain"
                        (nonppob_sql (NonPPOBOrder.with_MetadataRaw o jsonBody))]))).

Lemma served_ok_no_trace (configuration : Configuration) (req : Request) (resp : Response) :
  resp <> success_response -> served_ok configuration req resp [].
Proof. intros Hne. repeat split; cbn; try lia; contradiction. Qed.

Ltac middleware_cases :=
  match goal with
  | |- context [APIKeyMiddleware ?keys ?k ?ab ?next] =>
      destruct (APIKeyMiddleware_cases keys k ab next) as [(Hk & Hin & ->) | (_ & msg & ->)];
      [| apply served_ok_no_trace; discriminate]
  end.

(** The handler's guarantee, read at the router. *)
Lemma served_ok_of_handled (configuration : Configuration) (req : Request) (resp : Response)
    (trace : list StompEvent) {T} `{D : JsonDecoder T} `{R : HasMetadataRaw T} (U : OrderUsecase T) :
  Method req = "POST" -> In (ApiKeyHeader req) (APIKeys configuration) ->
  handled_ok (BodyBytes (raw_body (ReqBody req))) resp trace ->
  (forall jb o, @Unmarshal T D jb = Ok o -> raw_body (ReqBody req) = jb ->
     sends trace = [EvSend (QueueName (Queue queue_of)) "text/plain" (command (set_MetadataRaw o jb))] ->
     (Path req = "/api/v1/orders/ppob" /\ exists o, @Unmarshal _ DP jb = Ok o /\
       sends trace = [EvSend (QueueName (Queue configuration)) "text/plain"
                        (ppob_sql (PPOBOrder.with_MetadataRaw o jb))]) \/
     (Path req = "/api/v1/orders/non-ppob" /\ exists o, @Unmarshal _ DN jb = Ok o /\
       sends trace = [EvSend (QueueName (Queue configuration)) "text/plain"
                        (nonppob_sql (NonPPOBOrder.with_MetadataRaw o jb))])) ->
  served_ok configuration req resp trace.
Proof.
  intros Hm Hin (Hw & Ho & Hl & Hs) Hroute. unfold served_ok.
  split; [exact Hw|]. split; [exact Ho|]. split; [exact Hl|].
  intros Hr. destruct (Hs Hr) as (jb & o & Hb & Hd & Hsend). injection Hb as Hb.
  split; [exact Hm|]. split; [exact Hin|]. exists jb. split; [exact Hb|]. exact (Hroute jb o Hd Hb Hsend).
Qed.

(** The two routes' handlers, read at the router. *)
Lemma route_np (configuration : Configuration) (env : StompOutcome) (req : Request) :
  Method req = "POST" -> Path req = "/api/v1/orders/non-ppob" ->
  In (ApiKeyHeader req) (APIKeys configuration) ->
  let '(resp, trace) := @HandlerCreate visit _ DN _ (NewNonPPOBUsecase configuration) env (BodyBytes (raw_body (ReqBody req))) in
  served_ok configuration req resp trace.
Proof.
  intros Hm Hp Hin.
  pose proof (@HandlerCreate_ok visit Hvisit _ DN _ (NewNonPPOBUsecase configuration)
                (NonPPOBUsecase_laws configuration) env (BodyBytes (raw_body (ReqBody req)))) as Hh.
  destruct (@HandlerCreate visit _ DN _ (NewNonPPOBUsecase configuration) env (BodyBytes (raw_body (ReqBody req)))).
  apply (@served_ok_of_handled configuration req _ _ _ DN _ _ Hm Hin Hh).
  intros jb o Hd _ Hsend. rewrite command_NonPPOB in Hsend.
  right. split; [exact Hp|]. exists o. split; [exact Hd | exact Hsend].
Qed.

Lemma route_pp (configuration : Configuration) (env : StompOutcome) (req : Request) :
  Method req = "POST" -> Path req = "/api/v1/orders/ppob" ->
  In (ApiKeyHeader req) (APIKeys configuration) ->
  let '(resp, trace) := @HandlerCreate visit _ DP _ (NewPPOBUsecase configuration) env (BodyBytes (raw_body (ReqBody req))) in
  served_ok configuration req resp trace.
Proof.
  intros Hm Hp Hin.
  pose proof (@HandlerCreate_ok visit Hvisit _ DP _ (NewPPOBUsecase configuration)
                (PPOBUsecase_laws configuration) env (BodyBytes (raw_body (ReqBody req)))) as Hh.
  destruct (@HandlerCreate visit _ DP _ (NewPPOBUsecase configuration) env (BodyBytes (raw_body (ReqBody req)))).
  apply (@served_ok_of_handled configuration req _ _ _ DP _ _ Hm Hin Hh).
  intros jb o Hd _ Hsend. rewrite command_PPOB in Hsend.
  left. split; [exact Hp|]. exists o. split; [exact Hd | exact Hsend].
Qed.

Lemma serve_served_ok (configuration : Configuration) (env : StompOutcome) (req : Request) :
  let '(resp, trace) := serve visit configuration env req in served_ok configuration req resp trace.
Proof.
  unfold_serve.
  destruct (String.eqb_spec (Method req) "OPTIONS") as [Ho|Ho];
    [apply served_ok_no_trace; discriminate|].
  destruct (String.eqb_spec (Method req) "POST") as [Hm|Hm]; cbn [andb];
    [|apply served_ok_no_trace; discriminate].
  destruct (String.eqb_spec (Path req) "/api/v1/orders/non-ppob") as [Hp|Hp].
  - middleware_cases. now apply route_np.
  - destruct (String.eqb_spec (Path req) "/api/v1/orders/ppob") as [Hp'|Hp'].
    + middleware_cases. now apply route_pp.
    + destruct (String.eqb (Path req) "/api/v1/orders/non-ppob/"), (String.eqb (Path req) "/api/v1/orders/ppob/");
        cbn [andb]; apply served_ok_no_trace; discriminate.
Qed.

(** C3: Whatever request reaches the service,
    it writes at most one frame to the broker and leaves no connection
    open; it answers 200 only to an authorised [POST] on one of the two
    order routes whose body decoded, and only after sending the one frame
    holding that route's command for the decoded order with the raw body
    attached. *)
Theorem serve_publish_contract (configuration : Configuration) (env : StompOutcome) (req : Request) :
  let '(resp, trace) := serve visit configuration env req in served_ok configuration req resp trace.
Proof. apply serve_served_ok. Qed.

End Router.

(** ** Rejections *)

Lemma validate_PPOBOrder_raw (o : PPOBOrder.t) (raw : string) :
  validate_PPOBOrder (PPOBOrder.with_MetadataRaw o raw) = validate_PPOBOrder o.
Proof. destruct o; reflexivity. Qed.

Lemma validate_NonPPOBOrder_raw (o : NonPPOBOrder.t) (raw : string) :
  validate_NonPPOBOrder (NonPPOBOrder.with_MetadataRaw o raw) = validate_NonPPOBOrder o.
Proof. destruct o; reflexivity. Qed.

(** A handler whose body decodes answers with what its use case returns
    and leaves the use case's trace. *)
Lemma HandlerCreate_decoded {T} `{JsonDecoder T} `{HasMetadataRaw T} `{OrderUsecase T}
    (visit : list (string * HttpStatus)) (env : StompOutcome) (jb : string) (o : T)
    (r : GoResult unit) (trace : list StompEvent) :
  Valid jb = true -> Unmarshal jb = Ok o -> Create env (set_MetadataRaw o jb) = (r, trace) ->
  HandlerCreate visit env (BodyBytes jb)
  = (match r with Err e => error_response visit e | Ok _ => success_response end, trace).
Proof. intros Hv Hu Hc. unfold HandlerCreate. cbn. rewrite Hv, Hu, Hc. now destruct r. Qed.

(** The error response to a [required] diagnostic. *)
Lemma error_response_required (visit : list (string * HttpStatus)) (names : list string)
    (errs : list FieldError) :
  Permutation errorStatusMap visit -> incl names (ppob_field_names ++ nonppob_field_names) ->
  required_errors names errs -> errs <> [] ->
  exists f, In f names /\
    error_response visit (ValidationErrorHandle (ValidationErrors errs))
    = JsonResponse 400 "Bad Request" (ToLower (f ++ " required")).
Proof.
  intros Hp Hincl Hr Hne.
  destruct (ValidationErrorHandle_required names errs Hr Hne) as (f & Hf & ->).
  exists f. split; [exact Hf|]. unfold error_response.
  now rewrite (required_message_400 visit f Hp (Hincl f Hf)).
Qed.

Lemma Struct_Some (l : list FieldError) (err : ValidatorError) :
  Struct l = Some err -> err = ValidationErrors l /\ l <> [].
Proof. destruct l; cbn; intros H; [discriminate | injection H as <-; split; [reflexivity | discriminate]]. Qed.

Lemma APIKeyMiddleware_rejects {A} (keys : list string) (k : string) (abort : Response -> A) (next : unit -> A) :
  k = "" \/ ~ In k keys -> exists msg, APIKeyMiddleware keys k abort next = abort (JsonResponse 401 "error" msg).
Proof.
  intros Hk. destruct (APIKeyMiddleware_cases keys k abort next) as [(Hne & Hin & _) | (_ & H)]; [|exact H].
  destruct Hk; contradiction.
Qed.

Lemma APIKeyMiddleware_passes {A} (keys : list string) (k : string) (abort : Response -> A) (next : unit -> A) :
  k <> "" -> In k keys -> APIKeyMiddleware keys k abort next = next tt.
Proof.
  intros Hne Hin. destruct (APIKeyMiddleware_cases keys k abort next) as [(_ & _ & H) | ([Hk|Hk] & _)];
    [exact H | contradiction | contradiction].
Qed.

(** The PPOB use case on an order that fails validation. *)
Lemma PPOBCreate_invalid (configuration : Configuration) (env : StompOutcome) (o : PPOBOrder.t) :
  ~ ppob_required_present o ->
  PPOBCreate configuration env o = (Err (ValidationErrorHandle (ValidationErrors (validate_PPOBOrder o))), []).
Proof.
  intros Hn. unfold PPOBCreate.
  destruct (Struct (validate_PPOBOrder o)) as [err|] eqn:E.
  - now destruct (Struct_Some _ _ E) as [-> _].
  - now apply validate_PPOBOrder_iff in E.
Qed.

Lemma NonPPOBCreate_invalid (configuration : Configuration) (env : StompOutcome) (o : NonPPOBOrder.t) :
  ~ nonppob_required_present o ->
  NonPPOBCreate configuration env o
  = (Err (ValidationErrorHandle (ValidationErrors (validate_NonPPOBOrder o))), []).
Proof.
  intros Hn. unfold NonPPOBCreate.
  destruct (Struct (validate_NonPPOBOrder o)) as [err|] eqn:E.
  - now destruct (Struct_Some _ _ E) as [-> _].
  - now apply validate_NonPPOBOrder_iff in E.
Qed.

Lemma not_required_present_errors (o : PPOBOrder.t) :
  ~ ppob_required_present o -> validate_PPOBOrder o <> [].
Proof. intros Hn He. apply Hn, validate_PPOBOrder_iff. now rewrite He. Qed.

Lemma not_nonppob_required_present_errors (o : NonPPOBOrder.t) :
  ~ nonppob_required_present o -> validate_NonPPOBOrder o <> [].
Proof. intros Hn He. apply Hn, validate_NonPPOBOrder_iff. now rewrite He. Qed.

Section Routes.
Context (visit : list (string * HttpStatus)).
Context `{DP : JsonDecoder PPOBOrder.t} `{DN : JsonDecoder NonPPOBOrder.t}.
Context (configuration : Configuration) (env : StompOutcome) (req : Request).
Hypothesis (Hm : Method req = "POST") (Hk : ApiKeyHeader req <> "")
  (Hin : In (ApiKeyHeader req) (APIKeys configuration)).

(** An authorised [POST] reaches the route's handler. *)
Lemma serve_ppob_route :
  Path req = "/api/v1/orders/ppob" ->
  serve visit configuration env req
  = @HandlerCreate visit _ DP _ (NewPPOBUsecase configuration) env (BodyBytes (raw_body (ReqBody req))).
Proof.
  intros Hp. unfold_serve. rewrite Hm, Hp.
  replace (String.eqb "POST" "OPTIONS") with false by reflexivity.
  replace (String.eqb "POST" "POST") with true by reflexivity.
  replace (String.eqb "/api/v1/orders/ppob" "/api/v1/orders/non-ppob") with false by reflexivity.
  replace (String.eqb "/api/v1/orders/ppob" "/api/v1/orders/ppob") with true by reflexivity.
  cbn [andb]. now apply APIKeyMiddleware_passes.
Qed.

Lemma serve_nonppob_route :
  Path req = "/api/v1/orders/non-ppob" ->
  serve visit configuration env req
  = @HandlerCreate visit _ DN _ (NewNonPPOBUsecase configuration) env (BodyBytes (raw_body (ReqBody req))).
Proof.
  intros Hp. unfold_serve. rewrite Hm, Hp.
  replace (String.eqb "POST" "OPTIONS") with false by reflexivity.
  replace (String.eqb "POST" "POST") with true by reflexivity.
  replace (String.eqb "/api/v1/orders/non-ppob" "/api/v1/orders/non-ppob") with true by reflexivity.
  cbn [andb]. now apply APIKeyMiddleware_passes.
Qed.

End Routes.

Lemma ppob_required_present_raw (o : PPOBOrder.t) (raw : string) :
  ppob_required_present (PPOBOrder.with_MetadataRaw o raw) <-> ppob_required_present o.
Proof. destruct o; reflexivity. Qed.

Lemma nonppob_required_present_raw (o : NonPPOBOrder.t) (raw : string) :
  nonppob_required_present (NonPPOBOrder.with_MetadataRaw o raw) <-> nonppob_required_present o.
Proof. destruct o; reflexivity. Qed.

(** The use cases on an order that passes validation publish its command. *)
Lemma PPOBCreate_valid (configuration : Configuration) (env : StompOutcome) (o : PPOBOrder.t) :
  ppob_required_present o -> PPOBCreate configuration env o = SendMessageToQueue env configuration (ppob_sql o).
Proof. intros Hp. unfold PPOBCreate. now rewrite (proj2 (validate_PPOBOrder_iff o) Hp). Qed.

Lemma NonPPOBCreate_valid (configuration : Configuration) (env : StompOutcome) (o : NonPPOBOrder.t) :
  nonppob_required_present o ->
  NonPPOBCreate configuration env o = SendMessageToQueue env configuration (nonppob_sql o).
Proof. intros Hp. unfold NonPPOBCreate. now rewrite (proj2 (validate_NonPPOBOrder_iff o) Hp). Qed.

(** The Non-PPOB fields validated after the customer. *)
Definition nonppob_present_after_customer (o : NonPPOBOrder.t) : Prop :=
  Delivery.Method (NonPPOBOrder.Delivery o) <> "" /\
  NonPPOBPayment.ReferenceId (NonPPOBOrder.Payment o) <> "" /\
  NonPPOBPayment.Channel (NonPPOBOrder.Payment o) <> "" /\
  NonPPOBPayment.PaymentCode (NonPPOBOrder.Payment o) <> "" /\
  NonPPOBPayment.PaymentGateway (NonPPOBOrder.Payment o) <> "" /\
  NonPPOBOrder.ItemQty o <> 0%Z /\ NonPPOBOrder.Amount o <> 0%Z.

(** With the customer name missing and every later field present, the
    customer name is the last failing field. *)
Lemma validate_NonPPOBOrder_name_last (o : NonPPOBOrder.t) :
  NonPPOBCustomer.Name (NonPPOBOrder.Customer o) = "" -> nonppob_present_after_customer o ->
  exists l, validate_NonPPOBOrder o = (l ++ [mkFieldError "required" "Name" ""])%list.
Proof.
  intros Hn (Hd & H1 & H2 & H3 & H4 & Hq & Ha).
  unfold validate_NonPPOBOrder, validate_Delivery, validate_NonPPOBPayment, validate_NonPPOBCustomer.
  rewrite Hn, (proj2 (required_string_nil _ _) Hd), (proj2 (required_string_nil _ _) H1),
    (proj2 (required_string_nil _ _) H2), (proj2 (required_string_nil _ _) H3),
    (proj2 (required_string_nil _ _) H4), (proj2 (required_int_nil _ _) Hq),
    (proj2 (required_int_nil _ _) Ha).
  cbn [app]. rewrite app_nil_r. eexists. rewrite !app_assoc. reflexivity.
Qed.

Section ServiceClaims.
Context (visit : list (string * HttpStatus)) (Hvisit : Permutation errorStatusMap visit).
Context `{DP : JsonDecoder PPOBOrder.t} `{DN : JsonDecoder NonPPOBOrder.t}.

(** C15: A [POST] to either order route without an
    API key, or with a key that is not configured, is answered 401 by the
    middleware without reaching the handler: nothing is sent. *)
Theorem serve_unauthorised (configuration : Configuration) (env : StompOutcome) (req : Request) :
  Method req = "POST" ->
  Path req = "/api/v1/orders/ppob" \/ Path req = "/api/v1/orders/non-ppob" ->
  ApiKeyHeader req = "" \/ ~ In (ApiKeyHeader req) (APIKeys configuration) ->
  exists msg, serve visit configuration env req = (JsonResponse 401 "error" msg, []).
Proof.
  intros Hm Hp Hk. unfold_serve. rewrite Hm.
  replace (String.eqb "POST" "OPTIONS") with false by reflexivity.
  replace (String.eqb "POST" "POST") with true by reflexivity.
  destruct Hp as [Hp|Hp]; rewrite Hp; cbn [andb];
    [replace (String.eqb "/api/v1/orders/ppob" "/api/v1/orders/non-ppob") with false by reflexivity;
     replace (String.eqb "/api/v1/orders/ppob" "/api/v1/orders/ppob") with true by reflexivity
    |replace (String.eqb "/api/v1/orders/non-ppob" "/api/v1/orders/non-ppob") with true by reflexivity];
    now apply APIKeyMiddleware_rejects.
Qed.

(** C12: An authorised PPOB order whose body
    decodes but misses a required field is answered 400 Bad Request with
    the diagnostic "<field> required" (lower-cased) of one of the order's
    required fields, whatever order the status table is visited in, and
    nothing is sent to the broker. *)
Theorem serve_ppob_invalid_400 (configuration : Configuration) (env : StompOutcome) (req : Request)
    (jb : string) (o : PPOBOrder.t) :
  Method req = "POST" -> Path req = "/api/v1/orders/ppob" ->
  ApiKeyHeader req <> "" -> In (ApiKeyHeader req) (APIKeys configuration) ->
  raw_body (ReqBody req) = jb -> @Valid _ DP jb = true -> @Unmarshal _ DP jb = Ok o ->
  ~ ppob_required_present o ->
  exists f, In f ppob_field_names /\
    serve visit configuration env req = (JsonResponse 400 "Bad Request" (ToLower (f ++ " required")), []).
Proof.
  intros Hm Hp Hk Hin Hb Hv Hu Hn.
  destruct (error_response_required visit ppob_field_names (validate_PPOBOrder o) Hvisit
              (incl_appl _ (incl_refl _)) (validate_PPOBOrder_required o)
              (not_required_present_errors o Hn)) as (f & Hf & Hr).
  exists f. split; [exact Hf|].
  rewrite (serve_ppob_route visit configuration env req Hm Hk Hin Hp), Hb.
  rewrite (HandlerCreate_decoded visit env jb o
            (Err (ValidationErrorHandle (ValidationErrors (validate_PPOBOrder o)))) [] Hv Hu);
    [now rewrite Hr|].
  rewrite Create_PPOB, PPOBCreate_invalid, validate_PPOBOrder_raw; [reflexivity|].
  now rewrite ppob_required_present_raw.
Qed.

(** The spec's scenario of an order
    missing the customer name: an authorised Non-PPOB order that decodes,
    has no customer name and has every field validated after the customer
    is answered [{400, "Bad Request", "name required"}] and nothing is
    sent; the fields validated before it do not matter, since the last
    failing field gives the message. *)
Theorem serve_nonppob_missing_name (configuration : Configuration) (env : StompOutcome)
    (req : Request) (jb : string) (o : NonPPOBOrder.t) :
  Method req = "POST" -> Path req = "/api/v1/orders/non-ppob" ->
  ApiKeyHeader req <> "" -> In (ApiKeyHeader req) (APIKeys configuration) ->
  raw_body (ReqBody req) = jb -> @Valid _ DN jb = true -> @Unmarshal _ DN jb = Ok o ->
  NonPPOBCustomer.Name (NonPPOBOrder.Customer o) = "" -> nonppob_present_after_customer o ->
  serve visit configuration env req = (JsonResponse 400 "Bad Request" "name required", []).
Proof.
  intros Hm Hp Hk Hin Hb Hv Hu Hn Hrest.
  destruct (validate_NonPPOBOrder_name_last o Hn Hrest) as (l & Hl).
  rewrite (serve_nonppob_route visit configuration env req Hm Hk Hin Hp), Hb.
  rewrite (HandlerCreate_decoded visit env jb o
            (Err (ValidationErrorHandle (ValidationErrors (validate_NonPPOBOrder o)))) [] Hv Hu).
  2: { rewrite Create_NonPPOB, NonPPOBCreate_invalid, validate_NonPPOBOrder_raw; [reflexivity|].
       rewrite nonppob_required_present_raw. intros (_ & _ & _ & _ & _ & _ & _ & Hc & _). contradiction. }
  rewrite Hl, (ValidationErrorHandle_app l _ "Name required") by reflexivity.
  unfold error_response.
  change (ToLower (ToLower "Name required")) with (ToLower (ToLower ("Name" ++ " required"))).
  rewrite (required_message_400 visit "Name" Hvisit) by (cbn; tauto). reflexivity.
Qed.

End ServiceClaims.

Section PublishClaims.
Context (visit : list (string * HttpStatus)).
Context `{DP : JsonDecoder PPOBOrder.t} `{DN : JsonDecoder NonPPOBOrder.t}.

(** C14: The spec's scenario of an unreachable
    broker: a valid, authorised PPOB order whose dial fails is answered
    with the dial error (classified by [ErrorHttpStatus]), and the trace
    holds the failed dial alone: no frame, no partial message, nothing
    left open. *)
Theorem serve_ppob_broker_down (configuration : Configuration) (env : StompOutcome) (req : Request)
    (jb err : string) (o : PPOBOrder.t) :
  Method req = "POST" -> Path req = "/api/v1/orders/ppob" ->
  ApiKeyHeader req <> "" -> In (ApiKeyHeader req) (APIKeys configuration) ->
  raw_body (ReqBody req) = jb -> @Valid _ DP jb = true -> @Unmarshal _ DP jb = Ok o ->
  ppob_required_present o -> dial_error env = Some err ->
  serve visit configuration env req
  = (error_response visit err,
     [EvDial "tcp" (strServer configuration) (Username (Queue configuration))
        (Password (Queue configuration)) false]).
Proof.
  intros Hm Hp Hk Hin Hb Hv Hu Ho Hd.
  rewrite (serve_ppob_route visit configuration env req Hm Hk Hin Hp), Hb.
  rewrite (HandlerCreate_decoded visit env jb o (Err err)
            [EvDial "tcp" (strServer configuration) (Username (Queue configuration))
               (Password (Queue configuration)) false] Hv Hu); [reflexivity|].
  rewrite Create_PPOB, PPOBCreate_valid by (now rewrite ppob_required_present_raw).
  unfold SendMessageToQueue. now rewrite Hd.
Qed.

Lemma serve_nonppob_published (configuration : Configuration) (env : StompOutcome) (req : Request)
    (jb : string) (o : NonPPOBOrder.t) :
  Method req = "POST" -> Path req = "/api/v1/orders/non-ppob" ->
  ApiKeyHeader req <> "" -> In (ApiKeyHeader req) (APIKeys configuration) ->
  raw_body (ReqBody req) = jb -> @Valid _ DN jb = true -> @Unmarshal _ DN jb = Ok o ->
  nonppob_required_present o -> dial_error env = None -> send_error env = None ->
  serve visit configuration env req
  = (success_response,
     [EvDial "tcp" (strServer configuration) (Username (Queue configuration))
        (Password (Queue configuration)) true;
      EvSend (QueueName (Queue configuration)) "text/plain"
        (nonppob_sql (NonPPOBOrder.with_MetadataRaw o jb));
      EvDisconnect]).
Proof.
  intros Hm Hp Hk Hin Hb Hv Hu Ho Hd Hs.
  rewrite (serve_nonppob_route visit configuration env req Hm Hk Hin Hp), Hb.
  rewrite (HandlerCreate_decoded visit env jb o (Ok tt)
            [EvDial "tcp" (strServer configuration) (Username (Queue configuration))
               (Password (Queue configuration)) true;
             EvSend (QueueName (Queue configuration)) "text/plain"
               (nonppob_sql (NonPPOBOrder.with_MetadataRaw o jb)); EvDisconnect] Hv Hu);
    [reflexivity|].
  rewrite Create_NonPPOB, NonPPOBCreate_valid by (now rewrite nonppob_required_present_raw).
  unfold SendMessageToQueue. now rewrite Hd, Hs.
Qed.

(** C7: The spec's end-to-end scenario: a
    valid, authorised Non-PPOB order, with the broker accepting the dial
    and the frame, is answered 200 success after exactly one dial, one
    [text/plain] frame to the configured queue holding the command
    synthesised from the order with the raw body attached, and the
    disconnect. *)
Theorem serve_nonppob_success (configuration : Configuration) (env : StompOutcome) (req : Request)
    (jb : string) (o : NonPPOBOrder.t) :
  Method req = "POST" -> Path req = "/api/v1/orders/non-ppob" ->
  ApiKeyHeader req <> "" -> In (ApiKeyHeader req) (APIKeys configuration) ->
  raw_body (ReqBody req) = jb -> @Valid _ DN jb = true -> @Unmarshal _ DN jb = Ok o ->
  nonppob_required_present o -> dial_error env = None -> send_error env = None ->
  serve visit configuration env req
  = (success_response,
     [EvDial "tcp" (strServer configuration) (Username (Queue configuration))
        (Password (Queue configuration)) true;
      EvSend (QueueName (Queue configuration)) "text/plain"
        (nonppob_sql (NonPPOBOrder.with_MetadataRaw o jb));
      EvDisconnect]).
Proof. apply serve_nonppob_published. Qed.

End PublishClaims.

(** ** Witnesses *)

(** A hypothesis of a theorem at a concrete request, by evaluation. *)
Ltac witness_hyp :=
  first [ reflexivity | discriminate | (cbn; tauto) | (vm_compute; reflexivity)
        | (repeat split; discriminate) ].

(** A decoder that accepts one body and decodes it to one order. *)
Definition sample_decoder {T} (body : string) (o : T) : JsonDecoder T :=
  {| Valid := fun s => String.eqb s body;
     Unmarshal := fun s => if String.eqb s body then Ok o else Err "unexpected end of JSON input" |}.

Definition sample_configuration : Configuration :=
  mkConfiguration (mkTsHttp "8080" 100) (mkTsQueue "127.0.0.1" 61613 "/queue/orders" "admin" "admin")
    (mkTsLog "log" "error.log" "debug.log") [] (mkTsJwt 60 60) "/app"
    (mkTsTimezone "Asia/Jakarta" "2006-01-02 15:04:05") ["key-1"].

Definition env_ok : StompOutcome := mkStompOutcome None None.

Definition env_down : StompOutcome :=
  mkStompOutcome (Some "dial tcp 127.0.0.1:61613: connect: connection refused") None.

Definition body_nonppob : string := "{" ++ marshal_string "id" ++ ":" ++ marshal_string "ORD-2" ++ "}".

Definition body_ppob : string := "{" ++ marshal_string "id" ++ ":" ++ marshal_string "ORD-1" ++ "}".

(** The sample Non-PPOB order without a customer name. *)
Definition sample_nonppob_no_name : NonPPOBOrder.t :=
  NonPPOBOrder.mk "ORD-2" "REF-2" (Tenant.mk "T1" "Tenant") (Store.mk "S1" "Store")
    (NonPPOBCustomer.mk "C2" "" "0813" "Jl. Merdeka 1")
    (Delivery.mk "pickup" "DLV-1" None JNull)
    (NonPPOBPayment.mk "PAY-2" "qris" "QR1" "midtrans" JNull)
    1 50000 "" 0 0 0 0 0 0 50000 0 50000 false "pending" "new" "2024-01-02"
    "2024-01-01" "2024-01-01" "" (CommissionFee.mk 0 0 0) None None JNull "{}".

(** The sample PPOB order with an amount of 0. *)
Definition sample_ppob_no_amount : PPOBOrder.t :=
  PPOBOrder.mk "ORD-1" "REF-1" (PPOBCustomer.mk "C1" "O'Brien" "member" "0812")
    (PPOBProduct.mk "P1" "Pulsa" "Prepaid") (PPOBCategory.mk "K1" "Telco")
    (PPOBPayment.mk "PAY-1" "va" "8808" "xendit" JNull)
    (PPOBCommissionFee.mk 100 200 300) 0 0 1000 0 1000 1000 "paid" "new"
    "2024-01-02" "2024-01-01" "2024-01-01" "app" None None JNull "{}".

Definition post (path : string) (key body : string) : Request := mkRequest "POST" path key (BodyBytes body).

Lemma serve_unauthorised_witness :
  exists msg, @serve errorStatusMap (sample_decoder body_ppob sample_ppob)
    (sample_decoder body_nonppob sample_nonppob) sample_configuration env_ok
    (post "/api/v1/orders/ppob" "key-2" body_ppob) = (JsonResponse 401 "error" msg, []).
Proof.
  apply serve_unauthorised; [reflexivity | left; reflexivity | right; cbn; intuition discriminate].
Defined.

Lemma serve_ppob_invalid_400_witness :
  exists f, In f ppob_field_names /\
    @serve errorStatusMap (sample_decoder body_ppob sample_ppob_no_amount)
      (sample_decoder body_nonppob sample_nonppob) sample_configuration env_ok
      (post "/api/v1/orders/ppob" "key-1" body_ppob)
    = (JsonResponse 400 "Bad Request" (ToLower (f ++ " required")), []).
Proof.
  apply (serve_ppob_invalid_400 errorStatusMap (Permutation_refl _) _ _ _ body_ppob sample_ppob_no_amount);
    try witness_hyp.
  intros (_ & _ & _ & _ & _ & _ & _ & _ & _ & Ha). exact (Ha eq_refl).
Defined.

Lemma serve_nonppob_missing_name_witness :
  @serve errorStatusMap (sample_decoder body_ppob sample_ppob)
    (sample_decoder body_nonppob sample_nonppob_no_name) sample_configuration env_ok
    (post "/api/v1/orders/non-ppob" "key-1" body_nonppob)
  = (JsonResponse 400 "Bad Request" "name required", []).
Proof.
  apply (serve_nonppob_missing_name errorStatusMap (Permutation_refl _) _ _ _ body_nonppob
           sample_nonppob_no_name);
    witness_hyp.
Defined.

Lemma serve_ppob_broker_down_witness :
  @serve errorStatusMap (sample_decoder body_ppob sample_ppob)
    (sample_decoder body_nonppob sample_nonppob) sample_configuration env_down
    (post "/api/v1/orders/ppob" "key-1" body_ppob)
  = (JsonResponse 500 "Internal Server Error" "dial tcp 127.0.0.1:61613: connect: connection refused",
     [EvDial "tcp" "127.0.0.1:61613" "admin" "admin" false]).
Proof.
  rewrite (serve_ppob_broker_down errorStatusMap _ _ _ body_ppob
             "dial tcp 127.0.0.1:61613: connect: connection refused" sample_ppob);
    witness_hyp.
Defined.

Lemma serve_nonppob_success_witness :
  @serve errorStatusMap (sample_decoder body_ppob sample_ppob)
    (sample_decoder body_nonppob sample_nonppob) sample_configuration env_ok
    (post "/api/v1/orders/non-ppob" "key-1" body_nonppob)
  = (success_response,
     [EvDial "tcp" "127.0.0.1:61613" "admin" "admin" true;
      EvSend "/queue/orders" "text/plain" (nonppob_sql (NonPPOBOrder.with_MetadataRaw sample_nonppob body_nonppob));
      EvDisconnect]).
Proof.
  apply (serve_nonppob_success errorStatusMap sample_configuration env_ok _ body_nonppob sample_nonppob);
    witness_hyp.
Defined.

Lemma serve_publish_contract_witness :
  Permutation errorStatusMap errorStatusMap /\
  (let '(resp, trace) :=
     @serve errorStatusMap (sample_decoder body_ppob sample_ppob)
       (sample_decoder body_nonppob sample_nonppob) sample_configuration env_ok
       (post "/api/v1/orders/non-ppob" "key-1" body_nonppob) in
   @served_ok (sample_decoder body_ppob sample_ppob) (sample_decoder body_nonppob sample_nonppob)
     sample_configuration (post "/api/v1/orders/non-ppob" "key-1" body_nonppob) resp trace).
Proof. split; [reflexivity | apply (serve_publish_contract errorStatusMap (Permutation_refl _))]. Defined.

(** ** Routing and malformed bodies *)

(** The paths [InitRouter] gives a meaning to under [POST]: the two
    routes and their trailing-slash variants. *)
Definition order_paths : list string :=
  ["/api/v1/orders/non-ppob"; "/api/v1/orders/ppob"; "/api/v1/orders/non-ppob/"; "/api/v1/orders/ppob/"].

(** An error text matching only keys of status 400 is answered 400
    whatever the visiting order. *)
Lemma first_match_400 (visit : list (string * HttpStatus)) (e : string) :
  Permutation errorStatusMap visit ->
  (forall key s, In (key, s) errorStatusMap -> Contains (ToLower e) key = true -> s = defaultStatus) ->
  first_match visit (ToLower e) = defaultStatus.
Proof.
  intros Hp Hall.
  destruct (first_match_sound visit (ToLower e)) as [(k & Hin & Hk) | [_ Hd]]; [|exact Hd].
  apply (Hall k); [|exact Hk]. eapply Permutation_in; [symmetry; exact Hp | exact Hin].
Qed.

Ltac table_400 :=
  intros key s Hin Hk; cbn in Hin;
  repeat destruct Hin as [[= <- <-] | Hin]; try contradiction;
    first [reflexivity | vm_compute in Hk; congruence].

Section Malformed.
Context (visit : list (string * HttpStatus)) (Hvisit : Permutation errorStatusMap visit).

(** C19: The handlers answer a request whose body cannot be used with
    400 and send nothing: a missing body with "cannot read or undefined
    request body", a body that is not JSON with "invalid json format"
    (both classified Bad Request under every visiting order), and JSON
    that does not decode into the order struct with status "error" and
    "Invalid request body format".  Through the router the first case
    does not arise: the logging middleware hands the handler an absent
    body as the empty one, which gets "invalid json format". *)
Theorem HandlerCreate_bad_body {T} `{JsonDecoder T} `{HasMetadataRaw T} `{OrderUsecase T}
    (env : StompOutcome) :
  HandlerCreate visit env NoBody
  = (JsonResponse 400 "Bad Request" "cannot read or undefined request body", []) /\
  (forall jb, Valid jb = false ->
   HandlerCreate visit env (BodyBytes jb) = (JsonResponse 400 "Bad Request" "invalid json format", [])) /\
  (forall jb e, Valid jb = true -> Unmarshal jb = Err e ->
   HandlerCreate visit env (BodyBytes jb) = (JsonResponse 400 "error" "Invalid request body format", [])).
Proof.
  unfold HandlerCreate, error_response; cbn [ReadJsonBodyRequest]. split; [|split].
  - rewrite (first_match_400 visit _ Hvisit) by table_400. reflexivity.
  - intros jb Hv. rewrite Hv, (first_match_400 visit _ Hvisit) by table_400. reflexivity.
  - intros jb e Hv Hu. now rewrite Hv, Hu.
Qed.

End Malformed.

Section Routing.
Context (visit : list (string * HttpStatus)).
Context `{DP : JsonDecoder PPOBOrder.t} `{DN : JsonDecoder NonPPOBOrder.t}.

(** The router outside the two order routes: every [OPTIONS]
    request is answered 204 by the CORS middleware; a [POST] to a route
    path with a trailing slash is redirected (307) to the route; every
    other request that is not a [POST] to a route path gets the 404
    "Endpoint not found!" of [NoRoute].  None of them reaches a handler
    or the broker. *)
Theorem serve_routing (configuration : Configuration) (env : StompOutcome) (req : Request) :
  (Method req = "OPTIONS" -> serve visit configuration env req = (NoContent 204, [])) /\
  (Method req = "POST" -> Path req = "/api/v1/orders/ppob/" ->
   serve visit configuration env req = (Redirect 307 "/api/v1/orders/ppob", [])) /\
  (Method req = "POST" -> Path req = "/api/v1/orders/non-ppob/" ->
   serve visit configuration env req = (Redirect 307 "/api/v1/orders/non-ppob", [])) /\
  (Method req <> "OPTIONS" -> ~ (Method req = "POST" /\ In (Path req) order_paths) ->
   serve visit configuration env req = (JsonResponse 404 "error" "Endpoint not found!", [])).
Proof.
  unfold_serve. split; [|split; [|split]].
  - intros ->. reflexivity.
  - intros -> ->. reflexivity.
  - intros -> ->. reflexivity.
  - intros Ho Hn. destruct (String.eqb_spec (Method req) "OPTIONS"); [contradiction|].
    destruct (String.eqb_spec (Method req) "POST") as [Hm|Hm]; cbn [andb]; [|reflexivity].
    destruct (String.eqb_spec (Path req) "/api/v1/orders/non-ppob") as [Hq|Hq0];
      [exfalso; apply Hn; split; [exact Hm | rewrite Hq; cbn; tauto]|].
    destruct (String.eqb_spec (Path req) "/api/v1/orders/ppob") as [Hq|Hq1];
      [exfalso; apply Hn; split; [exact Hm | rewrite Hq; cbn; tauto]|].
    destruct (String.eqb_spec (Path req) "/api/v1/orders/non-ppob/") as [Hq|Hq2];
      [exfalso; apply Hn; split; [exact Hm | rewrite Hq; cbn; tauto]|].
    destruct (String.eqb_spec (Path req) "/api/v1/orders/ppob/") as [Hq|Hq3];
      [exfalso; apply Hn; split; [exact Hm | rewrite Hq; cbn; tauto]|].
    reflexivity.
Qed.

End Routing.

Lemma HandlerCreate_bad_body_witness :
  Permutation errorStatusMap errorStatusMap /\
  @HandlerCreate errorStatusMap _ (sample_decoder body_ppob sample_ppob) _ (NewPPOBUsecase sample_configuration)
    env_ok (BodyBytes "{") = (JsonResponse 400 "Bad Request" "invalid json format", []).
Proof.
  split; [reflexivity|].
  apply (HandlerCreate_bad_body errorStatusMap (Permutation_refl _) env_ok). reflexivity.
Defined.

Lemma serve_routing_witness :
  @serve errorStatusMap (sample_decoder body_ppob sample_ppob) (sample_decoder body_nonppob sample_nonppob)
    sample_configuration env_ok (mkRequest "GET" "/api/v1/orders/ppob" "key-1" NoBody)
  = (JsonResponse 404 "error" "Endpoint not found!", []).
Proof.
  apply (serve_routing errorStatusMap sample_configuration env_ok). 
  - discriminate.
  - intros [Hm _]. discriminate Hm.
Defined.
