(* ===== verification/Service.v ===== *)
(** * The service under concurrent requests

    [net/http] serves every connection in its own goroutine, so the
    handlers of different requests run at the same time, and each
    handler dials its own STOMP connection.  What the broker sees is an
    interleaving of the per-request traces of [Handler.serve].  The
    relation [concurrent_run] states that: each request is served by
    [serve] with its own broker outcome and its own visiting order of
    the status map (Go draws one per [range] loop), and the global trace
    is a [shuffle] of the requests' traces.  The theorem shows the broker
    invariant survives every interleaving: no frame is sent without an
    open connection, every connection is closed at the end, at most one
    frame per request is sent, and every 200 answer has its frame. *)

From Stdlib Require Import String Ascii List ZArith Lia Bool Permutation.
From S2P Require Import Prelude SqlLex Literal Fmt Json Orders Extract Synth Validator HttpStatus Queue Handler.
Import ListNotations.
Open Scope string_scope.
Open Scope go_scope.

(** ** Interleavings *)

(** [shuffle l1 l2 l]: [l] interleaves [l1] and [l2], keeping the order
    inside each. *)
Inductive shuffle {A : Type} : list A -> list A -> list A -> Prop :=
| shuffle_nil : shuffle [] [] []
| shuffle_left (x : A) (l1 l2 l : list A) : shuffle l1 l2 l -> shuffle (x :: l1) l2 (x :: l)
| shuffle_right (x : A) (l1 l2 l : list A) : shuffle l1 l2 l -> shuffle l1 (x :: l2) (x :: l).

(** A 200 success answer. *)
Definition is_success (r : Response) : bool :=
  match r with
  | JsonResponse code status message =>
      Z.eqb code 200 && String.eqb status "success" && String.eqb message "Success"
  | _ => false
  end.

Definition count_success (rs : list Response) : nat := List.length (filter is_success rs).

(** One request as the server meets it: the order its [range] over the
    status map happens to take (Go draws a new one at every loop), the
    broker's behaviour on its connection, and the request itself. *)
Definition Arrival := (list (string * HttpStatus) * StompOutcome * Request)%type.

Section Concurrent.
Context `{DP : JsonDecoder PPOBOrder.t} `{DN : JsonDecoder NonPPOBOrder.t}.
Context (configuration : Configuration).

(** Requests served concurrently: the responses in arrival order and
    the global trace the broker observes. *)
Inductive concurrent_run : list Arrival -> list Response -> list StompEvent -> Prop :=
| run_nil : concurrent_run [] [] []
| run_cons (visit : list (string * HttpStatus)) (env : StompOutcome) (req : Request)
    (rest : list Arrival) (r : Response) (t : list StompEvent) (rs : list Response)
    (ts trace : list StompEvent) :
    Permutation errorStatusMap visit ->
    serve visit configuration env req = (r, t) ->
    concurrent_run rest rs ts -> shuffle t ts trace ->
    concurrent_run ((visit, env, req) :: rest) (r :: rs) trace.

(** The answer [serve] gives to one arrival on its own, and the calls
    its request makes on the broker. *)
Definition answer (a : Arrival) : Response :=
  let '(visit, env, req) := a in fst (serve visit configuration env req).

Definition trace_of (a : Arrival) : list StompEvent :=
  let '(visit, env, req) := a in snd (serve visit configuration env req).

End Concurrent.

(** ** Lemmas on traces *)

Lemma shuffle_open_after (a b c : list StompEvent) :
  shuffle a b c -> open_after c = (open_after a + open_after b)%Z.
Proof.
  induction 1 as [|x a b c _ IH|x a b c _ IH]; [reflexivity| |];
    destruct x as [? ? ? ? []| |]; cbn [open_after]; lia.
Qed.

Lemma shuffle_sends (a b c : list StompEvent) :
  shuffle a b c -> List.length (sends c) = (List.length (sends a) + List.length (sends b))%nat.
Proof.
  unfold sends. induction 1 as [|x a b c _ IH|x a b c _ IH]; [reflexivity| |];
    destruct x; cbn [filter is_send List.length]; lia.
Qed.

(** Interleaving two well-bracketed traces gives a well-bracketed trace:
    the connections open in the interleaving are those open in both. *)
Lemma shuffle_well_bracketed (a b c : list StompEvent) (n m : Z) :
  shuffle a b c -> (0 <= n)%Z -> (0 <= m)%Z ->
  well_bracketed n a = true -> well_bracketed m b = true -> well_bracketed (n + m) c = true.
Proof.
  intros H. revert n m.
  induction H as [|x a b c _ IH|x a b c _ IH]; intros n m Hn Hm Ha Hb; [reflexivity| |].
  - destruct x as [? ? ? ? []| |]; cbn [well_bracketed] in Ha |- *.
    + replace (n + m + 1)%Z with ((n + 1) + m)%Z by lia. apply IH; auto; lia.
    + now apply IH.
    + apply andb_true_iff in Ha as [Hp Ha]. apply Z.ltb_lt in Hp.
      apply andb_true_iff. split; [apply Z.ltb_lt; lia | now apply IH].
    + apply andb_true_iff in Ha as [Hp Ha]. apply Z.ltb_lt in Hp.
      apply andb_true_iff. split; [apply Z.ltb_lt; lia|].
      replace (n + m - 1)%Z with ((n - 1) + m)%Z by lia. apply IH; auto; lia.
  - destruct x as [? ? ? ? []| |]; cbn [well_bracketed] in Hb |- *.
    + replace (n + m + 1)%Z with (n + (m + 1))%Z by lia. apply IH; auto; lia.
    + now apply IH.
    + apply andb_true_iff in Hb as [Hp Hb]. apply Z.ltb_lt in Hp.
      apply andb_true_iff. split; [apply Z.ltb_lt; lia | now apply IH].
    + apply andb_true_iff in Hb as [Hp Hb]. apply Z.ltb_lt in Hp.
      apply andb_true_iff. split; [apply Z.ltb_lt; lia|].
      replace (n + m - 1)%Z with (n + (m - 1))%Z by lia. apply IH; auto; lia.
Qed.

Lemma is_success_eq (r : Response) : is_success r = true -> r = success_response.
Proof.
  destruct r as [code status message| |]; cbn; try discriminate.
  intros H. apply andb_true_iff in H as [H Hm]. apply andb_true_iff in H as [Hc Hs].
  apply Z.eqb_eq in Hc. apply String.eqb_eq in Hs, Hm. now subst.
Qed.

(** One request's share of the counts. *)
Lemma served_ok_counts (configuration : Configuration) (req : Request) (r : Response)
    (t : list StompEvent) `{DP : JsonDecoder PPOBOrder.t} `{DN : JsonDecoder NonPPOBOrder.t} :
  served_ok configuration req r t ->
  ((if is_success r then 1 else 0) <= List.length (sends t) <= 1)%nat.
Proof.
  intros (_ & _ & Hl & Hs). split; [|exact Hl].
  destruct (is_success r) eqn:E; [|lia].
  destruct (Hs (is_success_eq r E)) as (_ & _ & jb & _ & [(_ & o & _ & ->) | (_ & o & _ & ->)]);
    cbn; lia.
Qed.

Section ConcurrentProofs.
Context `{DP : JsonDecoder PPOBOrder.t} `{DN : JsonDecoder NonPPOBOrder.t}.
Context (configuration : Configuration).

(** C20: Under any interleaving of concurrently served requests, the
    broker sees no frame or disconnect without an open connection,
    every connection is closed at the end, at most one frame is sent
    per request, and there are at least as many frames as 200
    answers. *)
Theorem concurrent_serve_invariant (reqs : list Arrival) (rs : list Response)
    (trace : list StompEvent) :
  concurrent_run configuration reqs rs trace ->
  well_bracketed 0 trace = true /\ open_after trace = 0%Z /\
  (count_success rs <= List.length (sends trace) <= List.length reqs)%nat.
Proof.
  induction 1 as [|visit env req rest r t rs ts trace Hvisit Hserve _ (IHw & IHo & IHl) Hsh];
    [cbn; auto|].
  pose proof (serve_served_ok visit Hvisit configuration env req) as Hok.
  rewrite Hserve in Hok. pose proof (served_ok_counts configuration req r t Hok) as Hc.
  destruct Hok as (Hw & Ho & _).
  split; [|split].
  - exact (shuffle_well_bracketed t ts trace 0 0 Hsh ltac:(lia) ltac:(lia) Hw IHw).
  - rewrite (shuffle_open_after t ts trace Hsh). lia.
  - rewrite (shuffle_sends t ts trace Hsh). unfold count_success in *. cbn [filter List.length].
    destruct (is_success r); cbn [List.length]; lia.
Qed.

End ConcurrentProofs.

(** ** End to end: the stored row *)

Lemma nonppob_unescaped_raw (o : NonPPOBOrder.t) (raw : string) :
  nonppob_unescaped (NonPPOBOrder.with_MetadataRaw o raw) = nonppob_unescaped o.
Proof. destruct o; reflexivity. Qed.

Lemma nonppob_row_metadata_source (o : NonPPOBOrder.t) (raw : string) :
  column_value nonppob_columns (nonppob_row (NonPPOBOrder.with_MetadataRaw o raw)) "metadata_source"
  = Some (VText raw).
Proof. destruct o; reflexivity. Qed.

Section EndToEnd.
Context (visit : list (string * HttpStatus)).
Context `{DP : JsonDecoder PPOBOrder.t} `{DN : JsonDecoder NonPPOBOrder.t}.

(** C23: End to end, the raw body is stored byte for byte: when an
    authorised, valid Non-PPOB order is accepted (200), the one frame
    the broker receives holds a command the database reads as an insert
    into [orders_nonppob] of the order's row, whose [metadata_source]
    column is exactly the request body as received, provided the fields
    the code leaves unescaped hold no quote. *)
Theorem serve_nonppob_stores_raw_body (configuration : Configuration) (env : StompOutcome)
    (req : Request) (jb : string) (o : NonPPOBOrder.t) :
  Method req = "POST" -> Path req = "/api/v1/orders/non-ppob" ->
  ApiKeyHeader req <> "" -> In (ApiKeyHeader req) (APIKeys configuration) ->
  raw_body (ReqBody req) = jb -> @Valid _ DN jb = true -> @Unmarshal _ DN jb = Ok o ->
  nonppob_required_present o -> dial_error env = None -> send_error env = None ->
  forallb no_quote (nonppob_unescaped o) = true ->
  exists cmd row,
    answer configuration (visit, env, req) = success_response /\
    sends (trace_of configuration (visit, env, req))
    = [EvSend (QueueName (Queue configuration)) "text/plain" cmd] /\
    parse_insert cmd = Some ("orders_nonppob", nonppob_columns, row) /\
    column_value nonppob_columns row "metadata_source" = Some (VText jb).
Proof.
  intros Hm Hp Hk Hin Hb Hv Hu Ho Hd Hs Hq. unfold answer, trace_of.
  rewrite (serve_nonppob_published visit configuration env req jb o Hm Hp Hk Hin Hb Hv Hu Ho Hd Hs).
  exists (nonppob_sql (NonPPOBOrder.with_MetadataRaw o jb)),
    (nonppob_row (NonPPOBOrder.with_MetadataRaw o jb)).
  split; [reflexivity|]. split; [reflexivity|]. split.
  - apply nonppob_sql_parse. now rewrite nonppob_unescaped_raw.
  - apply nonppob_row_metadata_source.
Qed.

End EndToEnd.

(** ** Witness *)

(** Two arrivals whose map loops visit the table in different orders. *)
Definition sample_requests : list Arrival :=
  [(errorStatusMap, env_ok, post "/api/v1/orders/non-ppob" "key-1" body_nonppob);
   (rev errorStatusMap, env_down, post "/api/v1/orders/ppob" "key-1" body_ppob)].

Definition sample_dial (connected : bool) : StompEvent :=
  EvDial "tcp" "127.0.0.1:61613" "admin" "admin" connected.

Definition sample_frame : StompEvent :=
  EvSend "/queue/orders" "text/plain" (nonppob_sql (NonPPOBOrder.with_MetadataRaw sample_nonppob body_nonppob)).

(** The first request's connection opens, the second request's dial
    fails, then the first request sends and disconnects. *)
Definition sample_trace : list StompEvent :=
  [sample_dial true; sample_dial false; sample_frame; EvDisconnect].

Definition sample_responses : list Response :=
  [success_response;
   JsonResponse 500 "Internal Server Error" "dial tcp 127.0.0.1:61613: connect: connection refused"].

Lemma concurrent_serve_invariant_witness :
  @concurrent_run (sample_decoder body_ppob sample_ppob)
    (sample_decoder body_nonppob sample_nonppob) sample_configuration
    sample_requests sample_responses sample_trace /\
  well_bracketed 0 sample_trace = true /\ open_after sample_trace = 0%Z /\
  (count_success sample_responses <= List.length (sends sample_trace) <= List.length sample_requests)%nat.
Proof.
  assert (Hrun : @concurrent_run (sample_decoder body_ppob sample_ppob)
    (sample_decoder body_nonppob sample_nonppob) sample_configuration
    sample_requests sample_responses sample_trace).
  { eapply run_cons; [reflexivity | vm_compute; reflexivity | |].
    - eapply run_cons; [apply Permutation_rev | vm_compute; reflexivity | apply run_nil |].
      apply shuffle_left, shuffle_nil.
    - apply shuffle_left, shuffle_right, shuffle_left, shuffle_left, shuffle_nil. }
  split; [exact Hrun|].
  exact (concurrent_serve_invariant sample_configuration _ _ _ Hrun).
Defined.

Lemma serve_nonppob_stores_raw_body_witness :
  exists cmd row,
    @answer (sample_decoder body_ppob sample_ppob) (sample_decoder body_nonppob sample_nonppob)
      sample_configuration (errorStatusMap, env_ok, post "/api/v1/orders/non-ppob" "key-1" body_nonppob)
    = success_response /\
    sends (@trace_of (sample_decoder body_ppob sample_ppob) (sample_decoder body_nonppob sample_nonppob)
      sample_configuration (errorStatusMap, env_ok, post "/api/v1/orders/non-ppob" "key-1" body_nonppob))
    = [EvSend "/queue/orders" "text/plain" cmd] /\
    parse_insert cmd = Some ("orders_nonppob", nonppob_columns, row) /\
    column_value nonppob_columns row "metadata_source" = Some (VText body_nonppob).
Proof.
  apply (serve_nonppob_stores_raw_body errorStatusMap sample_configuration env_ok _ body_nonppob
           sample_nonppob); try witness_hyp.
Defined.

