(* ===== verification/Writer.v ===== *)
(** * Response writers: gin's [responseWriter] and the capture writers of [src/utility/logfile.go] and [src/routers/router.go]

    The logging middleware of [InitRouter] wraps gin's response writer
    in a [bentoResponseWriterWithCapture], which copies into a buffer
    every chunk the connection accepted and remembers the last status
    given to [WriteHeader]; [logfile.go] declares the same struct as
    [ResponseWriterWithCapture].  The operations of a
    [gin.ResponseWriter] are a class, [ResponseWriter], with its law
    ([Write] reports the connection's error), one instance for gin's
    writer and one for the capture writer around any lawful writer, the
    way the Go struct embeds the interface.  gin's writer is modelled
    as far as the capture writers observe it: [WriteHeader] records a
    status until the first byte is written, [Write] first sends the
    header, [Status] reports the recorded status.  The main lemma says
    that the capture is transparent to the writer it wraps, that its
    buffer holds exactly the chunks the connection took, and that its
    status is the last one set. *)

From Stdlib Require Import String Ascii List ZArith Lia Bool.
From S2P Require Import Prelude.
Import ListNotations.
Open Scope string_scope.
Open Scope go_scope.

(** ** Writers *)

(** What the connection does with one [Write]: takes every byte, or
    takes [n] of them and fails with [err]. *)
Inductive ConnWrite :=
| ConnOk
| ConnFail (n : nat) (err : string).

(** The operations of [gin.ResponseWriter] the code uses. *)
Class ResponseWriter (W : Type) := {
  Write : string -> ConnWrite -> W -> W * (nat * option string);
  WriteHeader : Z -> W -> W;
  WriteHeaderNow : W -> W;
  Status : W -> Z
}.

Definition conn_error (c : ConnWrite) : option string :=
  match c with ConnOk => None | ConnFail _ e => Some e end.

(** What every writer promises: [Write] reports the connection's error. *)
Class ResponseWriterLaws (W : Type) `{ResponseWriter W} := {
  write_error : forall b c w, snd (snd (Write b c w)) = conn_error c
}.

(** gin's [responseWriter]: the recorded status, [size] ([-1] until the
    header is sent) and the bytes the client received. *)
Record GinWriter := mkGinWriter { gw_status : Z; gw_size : Z; gw_sent : string }.

Definition gin_new : GinWriter := mkGinWriter 200 (-1) "".

Definition gin_Written (w : GinWriter) : bool := negb (Z.eqb (gw_size w) (-1)).

Definition gin_WriteHeader (code : Z) (w : GinWriter) : GinWriter :=
  if (0 <? code)%Z && negb (Z.eqb (gw_status w) code) && negb (gin_Written w)
  then mkGinWriter code (gw_size w) (gw_sent w) else w.

Definition gin_WriteHeaderNow (w : GinWriter) : GinWriter :=
  if gin_Written w then w else mkGinWriter (gw_status w) 0 (gw_sent w).

Definition gin_Write (b : string) (c : ConnWrite) (w : GinWriter) : GinWriter * (nat * option string) :=
  let w := gin_WriteHeaderNow w in
  let '(n, err) := match c with
                   | ConnOk => (String.length b, None)
                   | ConnFail n e => (Nat.min n (String.length b), Some e)
                   end in
  (mkGinWriter (gw_status w) (gw_size w + Z.of_nat n) (gw_sent w ++ substring 0 n b), (n, err)).

#[export] Instance GinWriter_ResponseWriter : ResponseWriter GinWriter := {|
  Write := gin_Write; WriteHeader := gin_WriteHeader;
  WriteHeaderNow := gin_WriteHeaderNow; Status := gw_status |}.

(** [type ResponseWriterWithCapture struct { gin.ResponseWriter; Body
    *bytes.Buffer; status int }]; [router.go]'s
    [bentoResponseWriterWithCapture] is the same struct. *)
Record ResponseWriterWithCapture (W : Type) := mkCapture {
  inner : W; Body : string; status : Z }.
Arguments mkCapture {W}. Arguments inner {W}. Arguments Body {W}. Arguments status {W}.

Section Capture.
Context {W : Type} `{ResponseWriter W}.

(** [func (w *ResponseWriterWithCapture) Write(b []byte) (int, error)]. *)
Definition capture_Write (b : string) (c : ConnWrite) (w : ResponseWriterWithCapture W)
    : ResponseWriterWithCapture W * (nat * option string) :=
  let '(w', (n, err)) := Write b c (inner w) in
  let body := match err with None => Body w ++ b | Some _ => Body w end in
  (mkCapture w' body (status w), (n, err)).

(** [func (w *ResponseWriterWithCapture) WriteHeader(code int)]. *)
Definition capture_WriteHeader (code : Z) (w : ResponseWriterWithCapture W) : ResponseWriterWithCapture W :=
  mkCapture (WriteHeader code (inner w)) (Body w) code.

(** The methods the struct does not define come from the embedded writer. *)
#[export] Instance Capture_ResponseWriter : ResponseWriter (ResponseWriterWithCapture W) := {|
  Write := capture_Write; WriteHeader := capture_WriteHeader;
  WriteHeaderNow := fun w => mkCapture (WriteHeaderNow (inner w)) (Body w) (status w);
  Status := fun w => Status (inner w) |}.

End Capture.

(** [router.go]'s copy of the struct and its two methods. *)
Definition bentoResponseWriterWithCapture := ResponseWriterWithCapture.
Definition bento_Write {W} `{ResponseWriter W} := @capture_Write W _.
Definition bento_WriteHeader {W} `{ResponseWriter W} := @capture_WriteHeader W _.

(** A call a handler makes on the writer. *)
Inductive WriterOp :=
| OpWrite (b : string) (c : ConnWrite)
| OpWriteHeader (code : Z)
| OpWriteHeaderNow.

Definition apply_op {W} `{ResponseWriter W} (w : W) (op : WriterOp) : W :=
  match op with
  | OpWrite b c => fst (Write b c w)
  | OpWriteHeader code => WriteHeader code w
  | OpWriteHeaderNow => WriteHeaderNow w
  end.

Definition run_ops {W} `{ResponseWriter W} (w : W) (ops : list WriterOp) : W := fold_left apply_op ops w.

(** The chunks of [ops] the connection took whole, in order. *)
Fixpoint accepted (ops : list WriterOp) : string :=
  match ops with
  | [] => ""
  | OpWrite b ConnOk :: rest => b ++ accepted rest
  | _ :: rest => accepted rest
  end.

(** The status of the last [WriteHeader] in [ops], or [dflt]. *)
Fixpoint last_header (dflt : Z) (ops : list WriterOp) : Z :=
  match ops with
  | [] => dflt
  | OpWriteHeader code :: rest => last_header code rest
  | _ :: rest => last_header dflt rest
  end.

(** ** Lemmas *)

#[export] Instance GinWriter_laws : ResponseWriterLaws GinWriter.
Proof. constructor. intros b [|n e] w; reflexivity. Qed.

Section CaptureLemmas.
Context {W : Type} `{ResponseWriterLaws W}.

Lemma capture_Write_spec (b : string) (c : ConnWrite) (w : ResponseWriterWithCapture W) :
  let '(w', r) := capture_Write b c w in
  inner w' = fst (Write b c (inner w)) /\ r = snd (Write b c (inner w)) /\
  Body w' = Body w ++ (match c with ConnOk => b | ConnFail _ _ => "" end) /\ status w' = status w.
Proof.
  unfold capture_Write. pose proof (write_error b c (inner w)) as He.
  destruct (Write b c (inner w)) as [w' [n err]]. cbn in He |- *. subst err.
  destruct c; cbn; rewrite ?append_nil_r; repeat split; reflexivity.
Qed.

#[export] Instance Capture_laws : ResponseWriterLaws (ResponseWriterWithCapture W).
Proof.
  constructor. intros b c w. cbn. pose proof (capture_Write_spec b c w) as Hs.
  destruct (capture_Write b c w) as [w' r]. destruct Hs as (_ & -> & _). apply write_error.
Qed.

Lemma capture_run_ops (ops : list WriterOp) (w : ResponseWriterWithCapture W) :
  inner (run_ops w ops) = run_ops (inner w) ops /\
  Body (run_ops w ops) = Body w ++ accepted ops /\
  status (run_ops w ops) = last_header (status w) ops.
Proof.
  unfold run_ops. revert w. induction ops as [|op ops IH]; intros w; cbn [fold_left accepted last_header].
  - now rewrite append_nil_r.
  - destruct op as [b c|code|]; cbn [apply_op].
    + pose proof (capture_Write_spec b c w) as Hs. cbn [Write Capture_ResponseWriter].
      destruct (capture_Write b c w) as [w' r] eqn:Hw. destruct Hs as (Hi & _ & Hb & Hst).
      destruct (IH w') as (IHi & IHb & IHs). cbn [fst]. rewrite IHi, IHb, IHs, Hi, Hb, Hst.
      destruct c; cbn [accepted]; rewrite ?append_nil_r, ?append_assoc; repeat split; reflexivity.
    + exact (IH (WriteHeader code w)).
    + exact (IH (WriteHeaderNow w)).
Qed.

End CaptureLemmas.

(** ** Theorems *)

(** C29: for any writer that reports its connection's errors, the
    capture writer forwards every call unchanged to the writer it
    wraps, its [Body] grows by exactly the chunks whose [Write]
    succeeded, in order, and its [status] is the code of the last
    [WriteHeader] call. *)
Theorem capture_transparent {W : Type} `{ResponseWriterLaws W}
    (ops : list WriterOp) (w : ResponseWriterWithCapture W) :
  inner (run_ops w ops) = run_ops (inner w) ops /\
  Body (run_ops w ops) = Body w ++ accepted ops /\
  status (run_ops w ops) = last_header (status w) ops.
Proof. apply capture_run_ops. Qed.

(** A 200 header, a chunk the client took and one the connection
    dropped after three bytes. *)
Definition sample_ops : list WriterOp :=
  [OpWriteHeader 200; OpWrite "{code:200}" ConnOk; OpWrite "tail" (ConnFail 3 "broken pipe")].

Lemma capture_transparent_witness :
  let w := run_ops (mkCapture gin_new "" 0) sample_ops in
  inner w = run_ops gin_new sample_ops /\ Body w = "" ++ accepted sample_ops /\
  status w = last_header 0 sample_ops /\ Body w = "{code:200}" /\ gw_sent (inner w) = "{code:200}tai".
Proof.
  cbn zeta. destruct (capture_transparent sample_ops (mkCapture gin_new "" 0)) as (Hi & Hb & Hs).
  split; [exact Hi|]. split; [exact Hb|]. split; [exact Hs|]. split; reflexivity.
Defined.
