(* ===== verification/Logging.v ===== *)
(** * What gin writes for an answer, and the request log: [FormatResponse] ([src/utility/utility.go]), [src/utility/logfile.go], the router of [src/routers/router.go]

    A handler answers with [utility.FormatResponse(c, "json", code,
    gin.H{...})], i.e. [c.JSON]: the header, then [json.Marshal] of the
    map (keys sorted) in one [Write].  gin's handler chain is explicit
    ([GinContext], [run_chain]): the handlers [InitRouter] registers on
    the engine ([CORSMiddleware], [gin.Recovery()]) run before those of
    a route (the group's API-key check, then [Create()]) or of
    [NoRoute]; [CORSMiddleware] sets its four headers on the writer's
    header map and aborts [OPTIONS] with 204; [handleHTTPRequest] is
    gin's dispatch, and answers as [serve] does.  The logging
    middleware runs around everything else: it reads the body, swaps
    in the capture writer, runs the chain, formats one line from the
    capture's status and buffer and the writer's header map and
    appends it with [WriteToLogFile] to the daily debug file when the
    status is 200 and to the daily error file otherwise.  The
    trailing-slash redirect is answered by gin before any middleware
    runs, so it is not logged.  The file system is a [gmap] from paths
    to contents; each call of [WriteToLogFile] may meet a failure of
    [os.Create], [os.OpenFile] or [WriteString] ([FsFaults]); calls
    that overlap are LogRace.v.  The two readings of the clock are
    [GoTime.Time] values the [time] model formats (the line's start
    time, the date in the daily file's name); the latency is printed
    by [GoFloat.ms_text]; the text of [%v] of the request's header map
    is an input ([LogMeta]). *)

From Stdlib Require Import String Ascii List ZArith Lia Bool Permutation.
From stdpp Require Import gmap strings.
From S2P Require Import Prelude Json Orders Synth HttpStatus Queue Handler Writer.
From S2P Require GoTime GoFloat.
Import ListNotations.
Open Scope string_scope.
Open Scope go_scope.

(** ** [FormatResponse] and [c.JSON] *)

(** The renderers of gin's context. *)
Inductive Renderer := RJSON | RJSONP | RXML | RYAML | RSecureJSON | RAsciiJSON | RIndentedJSON | RPureJSON.

(** [func FormatResponse(c, strResponseFormat, intHttpResponseCode, objData)]:
    the renderer its [switch] picks. *)
Definition FormatResponse (strResponseFormat : string) : Renderer :=
  if String.eqb strResponseFormat "json" then RJSON
  else if String.eqb strResponseFormat "jsonp" then RJSONP
  else if String.eqb strResponseFormat "xml" then RXML
  else if String.eqb strResponseFormat "yaml" then RYAML
  else if String.eqb strResponseFormat "securejson" then RSecureJSON
  else if String.eqb strResponseFormat "asciijson" then RAsciiJSON
  else if String.eqb strResponseFormat "indentedjson" then RIndentedJSON
  else if String.eqb strResponseFormat "purejson" then RPureJSON
  else RJSON.

(** [FormatResponseJson] has the same [switch] for an [interface{}] payload. *)
Definition FormatResponseJson (strResponseFormat : string) : Renderer := FormatResponse strResponseFormat.

(** [gin.H{"code": code, "status": status, "message": message}]. *)
Definition gin_H (code : Z) (st msg : string) : JsonValue :=
  JObject [("code", JNumber code); ("status", JString st); ("message", JString msg)].

(** The writer calls behind an answer: [c.JSON] sets the status and
    writes the marshalled map; [c.AbortWithStatus] and the redirect
    send the header alone. *)
Definition render_ops (r : Response) (conn : ConnWrite) : list WriterOp :=
  match r with
  | JsonResponse code st msg => [OpWriteHeader code; OpWrite (marshal_value (gin_H code st msg)) conn]
  | NoContent code => [OpWriteHeader code; OpWriteHeaderNow]
  | Redirect code _ => [OpWriteHeader code; OpWriteHeaderNow]
  end.

(** What [c.Errors] holds afterwards: the error of the body's [Write]. *)
Definition render_errors (r : Response) (conn : ConnWrite) : list string :=
  match r, conn with
  | JsonResponse _ _ _, ConnFail _ e => [e]
  | _, _ => []
  end.

Definition response_code (r : Response) : Z :=
  match r with JsonResponse code _ _ | NoContent code | Redirect code _ => code end.

(** The (code, status) pairs of the classification table and its default. *)
Definition status_table : list HttpStatus := defaultStatus :: map snd errorStatusMap.

(** A well-formed answer: 200 only as the success answer, every other
    JSON answer either one of the service's own errors or a status of
    the table, 204 for the preflight, 307 to one of the two routes. *)
Definition wf_response (r : Response) : bool :=
  match r with
  | JsonResponse code st msg =>
      if Z.eqb code 200 then String.eqb st "success" && String.eqb msg "Success"
      else (String.eqb st "error" && existsb (Z.eqb code) [400; 401; 404]%Z) ||
           existsb (fun s => Z.eqb (fst s) code && String.eqb (snd s) st) status_table
  | NoContent code => Z.eqb code 204
  | Redirect code loc =>
      Z.eqb code 307 && (String.eqb loc "/api/v1/orders/non-ppob" || String.eqb loc "/api/v1/orders/ppob")
  end.

(** ** Response headers and [CORSMiddleware] *)

(** An [http.Header]: each key, once, with its values. *)
Definition Header := list (string * list string).

(** [h.Get]'s underlying [h[k]]: the values of a key. *)
Definition header_values (k : string) (h : Header) : list string :=
  match find (fun kv => String.eqb (fst kv) k) h with Some (_, vs) => vs | None => [] end.

(** [h.Set(k, v)]: the key now holds [v] alone. *)
Definition header_set (k v : string) (h : Header) : Header :=
  (k, [v]) :: filter (fun kv => negb (String.eqb (fst kv) k)) h.

(** [middleware.APIKeyHeader], the request header holding the key. *)
Definition APIKeyHeader : string := "X-API-KEY".

Definition allowHeaders : string :=
  "X-Requested-With, X-Auth-Token, Content-Type, Content-Length, Authorization, Access-Control-Allow-Headers, Accept, Access-Control-Allow-Methods, Access-Control-Allow-Origin, Access-Control-Allow-Credentials".

(** [func CORSMiddleware() gin.HandlerFunc]: set the four headers on the
    writer's map, then abort an [OPTIONS] request with 204 (the
    boolean) or run the rest of the chain. *)
Definition CORSMiddleware (method : string) (h : Header) : Header * bool :=
  let h := header_set "Access-Control-Allow-Origin" "*" h in
  let h := header_set "Access-Control-Allow-Credentials" "true" h in
  let h := header_set "Access-Control-Allow-Headers" allowHeaders h in
  let h := header_set "Access-Control-Allow-Methods" "POST, OPTIONS, GET, HEAD, PUT" h in
  (h, String.eqb method "OPTIONS").

(** gin's [render.JSON] [WriteContentType]: [Content-Type] unless the
    map already has a value for it; [c.AbortWithStatus] adds nothing. *)
Definition render_headers (r : Response) (h : Header) : Header :=
  match r with
  | JsonResponse _ _ _ =>
      match header_values "Content-Type" h with
      | [] => ("Content-Type", ["application/json; charset=utf-8"])
                :: filter (fun kv => negb (String.eqb (fst kv) "Content-Type")) h
      | _ => h
      end
  | _ => h
  end.

(** ** gin's handler chain *)

(** What a handler sees of gin's [Context]: the writer's header map,
    the answer written so far with the broker calls made for it, and
    whether [c.Abort] was called. *)
Record GinContext := mkGinContext {
  ctx_headers : Header; ctx_answer : option (Response * list StompEvent); ctx_aborted : bool }.

(** A [gin.HandlerFunc].  The handlers of [InitRouter] other than the
    logging middleware call [c.Next()] as their last statement or not
    at all, so for them calling it is returning to gin's loop. *)
Definition HandlerFunc := GinContext -> GinContext.

(** gin's [Context.Next] loop: the handlers run in order until one
    aborts. *)
Fixpoint run_chain (hs : list HandlerFunc) (c : GinContext) : GinContext :=
  match hs with
  | [] => c
  | h :: rest => if ctx_aborted c then c else run_chain rest (h c)
  end.

(** [c.JSON(code, obj)] or [c.AbortWithStatus(code)] writes the answer;
    [c.Abort()] stops the chain. *)
Definition ctx_write (a : Response * list StompEvent) (c : GinContext) : GinContext :=
  mkGinContext (ctx_headers c) (Some a) (ctx_aborted c).
Definition ctx_abort (c : GinContext) : GinContext := mkGinContext (ctx_headers c) (ctx_answer c) true.

(** [utility.CORSMiddleware()] in the chain: the four headers on the
    writer's map, then [c.AbortWithStatus(204)] for [OPTIONS]. *)
Definition CORS_handler (req : Request) : HandlerFunc := fun c =>
  let '(h, preflight) := CORSMiddleware (Method req) (ctx_headers c) in
  let c := mkGinContext h (ctx_answer c) (ctx_aborted c) in
  if preflight then ctx_abort (ctx_write (NoContent 204, []) c) else c.

(** [gin.Recovery()]: it only acts on a panic, and no handler of the
    model panics. *)
Definition Recovery : HandlerFunc := fun c => c.

(** [middleware.APIKeyMiddleware(configuration.APIKeys)] in the chain. *)
Definition APIKey_handler (validAPIKeys : list string) (req : Request) : HandlerFunc := fun c =>
  APIKeyMiddleware validAPIKeys (ApiKeyHeader req) (fun r => ctx_abort (ctx_write (r, []) c)) (fun _ => c).

(** A handler that writes its answer: a route's [Create()], or the
    [NoRoute] handler. *)
Definition answer_handler (a : Response * list StompEvent) : HandlerFunc := ctx_write a.

Definition NoRoute_handler : HandlerFunc :=
  answer_handler (JsonResponse 404 "error" "Endpoint not found!", []).

(** The context a request starts with. *)
Definition ctx0 : GinContext := mkGinContext [] None false.

(** What gin sends when the chain is done: the answer written (gin
    writes 200 with no body when no handler wrote one) and the header
    map with its renderer's content type. *)
Definition finish (c : GinContext) : (Response * list StompEvent) * Header :=
  let a := default (NoContent 200, []) (ctx_answer c) in
  (a, render_headers (fst a) (ctx_headers c)).

(** [%v] of an [http.Header]: [fmt] prints a map with its keys sorted,
    [map[k1:[v v'] k2:[v'']]]. *)
Fixpoint insert_kv (kv : string * list string) (h : Header) : Header :=
  match h with
  | [] => [kv]
  | x :: r => if String.leb (fst kv) (fst x) then kv :: h else x :: insert_kv kv r
  end.

Definition header_text (h : Header) : string :=
  "map[" ++ String.concat " " (map (fun kv => fst kv ++ ":[" ++ String.concat " " (snd kv) ++ "]")
                                  (fold_right insert_kv [] h)) ++ "]".

(** ** Log lines *)

(** [%-7s] and [%3d]: padding to a width with spaces on the right and
    on the left ([%02d] is [pad_zero]). *)
Definition pad_right (w : nat) (s : string) : string := s ++ fill " " (w - String.length s).
Definition pad_left (w : nat) (s : string) : string := fill " " (w - String.length s) ++ s.

Definition newline : string := ⟦ascii_of_nat 10⟧.

(** [strings.NewReplacer("\n", "", "\r", "", " ", "").Replace]. *)
Definition strip_body (s : string) : string :=
  concat_map (fun c => match nat_of_ascii c with 10 | 13 | 32 => "" | _ => ⟦c⟧ end%nat) s.

(** gin's [c.Errors.String()]: one [Error #%02d: %s\n] per error. *)
Fixpoint errors_from (i : Z) (errs : list string) : string :=
  match errs with
  | [] => ""
  | e :: rest => "Error #" ++ pad_zero 2 (Itoa i) ++ ": " ++ e ++ newline ++ errors_from (i + 1) rest
  end.

(** What the code takes from the clock, and the text of [%v] of the
    request's header map, which the model does not represent:
    [startTime], the [time.Now()] of the middleware; [latency], the
    nanoseconds of [time.Since(startTime)], from which the middleware
    computes [requestTimeInMs] ([GoFloat.requestTimeInMs]); the header
    map's text, as the client sent it; [currentTime], the [time.Now()]
    of [WriteToLogFile]. *)
Record LogMeta := mkLogMeta {
  startTime : GoTime.Time; latency : Z; requestHeaders : string; currentTime : GoTime.Time }.

(** [t.Format(layout)] for the layouts of the code, which the time
    model interprets in full (the empty text is never reached). *)
Definition time_text (layout : string) (t : GoTime.Time) : string :=
  match GoTime.Format layout t with Some s => s | None => "" end.

(** The [fmt.Sprintf] of the logging middleware. *)
Definition log_line (meta : LogMeta) (req : Request) (requestBody : string)
    (st : Z) (responseHeaders : Header) (responseBody : string) (errs : list string) : string :=
  time_text "2006/01/02 15:04:05" (startTime meta) ++ " " ++ GoFloat.ms_text (latency meta) ++ "ms " ++ pad_right 7 (Method req) ++ " " ++ Path req ++
  " [" ++ pad_left 3 (Itoa st) ++ " Request Headers: " ++ requestHeaders meta ++
  " Request Body: " ++ strip_body requestBody ++ " Response Headers: " ++ header_text responseHeaders ++
  " Response Body: " ++ responseBody ++ newline ++ " " ++ errors_from 1 errs.

(** [func formatLogEntry(startTime, requestTimeInMs, method, path, status, sectionName, data) string]. *)
Definition formatLogEntry (meta : LogMeta) (method path : string) (st : Z) (sectionName data : string) : string :=
  time_text "2006/01/02 15:04:05" (startTime meta) ++ " costerv3_api_pct | " ++ GoFloat.ms_text (latency meta) ++ "ms | " ++ pad_right 7 method ++ " " ++
  path ++ " | [" ++ Itoa st ++ "] " ++ sectionName ++ ": " ++ data ++ newline.

(** [func BuildLogMessage(...) string] (not called by the service). *)
Definition BuildLogMessage (meta : LogMeta) (req : Request) (writer : ResponseWriterWithCapture GinWriter)
    (requestBody : string) (responseHeaders : Header) (responseBody : string) : string :=
  let entry := formatLogEntry meta (Method req) (Path req) (status writer) in
  entry "Request Headers" (requestHeaders meta) ++ entry "Request Body" (strip_body requestBody) ++
  entry "Response Headers" (header_text responseHeaders) ++ entry "Response Body" responseBody.

(** ** [WriteToLogFile] *)

Abbreviation FileSystem := (gmap string string).

(** The failures one call may meet: of [os.Create], of [os.OpenFile],
    and of [WriteString] after [n] bytes. *)
Record FsFaults := mkFsFaults {
  create_fault : option string; open_fault : option string; write_fault : option (nat * string) }.

Definition no_faults : FsFaults := mkFsFaults None None None.

(** [fmt.Sprintf("%s%s_%s.log", logFilePath, currentTime, fileName)]. *)
Definition log_path (logFilePath currentTime fileName : string) : string :=
  logFilePath ++ currentTime ++ "_" ++ fileName ++ ".log".

(** The file [WriteToLogFile] appends to when the clock reads [now]:
    [currentTime := time.Now().Format("2006-01-02")], then the path. *)
Definition log_file (logFilePath : string) (now : GoTime.Time) (fileName : string) : string :=
  log_path logFilePath (time_text "2006-01-02" now) fileName.

(** [func WriteToLogFile(logFilePath, fileName, logMessage string) error]:
    create the file when [os.Stat] finds none, open it for appending,
    write the message. *)
Definition WriteToLogFile (fs : FileSystem) (faults : FsFaults) (now : GoTime.Time)
    (logFilePath fileName logMessage : string) : FileSystem * option string :=
  let p := log_file logFilePath now fileName in
  let created := match fs !! p with
                 | Some _ => Ok fs
                 | None => match create_fault faults with
                           | Some err => Err err
                           | None => Ok (<[p := ""]> fs)
                           end
                 end in
  match created with
  | Err err => (fs, Some err)
  | Ok fs =>
      match open_fault faults with
      | Some err => (fs, Some err)
      | None =>
          let old := default "" (fs !! p) in
          match write_fault faults with
          | Some (n, err) => (<[p := old ++ substring 0 n logMessage]> fs, Some err)
          | None => (<[p := old ++ logMessage]> fs, None)
          end
      end
  end.

(** ** The logging middleware of [InitRouter] *)

Section Middleware.
Context (visit : list (string * HttpStatus)).
Context `{DP : JsonDecoder PPOBOrder.t} `{DN : JsonDecoder NonPPOBOrder.t}.

(** The handlers [router.Use] registers on the engine after the logging
    middleware: [CORSMiddleware], then [gin.Recovery()]. *)
Definition engine_handlers (req : Request) : list HandlerFunc := [CORS_handler req; Recovery].

(** The route tree of [InitRouter]: the two [POST] routes of the
    [/api/v1/orders] group, each behind the group's API-key
    middleware; [None] when no route matches. *)
Definition route_handlers (configuration : Configuration) (env : StompOutcome) (req : Request)
    : option (list HandlerFunc) :=
  if String.eqb (Method req) "POST" && String.eqb (Path req) "/api/v1/orders/non-ppob" then
    Some [APIKey_handler (APIKeys configuration) req;
          answer_handler (NonPPOBHandler_Create visit (NewNonPPOBHandler (NewNonPPOBUsecase configuration)) env
                            (BodyBytes (raw_body (ReqBody req))))]
  else if String.eqb (Method req) "POST" && String.eqb (Path req) "/api/v1/orders/ppob" then
    Some [APIKey_handler (APIKeys configuration) req;
          answer_handler (PPOBHandler_Create visit (NewPPOBHandler (NewPPOBUsecase configuration)) env
                            (BodyBytes (raw_body (ReqBody req))))]
  else None.

(** gin's [handleHTTPRequest] on the engine of [InitRouter]: a matched
    route runs the engine's handlers and then the route's; a [POST] to
    a route path with a trailing slash is redirected with only its
    [Location] header and no handler runs ([redirectTrailingSlash]);
    any other request runs the engine's handlers and then [NoRoute]'s
    (gin has no route for [OPTIONS], so a preflight takes this way). *)
Definition handleHTTPRequest (configuration : Configuration) (env : StompOutcome) (req : Request)
    : (Response * list StompEvent) * Header :=
  match route_handlers configuration env req with
  | Some hs => finish (run_chain (engine_handlers req ++ hs) ctx0)
  | None =>
      if String.eqb (Method req) "POST" && String.eqb (Path req) "/api/v1/orders/non-ppob/" then
        ((Redirect 307 "/api/v1/orders/non-ppob", []), header_set "Location" "/api/v1/orders/non-ppob" [])
      else if String.eqb (Method req) "POST" && String.eqb (Path req) "/api/v1/orders/ppob/" then
        ((Redirect 307 "/api/v1/orders/ppob", []), header_set "Location" "/api/v1/orders/ppob" [])
      else finish (run_chain (engine_handlers req ++ [NoRoute_handler]) ctx0)
  end.

(** One request through the whole engine: the logging middleware's
    [c.Next()] runs the rest of the chain ([handleHTTPRequest]), gin
    renders the answer through the capture writer ([conn] is what the
    connection does with the body), the middleware formats the line
    with the writer's header map and appends it; a render error is what
    [c.Errors] holds. *)
Definition logging_middleware (configuration : Configuration) (env : StompOutcome) (req : Request)
    (conn : ConnWrite) (meta : LogMeta) (faults : FsFaults) (fs : FileSystem)
    : (Response * list StompEvent) * (FileSystem * option string) :=
  let '((r, trace), responseHeaders) := handleHTTPRequest configuration env req in
  match r with
  | Redirect _ _ => ((r, trace), (fs, None))
  | _ =>
      let writer := run_ops (mkCapture gin_new "" 0) (render_ops r conn) in
      let logMessage := log_line meta req (raw_body (ReqBody req)) (status writer) responseHeaders
                          (Body writer)
                          (render_errors r conn) in
      let fileName := if Z.eqb (Status writer) 200 then DebugFileName (Log configuration)
                      else ErrorFileName (Log configuration) in
      ((r, trace), WriteToLogFile fs faults (currentTime meta) (LogFilePath (Log configuration)) fileName logMessage)
  end.

End Middleware.

(** ** Lemmas *)

Lemma FormatResponse_json : FormatResponse "json" = RJSON.
Proof. reflexivity. Qed.

(** Without faults, [WriteToLogFile] appends the message to the daily
    file, creating it first if needed. *)
Lemma WriteToLogFile_no_faults (fs : FileSystem) (t : GoTime.Time) (d n m : string) :
  WriteToLogFile fs no_faults t d n m =
  (<[log_file d t n := default "" (fs !! log_file d t n) ++ m]> fs, None).
Proof.
  unfold WriteToLogFile. destruct (fs !! log_file d t n) eqn:E; cbn.
  - now rewrite E.
  - now rewrite lookup_insert_eq, insert_insert_eq.
Qed.

(** Every call, whatever fails, only appends to one file. *)
Lemma WriteToLogFile_appends (fs : FileSystem) (faults : FsFaults) (t : GoTime.Time) (d n m : string) :
  fst (WriteToLogFile fs faults t d n m) = fs \/
  exists extra, fst (WriteToLogFile fs faults t d n m) =
                <[log_file d t n := default "" (fs !! log_file d t n) ++ extra]> fs.
Proof.
  unfold WriteToLogFile. destruct faults as [cf [oe|] wf]; cbn.
  - destruct (fs !! log_file d t n) eqn:E; [now left|]. destruct cf; cbn; [now left|].
    right. exists "". now rewrite append_nil_r.
  - destruct (fs !! log_file d t n) eqn:E.
    + right. destruct wf as [[k e]|]; cbn; rewrite E; eauto.
    + destruct cf; cbn; [now left|]. right. rewrite lookup_insert_eq.
      destruct wf as [[k e]|]; cbn; rewrite insert_insert_eq; eauto.
Qed.

Lemma gin_WriteHeader_new (code : Z) :
  (0 < code)%Z -> gin_WriteHeader code gin_new = mkGinWriter code (-1) "".
Proof.
  intros Hpos. unfold gin_WriteHeader. cbn [gw_status gin_new].
  destruct (Z.eqb_spec 200 code) as [<-|Hne]; [reflexivity|].
  replace ((0 <? code)%Z) with true by (symmetry; now apply Z.ltb_lt). reflexivity.
Qed.

Lemma gin_WriteHeaderNow_status (w : GinWriter) : gw_status (gin_WriteHeaderNow w) = gw_status w.
Proof. unfold gin_WriteHeaderNow. now destruct (gin_Written w). Qed.

Lemma gin_Write_status (b : string) (c : ConnWrite) (w : GinWriter) :
  gw_status (fst (gin_Write b c w)) = gw_status w.
Proof. unfold gin_Write. destruct c; apply gin_WriteHeaderNow_status. Qed.

(** gin's writer ends with the status of the answer. *)
Lemma render_status (r : Response) (conn : ConnWrite) :
  (0 < response_code r)%Z -> gw_status (run_ops gin_new (render_ops r conn)) = response_code r.
Proof.
  intros Hpos. destruct r as [code st msg|code|code loc]; cbn [response_code] in Hpos |- *;
    unfold run_ops, render_ops; cbn [fold_left apply_op Write WriteHeader WriteHeaderNow GinWriter_ResponseWriter];
    rewrite gin_WriteHeader_new by exact Hpos;
    rewrite ?gin_Write_status, ?gin_WriteHeaderNow_status; reflexivity.
Qed.

Lemma render_last_header (r : Response) (conn : ConnWrite) :
  last_header 0 (render_ops r conn) = response_code r.
Proof. now destruct r. Qed.

(** What the capture writer holds after gin rendered an answer. *)
Lemma render_capture (r : Response) (conn : ConnWrite) :
  (0 < response_code r)%Z ->
  let w := run_ops (mkCapture gin_new "" 0) (render_ops r conn) in
  Status w = response_code r /\ status w = response_code r /\ Body w = accepted (render_ops r conn).
Proof.
  intros Hpos. destruct (capture_run_ops (render_ops r conn) (mkCapture gin_new "" 0)) as (Hi & Hb & Hs).
  cbn zeta. split; [|split].
  - cbn [Status Capture_ResponseWriter GinWriter_ResponseWriter]. rewrite Hi. now apply render_status.
  - rewrite Hs. apply render_last_header.
  - exact Hb.
Qed.

Lemma existsb_Zeqb_In (z : Z) (l : list Z) : existsb (Z.eqb z) l = true -> In z l.
Proof. intros H. apply existsb_exists in H as (x & Hin & Hx). now apply Z.eqb_eq in Hx as ->. Qed.

Lemma status_table_pos (s : HttpStatus) : In s status_table -> (0 < fst s)%Z /\ fst s <> 200%Z.
Proof. cbn. intros Hin. repeat destruct Hin as [<-|Hin]; cbn; lia. Qed.

Lemma wf_response_code_pos (r : Response) : wf_response r = true -> (0 < response_code r)%Z.
Proof.
  destruct r as [code st msg|code|code loc]; cbn [wf_response response_code]; intros H.
  - destruct (Z.eqb_spec code 200); [lia|]. apply orb_true_iff in H as [H|H].
    + apply andb_true_iff in H as [_ H]. apply existsb_Zeqb_In in H.
      repeat destruct H as [<-|H]; [lia..|contradiction].
    + apply existsb_exists in H as ([c s] & Hin & Hc). apply andb_true_iff in Hc as [Hc _].
      apply Z.eqb_eq in Hc. cbn in Hc. subst c. now apply status_table_pos in Hin as [? _].
  - apply Z.eqb_eq in H. lia.
  - apply andb_true_iff in H as [H _]. apply Z.eqb_eq in H. lia.
Qed.

Section Wf.
Context (visit : list (string * HttpStatus)) (Hvisit : Permutation errorStatusMap visit).
Context `{DP : JsonDecoder PPOBOrder.t} `{DN : JsonDecoder NonPPOBOrder.t}.

Lemma first_match_table (err : string) : In (first_match visit err) status_table.
Proof.
  destruct (first_match_sound visit err) as [(key & Hin & _)|(_ & ->)]; [|now left].
  right. apply (in_map snd _ (key, first_match visit err)).
  now apply (Permutation_in _ (Permutation_sym Hvisit)).
Qed.

Lemma table_wf (code : Z) (st msg : string) :
  In (code, st) status_table -> wf_response (JsonResponse code st msg) = true.
Proof.
  intros Hin. pose proof (status_table_pos _ Hin) as [_ Hne]. cbn [wf_response fst] in *.
  rewrite (proj2 (Z.eqb_neq _ _) Hne). apply orb_true_iff. right. apply existsb_exists.
  exists (code, st). split; [exact Hin|]. cbn. now rewrite Z.eqb_refl, String.eqb_refl.
Qed.

Lemma error_response_wf (err : string) : wf_response (error_response visit err) = true.
Proof.
  unfold error_response. pose proof (first_match_table (ToLower err)) as Hin.
  destruct (first_match visit (ToLower err)) as [code st]. now apply table_wf.
Qed.

Lemma HandlerCreate_wf {T} `{JsonDecoder T} `{HasMetadataRaw T} `{OrderUsecase T}
    (env : StompOutcome) (body : Handler.Body) : wf_response (fst (HandlerCreate visit env body)) = true.
Proof.
  unfold HandlerCreate. destruct (ReadJsonBodyRequest Valid body) as [jsonBody|err]; [|apply error_response_wf].
  destruct (Unmarshal jsonBody) as [o|err]; [|reflexivity].
  destruct (Create env (set_MetadataRaw o jsonBody)) as [[u|e] tr]; [reflexivity|apply error_response_wf].
Qed.

Lemma serve_wf (configuration : Configuration) (env : StompOutcome) (req : Request) :
  wf_response (fst (serve visit configuration env req)) = true.
Proof.
  unfold_serve.
  destruct (String.eqb (Method req) "OPTIONS"); [reflexivity|].
  destruct (String.eqb (Method req) "POST"); cbn [andb]; [|reflexivity].
  destruct (String.eqb (Path req) "/api/v1/orders/non-ppob").
  { match goal with |- context [APIKeyMiddleware ?k ?a ?ab ?n] =>
      destruct (APIKeyMiddleware_cases k a ab n) as [(_ & _ & ->)|(_ & msg & ->)] end;
    [apply HandlerCreate_wf|reflexivity]. }
  destruct (String.eqb (Path req) "/api/v1/orders/ppob").
  { match goal with |- context [APIKeyMiddleware ?k ?a ?ab ?n] =>
      destruct (APIKeyMiddleware_cases k a ab n) as [(_ & _ & ->)|(_ & msg & ->)] end;
    [apply HandlerCreate_wf|reflexivity]. }
  destruct (String.eqb (Path req) "/api/v1/orders/non-ppob/"); [reflexivity|].
  destruct (String.eqb (Path req) "/api/v1/orders/ppob/"); reflexivity.
Qed.

Lemma error_response_json (err : string) : exists c st m, error_response visit err = JsonResponse c st m.
Proof. unfold error_response. destruct (first_match visit (ToLower err)). eauto. Qed.

Lemma HandlerCreate_json {T} `{JsonDecoder T} `{HasMetadataRaw T} `{OrderUsecase T}
    (env : StompOutcome) (body : Handler.Body) : exists c st m, fst (HandlerCreate visit env body) = JsonResponse c st m.
Proof.
  unfold HandlerCreate. destruct (ReadJsonBodyRequest Valid body) as [jsonBody|err]; [|apply error_response_json].
  destruct (Unmarshal jsonBody) as [o|err]; [|eauto].
  destruct (Create env (set_MetadataRaw o jsonBody)) as [[u|e] tr]; [eauto|apply error_response_json].
Qed.

Lemma APIKeyMiddleware_json {T} `{JsonDecoder T} `{HasMetadataRaw T} `{OrderUsecase T}
    (keys : list string) (k : string) (env : StompOutcome) (body : Handler.Body) :
  exists c st m, fst (APIKeyMiddleware keys k (fun r => (r, [])) (fun _ => HandlerCreate visit env body)) = JsonResponse c st m.
Proof.
  destruct (APIKeyMiddleware_cases keys k (fun r => (r, [])) (fun _ => HandlerCreate visit env body)) as [(_ & _ & ->)|(_ & msg & ->)];
    [apply HandlerCreate_json | eauto].
Qed.

(** [serve] answers 204 exactly to [OPTIONS], the requests
    [CORSMiddleware] aborts. *)
Lemma serve_options (configuration : Configuration) (env : StompOutcome) (req : Request) :
  fst (serve visit configuration env req) = NoContent 204 <-> String.eqb (Method req) "OPTIONS" = true.
Proof.
  unfold_serve. destruct (String.eqb (Method req) "OPTIONS"); [split; reflexivity|].
  split; [|discriminate]. destruct (String.eqb (Method req) "POST"); cbn [andb]; [|discriminate].
  repeat match goal with |- context [if String.eqb (Path req) ?p then _ else _] => destruct (String.eqb (Path req) p) end;
    try discriminate;
    match goal with |- context [APIKeyMiddleware ?k ?a _ (fun _ => @HandlerCreate _ ?T ?i1 ?i2 ?i3 ?e ?b)] =>
      destruct (@APIKeyMiddleware_json T i1 i2 i3 k a e b) as (c & st & m & ->); discriminate end.
Qed.

End Wf.

(** [CORSMiddleware]'s headers on a fresh writer, then the renderer's. *)
Lemma cors_render_headers (method : string) (r : Response) :
  (forall code location, r <> Redirect code location) ->
  let h := render_headers r (fst (CORSMiddleware method [])) in
  header_values "Access-Control-Allow-Origin" h = ["*"] /\
  header_values "Access-Control-Allow-Credentials" h = ["true"] /\
  header_values "Access-Control-Allow-Headers" h = [allowHeaders] /\
  header_values "Access-Control-Allow-Methods" h = ["POST, OPTIONS, GET, HEAD, PUT"] /\
  header_values "Content-Type" h =
    match r with JsonResponse _ _ _ => ["application/json; charset=utf-8"] | _ => [] end.
Proof. intros Hr. destruct r as [c st m|c|c l]; [..|now destruct (Hr c l)]; repeat split. Qed.

(** ** The chain *)

Lemma run_chain_aborted (hs : list HandlerFunc) (c : GinContext) :
  ctx_aborted c = true -> run_chain hs c = c.
Proof. intros Ha. destruct hs; cbn; [reflexivity | now rewrite Ha]. Qed.

Lemma run_chain_app (hs1 hs2 : list HandlerFunc) (c : GinContext) :
  run_chain (hs1 ++ hs2) c = run_chain hs2 (run_chain hs1 c).
Proof.
  revert c. induction hs1 as [|h hs1 IH]; intros c; cbn; [reflexivity|].
  destruct (ctx_aborted c) eqn:Ha; [symmetry; now apply run_chain_aborted | apply IH].
Qed.

(** The engine's handlers on a request other than a preflight: the
    CORS headers are set and the chain goes on. *)
Lemma run_engine (req : Request) (hs : list HandlerFunc) :
  String.eqb (Method req) "OPTIONS" = false ->
  run_chain (engine_handlers req ++ hs) ctx0 = run_chain hs (mkGinContext (fst (CORSMiddleware (Method req) [])) None false).
Proof. intros Hm. unfold engine_handlers, CORS_handler. cbn -[header_set]. now rewrite Hm. Qed.

(** A preflight: [CORSMiddleware] sets its headers and aborts with 204. *)
Lemma run_engine_preflight (req : Request) (hs : list HandlerFunc) :
  String.eqb (Method req) "OPTIONS" = true ->
  run_chain (engine_handlers req ++ hs) ctx0 =
  mkGinContext (fst (CORSMiddleware (Method req) [])) (Some (NoContent 204, [])) true.
Proof.
  intros Hm. rewrite run_chain_app. unfold engine_handlers, CORS_handler. cbn -[header_set]. rewrite Hm.
  now apply run_chain_aborted.
Qed.

(** A route of the group: the API-key check, then the route's handler. *)
Lemma run_route (keys : list string) (req : Request) (a : Response * list StompEvent) (h : Header) :
  finish (run_chain [APIKey_handler keys req; answer_handler a] (mkGinContext h None false)) =
  let a' := APIKeyMiddleware keys (ApiKeyHeader req) (fun r => (r, [])) (fun _ => a) in
  (a', render_headers (fst a') h).
Proof.
  unfold APIKey_handler, APIKeyMiddleware. cbn -[render_headers].
  destruct (String.eqb (ApiKeyHeader req) ""); [reflexivity|].
  destruct (existsb _ keys); reflexivity.
Qed.

Section Engine.
Context (visit : list (string * HttpStatus)).
Context `{DP : JsonDecoder PPOBOrder.t} `{DN : JsonDecoder NonPPOBOrder.t}.

(** The chain of [InitRouter] answers every request as [serve] does;
    gin's redirect carries its [Location] alone, every other answer
    [CORSMiddleware]'s headers and its renderer's. *)
Lemma handleHTTPRequest_spec (configuration : Configuration) (env : StompOutcome) (req : Request) :
  let '(a, h) := handleHTTPRequest visit configuration env req in
  a = serve visit configuration env req /\
  h = match fst a with
      | Redirect _ location => header_set "Location" location []
      | r => render_headers r (fst (CORSMiddleware (Method req) []))
      end.
Proof.
  unfold handleHTTPRequest, route_handlers. unfold_serve.
  destruct (String.eqb (Method req) "OPTIONS") eqn:Ho.
  { assert (Hp : String.eqb (Method req) "POST" = false) by (apply String.eqb_eq in Ho; now rewrite Ho).
    rewrite Hp. cbn [andb]. rewrite (run_engine_preflight _ _ Ho).
    cbn [finish ctx_answer ctx_headers default fst]. split; reflexivity. }
  destruct (String.eqb (Method req) "POST"); cbn [andb];
    [|rewrite (run_engine _ _ Ho); cbn [finish ctx_answer ctx_headers default fst run_chain NoRoute_handler answer_handler ctx_write ctx_aborted]; split; reflexivity].
  repeat match goal with |- context [if String.eqb (Path req) ?p then _ else _] => destruct (String.eqb (Path req) p) end.
  all: try (rewrite (run_engine _ _ Ho); cbn [finish ctx_answer ctx_headers default fst run_chain NoRoute_handler answer_handler ctx_write ctx_aborted]; split; reflexivity).
  all: try (split; reflexivity).
  all: rewrite (run_engine _ _ Ho), run_route; cbn beta iota zeta; split; [reflexivity|];
    match goal with |- context [APIKeyMiddleware ?k ?a _ (fun _ => @HandlerCreate _ ?T ?i1 ?i2 ?i3 ?e ?b)] =>
      destruct (@APIKeyMiddleware_json visit T i1 i2 i3 k a e b) as (c & st & m & Hc); rewrite Hc; reflexivity end.
Qed.

End Engine.

Section MiddlewareLemmas.
Context (visit : list (string * HttpStatus)) (Hvisit : Permutation errorStatusMap visit).
Context `{DP : JsonDecoder PPOBOrder.t} `{DN : JsonDecoder NonPPOBOrder.t}.

(** The middleware reads the answer's own code and body back from the
    capture writer. *)
Lemma logging_middleware_spec (configuration : Configuration) (env : StompOutcome) (req : Request)
    (conn : ConnWrite) (meta : LogMeta) (faults : FsFaults) (fs : FileSystem) :
  let '((r, trace), (fs', err)) := logging_middleware visit configuration env req conn meta faults fs in
  (r, trace) = serve visit configuration env req /\
  match r with
  | Redirect _ _ => fs' = fs /\ err = None
  | _ => (fs', err) =
         WriteToLogFile fs faults (currentTime meta) (LogFilePath (Log configuration))
           (if Z.eqb (response_code r) 200 then DebugFileName (Log configuration) else ErrorFileName (Log configuration))
           (log_line meta req (raw_body (ReqBody req)) (response_code r)
              (snd (handleHTTPRequest visit configuration env req))
              (accepted (render_ops r conn))
              (render_errors r conn))
  end.
Proof.
  unfold logging_middleware. pose proof (serve_wf visit Hvisit configuration env req) as Hwf.
  pose proof (handleHTTPRequest_spec visit configuration env req) as Hh.
  destruct (handleHTTPRequest visit configuration env req) as [[r trace] h]. destruct Hh as [Ha _].
  rewrite <- Ha in Hwf |- *. cbn [fst snd] in Hwf |- *.
  pose proof (render_capture r conn (wf_response_code_pos r Hwf)) as (HS & Hs & Hb). cbn zeta in HS, Hs, Hb.
  destruct r as [code st msg|code|code loc]; [..|split; [reflexivity|split; reflexivity]];
    rewrite HS, Hs, Hb;
    match goal with |- context [WriteToLogFile ?a ?b ?c ?d ?e ?f] => destruct (WriteToLogFile a b c d e f) end;
    split; reflexivity.
Qed.

End MiddlewareLemmas.

(** ** Theorems *)

(** C30: every answer the service gives is well formed: 200 only with
    status [success] and message [Success]; any other JSON answer
    carries [error] with 400, 401 or 404, or a (code, status) pair of
    the classification table; [OPTIONS] gets 204; a redirect is a 307
    to one of the two order routes. *)
Theorem serve_response_wf (visit : list (string * HttpStatus)) (Hvisit : Permutation errorStatusMap visit)
    `{DP : JsonDecoder PPOBOrder.t} `{DN : JsonDecoder NonPPOBOrder.t}
    (configuration : Configuration) (env : StompOutcome) (req : Request) :
  wf_response (fst (serve visit configuration env req)) = true.
Proof. apply serve_wf, Hvisit. Qed.

(** C31: when the file system does not fail, the logging middleware
    leaves the answer as [serve] gives it and appends exactly one line to
    one daily file: the debug file when the answer's code is 200, the
    error file for any other code (the 204 of a preflight included); the
    line carries the code and the body the client was sent.  A redirect
    is answered before the middleware runs and is not logged. *)
Theorem logging_middleware_logs (visit : list (string * HttpStatus)) (Hvisit : Permutation errorStatusMap visit)
    `{DP : JsonDecoder PPOBOrder.t} `{DN : JsonDecoder NonPPOBOrder.t}
    (configuration : Configuration) (env : StompOutcome) (req : Request)
    (conn : ConnWrite) (meta : LogMeta) (fs : FileSystem) :
  let '((r, trace), (fs', err)) := logging_middleware visit configuration env req conn meta no_faults fs in
  (r, trace) = serve visit configuration env req /\ err = None /\
  match r with
  | Redirect _ _ => fs' = fs
  | _ => let p := log_file (LogFilePath (Log configuration)) (currentTime meta)
                    (if Z.eqb (response_code r) 200 then DebugFileName (Log configuration)
                     else ErrorFileName (Log configuration)) in
         fs' = <[p := default "" (fs !! p) ++
                      log_line meta req (raw_body (ReqBody req)) (response_code r)
                        (snd (handleHTTPRequest visit configuration env req))
                        (accepted (render_ops r conn)) (render_errors r conn)]> fs
  end.
Proof.
  pose proof (logging_middleware_spec visit Hvisit configuration env req conn meta no_faults fs) as Hs.
  destruct (logging_middleware visit configuration env req conn meta no_faults fs) as [[r trace] [fs' err]].
  destruct Hs as [Hr Hs]. split; [exact Hr|].
  destruct r; [| |exact (conj (proj2 Hs) (proj1 Hs))];
    rewrite WriteToLogFile_no_faults in Hs; injection Hs as -> ->; split; reflexivity.
Qed.

(** C28: the log files are daily: for clock readings that are valid
    times of four-digit years, two calls of [WriteToLogFile] with the
    same directory and file name append to the same file exactly when
    they happen on the same calendar day. *)
Theorem log_file_daily (logFilePath fileName : string) (t1 t2 : GoTime.Time) :
  GoTime.in_range t1 -> GoTime.in_range t2 ->
  log_file logFilePath t1 fileName = log_file logFilePath t2 fileName <->
  (GoTime.year t1, GoTime.month t1, GoTime.day t1) = (GoTime.year t2, GoTime.month t2, GoTime.day t2).
Proof.
  intros H1 H2. unfold log_file, log_path, time_text. split.
  - intros E. apply append_cancel_l, append_cancel_r in E.
    apply GoTime.Format_date_inj; [exact H1 | exact H2 |]. rewrite !GoTime.Format_date in *. now f_equal.
  - intros [= E1 E2 E3]. now rewrite !GoTime.Format_date, E1, E2, E3.
Qed.

(** C18: the handler chain [InitRouter] registers answers every
    request as [serve] does, [204] exactly to [OPTIONS]; and because
    [CORSMiddleware] is registered on the engine, ahead of the route
    group's API-key check and of [NoRoute], every answer but gin's
    trailing-slash redirect carries the four headers of
    [CORSMiddleware] with the values it sets (the 401 of the API-key
    check and the 404 of [NoRoute] included) and the JSON content type
    exactly when it has a JSON body; a redirect carries only its
    [Location]. *)
Theorem InitRouter_cors_headers (visit : list (string * HttpStatus))
    `{DP : JsonDecoder PPOBOrder.t} `{DN : JsonDecoder NonPPOBOrder.t}
    (configuration : Configuration) (env : StompOutcome) (req : Request) :
  let '((r, trace), h) := handleHTTPRequest visit configuration env req in
  (r, trace) = serve visit configuration env req /\
  (String.eqb (Method req) "OPTIONS" = true <-> r = NoContent 204) /\
  match r with
  | Redirect _ location => h = [("Location", [location])]
  | _ => header_values "Access-Control-Allow-Origin" h = ["*"] /\
         header_values "Access-Control-Allow-Credentials" h = ["true"] /\
         header_values "Access-Control-Allow-Headers" h = [allowHeaders] /\
         header_values "Access-Control-Allow-Methods" h = ["POST, OPTIONS, GET, HEAD, PUT"] /\
         header_values "Content-Type" h =
           match r with JsonResponse _ _ _ => ["application/json; charset=utf-8"] | _ => [] end
  end.
Proof.
  pose proof (handleHTTPRequest_spec visit configuration env req) as Hs.
  pose proof (serve_options visit configuration env req) as Ho.
  destruct (handleHTTPRequest visit configuration env req) as [[r trace] h]. destruct Hs as [Ha ->].
  rewrite <- Ha in Ho. cbn [fst] in Ho |- *. split; [exact Ha | split; [symmetry; exact Ho|]].
  destruct r as [c st m|c|c l]; [..|reflexivity]; apply cors_render_headers; discriminate.
Qed.

(** ** Witnesses *)

Definition sample_meta : LogMeta :=
  mkLogMeta (GoTime.mkTime 2024 1 2 10 0 0 0 "Asia/Jakarta") 1250000 "map[]"
    (GoTime.mkTime 2024 1 2 10 0 0 1250000 "Asia/Jakarta").

Definition preflight : Request := mkRequest "OPTIONS" "/api/v1/orders/ppob" "" NoBody.

Definition sample_logs : FileSystem := {[ "log2024-01-02_error.log.log" := "earlier" ]}.

Lemma serve_response_wf_witness :
  Permutation errorStatusMap errorStatusMap /\
  wf_response (fst (@serve errorStatusMap (sample_decoder body_ppob sample_ppob)
                      (sample_decoder body_nonppob sample_nonppob) sample_configuration env_down
                      (post "/api/v1/orders/ppob" "key-1" body_ppob))) = true.
Proof. split; [reflexivity|apply (serve_response_wf errorStatusMap (Permutation_refl _))]. Defined.

(** The preflight's 204 goes to the error file. *)
Lemma logging_middleware_logs_witness :
  Permutation errorStatusMap errorStatusMap /\
  (let '((r, trace), (fs', err)) :=
     @logging_middleware errorStatusMap (sample_decoder body_ppob sample_ppob)
       (sample_decoder body_nonppob sample_nonppob) sample_configuration env_ok preflight ConnOk sample_meta
       no_faults sample_logs in
   (r, trace) = @serve errorStatusMap (sample_decoder body_ppob sample_ppob)
                  (sample_decoder body_nonppob sample_nonppob) sample_configuration env_ok preflight /\
   err = None /\
   match r with
   | Redirect _ _ => fs' = sample_logs
   | _ => let p := log_file (LogFilePath (Log sample_configuration)) (currentTime sample_meta)
                     (if Z.eqb (response_code r) 200 then DebugFileName (Log sample_configuration)
                      else ErrorFileName (Log sample_configuration)) in
          fs' = <[p := default "" (sample_logs !! p) ++
                       log_line sample_meta preflight (raw_body (ReqBody preflight)) (response_code r)
                         (snd (@handleHTTPRequest errorStatusMap (sample_decoder body_ppob sample_ppob)
                                 (sample_decoder body_nonppob sample_nonppob) sample_configuration env_ok preflight))
                         (accepted (render_ops r ConnOk)) (render_errors r ConnOk)]> sample_logs
   end) /\
  log_file "log" (currentTime sample_meta) "error.log" = "log2024-01-02_error.log.log" /\
  fst (fst (@logging_middleware errorStatusMap (sample_decoder body_ppob sample_ppob)
              (sample_decoder body_nonppob sample_nonppob) sample_configuration env_ok preflight ConnOk
              sample_meta no_faults sample_logs)) = NoContent 204.
Proof.
  split; [reflexivity|]. split; [apply (logging_middleware_logs errorStatusMap (Permutation_refl _))|].
  split; reflexivity.
Defined.

(** The start and the last second of a day share the day's file. *)
Lemma log_file_daily_witness :
  GoTime.in_range (startTime sample_meta) /\ GoTime.in_range (GoTime.mkTime 2024 1 2 23 59 59 0 "UTC") /\
  log_file "log" (startTime sample_meta) "debug.log" = log_file "log" (GoTime.mkTime 2024 1 2 23 59 59 0 "UTC") "debug.log".
Proof.
  assert (H1 : GoTime.in_range (startTime sample_meta)) by (unfold GoTime.in_range, GoTime.valid_time; cbv -[Z.le Z.lt]; lia).
  assert (H2 : GoTime.in_range (GoTime.mkTime 2024 1 2 23 59 59 0 "UTC"))
    by (unfold GoTime.in_range, GoTime.valid_time; cbv -[Z.le Z.lt]; lia).
  split; [exact H1|]. split; [exact H2|].
  apply (proj2 (log_file_daily "log" "debug.log" _ _ H1 H2)). reflexivity.
Defined.

(** The response headers a preflight's log line shows. *)
Example preflight_response_headers :
  header_text (snd (@handleHTTPRequest errorStatusMap (sample_decoder body_ppob sample_ppob)
                      (sample_decoder body_nonppob sample_nonppob) sample_configuration env_ok preflight)) =
  "map[Access-Control-Allow-Credentials:[true] Access-Control-Allow-Headers:[" ++ allowHeaders ++
  "] Access-Control-Allow-Methods:[POST, OPTIONS, GET, HEAD, PUT] Access-Control-Allow-Origin:[*]]".
Proof. vm_compute. reflexivity. Qed.

