(* ===== verification/LogRace.v ===== *)
(** * Overlapping calls of [WriteToLogFile] ([src/utility/logfile.go])

    The service handles each request on its own goroutine, and every
    request that passes the logging middleware calls [WriteToLogFile].
    A call is four file-system operations, each atomic on its own
    ([os.Stat], [os.Create] when the file is missing, [os.OpenFile]
    with [O_WRONLY|O_APPEND], one [WriteString], which [O_APPEND] makes
    an atomic append), and the goroutines' operations interleave.
    [Call] is a call with its program counter, [call_step] one
    operation, [run_schedule] the operations of a list of calls in the
    order a schedule picks them.  Alone, a call is [WriteToLogFile]
    ([call_alone]).  Interleaved, two calls on a day's first file can
    lose a line: both see no file, the first creates it and appends,
    the second's [os.Create] truncates it ([WriteToLogFile_race]).
    Once the file exists, overlapping calls only append
    ([concurrent_appends_existing]).  The failures of [FsFaults] are
    left out: the race needs none. *)

From Stdlib Require Import String List Lia.
From stdpp Require Import gmap strings list.
From S2P Require Import Prelude Logging.
Import ListNotations.
Open Scope string_scope.

(** ** The operations of a call *)

(** Where a call of [WriteToLogFile] is: before [os.Stat], before
    [os.Create], before [os.OpenFile], before [WriteString], or
    returned with its error. *)
Inductive Pc := AtStat | AtCreate | AtOpen | AtWrite | Done (err : option string).

Record Call := mkCall { c_path : string; c_msg : string; c_pc : Pc }.

(** A call about to run, once its path is computed (lines 15 and 17). *)
Definition start (p msg : string) : Call := mkCall p msg AtStat.

Definition set_pc (c : Call) (pc : Pc) : Call := mkCall (c_path c) (c_msg c) pc.

(** One operation of a call: [os.Stat] (line 19); [os.Create] (line
    20), which truncates a file that exists by then; [os.OpenFile]
    without [O_CREATE] (line 25), which fails on a missing file;
    [f.WriteString] (line 32), an append. *)
Definition call_step (fs : FileSystem) (c : Call) : FileSystem * Call :=
  let p := c_path c in
  match c_pc c with
  | AtStat => (fs, set_pc c (match fs !! p with Some _ => AtOpen | None => AtCreate end))
  | AtCreate => (<[p := ""]> fs, set_pc c AtOpen)
  | AtOpen => (fs, set_pc c (match fs !! p with
                             | Some _ => AtWrite
                             | None => Done (Some ("open " ++ p ++ ": no such file or directory"))
                             end))
  | AtWrite => (<[p := default "" (fs !! p) ++ c_msg c]> fs, set_pc c (Done None))
  | Done _ => (fs, c)
  end.

(** ** Interleavings *)

(** The scheduler runs one operation of the [i]th call. *)
Definition sched_step (st : FileSystem * list Call) (i : nat) : FileSystem * list Call :=
  let '(fs, cs) := st in
  match cs !! i with
  | Some c => let '(fs', c') := call_step fs c in (fs', <[i := c']> cs)
  | None => st
  end.

Definition run_schedule (fs : FileSystem) (cs : list Call) (sched : list nat) : FileSystem * list Call :=
  fold_left sched_step sched (fs, cs).

(** Every file keeps what it held, possibly with more at its end. *)
Definition extends (fs fs' : FileSystem) : Prop :=
  forall p s, fs !! p = Some s -> exists t, fs' !! p = Some (s ++ t).

(** A call that cannot harm the file: it will not create it, and has
    not failed. *)
Definition pc_ok (pc : Pc) : bool :=
  match pc with AtCreate | Done (Some _) => false | _ => true end.

Definition call_ok (fs : FileSystem) (c : Call) : Prop :=
  is_Some (fs !! c_path c) /\ pc_ok (c_pc c) = true.

(** ** Lemmas *)

#[export] Instance extends_preorder : PreOrder extends.
Proof.
  split.
  - intros fs p s Hp. exists "". now rewrite append_nil_r.
  - intros fs1 fs2 fs3 H12 H23 p s Hp. destruct (H12 p s Hp) as (t & Ht).
    destruct (H23 p _ Ht) as (u & Hu). exists (t ++ u). now rewrite <- append_assoc.
Qed.

Lemma extends_insert_app (fs : FileSystem) (p old extra : string) :
  fs !! p = Some old -> extends fs (<[p := old ++ extra]> fs).
Proof.
  intros Hp q s Hq. destruct (decide (p = q)) as [<-|Hne].
  - exists extra. rewrite lookup_insert_eq. rewrite Hq in Hp. now injection Hp as ->.
  - exists "". rewrite lookup_insert_ne by exact Hne. now rewrite append_nil_r.
Qed.

Lemma extends_is_Some (fs fs' : FileSystem) (p : string) :
  extends fs fs' -> is_Some (fs !! p) -> is_Some (fs' !! p).
Proof. intros He [s Hs]. destruct (He p s Hs) as (t & Ht). now exists (s ++ t). Qed.

(** An operation of a call on an existing file appends at most, and
    leaves the call harmless. *)
Lemma call_step_ok (fs : FileSystem) (c : Call) :
  call_ok fs c -> extends fs (fst (call_step fs c)) /\ call_ok (fst (call_step fs c)) (snd (call_step fs c)).
Proof.
  intros [[s Hs] Hpc]. destruct c as [p m [| | | |[e|]]]; cbn in Hs, Hpc |- *; try discriminate;
    rewrite ?Hs; cbn.
  - split; [reflexivity | split; [eauto | reflexivity]].
  - split; [reflexivity | split; [eauto | reflexivity]].
  - split; [now apply extends_insert_app|]. split; [|reflexivity].
    rewrite lookup_insert_eq. eauto.
  - split; [reflexivity | split; [eauto | reflexivity]].
Qed.

(** The other calls stay harmless when the files only grow. *)
Lemma call_ok_extends (fs fs' : FileSystem) (c : Call) :
  extends fs fs' -> call_ok fs c -> call_ok fs' c.
Proof. intros He [Hp Hpc]. split; [exact (extends_is_Some _ _ _ He Hp) | exact Hpc]. Qed.

Lemma sched_step_ok (fs : FileSystem) (cs : list Call) (i : nat) :
  Forall (call_ok fs) cs ->
  extends fs (fst (sched_step (fs, cs) i)) /\ Forall (call_ok (fst (sched_step (fs, cs) i))) (snd (sched_step (fs, cs) i)).
Proof.
  intros Hall. cbn. destruct (cs !! i) as [c|] eqn:Hc; [|split; [reflexivity | exact Hall]].
  pose proof (proj1 (Forall_lookup _ _) Hall i c Hc) as Hok.
  destruct (call_step_ok fs c Hok) as [He Hok'].
  destruct (call_step fs c) as [fs' c']. cbn in *. split; [exact He|].
  apply Forall_insert; [|exact Hok'].
  eapply Forall_impl; [exact Hall|]. intros x. now apply call_ok_extends.
Qed.

Lemma run_schedule_ok (fs : FileSystem) (cs : list Call) (sched : list nat) :
  Forall (call_ok fs) cs ->
  extends fs (fst (run_schedule fs cs sched)) /\ Forall (call_ok (fst (run_schedule fs cs sched))) (snd (run_schedule fs cs sched)).
Proof.
  unfold run_schedule. revert fs cs. induction sched as [|i sched IH]; intros fs cs Hall; cbn [fold_left].
  - split; [reflexivity | exact Hall].
  - destruct (sched_step_ok fs cs i Hall) as [He Hall'].
    destruct (sched_step (fs, cs) i) as [fs' cs'] eqn:E. cbn in He, Hall'.
    destruct (IH fs' cs' Hall') as [He' Hall'']. split; [etransitivity; eassumption | exact Hall''].
Qed.

(** ** Theorems *)


(** C21: two overlapping calls on a day's first log file can lose a line
    with no error reported: both [os.Stat] calls find no file, the first
    call creates the file and appends its line, then the second call's
    [os.Create] truncates it and appends its own.  Both calls return nil
    and the file holds the second line only. *)
Theorem WriteToLogFile_race (fs : FileSystem) (p m1 m2 : string) :
  fs !! p = None ->
  run_schedule fs [start p m1; start p m2] [0; 1; 0; 0; 0; 1; 1; 1]%nat =
  (<[p := m2]> fs, [mkCall p m1 (Done None); mkCall p m2 (Done None)]).
Proof.
  intros Hp. unfold run_schedule, sched_step, call_step. simpl. rewrite Hp. simpl.
  rewrite !lookup_insert_eq. simpl. rewrite !lookup_insert_eq. simpl.
  rewrite !insert_insert_eq. reflexivity.
Qed.

(** C22: once the day's log file exists, overlapping calls of
    [WriteToLogFile] never lose a line, in any interleaving of their
    operations: every file keeps what it held, possibly with more at
    its end, no call creates (truncates) a file, and no call fails. *)
Theorem concurrent_appends_existing (fs : FileSystem) (calls : list (string * string)) (sched : list nat) :
  Forall (fun pm => is_Some (fs !! fst pm)) calls ->
  let '(fs', cs') := run_schedule fs (map (fun pm => start (fst pm) (snd pm)) calls) sched in
  extends fs fs' /\ Forall (fun c => pc_ok (c_pc c) = true) cs'.
Proof.
  intros Hall.
  assert (Hok : Forall (call_ok fs) (map (fun pm => start (fst pm) (snd pm)) calls)).
  { apply Forall_map. eapply Forall_impl; [exact Hall|]. intros pm Hp. split; [exact Hp | reflexivity]. }
  destruct (run_schedule_ok _ _ sched Hok) as [He Hcs].
  destruct (run_schedule fs _ sched) as [fs' cs']. split; [exact He|].
  eapply Forall_impl; [exact Hcs|]. intros c [_ Hc]. exact Hc.
Qed.

(** ** Witnesses *)

Lemma WriteToLogFile_race_witness :
  (∅ : FileSystem) !! "log2024-01-02_debug.log.log" = None /\
  run_schedule ∅ [start "log2024-01-02_debug.log.log" "first"; start "log2024-01-02_debug.log.log" "second"]
    [0; 1; 0; 0; 0; 1; 1; 1]%nat =
  ({[ "log2024-01-02_debug.log.log" := "second" ]},
   [mkCall "log2024-01-02_debug.log.log" "first" (Done None); mkCall "log2024-01-02_debug.log.log" "second" (Done None)]).
Proof. split; [reflexivity | apply (WriteToLogFile_race ∅); reflexivity]. Defined.

Lemma concurrent_appends_existing_witness :
  Forall (fun pm => is_Some ((({[ "d.log" := "x" ]} : FileSystem)) !! fst pm)) [("d.log", "a"); ("d.log", "b")] /\
  (let '(fs', cs') := run_schedule {[ "d.log" := "x" ]} (map (fun pm => start (fst pm) (snd pm)) [("d.log", "a"); ("d.log", "b")])
                        [0; 1; 1; 0; 1; 0]%nat in
   extends {[ "d.log" := "x" ]} fs' /\ Forall (fun c => pc_ok (c_pc c) = true) cs').
Proof.
  assert (H : Forall (fun pm => is_Some ((({[ "d.log" := "x" ]} : FileSystem)) !! fst pm)) [("d.log", "a"); ("d.log", "b")])
    by (repeat constructor; cbn; rewrite lookup_singleton_eq; eauto).
  split; [exact H | exact (concurrent_appends_existing _ _ [0; 1; 1; 0; 1; 0]%nat H)].
Defined.
