(* ===== verification/Main.v ===== *)
(** * The entry point: [src/main.go]

    [main] prints its banner, loads the configuration with
    [LoadApplicationConfiguration("")], stops through [logrus.Fatal]
    when that reports an error, and otherwise prints the configuration
    summary and hands [InitRouter]'s engine to [Run], which serves until
    it fails.  Serving is [serve] (Handler.v) with the loaded
    configuration, for every request, concurrently (Service.v).  The
    theorem composes the loader with the router: a [config.json] that
    is not JSON starts a server with no API key, on the address [":"],
    which answers 401 to every order and never reaches the broker. *)

From Stdlib Require Import String Ascii List ZArith Lia Bool Permutation.
From S2P Require Import Prelude Json Orders Synth HttpStatus Queue Handler Utility.
Import ListNotations.
Open Scope string_scope.
Open Scope go_scope.

(** How [main] ends: [logrus.Fatal] exits the process; [Run] blocks
    while it serves with the configuration on the address, and returns
    only with the error that stopped it. *)
Inductive MainOutcome :=
| Fatal (err : string)
| Listening (addr : string) (configuration : Configuration)
| ServerStopped (err : string).

(** What [main] meets outside: the operating system of the loader,
    whether standard output supports colours, and whether [Run] fails
    (to listen, typically) with an error. *)
Record MainEnv := mkMainEnv {
  main_os : OsEnv; supports_color : bool; run_error : option string }.

(** [func main()]: the console lines it prints and how it ends.  The
    [logrus] and [log] outputs are discarded by its first two lines. *)
Definition main `{ConfigDecoder} (Join : string -> string -> string) (e : MainEnv)
    : list string * MainOutcome :=
  let p := PrintConsole (supports_color e) in
  let banner := [p "API Sync Data PCT - Bento service started" "info";
                 p "Loading application configuration" "info"] in
  let '(configuration, errConfig) := LoadApplicationConfiguration Join (main_os e) "" in
  match errConfig with
  | Some err => (banner, Fatal err)
  | None =>
      let lines :=
        app banner
        [p "Application configuration loaded successfully" "info";
         p ("Server running on port: " ++ HttpPort (Http configuration)) "info";
         p ("Queue Host: " ++ Host (Queue configuration)) "info";
         p ("Queue Name: " ++ QueueName (Queue configuration)) "info";
         p ("API Keys configured: " ++ Itoa (Z.of_nat (List.length (APIKeys configuration)))) "info";
         p "API Sync Data PCT - Bento service initialized successfully" "info"] in
      match run_error e with
      | Some err => (app lines [p err "error"], ServerStopped err)
      | None => (lines, Listening (":" ++ HttpPort (Http configuration)) configuration)
      end
  end.

(** The two order routes. *)
Definition order_route (path : string) : Prop :=
  path = "/api/v1/orders/ppob" \/ path = "/api/v1/orders/non-ppob".

(** ** Lemmas *)

(** With no API key configured, the middleware refuses every key. *)
Lemma APIKeyMiddleware_no_keys {A} (k : string) (abort : Response -> A) (next : unit -> A) :
  exists msg, APIKeyMiddleware [] k abort next = abort (JsonResponse 401 "error" msg).
Proof.
  unfold APIKeyMiddleware. destruct (String.eqb k ""); cbn; eauto.
Qed.

Lemma serve_no_keys_401 (visit : list (string * HttpStatus))
    `{DP : JsonDecoder PPOBOrder.t} `{DN : JsonDecoder NonPPOBOrder.t}
    (configuration : Configuration) (env : StompOutcome) (req : Request) :
  APIKeys configuration = [] -> Method req = "POST" -> order_route (Path req) ->
  exists msg, serve visit configuration env req = (JsonResponse 401 "error" msg, []).
Proof.
  intros Hk Hm Hp. unfold_serve. rewrite Hm, Hk. cbn [String.eqb Ascii.eqb Bool.eqb andb].
  destruct Hp as [-> | ->]; cbn [String.eqb Ascii.eqb Bool.eqb andb]; apply APIKeyMiddleware_no_keys.
Qed.

(** ** Theorem *)

(** C33: when [config.json] is read but is not JSON, [main] does not
    stop: the loader reports no error, and the server starts on the
    address [":"] (no port) with the zero configuration, no API key
    among it, so that every [POST] to an order route is answered 401
    without any broker traffic. *)
Theorem main_malformed_config `{ConfigDecoderLaws} (Join : string -> string -> string)
    (e : MainEnv) (wd bytes : string) :
  Getwd (main_os e) = (wd, None) -> ReadConfigFile (main_os e) (Join wd "config.json") = Ok bytes ->
  config_valid bytes = false -> run_error e = None ->
  exists configuration,
    snd (main Join e) = Listening ":" configuration /\ APIKeys configuration = [] /\
    forall visit (DP : JsonDecoder PPOBOrder.t) (DN : JsonDecoder NonPPOBOrder.t) env req,
      Method req = "POST" -> order_route (Path req) ->
      exists msg, @serve visit DP DN configuration env req = (JsonResponse 401 "error" msg, []).
Proof.
  intros Hwd Hread Hinv Hrun. exists (set_AppPath zero_configuration wd).
  assert (Hload : LoadApplicationConfiguration Join (main_os e) "" = (set_AppPath zero_configuration wd, None)).
  { unfold LoadApplicationConfiguration. rewrite Hwd. cbn [String.eqb AppPath set_AppPath zero_configuration].
    rewrite Hread, config_decode_invalid by exact Hinv. reflexivity. }
  unfold main. rewrite Hload, Hrun. split; [reflexivity|]. split; [reflexivity|].
  intros visit DP DN env req Hm Hp. now apply serve_no_keys_401.
Qed.

(** ** Witness *)

Definition sample_main_env : MainEnv :=
  mkMainEnv (mkOsEnv ("/srv/app", None)
               (fun p => if String.eqb p "/srv/app/config.json" then Ok "http: {port: 8080}" else Err "no such file"))
    false None.

Lemma main_malformed_config_witness :
  Getwd (main_os sample_main_env) = ("/srv/app", None) /\
  ReadConfigFile (main_os sample_main_env) (sample_join "/srv/app" "config.json") = Ok "http: {port: 8080}" /\
  @config_valid sample_config_decoder "http: {port: 8080}" = false /\ run_error sample_main_env = None /\
  exists configuration,
    snd (@main sample_config_decoder sample_join sample_main_env) = Listening ":" configuration /\
    APIKeys configuration = [] /\
    forall visit (DP : JsonDecoder PPOBOrder.t) (DN : JsonDecoder NonPPOBOrder.t) env req,
      Method req = "POST" -> order_route (Path req) ->
      exists msg, @serve visit DP DN configuration env req = (JsonResponse 401 "error" msg, []).
Proof.
  split; [reflexivity|]. split; [reflexivity|]. split; [reflexivity|]. split; [reflexivity|].
  apply (@main_malformed_config sample_config_decoder sample_config_decoder_laws sample_join sample_main_env
           "/srv/app" "http: {port: 8080}"); reflexivity.
Defined.
